(** * ECKD channel-program construction (drivers/s390/block/dasd_eckd.c)

    A shallow embedding of the geometry calculator, the record layout
    classifier, the define-extent / locate-record builders, the disk-layout
    analyzer, the format planner and the block-request translator of the
    DASD ECKD discipline, together with the properties its specification
    states about them.

    Conventions.  C integers are modelled as [Z]; where the source computes
    in [unsigned int] the wrap-around modulo 2^32 is written out with
    [u32].  Return codes are [Z] as in C: [0] for success and [- E] for the
    errno [E]. *)

From Stdlib Require Import ZArith List Bool Lia.
Import ListNotations.

Local Open Scope Z_scope.

(** ** Machine integers and errno values *)

Definition u8 (x : Z) : Z := x mod 2 ^ 8.
Definition u16 (x : Z) : Z := x mod 2 ^ 16.
Definition u32 (x : Z) : Z := x mod 2 ^ 32.
Definition u64 (x : Z) : Z := x mod 2 ^ 64.

(** The conversion of a wider or unsigned integer to [int]. *)
Definition s32 (x : Z) : Z := (x + 2 ^ 31) mod 2 ^ 32 - 2 ^ 31.

(** The values of <asm-generic/errno-base.h> and <asm-generic/errno.h>. *)
Definition EAGAIN : Z := 11.
Definition ENOMEM : Z := 12.
Definition EACCES : Z := 13.
Definition EBUSY : Z := 16.
Definition EINVAL : Z := 22.
Definition ENOSYS : Z := 38.
Definition EMEDIUMTYPE : Z := 124.

(** Mathematical ceiling of [a / b] for a positive [b]; it is deliberately
    not written the way [ceil_quot] computes it. *)
Definition ceiling (a b : Z) : Z := - ((- a) / b).

(** ** Geometry calculator *)

Module Geometry.

(** [static const int sizes_trk0[] = { 28, 148, 84 }] and [LABEL_SIZE]. *)
Definition sizes_trk0 : list Z := [28; 148; 84].
Definition LABEL_SIZE : Z := 140.

(** [ceil_quot(d1, d2)]: [(d1 + (d2 - 1)) / d2] on [unsigned int]. *)
Definition ceil_quot (d1 d2 : Z) : Z := u32 (d1 + u32 (d2 - 1)) / d2.

(** [recs_per_track(rdc, kl, dl)]; only [rdc->dev_type] is read. *)
Definition recs_per_track (dev_type kl dl : Z) : Z :=
  if dev_type =? 0x3380 then
    if negb (kl =? 0) then
      1499 / u32 (15 + 7 + ceil_quot (u32 (kl + 12)) 32
                  + ceil_quot (u32 (dl + 12)) 32)
    else
      1499 / u32 (15 + ceil_quot (u32 (dl + 12)) 32)
  else if dev_type =? 0x3390 then
    let dn := ceil_quot (u32 (dl + 6)) 232 + 1 in
    if negb (kl =? 0) then
      let kn := ceil_quot (u32 (kl + 6)) 232 + 1 in
      1729 / u32 (10 + 9 + ceil_quot (u32 (kl + 6 * kn)) 34
                  + 9 + ceil_quot (u32 (dl + 6 * dn)) 34)
    else
      1729 / u32 (10 + 9 + ceil_quot (u32 (dl + 6 * dn)) 34)
  else if dev_type =? 0x9345 then
    let dn := ceil_quot (u32 (dl + 6)) 232 + 1 in
    if negb (kl =? 0) then
      let kn := ceil_quot (u32 (kl + 6)) 232 + 1 in
      1420 / u32 (18 + 7 + ceil_quot (u32 (kl + 6 * kn)) 34
                  + ceil_quot (u32 (dl + 6 * dn)) 34)
    else
      1420 / u32 (18 + 7 + ceil_quot (u32 (dl + 6 * dn)) 34)
  else 0.

(** The capacity formulas over the integers, with the mathematical ceiling
    and no wrap-around: what [recs_per_track] is meant to compute. *)
Definition data_cells (len : Z) : Z :=
  ceiling (len + 6 * (ceiling (len + 6) 232 + 1)) 34.

Definition capacity_formula (dev_type kl dl : Z) : Z :=
  if dev_type =? 0x3380 then
    if kl =? 0 then 1499 / (15 + ceiling (dl + 12) 32)
    else 1499 / (15 + 7 + ceiling (kl + 12) 32 + ceiling (dl + 12) 32)
  else if dev_type =? 0x3390 then
    if kl =? 0 then 1729 / (10 + 9 + data_cells dl)
    else 1729 / (10 + 9 + data_cells kl + 9 + data_cells dl)
  else if dev_type =? 0x9345 then
    if kl =? 0 then 1420 / (18 + 7 + data_cells dl)
    else 1420 / (18 + 7 + data_cells kl + data_cells dl)
  else 0.

End Geometry.

(** ** Record layout classifier *)

Module Layout.

Import Geometry.

(** [dasd_eckd_cdl_special(blk_per_trk, recid)] on [int]; [2 * blk_per_trk]
    is assumed not to overflow. *)
Definition dasd_eckd_cdl_special (blk_per_trk recid : Z) : Z :=
  if recid <? 3 then 1
  else if recid <? blk_per_trk then 0
  else if recid <? 2 * blk_per_trk then 1
  else 0.

(** [dasd_eckd_cdl_reclen(recid)]; a negative [recid] would read outside
    the table and is given the value 0 here. *)
Definition dasd_eckd_cdl_reclen (recid : Z) : Z :=
  if recid <? 3 then
    if recid <? 0 then 0 else nth (Z.to_nat recid) sizes_trk0 0
  else LABEL_SIZE.

(** The byte count the request builder gives the data CCW of record
    [recid]: the inner loop of [dasd_eckd_build_cp] starts from
    [count = blksize] and replaces it for the special records of a
    compatible-disk-layout volume. *)
Definition record_count (uses_cdl : bool) (blk_per_trk recid blksize : Z) : Z :=
  if uses_cdl && (recid <? 2 * blk_per_trk) then
    if negb (dasd_eckd_cdl_special blk_per_trk recid =? 0)
    then dasd_eckd_cdl_reclen recid
    else blksize
  else blksize.

End Layout.

(** ** Hardware descriptors *)

(** The channel command codes the driver names (dasd_eckd.h).  The driver
    only ever compares them with each other in [switch] statements, so they
    are an enumeration here; the one arithmetic use, [rcmd |= 0x8], is
    [kd_variant] below. *)
Inductive ccw_cmd : Set :=
| DASD_ECKD_CCW_WRITE
| DASD_ECKD_CCW_READ
| DASD_ECKD_CCW_WRITE_HOME_ADDRESS
| DASD_ECKD_CCW_READ_HOME_ADDRESS
| DASD_ECKD_CCW_WRITE_KD
| DASD_ECKD_CCW_READ_KD
| DASD_ECKD_CCW_ERASE
| DASD_ECKD_CCW_READ_COUNT
| DASD_ECKD_CCW_WRITE_RECORD_ZERO
| DASD_ECKD_CCW_READ_RECORD_ZERO
| DASD_ECKD_CCW_WRITE_CKD
| DASD_ECKD_CCW_READ_CKD
| DASD_ECKD_CCW_LOCATE_RECORD
| DASD_ECKD_CCW_DEFINE_EXTENT
| DASD_ECKD_CCW_WRITE_MT
| DASD_ECKD_CCW_READ_MT
| DASD_ECKD_CCW_WRITE_KD_MT
| DASD_ECKD_CCW_READ_KD_MT
| DASD_ECKD_CCW_READ_CKD_MT
| DASD_ECKD_CCW_WRITE_CKD_MT
| DASD_ECKD_CCW_PFX.

(** [cmd | 0x8].  The comment above [dasd_eckd_cdl_special] documents that
    the KD variant of a read or write command differs from the normal one
    by exactly the bit 0x08; the other codes are never or-ed with it. *)
Definition kd_variant (cmd : ccw_cmd) : ccw_cmd :=
  match cmd with
  | DASD_ECKD_CCW_READ => DASD_ECKD_CCW_READ_KD
  | DASD_ECKD_CCW_WRITE => DASD_ECKD_CCW_WRITE_KD
  | DASD_ECKD_CCW_READ_MT => DASD_ECKD_CCW_READ_KD_MT
  | DASD_ECKD_CCW_WRITE_MT => DASD_ECKD_CCW_WRITE_KD_MT
  | c => c
  end.

(** The cache operation modes of an extent (dasd.h); the all-zero value a
    [memset] leaves in the field is [DASD_NORMAL_CACHE]. *)
Inductive cache_op : Set :=
| DASD_NORMAL_CACHE
| DASD_BYPASS_CACHE
| DASD_INHIBIT_LOAD
| DASD_SEQ_ACCESS
| DASD_SEQ_PRESTAGE
| DASD_REC_ACCESS.

Definition cache_op_eqb (a b : cache_op) : bool :=
  match a, b with
  | DASD_NORMAL_CACHE, DASD_NORMAL_CACHE
  | DASD_BYPASS_CACHE, DASD_BYPASS_CACHE
  | DASD_INHIBIT_LOAD, DASD_INHIBIT_LOAD
  | DASD_SEQ_ACCESS, DASD_SEQ_ACCESS
  | DASD_SEQ_PRESTAGE, DASD_SEQ_PRESTAGE
  | DASD_REC_ACCESS, DASD_REC_ACCESS => true
  | _, _ => false
  end.

(** [struct ch_t]: cylinder and head, 16 bits each. *)
Record ch_t : Set := { cyl : Z; head : Z }.

(** [struct chr_t]: cylinder, head and record number. *)
Record chr_t : Set := { chr_cyl : Z; chr_head : Z; chr_record : Z }.

(** [struct eckd_count]: the count field of a record. *)
Record eckd_count : Set :=
  { ec_cyl : Z; ec_head : Z; ec_record : Z; ec_kl : Z; ec_dl : Z }.

(** [struct DE_eckd_data], the fields the driver writes. *)
Record DE_eckd_data : Set :=
  { mask_perm : Z;
    mask_auth : Z;
    attributes_operation : cache_op;
    attributes_mode : Z;
    ga_extended : Z;
    beg_ext : ch_t;
    end_ext : ch_t;
    ep_sys_time : Z }.

(** [memset(data, 0, sizeof(struct DE_eckd_data))]. *)
Definition DE_zero : DE_eckd_data :=
  {| mask_perm := 0; mask_auth := 0;
     attributes_operation := DASD_NORMAL_CACHE; attributes_mode := 0;
     ga_extended := 0;
     beg_ext := {| cyl := 0; head := 0 |};
     end_ext := {| cyl := 0; head := 0 |};
     ep_sys_time := 0 |}.

Definition set_mask_perm (v : Z) (d : DE_eckd_data) : DE_eckd_data :=
  {| mask_perm := v; mask_auth := mask_auth d;
     attributes_operation := attributes_operation d;
     attributes_mode := attributes_mode d; ga_extended := ga_extended d;
     beg_ext := beg_ext d; end_ext := end_ext d;
     ep_sys_time := ep_sys_time d |}.

Definition set_mask_auth (v : Z) (d : DE_eckd_data) : DE_eckd_data :=
  {| mask_perm := mask_perm d; mask_auth := v;
     attributes_operation := attributes_operation d;
     attributes_mode := attributes_mode d; ga_extended := ga_extended d;
     beg_ext := beg_ext d; end_ext := end_ext d;
     ep_sys_time := ep_sys_time d |}.

Definition set_attributes_operation (v : cache_op) (d : DE_eckd_data)
  : DE_eckd_data :=
  {| mask_perm := mask_perm d; mask_auth := mask_auth d;
     attributes_operation := v;
     attributes_mode := attributes_mode d; ga_extended := ga_extended d;
     beg_ext := beg_ext d; end_ext := end_ext d;
     ep_sys_time := ep_sys_time d |}.

Definition set_attributes_mode (v : Z) (d : DE_eckd_data) : DE_eckd_data :=
  {| mask_perm := mask_perm d; mask_auth := mask_auth d;
     attributes_operation := attributes_operation d;
     attributes_mode := v; ga_extended := ga_extended d;
     beg_ext := beg_ext d; end_ext := end_ext d;
     ep_sys_time := ep_sys_time d |}.

(** [data->ga_extended |= bits]. *)
Definition or_ga_extended (bits : Z) (d : DE_eckd_data) : DE_eckd_data :=
  {| mask_perm := mask_perm d; mask_auth := mask_auth d;
     attributes_operation := attributes_operation d;
     attributes_mode := attributes_mode d;
     ga_extended := Z.lor (ga_extended d) bits;
     beg_ext := beg_ext d; end_ext := end_ext d;
     ep_sys_time := ep_sys_time d |}.

Definition set_ep_sys_time (v : Z) (d : DE_eckd_data) : DE_eckd_data :=
  {| mask_perm := mask_perm d; mask_auth := mask_auth d;
     attributes_operation := attributes_operation d;
     attributes_mode := attributes_mode d; ga_extended := ga_extended d;
     beg_ext := beg_ext d; end_ext := end_ext d;
     ep_sys_time := v |}.

Definition set_extent (b e : ch_t) (d : DE_eckd_data) : DE_eckd_data :=
  {| mask_perm := mask_perm d; mask_auth := mask_auth d;
     attributes_operation := attributes_operation d;
     attributes_mode := attributes_mode d; ga_extended := ga_extended d;
     beg_ext := b; end_ext := e;
     ep_sys_time := ep_sys_time d |}.

(** [struct PFX_eckd_data], the fields the driver writes. *)
Record PFX_eckd_data : Set :=
  { pfx_format : Z;
    base_address : Z;
    base_lss : Z;
    validity_define_extend : Z;
    validity_verify_base : Z;
    validity_hyper_pav : Z;
    validity_time_stamp : Z;
    define_extend : DE_eckd_data }.

(** [struct LO_eckd_data], the fields the driver writes. *)
Record LO_eckd_data : Set :=
  { lo_orientation : Z;
    lo_operation : Z;
    last_bytes_used : Z;
    lo_count : Z;
    seek_addr : ch_t;
    search_arg : chr_t;
    lo_sector : Z;
    lo_length : Z }.

(** A store into the part of the data area behind the define-extent or
    prefix block: [idaws[i] = w], or [LO_data[k] = lo]. *)
Inductive area_store : Set :=
| store_idaw (i : nat) (w : Z)
| store_LO (k : nat) (lo : LO_eckd_data).

(** The stores of consecutive address words from [idaws[i]] on, and of
    consecutive locate-record blocks from [LO_data[k]] on. *)
Fixpoint idaw_stores (i : nat) (words : list Z) : list area_store :=
  match words with
  | [] => []
  | w :: rest => store_idaw i w :: idaw_stores (S i) rest
  end.

Fixpoint LO_stores (k : nat) (los : list LO_eckd_data) : list area_store :=
  match los with
  | [] => []
  | lo :: rest => store_LO k lo :: LO_stores (S k) rest
  end.

(** What the [cda] field of a CCW designates: the request's data area
    holds the define-extent (or prefix) block first, then the indirect
    address words, then the locate-record blocks (and, for a format
    request, its count fields); a data-transfer CCW addresses a buffer. *)
Inductive cda_t : Set :=
| pa_data                    (* the DE or PFX block at [cqr->data] *)
| pa_LO_data (n : nat)       (* the n-th locate-record block *)
| pa_idaws (n : nat)         (* [idaws + n] *)
| pa_ect (n : nat)           (* the n-th count field of a format request *)
| pa_count_area (n : nat)    (* [&private->count_area[n]] *)
| pa_buf (addr : Z).         (* a data buffer *)

(** [ccw->flags]: the chain-command, suppress-length and indirect-address
    bits (asm/cio.h). *)
Record ccw_flags : Set :=
  { CCW_FLAG_CC : bool; CCW_FLAG_SLI : bool; CCW_FLAG_IDA : bool }.

Definition flags_0 : ccw_flags :=
  {| CCW_FLAG_CC := false; CCW_FLAG_SLI := false; CCW_FLAG_IDA := false |}.
Definition flags_SLI : ccw_flags :=
  {| CCW_FLAG_CC := false; CCW_FLAG_SLI := true; CCW_FLAG_IDA := false |}.
Definition flags_IDA : ccw_flags :=
  {| CCW_FLAG_CC := false; CCW_FLAG_SLI := false; CCW_FLAG_IDA := true |}.

(** [struct ccw1]. *)
Record ccw1 : Set :=
  { cmd_code : ccw_cmd; flags : ccw_flags; count : Z; cda : cda_t }.

(** [ccw->flags |= CCW_FLAG_CC]. *)
Definition or_CC (c : ccw1) : ccw1 :=
  {| cmd_code := cmd_code c;
     flags := {| CCW_FLAG_CC := true;
                 CCW_FLAG_SLI := CCW_FLAG_SLI (flags c);
                 CCW_FLAG_IDA := CCW_FLAG_IDA (flags c) |};
     count := count c; cda := cda c |}.

(** [ccw->flags |= CCW_FLAG_SLI]. *)
Definition or_SLI (c : ccw1) : ccw1 :=
  {| cmd_code := cmd_code c;
     flags := {| CCW_FLAG_CC := CCW_FLAG_CC (flags c);
                 CCW_FLAG_SLI := true;
                 CCW_FLAG_IDA := CCW_FLAG_IDA (flags c) |};
     count := count c; cda := cda c |}.

Definition set_count (n : Z) (c : ccw1) : ccw1 :=
  {| cmd_code := cmd_code c; flags := flags c; count := n; cda := cda c |}.

(** ** Devices *)

(** [struct dasd_eckd_characteristics], the fields the driver reads here. *)
Record dasd_eckd_characteristics : Set :=
  { cu_type : Z;
    dev_type : Z;
    no_cyl : Z;
    trk_per_cyl : Z;
    XRC_supported : bool }.

(** [struct attrib_data_t]. *)
Record attrib_data_t : Set := { operation : cache_op; nr_cyl : Z }.

(** [uid.type]. *)
Inductive ua_type : Set :=
| UA_BASE_DEVICE | UA_BASE_PAV_ALIAS | UA_HYPER_PAV_ALIAS.

(** [struct dasd_eckd_private]; [priv_count] is its [count] field, the
    number of requests in flight, and [feature_8] is [features.feature[8]]. *)
Record dasd_eckd_private : Set :=
  { rdc_data : dasd_eckd_characteristics;
    attrib : attrib_data_t;
    uses_cdl : bool;
    priv_count : Z;
    init_cqr_status : Z;
    count_area : list eckd_count;
    feature_8 : Z;
    ned_unit_addr : Z;
    ned_ID : Z;
    uid_type : ua_type;
    path_data_ppm : Z }.

(** What [get_sync_clock(&t)] did: its return code and the value found in
    [t] afterwards.  The clock is an external collaborator. *)
Record sync_clock : Set := { sc_rc : Z; sc_time : Z }.

(** ** Requests *)

(** Devices are named by a number; a block device structure is named by
    its base device. *)
Definition dev_id : Set := nat.

(** [struct dasd_block], the fields the driver uses. *)
Record dasd_block : Set :=
  { base : dev_id; bp_block : Z; s2b_shift : Z; blocks : Z }.

(** The data area of a request ([cqr->data]): the define-extent or prefix
    block; the indirect address words and the locate-record blocks, each
    in the order they were stored; for a format request, the count
    fields.  [LO_data], the place of the first locate-record block, lies
    [d_cidaw] address words behind [idaws], so the two arrays share their
    bytes where more than [d_cidaw] words are stored: [d_area] keeps
    every store in the order it was made, and [LO_data_at] and [idaws_at]
    below read the area as these stores leave it. *)
Record cqr_data : Set :=
  { d_DE : option DE_eckd_data;
    d_PFX : option PFX_eckd_data;
    d_idaws : list Z;
    d_cidaw : Z;
    d_LO : list LO_eckd_data;
    d_area : list area_store;
    d_ect : list eckd_count }.

(** [struct dasd_ccw_req]; [cqr_block] is the base device of
    [cqr->block], or [None] for [NULL]. *)
Record dasd_ccw_req : Set :=
  { cpaddr : list ccw1;
    data : cqr_data;
    cplength : Z;
    datasize : Z;
    startdev : dev_id;
    memdev : dev_id;
    cqr_block : option dev_id;
    expires : Z;
    lpm : Z;
    retries : Z;
    buildclk : Z;
    status : Z;
    DASD_CQR_FLAGS_FAILFAST : bool;
    DASD_CQR_FLAGS_USE_ERP : bool }.

(** [ccw[-1].flags |= CCW_FLAG_CC; *ccw++ = c]: a channel program under
    construction is kept with its most recent CCW first. *)
Definition emit (c : ccw1) (ccws : list ccw1) : list ccw1 :=
  match ccws with
  | [] => [c]
  | last :: before => c :: or_CC last :: before
  end.

(** A pointer or an error code, as [ERR_PTR] / [IS_ERR] encode them. *)
Inductive ERR_OR (A : Type) : Type :=
| ERR_PTR (e : Z)
| PTR (a : A).
Arguments ERR_PTR {A} e.
Arguments PTR {A} a.

(** [struct format_data_t]. *)
Record format_data_t : Set :=
  { start_unit : Z; stop_unit : Z; blksize : Z; intensity : Z }.

(** [struct bio_vec]; [bv_page] stands for [page_address(bv->bv_page)]. *)
Record bio_vec : Set := { bv_page : Z; bv_offset : Z; bv_len : Z }.

(** [rq_data_dir(req)] is one bit. *)
Inductive data_dir : Set := READ | WRITE.

(** [struct request], the fields the driver reads; [segments] is what
    [rq_for_each_segment] enumerates. *)
Record request : Set :=
  { rq_data_dir : data_dir;
    sector : Z;
    nr_sectors : Z;
    segments : list bio_vec;
    blk_noretry_request : bool }.

(** The part of the system the request builders read and change: the
    private structure of every device, the requests that are allocated and
    not yet freed (most recent first), the memory holding the data
    buffers, and [dasd_page_cache]: [None] when the cache is not
    configured, otherwise the outcomes of the coming [kmem_cache_alloc]
    calls ([None] for a failed one; every call fails once the list is
    used up). *)
Record machine : Type :=
  { privs : dev_id -> dasd_eckd_private;
    ccw_reqs : list dasd_ccw_req;
    mem : Z -> Z;
    dasd_page_cache : option (list (option Z)) }.

(** ** An instance of the header declarations

    One choice of values for the declarations the driver takes from its
    headers, after the 64-bit s390 ones, and a request pool that never
    runs out; they are used to run the model on examples. *)

Module S390.

Definition sizeof_DE_eckd_data : Z := 32.
Definition sizeof_LO_eckd_data : Z := 16.
Definition sizeof_PFX_eckd_data : Z := 44.
Definition sizeof_eckd_count : Z := 8.
Definition sizeof_long : Z := 8.
Definition HZ : Z := 100.
Definition DASD_CQR_FILLED : Z := 0.
Definition DASD_CQR_DONE : Z := 1.

(** A buffer needs an indirect address list when it does not end below
    2 GB. *)
Definition idal_is_needed (vaddr len : Z) : bool :=
  negb (Z.shiftr (vaddr + len - 1) 31 =? 0).

(** One word for the start of the buffer and one for every further 4 KB
    block it touches. *)
Definition idal_create_words (vaddr len : Z) : list Z :=
  let n := Z.shiftr (Z.land vaddr 4095 + len + 4095) 12 in
  vaddr
  :: map (fun k => Z.land vaddr (Z.lnot 4095) + Z.of_nat k * 4096)
         (seq 1 (Z.to_nat n - 1)).

(** Block sizes are the powers of two from 512 to 4096. *)
Definition dasd_check_blocksize (bsize : Z) : Z :=
  if (bsize =? 512) || (bsize =? 1024) || (bsize =? 2048) || (bsize =? 4096)
  then 0 else - EMEDIUMTYPE.

Definition blank_request (cplength datasize : Z) : dasd_ccw_req :=
  {| cpaddr := [];
     data := {| d_DE := None; d_PFX := None; d_idaws := []; d_cidaw := 0;
                d_LO := []; d_area := []; d_ect := [] |};
     cplength := cplength; datasize := datasize;
     startdev := O; memdev := O; cqr_block := None;
     expires := 0; lpm := 0; retries := 0; buildclk := 0; status := 0;
     DASD_CQR_FLAGS_FAILFAST := false;
     DASD_CQR_FLAGS_USE_ERP := true |}.

Definition dasd_smalloc_request (cplength datasize : Z) (device : dev_id)
  : ERR_OR dasd_ccw_req :=
  PTR (blank_request cplength datasize).

(** No alias devices. *)
Definition dasd_alias_get_start_dev (base_dev : dev_id) : option dev_id :=
  None.

(** A 3390 volume of [cyls] cylinders behind a 3990 control unit, with
    the given layout flag, cache attributes, XRC capability and number of
    requests in flight. *)
Definition volume (cyls : Z) (cdl xrc : bool) (op : cache_op) (ext : Z)
    (inflight : Z) (area : list eckd_count) (st : Z) : dasd_eckd_private :=
  {| rdc_data := {| cu_type := 0x3990; dev_type := 0x3390; no_cyl := cyls;
                    trk_per_cyl := 15; XRC_supported := xrc |};
     attrib := {| operation := op; nr_cyl := ext |};
     uses_cdl := cdl;
     priv_count := inflight;
     init_cqr_status := st;
     count_area := area;
     feature_8 := 0;
     ned_unit_addr := 0;
     ned_ID := 0;
     uid_type := UA_BASE_DEVICE;
     path_data_ppm := 0x80 |}.

(** A count field with key length [kl] and data length [dl]. *)
Definition header (rec kl dl : Z) : eckd_count :=
  {| ec_cyl := 0; ec_head := 0; ec_record := rec; ec_kl := kl; ec_dl := dl |}.

(** A machine whose devices all look like [p], with no request allocated
    and zeroed memory. *)
Definition machine_of (p : dasd_eckd_private)
    (cache : option (list (option Z))) : machine :=
  {| privs := fun _ => p; ccw_reqs := []; mem := fun _ => 0;
     dasd_page_cache := cache |}.

(** The block structure of a volume formatted with 4096-byte blocks. *)
Definition block_4k : dasd_block :=
  {| base := O; bp_block := 4096; s2b_shift := 3; blocks := 0 |}.

(** A request for [n] blocks of 4096 bytes from block [first] on, with
    one segment at [addr]. *)
Definition request_4k (dir : data_dir) (first n addr : Z) : request :=
  {| rq_data_dir := dir; sector := 8 * first; nr_sectors := 8 * n;
     segments := [{| bv_page := addr; bv_offset := 0; bv_len := 4096 * n |}];
     blk_noretry_request := false |}.

Definition clock_in_sync : sync_clock := {| sc_rc := 0; sc_time := 1 |}.
Definition clock_not_in_sync : sync_clock :=
  {| sc_rc := - EAGAIN; sc_time := 0 |}.

(** Count fields as the analysis reads them from a volume in compatible
    disk layout: three label records and one more record on track 0, then
    the first record of track 2. *)
Definition cdl_count_area (track2 : eckd_count) : list eckd_count :=
  [header 1 4 24; header 2 4 144; header 3 4 80; header 4 44 96; track2].

(** A 10-cylinder volume with plain attributes. *)
Definition plain_volume (cdl xrc : bool) (inflight : Z) : dasd_eckd_private :=
  volume 10 cdl xrc DASD_NORMAL_CACHE 0 inflight [] (-1).

End S390.

(** ** Command descriptor builder *)

Section Driver.

#[local] Set Default Proof Using "Type".

(** Declarations of headers the driver includes: the sizes of the
    descriptor structures and of a machine word, the two helpers of
    <asm/idals.h>, the block-size check and two request states of
    dasd_int.h, and the timer frequency. *)
Variable sizeof_DE_eckd_data sizeof_LO_eckd_data : Z.
Variable sizeof_PFX_eckd_data sizeof_eckd_count sizeof_long : Z.
Variable idal_is_needed : Z -> Z -> bool.
Variable idal_create_words : Z -> Z -> list Z.
Variable dasd_check_blocksize : Z -> Z.
Variable DASD_CQR_DONE DASD_CQR_FILLED : Z.
Variable HZ : Z.

(** [dasd_smalloc_request(magic, cplength, datasize, device)] of dasd.c:
    an error pointer, or the fresh request it carves out of the device's
    request pool. *)
Variable dasd_smalloc_request : Z -> Z -> dev_id -> ERR_OR dasd_ccw_req.

(** [dasd_alias_get_start_dev(base)] of dasd_alias.c: the alias device to
    start the request on, or [None] for [NULL]. *)
Variable dasd_alias_get_start_dev : dev_id -> option dev_id.

Import Geometry Layout.

(** [check_XRC(de_ccw, data, device)]. *)
Definition check_XRC (clk : sync_clock) (de_ccw : ccw1) (data : DE_eckd_data)
    (private : dasd_eckd_private) : Z * ccw1 * DE_eckd_data :=
  if negb (XRC_supported (rdc_data private)) then (0, de_ccw, data)
  else
    (* switch on System Time Stamp - needed for XRC Support *)
    let data := or_ga_extended 0x08 data in
    let data := or_ga_extended 0x02 data in
    let rc := sc_rc clk in
    let data := set_ep_sys_time (sc_time clk) data in
    (* Ignore return code if sync clock is switched off. *)
    let rc := if (rc =? - ENOSYS) || (rc =? - EACCES) then 0 else rc in
    let de_ccw := set_count sizeof_DE_eckd_data de_ccw in
    let de_ccw := or_SLI de_ccw in
    (rc, de_ccw, data).

(** The cylinder/head arithmetic shared by [define_extent] and [prefix]:
    the extent of tracks [trk .. totrk], enlarged for sequential
    operations. *)
Definition extent_of (private : dasd_eckd_private) (trk totrk : Z)
    (data : DE_eckd_data) : DE_eckd_data :=
  let geo := {| cyl := u16 (no_cyl (rdc_data private));
                head := u16 (trk_per_cyl (rdc_data private)) |} in
  let beg := {| cyl := u16 (Z.quot trk (head geo));
                head := u16 (Z.rem trk (head geo)) |} in
  let end_ := {| cyl := u16 (Z.quot totrk (head geo));
                 head := u16 (Z.rem totrk (head geo)) |} in
  (* check for sequential prestage - enhance cylinder range *)
  let end_ :=
    if cache_op_eqb (attributes_operation data) DASD_SEQ_PRESTAGE
       || cache_op_eqb (attributes_operation data) DASD_SEQ_ACCESS
    then
      if cyl end_ + nr_cyl (attrib private) <? cyl geo
      then {| cyl := u16 (cyl end_ + nr_cyl (attrib private));
              head := head end_ |}
      else {| cyl := u16 (cyl geo - 1); head := head end_ |}
    else end_ in
  set_extent beg end_ data.

(** "Regular Data Format Mode" for the newer control units. *)
Definition regular_data_format (private : dasd_eckd_private) (trk : Z)
    (data : DE_eckd_data) : DE_eckd_data :=
  if ((cu_type (rdc_data private) =? 0x2105)
      || (cu_type (rdc_data private) =? 0x2107)
      || (cu_type (rdc_data private) =? 0x1750))
     && negb (uses_cdl private && (trk <? 2))
  then or_ga_extended 0x40 data
  else data.

(** [define_extent(ccw, data, trk, totrk, cmd, device)]: the return code,
    the CCW and the define-extent block it fills. *)
Definition define_extent (clk : sync_clock) (trk totrk : Z) (cmd : ccw_cmd)
    (private : dasd_eckd_private) : Z * ccw1 * DE_eckd_data :=
  let ccw := {| cmd_code := DASD_ECKD_CCW_DEFINE_EXTENT; flags := flags_0;
                count := 16; cda := pa_data |} in
  let data := DE_zero in
  let '(rc, ccw, data) :=
    match cmd with
    | DASD_ECKD_CCW_READ_HOME_ADDRESS
    | DASD_ECKD_CCW_READ_RECORD_ZERO
    | DASD_ECKD_CCW_READ
    | DASD_ECKD_CCW_READ_MT
    | DASD_ECKD_CCW_READ_CKD
    | DASD_ECKD_CCW_READ_CKD_MT
    | DASD_ECKD_CCW_READ_KD
    | DASD_ECKD_CCW_READ_KD_MT
    | DASD_ECKD_CCW_READ_COUNT =>
        let data := set_mask_perm 0x1 data in
        let data := set_attributes_operation (operation (attrib private)) data in
        (0, ccw, data)
    | DASD_ECKD_CCW_WRITE
    | DASD_ECKD_CCW_WRITE_MT
    | DASD_ECKD_CCW_WRITE_KD
    | DASD_ECKD_CCW_WRITE_KD_MT =>
        let data := set_mask_perm 0x02 data in
        let data := set_attributes_operation (operation (attrib private)) data in
        check_XRC clk ccw data private
    | DASD_ECKD_CCW_WRITE_CKD
    | DASD_ECKD_CCW_WRITE_CKD_MT =>
        let data := set_attributes_operation DASD_BYPASS_CACHE data in
        check_XRC clk ccw data private
    | DASD_ECKD_CCW_ERASE
    | DASD_ECKD_CCW_WRITE_HOME_ADDRESS
    | DASD_ECKD_CCW_WRITE_RECORD_ZERO =>
        let data := set_mask_perm 0x3 data in
        let data := set_mask_auth 0x1 data in
        let data := set_attributes_operation DASD_BYPASS_CACHE data in
        check_XRC clk ccw data private
    | _ => (* unknown opcode: only a message *)
        (0, ccw, data)
    end in
  let data := set_attributes_mode 0x3 data in (* ECKD *)
  let data := regular_data_format private trk data in
  let data := extent_of private trk totrk data in
  (rc, ccw, data).

(** [check_XRC_on_prefix(pfxdata, device)]: the return code, the
    define-extent part of the prefix block and its [validity.time_stamp]. *)
Definition check_XRC_on_prefix (clk : sync_clock) (data : DE_eckd_data)
    (time_stamp : Z) (private : dasd_eckd_private) : Z * DE_eckd_data * Z :=
  if negb (XRC_supported (rdc_data private)) then (0, data, time_stamp)
  else
    let data := or_ga_extended 0x08 data in
    let data := or_ga_extended 0x02 data in
    let time_stamp := 1 in
    let rc := sc_rc clk in
    let data := set_ep_sys_time (sc_time clk) data in
    let rc := if (rc =? - ENOSYS) || (rc =? - EACCES) then 0 else rc in
    (rc, data, time_stamp).

(** [prefix(ccw, pfxdata, trk, totrk, cmd, basedev, startdev)]. *)
Definition prefix (clk : sync_clock) (trk totrk : Z) (cmd : ccw_cmd)
    (basepriv startpriv : dasd_eckd_private) : Z * ccw1 * PFX_eckd_data :=
  let ccw := {| cmd_code := DASD_ECKD_CCW_PFX; flags := flags_0;
                count := sizeof_PFX_eckd_data; cda := pa_data |} in
  (* private uid is kept up to date, conf_data may be outdated *)
  let verify_base :=
    match uid_type startpriv with UA_BASE_DEVICE => 0 | _ => 1 end in
  let hyper_pav :=
    match uid_type startpriv with UA_HYPER_PAV_ALIAS => 1 | _ => 0 end in
  let data := DE_zero in
  let '(rc, data, time_stamp) :=
    match cmd with
    | DASD_ECKD_CCW_READ_HOME_ADDRESS
    | DASD_ECKD_CCW_READ_RECORD_ZERO
    | DASD_ECKD_CCW_READ
    | DASD_ECKD_CCW_READ_MT
    | DASD_ECKD_CCW_READ_CKD
    | DASD_ECKD_CCW_READ_CKD_MT
    | DASD_ECKD_CCW_READ_KD
    | DASD_ECKD_CCW_READ_KD_MT
    | DASD_ECKD_CCW_READ_COUNT =>
        let data := set_mask_perm 0x1 data in
        let data := set_attributes_operation (operation (attrib basepriv)) data in
        (0, data, 0)
    | DASD_ECKD_CCW_WRITE
    | DASD_ECKD_CCW_WRITE_MT
    | DASD_ECKD_CCW_WRITE_KD
    | DASD_ECKD_CCW_WRITE_KD_MT =>
        let data := set_mask_perm 0x02 data in
        let data := set_attributes_operation (operation (attrib basepriv)) data in
        check_XRC_on_prefix clk data 0 basepriv
    | DASD_ECKD_CCW_WRITE_CKD
    | DASD_ECKD_CCW_WRITE_CKD_MT =>
        let data := set_attributes_operation DASD_BYPASS_CACHE data in
        check_XRC_on_prefix clk data 0 basepriv
    | DASD_ECKD_CCW_ERASE
    | DASD_ECKD_CCW_WRITE_HOME_ADDRESS
    | DASD_ECKD_CCW_WRITE_RECORD_ZERO =>
        let data := set_mask_perm 0x3 data in
        let data := set_mask_auth 0x1 data in
        let data := set_attributes_operation DASD_BYPASS_CACHE data in
        check_XRC_on_prefix clk data 0 basepriv
    | _ => (0, data, 0)
    end in
  let data := set_attributes_mode 0x3 data in (* ECKD *)
  let data := regular_data_format basepriv trk data in
  let data := extent_of basepriv trk totrk data in
  (rc, ccw,
   {| pfx_format := 0;
      base_address := ned_unit_addr basepriv;
      base_lss := ned_ID basepriv;
      validity_define_extend := 1;
      validity_verify_base := verify_base;
      validity_hyper_pav := hyper_pav;
      validity_time_stamp := time_stamp;
      define_extend := data |}).

(** The rotational position estimate of [locate_record]. *)
Definition sector_hint (dev_type rec_on_trk reclen : Z) : Z :=
  if negb (rec_on_trk =? 0) then
    if dev_type =? 0x3390 then
      let dn := ceil_quot (u32 (reclen + 6)) 232 in
      let d := 9 + ceil_quot (u32 (reclen + 6 * (dn + 1))) 34 in
      Z.quot (49 + (rec_on_trk - 1) * (10 + d)) 8
    else if dev_type =? 0x3380 then
      let d := 7 + ceil_quot (u32 (reclen + 12)) 32 in
      Z.quot (39 + (rec_on_trk - 1) * (8 + d)) 7
    else 0
  else 0.

(** [locate_record(ccw, data, trk, rec_on_trk, no_rec, cmd, device,
    reclen)]; [n] is the position of [data] among the request's
    locate-record blocks. *)
Definition locate_record (n : nat) (trk rec_on_trk no_rec : Z)
    (cmd : ccw_cmd) (private : dasd_eckd_private) (reclen : Z)
  : ccw1 * LO_eckd_data :=
  let ccw := {| cmd_code := DASD_ECKD_CCW_LOCATE_RECORD; flags := flags_0;
                count := 16; cda := pa_LO_data n |} in
  let sector := sector_hint (dev_type (rdc_data private)) rec_on_trk reclen in
  let '(orientation, op, lbu, len, cnt) :=
    match cmd with
    | DASD_ECKD_CCW_WRITE_HOME_ADDRESS => (0x3, 0x03, 0, 0, no_rec)
    | DASD_ECKD_CCW_READ_HOME_ADDRESS => (0x3, 0x16, 0, 0, no_rec)
    | DASD_ECKD_CCW_WRITE_RECORD_ZERO => (0x1, 0x03, 0, 0, no_rec + 1)
    | DASD_ECKD_CCW_READ_RECORD_ZERO => (0x3, 0x16, 0, 0, no_rec + 1)
    | DASD_ECKD_CCW_WRITE
    | DASD_ECKD_CCW_WRITE_MT
    | DASD_ECKD_CCW_WRITE_KD
    | DASD_ECKD_CCW_WRITE_KD_MT => (0, 0x01, 0x1, reclen, no_rec)
    | DASD_ECKD_CCW_WRITE_CKD
    | DASD_ECKD_CCW_WRITE_CKD_MT => (0, 0x03, 0x1, reclen, no_rec)
    | DASD_ECKD_CCW_READ
    | DASD_ECKD_CCW_READ_MT
    | DASD_ECKD_CCW_READ_KD
    | DASD_ECKD_CCW_READ_KD_MT => (0, 0x06, 0x1, reclen, no_rec)
    | DASD_ECKD_CCW_READ_CKD
    | DASD_ECKD_CCW_READ_CKD_MT => (0, 0x16, 0x1, reclen, no_rec)
    | DASD_ECKD_CCW_READ_COUNT => (0, 0x06, 0, 0, no_rec)
    | DASD_ECKD_CCW_ERASE => (0, 0x0b, 0x1, reclen, no_rec)
    | _ => (0, 0, 0, 0, no_rec)
    end in
  let c := u16 (Z.quot trk (trk_per_cyl (rdc_data private))) in
  let h := u16 (Z.rem trk (trk_per_cyl (rdc_data private))) in
  (ccw,
   {| lo_orientation := orientation;
      lo_operation := op;
      last_bytes_used := lbu;
      lo_count := u8 cnt;
      seek_addr := {| cyl := c; head := h |};
      search_arg := {| chr_cyl := c; chr_head := h;
                       chr_record := u8 rec_on_trk |};
      lo_sector := u8 sector;
      lo_length := u16 len |}).

(** ** Disk-layout analyzer *)

Definition set_uses_cdl (v : bool) (p : dasd_eckd_private)
  : dasd_eckd_private :=
  {| rdc_data := rdc_data p; attrib := attrib p; uses_cdl := v;
     priv_count := priv_count p; init_cqr_status := init_cqr_status p;
     count_area := count_area p; feature_8 := feature_8 p;
     ned_unit_addr := ned_unit_addr p; ned_ID := ned_ID p;
     uid_type := uid_type p; path_data_ppm := path_data_ppm p |}.

Definition set_init_cqr_status (v : Z) (p : dasd_eckd_private)
  : dasd_eckd_private :=
  {| rdc_data := rdc_data p; attrib := attrib p; uses_cdl := uses_cdl p;
     priv_count := priv_count p; init_cqr_status := v;
     count_area := count_area p; feature_8 := feature_8 p;
     ned_unit_addr := ned_unit_addr p; ned_ID := ned_ID p;
     uid_type := uid_type p; path_data_ppm := path_data_ppm p |}.

Definition set_priv_count (v : Z) (p : dasd_eckd_private)
  : dasd_eckd_private :=
  {| rdc_data := rdc_data p; attrib := attrib p; uses_cdl := uses_cdl p;
     priv_count := v; init_cqr_status := init_cqr_status p;
     count_area := count_area p; feature_8 := feature_8 p;
     ned_unit_addr := ned_unit_addr p; ned_ID := ned_ID p;
     uid_type := uid_type p; path_data_ppm := path_data_ppm p |}.

(** [private->count_area[i]]. *)
Definition count_area_at (p : dasd_eckd_private) (i : nat) : eckd_count :=
  nth i (count_area p)
      {| ec_cyl := 0; ec_head := 0; ec_record := 0; ec_kl := 0; ec_dl := 0 |}.

(** [for (i = start; i < start + fuel; i++) if (stop i) break;]: the value
    of [i] when the loop is left. *)
Fixpoint scan (stop : nat -> bool) (i fuel : nat) : nat :=
  match fuel with
  | O => i
  | S fuel' => if stop i then i else scan stop (S i) fuel'
  end.

(** [for (sb = 512; sb < bp_block; sb = sb << 1) s2b_shift++;] on
    [unsigned int]; 32 doublings are enough for every block size up to
    2^31. *)
Fixpoint s2b_loop (fuel : nat) (sb bp shift : Z) : Z :=
  match fuel with
  | O => shift
  | S fuel' =>
      if sb <? bp then s2b_loop fuel' (u32 (Z.shiftl sb 1)) bp (shift + 1)
      else shift
  end.

(** [dasd_eckd_end_analysis(block)]: the return code and the device and
    block structures it leaves. *)
Definition dasd_eckd_end_analysis (private : dasd_eckd_private)
    (block : dasd_block) : Z * dasd_eckd_private * dasd_block :=
  let status := init_cqr_status private in
  let private := set_init_cqr_status (-1) private in
  if negb (status =? DASD_CQR_DONE) then (- EMEDIUMTYPE, private, block)
  else
    (* Check Track 0 for Compatible Disk Layout *)
    let i :=
      scan (fun i =>
              negb (ec_kl (count_area_at private i) =? 4)
              || negb (ec_dl (count_area_at private i)
                       =? dasd_eckd_cdl_reclen (Z.of_nat i) - 4))
           0 3 in
    let private := set_uses_cdl (Nat.eqb i 3) private in
    let count_area : option eckd_count :=
      if Nat.eqb i 3 then Some (count_area_at private 4) else None in
    let count_area :=
      if negb (uses_cdl private) then
        let i :=
          scan (fun i =>
                  negb (ec_kl (count_area_at private i) =? 0)
                  || negb (ec_dl (count_area_at private i)
                           =? ec_dl (count_area_at private 0)))
               0 5 in
        if Nat.eqb i 5 then Some (count_area_at private 0) else count_area
      else count_area in
    let bp :=
      match count_area with
      | Some ca =>
          if (ec_kl ca =? 0) && (dasd_check_blocksize (ec_dl ca) =? 0)
          then ec_dl ca else bp_block block
      | None => bp_block block
      end in
    if bp =? 0 then
      (- EMEDIUMTYPE, private,
       {| base := base block; bp_block := bp;
          s2b_shift := s2b_shift block; blocks := blocks block |})
    else
      let blk_per_trk := recs_per_track (dev_type (rdc_data private)) 0 bp in
      (0, private,
       {| base := base block; bp_block := bp;
          s2b_shift := s2b_loop 32 512 bp 0;
          (* an unsigned int product *)
          blocks := u32 (no_cyl (rdc_data private)
                         * trk_per_cyl (rdc_data private) * blk_per_trk) |}).

(** ** Request pool bookkeeping *)

(** A request obtained from [dasd_smalloc_request] joins the allocated
    requests; [dasd_sfree_request] of the request under construction (the
    most recent one) removes it again. *)
Definition pool_add (cqr : dasd_ccw_req) (m : machine) : machine :=
  {| privs := privs m; ccw_reqs := cqr :: ccw_reqs m; mem := mem m;
     dasd_page_cache := dasd_page_cache m |}.

Definition dasd_sfree_request (m : machine) : machine :=
  {| privs := privs m; ccw_reqs := tl (ccw_reqs m); mem := mem m;
     dasd_page_cache := dasd_page_cache m |}.

(** The request under construction receives its final contents. *)
Definition pool_fill (cqr : dasd_ccw_req) (m : machine) : machine :=
  pool_add cqr (dasd_sfree_request m).

(** ** Format planner *)

(** The count field the "write remaining records" loop of
    [dasd_eckd_format_device] prepares for its [i]-th record. *)
Definition format_count (fdata : format_data_t) (cyl head : Z) (i : nat)
  : eckd_count :=
  let kl := 0 in
  let dl := blksize fdata in
  (* Check for special tracks 0-1 when formatting CDL *)
  let '(kl, dl) :=
    if negb (Z.land (intensity fdata) 0x08 =? 0) && (start_unit fdata =? 0)
    then if (i <? 3)%nat then (4, nth i sizes_trk0 0 - 4) else (kl, dl)
    else (kl, dl) in
  let '(kl, dl) :=
    if negb (Z.land (intensity fdata) 0x08 =? 0) && (start_unit fdata =? 1)
    then (44, LABEL_SIZE - 44)
    else (kl, dl) in
  {| ec_cyl := u16 cyl; ec_head := u16 head;
     ec_record := u8 (Z.of_nat i + 1); ec_kl := u8 kl; ec_dl := u16 dl |}.

(** A CCW writing the count field [ects[n]]. *)
Definition count_ccw (cmd : ccw_cmd) (n : nat) : ccw1 :=
  {| cmd_code := cmd; flags := flags_SLI; count := 8; cda := pa_ect n |}.

(** [for (i = 0; i < rpt; i++) { ... ccw++; }]: the channel program (most
    recent CCW first) and the count fields after the records
    [i, i+1, ..., i+n-1]. *)
Fixpoint format_records (fdata : format_data_t) (cyl head : Z) (i n : nat)
    (st : list ccw1 * list eckd_count) : list ccw1 * list eckd_count :=
  match n with
  | O => st
  | S n' =>
      let '(ccws, ects) := st in
      let ect := format_count fdata cyl head i in
      let ccw := count_ccw DASD_ECKD_CCW_WRITE_CKD (length ects) in
      format_records fdata cyl head (S i) n' (emit ccw ccws, ects ++ [ect])
  end.

(** The first [switch (fdata->intensity)] of [dasd_eckd_format_device]:
    the channel-program length and data size of a supported intensity,
    [None] in the [default] case. *)
Definition format_sizes (intensity rpt : Z) : option (Z * Z) :=
  if (intensity =? 0x00) || (intensity =? 0x08) then
    (* Normal format (, use cdl). *)
    Some (2 + rpt,
          sizeof_DE_eckd_data + sizeof_LO_eckd_data
          + rpt * sizeof_eckd_count)
  else if (intensity =? 0x01) || (intensity =? 0x09) then
    (* Write record zero and format track (, use cdl). *)
    Some (3 + rpt,
          sizeof_DE_eckd_data + sizeof_LO_eckd_data
          + sizeof_eckd_count + rpt * sizeof_eckd_count)
  else if (intensity =? 0x04) || (intensity =? 0x0c) then
    (* Invalidate track (, use cdl). *)
    Some (3,
          sizeof_DE_eckd_data + sizeof_LO_eckd_data + sizeof_eckd_count)
  else None.

(** [dasd_eckd_format_device(device, fdata)]; [block] is
    [device->block]. *)
Definition dasd_eckd_format_device (clk : sync_clock) (now : Z)
    (device : dev_id) (block : dasd_block) (fdata : format_data_t)
    (m : machine) : ERR_OR dasd_ccw_req * machine :=
  let private := privs m device in
  let rdc := rdc_data private in
  let rpt := recs_per_track (dev_type rdc) 0 (blksize fdata) in
  let cyl := Z.quot (start_unit fdata) (trk_per_cyl rdc) in
  let head := Z.rem (start_unit fdata) (trk_per_cyl rdc) in
  (* Sanity checks. *)
  if start_unit fdata >=? no_cyl rdc * trk_per_cyl rdc then
    (ERR_PTR (- EINVAL), m)
  else if start_unit fdata >? stop_unit fdata then
    (ERR_PTR (- EINVAL), m)
  else if negb (dasd_check_blocksize (blksize fdata) =? 0) then
    (ERR_PTR (- EINVAL), m)
  else
    match format_sizes (intensity fdata) rpt with
    | None => (ERR_PTR (- EINVAL), m)
    | Some (cplen, dsize) =>
        (* Allocate the format ccw request. *)
        match dasd_smalloc_request cplen dsize device with
        | ERR_PTR e => (ERR_PTR e, m)
        | PTR fcp =>
            let m := pool_add fcp m in
            let kind := Z.land (intensity fdata) (Z.lnot 0x08) in
            let '(ccws, de, lo) :=
              if kind =? 0x00 then (* Normal format. *)
                let '(_, de_ccw, de) :=
                  define_extent clk (start_unit fdata) (start_unit fdata)
                                DASD_ECKD_CCW_WRITE_CKD private in
                let '(lo_ccw, lo) :=
                  locate_record 0 (start_unit fdata) 0 rpt
                                DASD_ECKD_CCW_WRITE_CKD private
                                (blksize fdata) in
                (emit lo_ccw [de_ccw], Some de, [lo])
              else if kind =? 0x01 then (* Write record zero + format track. *)
                let '(_, de_ccw, de) :=
                  define_extent clk (start_unit fdata) (start_unit fdata)
                                DASD_ECKD_CCW_WRITE_RECORD_ZERO private in
                let '(lo_ccw, lo) :=
                  locate_record 0 (start_unit fdata) 0 (rpt + 1)
                                DASD_ECKD_CCW_WRITE_RECORD_ZERO private
                                (bp_block block) in
                (emit lo_ccw [de_ccw], Some de, [lo])
              else if kind =? 0x04 then (* Invalidate track. *)
                let '(_, de_ccw, de) :=
                  define_extent clk (start_unit fdata) (start_unit fdata)
                                DASD_ECKD_CCW_WRITE_CKD private in
                let '(lo_ccw, lo) :=
                  locate_record 0 (start_unit fdata) 0 1
                                DASD_ECKD_CCW_WRITE_CKD private 8 in
                (emit lo_ccw [de_ccw], Some de, [lo])
              else ([], None, []) in
            let '(ccws, ects) :=
              if negb (Z.land (intensity fdata) 0x01 =? 0) then
                (* write record zero *)
                let ect := {| ec_cyl := u16 cyl; ec_head := u16 head;
                              ec_record := 0; ec_kl := 0; ec_dl := 8 |} in
                (emit (count_ccw DASD_ECKD_CCW_WRITE_RECORD_ZERO 0) ccws,
                 [ect])
              else (ccws, []) in
            let '(ccws, ects) :=
              if negb (Z.land kind 0x04 =? 0) then
                (* erase track *)
                let ect := {| ec_cyl := u16 cyl; ec_head := u16 head;
                              ec_record := 1; ec_kl := 0; ec_dl := 0 |} in
                (emit (count_ccw DASD_ECKD_CCW_WRITE_CKD (length ects)) ccws,
                 ects ++ [ect])
              else
                (* write remaining records *)
                format_records fdata cyl head 0 (Z.to_nat rpt) (ccws, ects) in
            let fcp :=
              {| cpaddr := rev ccws;
                 data := {| d_DE := de; d_PFX := None; d_idaws := [];
                            d_cidaw := 0; d_LO := lo;
                            d_area := LO_stores 0 lo; d_ect := ects |};
                 cplength := cplength fcp;
                 datasize := datasize fcp;
                 startdev := device;
                 memdev := device;
                 cqr_block := cqr_block fcp;
                 expires := expires fcp;
                 lpm := lpm fcp;
                 retries := 5; (* set retry counter to enable default ERP *)
                 buildclk := now;
                 status := DASD_CQR_FILLED;
                 DASD_CQR_FLAGS_FAILFAST := DASD_CQR_FLAGS_FAILFAST fcp;
                 DASD_CQR_FLAGS_USE_ERP := false |} in
            (PTR fcp, pool_fill fcp m)
        end
    end.

(** ** Block request translator *)

(** [memset(dst, c, n)] and [memcpy(dst, src, n)] on the byte memory. *)
Definition memset (mem : Z -> Z) (dst c n : Z) : Z -> Z :=
  fun a => if (dst <=? a) && (a <? dst + n) then c else mem a.

Definition memcpy (mem : Z -> Z) (dst src n : Z) : Z -> Z :=
  fun a => if (dst <=? a) && (a <? dst + n) then mem (src + (a - dst))
           else mem a.

(** The bytes of the data area that belong to [idaws[i]] and to
    [LO_data[k]]: the first byte, counted from [idaws], and the size;
    [LO_data] is [idaws + cidaw]. *)
Definition idaws_bytes (i : nat) : Z * Z :=
  (Z.of_nat i * sizeof_long, sizeof_long).

Definition LO_data_bytes (cidaw : Z) (k : nat) : Z * Z :=
  (cidaw * sizeof_long + Z.of_nat k * sizeof_LO_eckd_data,
   sizeof_LO_eckd_data).

Definition store_bytes (cidaw : Z) (s : area_store) : Z * Z :=
  match s with
  | store_idaw i _ => idaws_bytes i
  | store_LO k _ => LO_data_bytes cidaw k
  end.

Definition bytes_meet (a b : Z * Z) : bool :=
  (fst a <? fst b + snd b) && (fst b <? fst a + snd a).

(** The last of the [stores] that wrote to one of the bytes [at]. *)
Fixpoint last_store (cidaw : Z) (at_bytes : Z * Z)
    (stores : list area_store) : option area_store :=
  match stores with
  | [] => None
  | s :: later =>
      match last_store cidaw at_bytes later with
      | Some t => Some t
      | None =>
          if bytes_meet at_bytes (store_bytes cidaw s) then Some s else None
      end
  end.

(** [LO_data[k]] and [idaws[i]] as the stores of a request leave them:
    the value stored there, provided no later store wrote to its bytes.
    [None] stands for a place that was never stored to, or whose contents
    have been overwritten in part or in whole. *)
Definition LO_data_at (d : cqr_data) (k : nat) : option LO_eckd_data :=
  match last_store (d_cidaw d) (LO_data_bytes (d_cidaw d) k) (d_area d) with
  | Some (store_LO k' lo) => if Nat.eqb k' k then Some lo else None
  | _ => None
  end.

Definition idaws_at (d : cqr_data) (i : nat) : option Z :=
  match last_store (d_cidaw d) (idaws_bytes i) (d_area d) with
  | Some (store_idaw i' w) => if Nat.eqb i' i then Some w else None
  | _ => None
  end.

(** The first [rq_for_each_segment] loop of [dasd_eckd_build_cp]: [None]
    when a segment is not made of full blocks, otherwise the number of
    blocks and of blocks needing indirect addressing (CONFIG_64BIT). *)
Fixpoint check_segments (blksize shift : Z) (segs : list bio_vec)
    (count cidaw : Z) : option (Z * Z) :=
  match segs with
  | [] => Some (count, cidaw)
  | bv :: rest =>
      if negb (Z.land (bv_len bv) (u32 (blksize - 1)) =? 0) then
        (* Eckd can only do full blocks. *)
        None
      else
        let n := Z.shiftr (bv_len bv) (shift + 9) in
        check_segments blksize shift rest (count + n)
          (if idal_is_needed (bv_page bv) (bv_len bv) then cidaw + n
           else cidaw)
  end.

(** What the second loop of [dasd_eckd_build_cp] carries along: the
    channel program so far (most recent CCW first), the indirect address
    words and locate-record blocks written so far (their numbers are the
    running [idaws] and [LO_data]), the stores into the data area in the
    order they were made, the memory, and the running [dst] and
    [recid]. *)
Record cp_state : Type :=
  { st_ccws : list ccw1;
    st_idaws : list Z;
    st_LO : list LO_eckd_data;
    st_area : list area_store;
    st_mem : Z -> Z;
    st_dst : Z;
    st_recid : Z }.

(** The body of [for (off = 0; off < bv->bv_len; off += blksize)];
    [trkid] is a [sector_t] and reaches [locate_record] as an [int]. *)
Definition build_block (private : dasd_eckd_private) (cmd : ccw_cmd)
    (dir : data_dir) (blksize blk_per_trk last_rec : Z) (st : cp_state)
  : cp_state :=
  let recid := st_recid st in
  let dst := st_dst st in
  let trkid := recid / blk_per_trk in
  let recoffs := recid mod blk_per_trk in
  let rcmd := cmd in
  let count := blksize in
  (* Locate record for cdl special block ? *)
  let '(rcmd, count, mem, ccws, LO, area) :=
    if uses_cdl private && (recid <? 2 * blk_per_trk) then
      let '(rcmd, count, mem) :=
        if negb (dasd_eckd_cdl_special blk_per_trk recid =? 0) then
          let rcmd := kd_variant rcmd in
          let count := dasd_eckd_cdl_reclen recid in
          let mem :=
            if (count <? blksize)
               && match dir with READ => true | WRITE => false end
            then memset (st_mem st) (dst + count) 0xe5 (blksize - count)
            else st_mem st in
          (rcmd, count, mem)
        else (rcmd, count, st_mem st) in
      let '(lo_ccw, lo) :=
        locate_record (length (st_LO st)) (s32 trkid) (recoffs + 1) 1 rcmd
                      private count in
      (rcmd, count, mem, emit lo_ccw (st_ccws st), st_LO st ++ [lo],
       st_area st ++ [store_LO (length (st_LO st)) lo])
    else (rcmd, count, st_mem st, st_ccws st, st_LO st, st_area st) in
  (* Locate record for standard blocks ? *)
  let '(ccws, LO, area) :=
    if uses_cdl private && (recid =? 2 * blk_per_trk) then
      let '(lo_ccw, lo) :=
        locate_record (length LO) (s32 trkid) (recoffs + 1)
                      (last_rec - recid + 1) cmd private count in
      (emit lo_ccw ccws, LO ++ [lo], area ++ [store_LO (length LO) lo])
    else (ccws, LO, area) in
  (* Read/write ccw. *)
  let '(ccw, idaws, area) :=
    if idal_is_needed dst blksize then
      ({| cmd_code := rcmd; flags := flags_IDA; count := count;
          cda := pa_idaws (length (st_idaws st)) |},
       st_idaws st ++ idal_create_words dst blksize,
       area ++ idaw_stores (length (st_idaws st))
                           (idal_create_words dst blksize))
    else
      ({| cmd_code := rcmd; flags := flags_0; count := count;
          cda := pa_buf dst |},
       st_idaws st, area) in
  {| st_ccws := emit ccw ccws;
     st_idaws := idaws;
     st_LO := LO;
     st_area := area;
     st_mem := mem;
     st_dst := dst + blksize;
     st_recid := recid + 1 |}.

(** [for (off = 0; off < len; off += blksize) body]; [off] is an
    [unsigned int].  The fuel is only a bound: [dasd_eckd_build_cp] gives
    [len] iterations, which a positive [blksize] never needs. *)
Fixpoint for_blocks (fuel : nat) (off len blksize : Z)
    (body : cp_state -> cp_state) (st : cp_state) : cp_state :=
  match fuel with
  | O => st
  | S fuel' =>
      if off <? len
      then for_blocks fuel' (u32 (off + blksize)) len blksize body (body st)
      else st
  end.

(** The body of the second [rq_for_each_segment] loop. *)
Definition build_segment (private : dasd_eckd_private) (cmd : ccw_cmd)
    (dir : data_dir) (blksize blk_per_trk last_rec : Z) (bv : bio_vec)
    (sp : cp_state * option (list (option Z)))
  : cp_state * option (list (option Z)) :=
  let '(st, cache) := sp in
  let dst := bv_page bv + bv_offset bv in
  let '(dst, mem, cache) :=
    match cache with
    | Some outcomes =>
        (* copy = kmem_cache_alloc(dasd_page_cache, ...) *)
        match outcomes with
        | Some copy :: later =>
            (copy + bv_offset bv,
             match dir with
             | WRITE => memcpy (st_mem st) (copy + bv_offset bv) dst
                               (bv_len bv)
             | READ => st_mem st
             end,
             Some later)
        | None :: later => (dst, st_mem st, Some later)
        | [] => (dst, st_mem st, Some [])
        end
    | None => (dst, st_mem st, None)
    end in
  let st :=
    {| st_ccws := st_ccws st; st_idaws := st_idaws st; st_LO := st_LO st;
       st_area := st_area st;
       st_mem := mem; st_dst := dst; st_recid := st_recid st |} in
  (for_blocks (Z.to_nat (bv_len bv)) 0 (bv_len bv) blksize
              (build_block private cmd dir blksize blk_per_trk last_rec) st,
   cache).

(** [dasd_eckd_build_cp(startdev, block, req)].  [first_trk] and
    [last_trk] are [sector_t] and reach the [int] parameters of [prefix],
    [define_extent] and [locate_record] through [s32]. *)
Definition dasd_eckd_build_cp (clk : sync_clock) (now : Z)
    (startdev : dev_id) (block : dasd_block) (req : request) (m : machine)
  : ERR_OR dasd_ccw_req * machine :=
  let basedev := base block in
  let private := privs m basedev in
  let cmd :=
    match rq_data_dir req with
    | READ => DASD_ECKD_CCW_READ_MT
    | WRITE => DASD_ECKD_CCW_WRITE_MT
    end in
  (* Calculate number of blocks/records per track. *)
  let blksize := bp_block block in
  let blk_per_trk := recs_per_track (dev_type (rdc_data private)) 0 blksize in
  (* Calculate record id of first and last block. *)
  let first_rec := Z.shiftr (sector req) (s2b_shift block) in
  let first_trk := first_rec / blk_per_trk in
  let first_offs := first_rec mod blk_per_trk in
  let last_rec :=
    Z.shiftr (u64 (sector req + nr_sectors req - 1)) (s2b_shift block) in
  let last_trk := last_rec / blk_per_trk in
  (* Check struct bio and count the number of blocks for the request. *)
  match check_segments blksize (s2b_shift block) (segments req) 0 0 with
  | None => (ERR_PTR (- EINVAL), m)
  | Some (count, cidaw) =>
      (* Paranoia. *)
      if negb (u64 count =? u64 (last_rec - first_rec + 1)) then
        (ERR_PTR (- EINVAL), m)
      else
        (* use the prefix command if available *)
        let use_prefix := negb (Z.land (feature_8 private) 0x01 =? 0) in
        let cplen := 2 + count in
        let dsize :=
          (if use_prefix then sizeof_PFX_eckd_data else sizeof_DE_eckd_data)
          + sizeof_LO_eckd_data + cidaw * sizeof_long in
        (* Find out the number of additional locate record ccws for cdl. *)
        let '(cplen, dsize) :=
          if uses_cdl private && (first_rec <? 2 * blk_per_trk) then
            let count :=
              if last_rec >=? 2 * blk_per_trk
              then 2 * blk_per_trk - first_rec else count in
            (cplen + count, dsize + count * sizeof_LO_eckd_data)
          else (cplen, dsize) in
        (* Allocate the ccw request. *)
        match dasd_smalloc_request cplen dsize startdev with
        | ERR_PTR e => (ERR_PTR e, m)
        | PTR cqr =>
            let m := pool_add cqr m in
            (* First ccw is define extent or prefix. *)
            let '(rc, ccw, de, pfx) :=
              if use_prefix then
                let '(rc, ccw, pfx) :=
                  prefix clk (s32 first_trk) (s32 last_trk) cmd private
                         (privs m startdev) in
                (rc, ccw, None, Some pfx)
              else
                let '(rc, ccw, de) :=
                  define_extent clk (s32 first_trk) (s32 last_trk) cmd
                                (privs m startdev) in
                (rc, ccw, Some de, None) in
            if rc =? - EAGAIN then
              (* Clock not in sync and XRC is enabled.  Try again later. *)
              (ERR_PTR (- EAGAIN), dasd_sfree_request m)
            else
              (* Build locate_record+read/write/ccws; LO_data is
                 idaws + cidaw. *)
              let recid := first_rec in
              let '(ccws, LO) :=
                if negb (uses_cdl private) || (recid >? 2 * blk_per_trk) then
                  (* Only standard blocks so there is just one locate
                     record. *)
                  let '(lo_ccw, lo) :=
                    locate_record 0 (s32 first_trk) (first_offs + 1)
                                  (last_rec - recid + 1) cmd private
                                  blksize in
                  (emit lo_ccw [ccw], [lo])
                else ([ccw], []) in
              let st :=
                {| st_ccws := ccws; st_idaws := []; st_LO := LO;
                   st_area := LO_stores 0 LO;
                   st_mem := mem m; st_dst := 0; st_recid := recid |} in
              let '(st, cache) :=
                fold_left
                  (fun sp bv =>
                     build_segment private cmd (rq_data_dir req) blksize
                                   blk_per_trk last_rec bv sp)
                  (segments req) (st, dasd_page_cache m) in
              let cqr :=
                {| cpaddr := rev (st_ccws st);
                   data := {| d_DE := de; d_PFX := pfx;
                              d_idaws := st_idaws st; d_cidaw := cidaw;
                              d_LO := st_LO st; d_area := st_area st;
                              d_ect := [] |};
                   cplength := cplength cqr;
                   datasize := datasize cqr;
                   startdev := startdev;
                   memdev := startdev;
                   cqr_block := Some (base block);
                   expires := 5 * 60 * HZ; (* 5 minutes *)
                   lpm := path_data_ppm private;
                   retries := 256;
                   buildclk := now;
                   status := DASD_CQR_FILLED;
                   DASD_CQR_FLAGS_FAILFAST :=
                     if blk_noretry_request req then true
                     else DASD_CQR_FLAGS_FAILFAST cqr;
                   DASD_CQR_FLAGS_USE_ERP := DASD_CQR_FLAGS_USE_ERP cqr |} in
              (PTR cqr,
               {| privs := privs m;
                  ccw_reqs := cqr :: tl (ccw_reqs m);
                  mem := st_mem st;
                  dasd_page_cache := cache |})
        end
  end.

Definition DASD_ECKD_CHANQ_MAX_SIZE : Z := 4.

(** [private->count += d] for the device [dev]. *)
Definition add_priv_count (dev : dev_id) (d : Z) (m : machine) : machine :=
  {| privs := fun x =>
                if Nat.eqb x dev
                then set_priv_count (priv_count (privs m x) + d) (privs m x)
                else privs m x;
     ccw_reqs := ccw_reqs m; mem := mem m;
     dasd_page_cache := dasd_page_cache m |}.

(** [dasd_eckd_build_alias_cp(base, block, req)]. *)
Definition dasd_eckd_build_alias_cp (clk : sync_clock) (now : Z)
    (base_dev : dev_id) (block : dasd_block) (req : request) (m : machine)
  : ERR_OR dasd_ccw_req * machine :=
  let startdev :=
    match dasd_alias_get_start_dev base_dev with
    | Some dev => dev
    | None => base_dev
    end in
  let private := privs m startdev in
  if priv_count private >=? DASD_ECKD_CHANQ_MAX_SIZE then
    (ERR_PTR (- EBUSY), m)
  else
    let m := add_priv_count startdev 1 m in
    let '(cqr, m) := dasd_eckd_build_cp clk now startdev block req m in
    match cqr with
    | ERR_PTR _ => (cqr, add_priv_count startdev (-1) m)
    | PTR _ => (cqr, m)
    end.

(** ** Rounding helper *)

(** [round_up_multiple(no, mult)] on [unsigned int]; the remainder is kept
    in an [int], which the subtraction converts back. *)
Definition round_up_multiple (no mult : Z) : Z :=
  let rem := Z.rem no mult in
  if negb (rem =? 0) then u32 (u32 (no - rem) + mult) else no.

(** ** Configuration data *)

(** A 32-byte record of the configuration data, seen as
    [struct dasd_sneq], [struct dasd_gneq] or [struct dasd_ned]: the node
    identifier of its flags, the fields [format] and [res1], and its byte
    18. *)
Record dasd_sneq : Set :=
  { identifier : Z; sneq_format : Z; res1 : Z; byte_18 : Z }.

(** The four pointers into the configuration data that
    [struct dasd_eckd_private] keeps, as positions of records; [None] is
    [NULL]. *)
Record conf_parts : Set :=
  { ned : option nat;
    sneq : option nat;
    vdsneq : option nat;
    gneq : option nat }.

Definition no_conf_parts : conf_parts :=
  {| ned := None; sneq := None; vdsneq := None; gneq := None |}.

(** The loop of [dasd_eckd_identify_conf_parts] from record [i] on. *)
Fixpoint identify_records (i : nat) (conf_data : list dasd_sneq)
    (p : conf_parts) : conf_parts :=
  match conf_data with
  | [] => p
  | r :: rest =>
      let p :=
        if (identifier r =? 1) && (sneq_format r =? 1) then
          {| ned := ned p; sneq := Some i; vdsneq := vdsneq p;
             gneq := gneq p |}
        else if (identifier r =? 1) && (sneq_format r =? 4) then
          {| ned := ned p; sneq := sneq p; vdsneq := Some i;
             gneq := gneq p |}
        else if identifier r =? 2 then
          {| ned := ned p; sneq := sneq p; vdsneq := vdsneq p;
             gneq := Some i |}
        else if (identifier r =? 3) && (res1 r =? 1) then
          {| ned := Some i; sneq := sneq p; vdsneq := vdsneq p;
             gneq := gneq p |}
        else p in
      identify_records (S i) rest p
  end.

(** [dasd_eckd_identify_conf_parts(private)]; [conf_data] holds the
    [conf_len / sizeof(struct dasd_sneq)] records the loop visits. *)
Definition dasd_eckd_identify_conf_parts (conf_data : list dasd_sneq)
  : Z * conf_parts :=
  let p := identify_records 0 conf_data no_conf_parts in
  match ned p, gneq p with
  | Some _, Some _ => (0, p)
  | _, _ => (- EINVAL, no_conf_parts)
  end.

(** [dasd_eckd_path_access(conf_data, conf_len)]: the loop leaves at the
    first general node-element qualifier. *)
Fixpoint dasd_eckd_path_access (conf_data : list dasd_sneq) : Z :=
  match conf_data with
  | [] => 0
  | r :: rest =>
      if identifier r =? 2 then Z.land (byte_18 r) 0x07
      else dasd_eckd_path_access rest
  end.

(** ** Restart on the base device *)

Definition set_status (v : Z) (cqr : dasd_ccw_req) : dasd_ccw_req :=
  {| cpaddr := cpaddr cqr; data := data cqr; cplength := cplength cqr;
     datasize := datasize cqr; startdev := startdev cqr;
     memdev := memdev cqr; cqr_block := cqr_block cqr;
     expires := expires cqr; lpm := lpm cqr; retries := retries cqr;
     buildclk := buildclk cqr; status := v;
     DASD_CQR_FLAGS_FAILFAST := DASD_CQR_FLAGS_FAILFAST cqr;
     DASD_CQR_FLAGS_USE_ERP := DASD_CQR_FLAGS_USE_ERP cqr |}.

Definition set_startdev (v : dev_id) (cqr : dasd_ccw_req) : dasd_ccw_req :=
  {| cpaddr := cpaddr cqr; data := data cqr; cplength := cplength cqr;
     datasize := datasize cqr; startdev := v;
     memdev := memdev cqr; cqr_block := cqr_block cqr;
     expires := expires cqr; lpm := lpm cqr; retries := retries cqr;
     buildclk := buildclk cqr; status := status cqr;
     DASD_CQR_FLAGS_FAILFAST := DASD_CQR_FLAGS_FAILFAST cqr;
     DASD_CQR_FLAGS_USE_ERP := DASD_CQR_FLAGS_USE_ERP cqr |}.

Definition set_data (v : cqr_data) (cqr : dasd_ccw_req) : dasd_ccw_req :=
  {| cpaddr := cpaddr cqr; data := v; cplength := cplength cqr;
     datasize := datasize cqr; startdev := startdev cqr;
     memdev := memdev cqr; cqr_block := cqr_block cqr;
     expires := expires cqr; lpm := lpm cqr; retries := retries cqr;
     buildclk := buildclk cqr; status := status cqr;
     DASD_CQR_FLAGS_FAILFAST := DASD_CQR_FLAGS_FAILFAST cqr;
     DASD_CQR_FLAGS_USE_ERP := DASD_CQR_FLAGS_USE_ERP cqr |}.

(** [pfxdata->validity.verify_base = 0; pfxdata->validity.hyper_pav = 0]. *)
Definition clear_alias_validity (p : PFX_eckd_data) : PFX_eckd_data :=
  {| pfx_format := pfx_format p; base_address := base_address p;
     base_lss := base_lss p;
     validity_define_extend := validity_define_extend p;
     validity_verify_base := 0; validity_hyper_pav := 0;
     validity_time_stamp := validity_time_stamp p;
     define_extend := define_extend p |}.

(** [dasd_eckd_reset_ccw_to_base_io(cqr)]; the data area of a program
    that starts with a prefix CCW begins with its prefix block. *)
Definition dasd_eckd_reset_ccw_to_base_io (cqr : dasd_ccw_req)
  : dasd_ccw_req :=
  match cpaddr cqr with
  | ccw :: _ =>
      match cmd_code ccw with
      | DASD_ECKD_CCW_PFX =>
          set_data {| d_DE := d_DE (data cqr);
                      d_PFX := option_map clear_alias_validity
                                          (d_PFX (data cqr));
                      d_idaws := d_idaws (data cqr);
                      d_cidaw := d_cidaw (data cqr);
                      d_LO := d_LO (data cqr);
                      d_area := d_area (data cqr);
                      d_ect := d_ect (data cqr) |} cqr
      | _ => cqr
      end
  | [] => cqr
  end.

(** [dasd_eckd_handle_terminated_request(cqr)]. *)
Definition dasd_eckd_handle_terminated_request (cqr : dasd_ccw_req)
  : dasd_ccw_req :=
  let cqr := set_status DASD_CQR_FILLED cqr in
  match cqr_block cqr with
  | Some block_base =>
      if negb (Nat.eqb (startdev cqr) block_base) then
        set_startdev block_base (dasd_eckd_reset_ccw_to_base_io cqr)
      else cqr
  | None => cqr
  end.

(** ** Releasing a request *)

(** Requests can be compared field by field. *)
Definition ch_t_eq_dec (a b : ch_t) : {a = b} + {a <> b}.
Proof. decide equality; apply Z.eq_dec. Defined.

Definition chr_t_eq_dec (a b : chr_t) : {a = b} + {a <> b}.
Proof. decide equality; apply Z.eq_dec. Defined.

Definition eckd_count_eq_dec (a b : eckd_count) : {a = b} + {a <> b}.
Proof. decide equality; apply Z.eq_dec. Defined.

Definition cache_op_eq_dec (a b : cache_op) : {a = b} + {a <> b}.
Proof. decide equality. Defined.

Definition DE_eckd_data_eq_dec (a b : DE_eckd_data) : {a = b} + {a <> b}.
Proof.
  decide equality;
    first [apply Z.eq_dec | apply ch_t_eq_dec | apply cache_op_eq_dec].
Defined.

Definition PFX_eckd_data_eq_dec (a b : PFX_eckd_data) : {a = b} + {a <> b}.
Proof.
  decide equality; first [apply Z.eq_dec | apply DE_eckd_data_eq_dec].
Defined.

Definition LO_eckd_data_eq_dec (a b : LO_eckd_data) : {a = b} + {a <> b}.
Proof.
  decide equality;
    first [apply Z.eq_dec | apply ch_t_eq_dec | apply chr_t_eq_dec].
Defined.

Definition ccw_cmd_eq_dec (a b : ccw_cmd) : {a = b} + {a <> b}.
Proof. decide equality. Defined.

Definition cda_t_eq_dec (a b : cda_t) : {a = b} + {a <> b}.
Proof. decide equality; first [apply Z.eq_dec | apply Nat.eq_dec]. Defined.

Definition ccw_flags_eq_dec (a b : ccw_flags) : {a = b} + {a <> b}.
Proof. decide equality; apply Bool.bool_dec. Defined.

Definition ccw1_eq_dec (a b : ccw1) : {a = b} + {a <> b}.
Proof.
  decide equality;
    first [apply Z.eq_dec | apply cda_t_eq_dec | apply ccw_flags_eq_dec
          | apply ccw_cmd_eq_dec].
Defined.

Definition option_eq_dec {A : Type}
    (dec : forall a b : A, {a = b} + {a <> b}) (a b : option A)
  : {a = b} + {a <> b}.
Proof. decide equality. Defined.

Definition area_store_eq_dec (a b : area_store) : {a = b} + {a <> b}.
Proof.
  decide equality;
    first [ apply Z.eq_dec | apply Nat.eq_dec | apply LO_eckd_data_eq_dec ].
Defined.

Definition cqr_data_eq_dec (a b : cqr_data) : {a = b} + {a <> b}.
Proof.
  decide equality;
    first [ apply (list_eq_dec eckd_count_eq_dec)
          | apply (list_eq_dec area_store_eq_dec)
          | apply (list_eq_dec LO_eckd_data_eq_dec)
          | apply Z.eq_dec
          | apply (list_eq_dec Z.eq_dec)
          | apply (option_eq_dec PFX_eckd_data_eq_dec)
          | apply (option_eq_dec DE_eckd_data_eq_dec) ].
Defined.

Definition dasd_ccw_req_eq_dec (a b : dasd_ccw_req) : {a = b} + {a <> b}.
Proof.
  decide equality;
    first [ apply Bool.bool_dec | apply Z.eq_dec | apply Nat.eq_dec
          | apply (option_eq_dec Nat.eq_dec)
          | apply cqr_data_eq_dec
          | apply (list_eq_dec ccw1_eq_dec) ].
Defined.

(** The allocated requests without [cqr]. *)
Fixpoint pool_remove (cqr : dasd_ccw_req) (reqs : list dasd_ccw_req)
  : list dasd_ccw_req :=
  match reqs with
  | [] => []
  | r :: rest =>
      if dasd_ccw_req_eq_dec cqr r then rest else r :: pool_remove cqr rest
  end.

(** [dasd_sfree_request(cqr, device)] of any allocated request. *)
Definition sfree_request (cqr : dasd_ccw_req) (m : machine) : machine :=
  {| privs := privs m; ccw_reqs := pool_remove cqr (ccw_reqs m);
     mem := mem m; dasd_page_cache := dasd_page_cache m |}.

(** [device->private] of one device is replaced. *)
Definition set_private (dev : dev_id) (p : dasd_eckd_private) (m : machine)
  : machine :=
  {| privs := fun x => if Nat.eqb x dev then p else privs m x;
     ccw_reqs := ccw_reqs m; mem := mem m;
     dasd_page_cache := dasd_page_cache m |}.

Definition set_mem (v : Z -> Z) (m : machine) : machine :=
  {| privs := privs m; ccw_reqs := ccw_reqs m; mem := v;
     dasd_page_cache := dasd_page_cache m |}.

(** ** Initial analysis *)

(** A READ_COUNT CCW into [private->count_area[n]]. *)
Definition read_count_ccw (n : nat) : ccw1 :=
  {| cmd_code := DASD_ECKD_CCW_READ_COUNT; flags := flags_0; count := 8;
     cda := pa_count_area n |}.

(** [for (i = 0; i < 4; i++) { ...; ccw++; count_data++; }] from [i] on,
    for [n] more rounds. *)
Fixpoint read_counts (i n : nat) (ccws : list ccw1) : list ccw1 :=
  match n with
  | O => ccws
  | S n' => read_counts (S i) n' (emit (read_count_ccw i) ccws)
  end.

(** [dasd_eckd_analysis_ccw(device)]. *)
Definition dasd_eckd_analysis_ccw (clk : sync_clock) (now : Z)
    (device : dev_id) (m : machine) : ERR_OR dasd_ccw_req * machine :=
  let private := privs m device in
  let cplen := 8 in
  let dsize := sizeof_DE_eckd_data + 2 * sizeof_LO_eckd_data in
  match dasd_smalloc_request cplen dsize device with
  | ERR_PTR e => (ERR_PTR e, m)
  | PTR cqr =>
      let m := pool_add cqr m in
      (* Define extent for the first 3 tracks. *)
      let '(_, de_ccw, de) :=
        define_extent clk 0 2 DASD_ECKD_CCW_READ_COUNT private in
      (* Locate record for the first 4 records on track 0. *)
      let '(lo_ccw, lo0) :=
        locate_record 0 0 0 4 DASD_ECKD_CCW_READ_COUNT private 0 in
      let ccws := emit lo_ccw [de_ccw] in
      let ccws := read_counts 0 4 ccws in
      (* Locate record for the first record on track 2. *)
      let '(lo_ccw, lo2) :=
        locate_record 1 2 0 1 DASD_ECKD_CCW_READ_COUNT private 0 in
      let ccws := emit lo_ccw ccws in
      (* Read count ccw. *)
      let ccws := emit (read_count_ccw 4) ccws in
      let cqr :=
        {| cpaddr := rev ccws;
           data := {| d_DE := Some de; d_PFX := None; d_idaws := [];
                      d_cidaw := 0; d_LO := [lo0; lo2];
                      d_area := [store_LO 0 lo0; store_LO 1 lo2];
                      d_ect := [] |};
           cplength := cplength cqr;
           datasize := datasize cqr;
           startdev := device;
           memdev := device;
           cqr_block := None;
           expires := expires cqr;
           lpm := lpm cqr;
           retries := 0;
           buildclk := now;
           status := DASD_CQR_FILLED;
           DASD_CQR_FLAGS_FAILFAST := DASD_CQR_FLAGS_FAILFAST cqr;
           DASD_CQR_FLAGS_USE_ERP := DASD_CQR_FLAGS_USE_ERP cqr |} in
      (PTR cqr, pool_fill cqr m)
  end.

(** [dasd_eckd_analysis_callback(init_cqr, data)]; kicking the device has
    no counterpart in the machine. *)
Definition dasd_eckd_analysis_callback (init_cqr : dasd_ccw_req)
    (m : machine) : machine :=
  let device := startdev init_cqr in
  let private := privs m device in
  let m :=
    set_private device (set_init_cqr_status (status init_cqr) private) m in
  sfree_request init_cqr m.

Definition set_expires (v : Z) (cqr : dasd_ccw_req) : dasd_ccw_req :=
  {| cpaddr := cpaddr cqr; data := data cqr; cplength := cplength cqr;
     datasize := datasize cqr; startdev := startdev cqr;
     memdev := memdev cqr; cqr_block := cqr_block cqr;
     expires := v; lpm := lpm cqr; retries := retries cqr;
     buildclk := buildclk cqr; status := status cqr;
     DASD_CQR_FLAGS_FAILFAST := DASD_CQR_FLAGS_FAILFAST cqr;
     DASD_CQR_FLAGS_USE_ERP := DASD_CQR_FLAGS_USE_ERP cqr |}.

(** [dasd_eckd_start_analysis(block)].  The request it queues with
    [dasd_add_request_head] stays allocated; its callback is
    [dasd_eckd_analysis_callback]. *)
Definition dasd_eckd_start_analysis (clk : sync_clock) (now : Z)
    (block : dasd_block) (m : machine) : Z * machine :=
  match dasd_eckd_analysis_ccw clk now (base block) m with
  | (ERR_PTR e, m) => (e, m)
  | (PTR init_cqr, m) =>
      let init_cqr := set_expires (5 * HZ) init_cqr in
      (- EAGAIN, pool_fill init_cqr m)
  end.

(** [dasd_eckd_do_analysis(block)]. *)
Definition dasd_eckd_do_analysis (clk : sync_clock) (now : Z)
    (block : dasd_block) (m : machine) : Z * machine * dasd_block :=
  let private := privs m (base block) in
  if init_cqr_status private <? 0 then
    let '(rc, m) := dasd_eckd_start_analysis clk now block m in
    (rc, m, block)
  else
    let '(rc, private, block') := dasd_eckd_end_analysis private block in
    (rc, set_private (base block) private m, block').

(** ** Buffer finalization *)

(** [PAGE_SIZE] of s390 (asm/page.h) and [addr & PAGE_MASK]. *)
Definition PAGE_SIZE : Z := 4096.

Definition PAGE_MASK_of (addr : Z) : Z := Z.land addr (Z.lnot (PAGE_SIZE - 1)).

(** [for (off = 0; off < len; off += blksize) body] on any state; [off]
    is an [unsigned int] and the fuel is only a bound, as for
    [for_blocks]. *)
Fixpoint for_each_block {S : Type} (fuel : nat) (off len blksize : Z)
    (body : S -> S) (s : S) : S :=
  match fuel with
  | O => s
  | S fuel' =>
      if off <? len
      then for_each_block fuel' (u32 (off + blksize)) len blksize body
                          (body s)
      else s
  end.

(** What the loop of [dasd_eckd_free_cp] carries along: the position of
    [ccw] in the channel program, [recid], [dst] (0 for [NULL]), the
    memory, and the pages given back to [dasd_page_cache] so far. *)
Record free_state : Type :=
  { fs_ccw : nat;
    fs_recid : Z;
    fs_dst : Z;
    fs_mem : Z -> Z;
    fs_freed : list Z }.

(** The buffer address [dasd_eckd_free_cp] reads out of a data CCW:
    through the first indirect address word when the CCW has the IDA
    flag, otherwise the address itself.  A CCW that addresses the
    request's own data area has no buffer address. *)
Definition transfer_address (cqr : dasd_ccw_req) (ccw : ccw1) : option Z :=
  if CCW_FLAG_IDA (flags ccw) then
    match cda ccw with
    | pa_idaws n => nth_error (d_idaws (data cqr)) n
    | _ => None
    end
  else
    match cda ccw with
    | pa_buf a => Some a
    | _ => None
    end.

(** The body of the inner loop of [dasd_eckd_free_cp]; [None] when [ccw]
    has left the channel program or does not address a buffer. *)
Definition free_block (private : dasd_eckd_private) (cqr : dasd_ccw_req)
    (dir : data_dir) (blk_per_trk len : Z) (fs : free_state)
  : option free_state :=
  (* Skip locate record. *)
  let ccw :=
    if uses_cdl private && (fs_recid fs <=? 2 * blk_per_trk)
    then S (fs_ccw fs) else fs_ccw fs in
  if negb (fs_dst fs =? 0) then
    match nth_error (cpaddr cqr) ccw with
    | None => None
    | Some c =>
        match transfer_address cqr c with
        | None => None
        | Some cda =>
            let '(mem, freed) :=
              if negb (fs_dst fs =? cda) then
                (match dir with
                 | READ => memcpy (fs_mem fs) (fs_dst fs) cda len
                 | WRITE => fs_mem fs
                 end,
                 fs_freed fs ++ [PAGE_MASK_of cda])
              else (fs_mem fs, fs_freed fs) in
            Some {| fs_ccw := S ccw; fs_recid := fs_recid fs + 1;
                    fs_dst := 0; fs_mem := mem; fs_freed := freed |}
        end
    end
  else
    Some {| fs_ccw := S ccw; fs_recid := fs_recid fs + 1;
            fs_dst := fs_dst fs; fs_mem := fs_mem fs;
            fs_freed := fs_freed fs |}.

(** The body of [rq_for_each_segment] in [dasd_eckd_free_cp]. *)
Definition free_segment (private : dasd_eckd_private) (cqr : dasd_ccw_req)
    (dir : data_dir) (blksize blk_per_trk : Z) (bv : bio_vec)
    (fs : option free_state) : option free_state :=
  match fs with
  | None => None
  | Some fs =>
      let fs :=
        {| fs_ccw := fs_ccw fs; fs_recid := fs_recid fs;
           fs_dst := bv_page bv + bv_offset bv;
           fs_mem := fs_mem fs; fs_freed := fs_freed fs |} in
      for_each_block (Z.to_nat (bv_len bv)) 0 (bv_len bv) blksize
        (fun s => match s with
                  | Some s =>
                      free_block private cqr dir blk_per_trk (bv_len bv) s
                  | None => None
                  end)
        (Some fs)
  end.

(** [dasd_eckd_free_cp(cqr, req)]; [block] is [cqr->block].  The result
    is the return value, the machine and the pages given back to
    [dasd_page_cache]; it is [None] when the walk along the channel
    program leaves it or meets a CCW that does not address a buffer. *)
Definition dasd_eckd_free_cp (cqr : dasd_ccw_req) (block : dasd_block)
    (req : request) (m : machine) : option (Z * machine * list Z) :=
  let walked :=
    match dasd_page_cache m with
    | None => Some (mem m, [])
    | Some _ =>
        let private := privs m (base block) in
        let blksize := bp_block block in
        let blk_per_trk :=
          recs_per_track (dev_type (rdc_data private)) 0 blksize in
        let recid := Z.shiftr (sector req) (s2b_shift block) in
        (* Skip over define extent & locate record. *)
        let ccw := 1%nat in
        let ccw :=
          if negb (uses_cdl private) || (recid >? 2 * blk_per_trk)
          then S ccw else ccw in
        match
          fold_left
            (fun fs bv =>
               free_segment private cqr (rq_data_dir req) blksize
                            blk_per_trk bv fs)
            (segments req)
            (Some {| fs_ccw := ccw; fs_recid := recid; fs_dst := 0;
                     fs_mem := mem m; fs_freed := [] |})
        with
        | Some fs => Some (fs_mem fs, fs_freed fs)
        | None => None
        end
    end in
  match walked with
  | None => None
  | Some (mem', freed) =>
      let status := if status cqr =? DASD_CQR_DONE then 1 else 0 in
      Some (status, sfree_request cqr (set_mem mem' m), freed)
  end.

(** [dasd_eckd_free_alias_cp(cqr, req)]. *)
Definition dasd_eckd_free_alias_cp (cqr : dasd_ccw_req) (block : dasd_block)
    (req : request) (m : machine) : option (Z * machine * list Z) :=
  let m := add_priv_count (memdev cqr) (-1) m in
  dasd_eckd_free_cp cqr block req m.

(** ** Vocabulary of the properties *)

(** The permission mask of the extent is decided by the first [switch]
    alone. *)
Definition expected_mask (cmd : ccw_cmd) : Z * Z :=
  match cmd with
  | DASD_ECKD_CCW_READ_HOME_ADDRESS
  | DASD_ECKD_CCW_READ_RECORD_ZERO
  | DASD_ECKD_CCW_READ
  | DASD_ECKD_CCW_READ_MT
  | DASD_ECKD_CCW_READ_CKD
  | DASD_ECKD_CCW_READ_CKD_MT
  | DASD_ECKD_CCW_READ_KD
  | DASD_ECKD_CCW_READ_KD_MT
  | DASD_ECKD_CCW_READ_COUNT => (0x1, 0)
  | DASD_ECKD_CCW_WRITE
  | DASD_ECKD_CCW_WRITE_MT
  | DASD_ECKD_CCW_WRITE_KD
  | DASD_ECKD_CCW_WRITE_KD_MT => (0x2, 0)
  | DASD_ECKD_CCW_ERASE
  | DASD_ECKD_CCW_WRITE_HOME_ADDRESS
  | DASD_ECKD_CCW_WRITE_RECORD_ZERO => (0x3, 0x1)
  | DASD_ECKD_CCW_WRITE_CKD
  | DASD_ECKD_CCW_WRITE_CKD_MT
  | DASD_ECKD_CCW_LOCATE_RECORD
  | DASD_ECKD_CCW_DEFINE_EXTENT
  | DASD_ECKD_CCW_PFX => (0, 0)
  end.

(** Track 0 starts with the three label records of the compatible disk
    layout: key length 4 and data lengths 24, 144 and 80. *)
Definition cdl_track0 (p : dasd_eckd_private) : Prop :=
  forall i, (i < 3)%nat ->
    ec_kl (count_area_at p i) = 4
    /\ ec_dl (count_area_at p i) = nth i sizes_trk0 0 - 4.

(** The five count fields read have no key and the data length of the
    first. *)
Definition uniform_records (p : dasd_eckd_private) : Prop :=
  forall i, (i < 5)%nat ->
    ec_kl (count_area_at p i) = 0
    /\ ec_dl (count_area_at p i) = ec_dl (count_area_at p 0).

(** The record ids of the first and last block of a request, as
    [dasd_eckd_build_cp] computes them. *)
Definition first_rec_of (block : dasd_block) (req : request) : Z :=
  Z.shiftr (sector req) (s2b_shift block).

Definition last_rec_of (block : dasd_block) (req : request) : Z :=
  Z.shiftr (u64 (sector req + nr_sectors req - 1)) (s2b_shift block).

(** The request passes the two checks [dasd_eckd_build_cp] makes before
    it allocates anything: every segment is made of full blocks, and the
    segments hold as many blocks as the sector range. *)
Definition request_checks_pass (block : dasd_block) (req : request) : Prop :=
  exists count cidaw,
    check_segments (bp_block block) (s2b_shift block) (segments req) 0 0
    = Some (count, cidaw)
    /\ u64 count = u64 (last_rec_of block req - first_rec_of block req + 1).

(** The commands for which [define_extent] and [prefix] consult the
    synchronized clock. *)
Definition write_family (cmd : ccw_cmd) : bool :=
  match cmd with
  | DASD_ECKD_CCW_WRITE
  | DASD_ECKD_CCW_WRITE_MT
  | DASD_ECKD_CCW_WRITE_KD
  | DASD_ECKD_CCW_WRITE_KD_MT
  | DASD_ECKD_CCW_WRITE_CKD
  | DASD_ECKD_CCW_WRITE_CKD_MT
  | DASD_ECKD_CCW_ERASE
  | DASD_ECKD_CCW_WRITE_HOME_ADDRESS
  | DASD_ECKD_CCW_WRITE_RECORD_ZERO => true
  | _ => false
  end.

(** The define-extent block of a request: the one of its prefix block
    when the request starts with a prefix CCW. *)
Definition extent_block (d : cqr_data) : option DE_eckd_data :=
  match d_PFX d with
  | Some pfx => Some (define_extend pfx)
  | None => d_DE d
  end.

(** The return code [check_XRC] makes of the clock's. *)
Definition xrc_rc (clk : sync_clock) : Z :=
  if (sc_rc clk =? - ENOSYS) || (sc_rc clk =? - EACCES) then 0
  else sc_rc clk.

(** The CCWs of a channel program that transfer data: everything but the
    define-extent, prefix and locate-record CCWs. *)
Definition is_data_ccw (c : ccw1) : bool :=
  match cmd_code c with
  | DASD_ECKD_CCW_DEFINE_EXTENT
  | DASD_ECKD_CCW_LOCATE_RECORD
  | DASD_ECKD_CCW_PFX => false
  | _ => true
  end.

Definition data_ccws (cp : list ccw1) : list ccw1 := filter is_data_ccw cp.

(** A CCW without its chain-command flag, which the builder sets on a CCW
    only when it appends the next one. *)
Definition clear_CC (c : ccw1) : ccw1 :=
  {| cmd_code := cmd_code c;
     flags := {| CCW_FLAG_CC := false;
                 CCW_FLAG_SLI := CCW_FLAG_SLI (flags c);
                 CCW_FLAG_IDA := CCW_FLAG_IDA (flags c) |};
     count := count c; cda := cda c |}.

(** The data CCWs of a program under construction, chain flags aside. *)
Definition data_view (ccws : list ccw1) : list ccw1 :=
  map clear_CC (data_ccws ccws).

(** The sum of a list of byte counts, and the total length of the
    segments of a request. *)
Definition sum_Z (l : list Z) : Z := fold_right Z.add 0 l.

Definition segments_len (segs : list bio_vec) : Z := sum_Z (map bv_len segs).

(** A data CCW addresses its buffer directly exactly when the buffer needs
    no indirect address list; otherwise it carries the IDA flag and points
    into the request's address words. *)
Definition addressing_ok (blksize : Z) (c : ccw1) : Prop :=
  match cda c with
  | pa_buf a =>
      CCW_FLAG_IDA (flags c) = false /\ idal_is_needed a blksize = false
  | pa_idaws _ => CCW_FLAG_IDA (flags c) = true
  | _ => False
  end.

(** The number of blocks in the segments of a request. *)
Definition blocks_in (blksize : Z) (segs : list bio_vec) : nat :=
  fold_right (fun bv n => (Z.to_nat (bv_len bv / blksize) + n)%nat) O segs.

(** The state of the second loop after [k] blocks of a request that
    starts at record [first]: the running record id, the byte counts of the
    data CCWs built so far (most recent first) and their addressing. *)
Definition blocks_built (private : dasd_eckd_private)
    (blksize bpt first : Z) (k : nat) (st : cp_state) : Prop :=
  st_recid st = first + Z.of_nat k
  /\ map count (data_view (st_ccws st))
     = rev (map (fun j => record_count (uses_cdl private) bpt
                                       (first + Z.of_nat j) blksize)
                (seq 0 k))
  /\ Forall (addressing_ok blksize) (data_view (st_ccws st)).

(** [cmd] as [dasd_eckd_build_cp] chooses it. *)
Definition cmd_of (dir : data_dir) : ccw_cmd :=
  match dir with
  | READ => DASD_ECKD_CCW_READ_MT
  | WRITE => DASD_ECKD_CCW_WRITE_MT
  end.

(** The block size is the power of two the sector shift stands for, and
    no segment is so long that the byte offset of the inner loop wraps. *)
Definition block_geometry_ok (block : dasd_block) (req : request) : Prop :=
  0 <= s2b_shift block
  /\ bp_block block = 2 ^ (s2b_shift block + 9)
  /\ Forall (fun bv => 0 <= bv_len bv /\ bv_len bv + bp_block block <= 2 ^ 32)
            (segments req).

(** The buffer a segment is transferred from or to, and what is left of
    [dasd_page_cache]: the caller's memory, or the page of the cache that
    replaces it. *)
Definition segment_buffer (bv : bio_vec) (cache : option (list (option Z)))
  : Z * option (list (option Z)) :=
  match cache with
  | Some (Some copy :: later) => (copy + bv_offset bv, Some later)
  | Some (None :: later) => (bv_page bv + bv_offset bv, Some later)
  | Some [] => (bv_page bv + bv_offset bv, Some [])
  | None => (bv_page bv + bv_offset bv, None)
  end.

(** The memory a segment's blocks are built on: for a write that got a
    page of the cache, the caller's data has been copied to the page. *)
Definition segment_mem (dir : data_dir) (bv : bio_vec)
    (cache : option (list (option Z))) (mem : Z -> Z) : Z -> Z :=
  match cache, dir with
  | Some (Some copy :: _), WRITE =>
      memcpy mem (copy + bv_offset bv) (bv_page bv + bv_offset bv)
             (bv_len bv)
  | _, _ => mem
  end.

(** The indirect address words of a list of block buffers: the words of
    the buffers that need an indirect address list, and nothing for the
    others. *)
Definition idaws_of (blksize : Z) (buffers : list Z) : list Z :=
  concat (map (fun dst => if idal_is_needed dst blksize
                          then idal_create_words dst blksize else [])
              buffers).

(** The buffer of each block of a request, in record order. *)
Fixpoint block_buffers (blksize : Z) (segs : list bio_vec)
    (cache : option (list (option Z))) : list Z :=
  match segs with
  | [] => []
  | bv :: rest =>
      map (fun j => fst (segment_buffer bv cache) + Z.of_nat j * blksize)
          (seq 0 (Z.to_nat (bv_len bv / blksize)))
      ++ block_buffers blksize rest (snd (segment_buffer bv cache))
  end.

(** The caller's own memory for each block of a request. *)
Definition caller_buffers (blksize : Z) (segs : list bio_vec) : list Z :=
  block_buffers blksize segs None.

(** *** The channel program of a request, record by record *)

(** A channel program under construction in program order, chain flags
    aside. *)
Definition program_view (ccws : list ccw1) : list ccw1 :=
  map clear_CC (rev ccws).

(** Command chaining: every CCW of a channel program but the last one
    carries the chain-command flag. *)
Definition chained (cp : list ccw1) : Prop :=
  forall i c, nth_error cp i = Some c ->
    CCW_FLAG_CC (flags c) = negb (Nat.eqb (S i) (length cp)).

(** The same for a program under construction, most recent CCW first. *)
Definition open_chain (ccws : list ccw1) : Prop :=
  match ccws with
  | [] => True
  | c :: before =>
      CCW_FLAG_CC (flags c) = false
      /\ Forall (fun x => CCW_FLAG_CC (flags x) = true) before
  end.

(** The locate-record CCW for the [n]-th locate-record block. *)
Definition locate_ccw (n : nat) : ccw1 :=
  {| cmd_code := DASD_ECKD_CCW_LOCATE_RECORD; flags := flags_0; count := 16;
     cda := pa_LO_data n |}.

(** Record [recid] gets a locate-record CCW of its own: the records of
    the first two tracks of a compatible disk layout, and the first
    record behind them. *)
Definition needs_locate (private : dasd_eckd_private) (bpt recid : Z)
  : bool :=
  uses_cdl private && (recid <=? 2 * bpt).

(** The command of the data CCW of record [recid]. *)
Definition record_cmd (private : dasd_eckd_private) (cmd : ccw_cmd)
    (bpt recid : Z) : ccw_cmd :=
  if uses_cdl private && (recid <? 2 * bpt)
     && negb (dasd_eckd_cdl_special bpt recid =? 0)
  then kd_variant cmd else cmd.

(** The locate-record block of record [recid], if it has one: a single
    record with its own command and length on the first two tracks, the
    rest of the request at the first record behind them; the track is
    passed as an [int]. *)
Definition record_LO (private : dasd_eckd_private) (cmd : ccw_cmd)
    (blksize bpt last_rec recid : Z) : list LO_eckd_data :=
  if uses_cdl private && (recid <? 2 * bpt) then
    [snd (locate_record 0 (s32 (recid / bpt)) (recid mod bpt + 1) 1
            (record_cmd private cmd bpt recid) private
            (record_count (uses_cdl private) bpt recid blksize))]
  else if uses_cdl private && (recid =? 2 * bpt) then
    [snd (locate_record 0 (s32 (recid / bpt)) (recid mod bpt + 1)
            (last_rec - recid + 1) cmd private blksize)]
  else [].

(** The data CCW of record [recid] with buffer [dst], when [nIDA] address
    words are in use already. *)
Definition data_ccw (private : dasd_eckd_private) (cmd : ccw_cmd)
    (blksize bpt recid dst : Z) (nIDA : nat) : ccw1 :=
  {| cmd_code := record_cmd private cmd bpt recid;
     flags := if idal_is_needed dst blksize then flags_IDA else flags_0;
     count := record_count (uses_cdl private) bpt recid blksize;
     cda := if idal_is_needed dst blksize then pa_idaws nIDA
            else pa_buf dst |}.

(** The CCWs for the records [recid, recid + 1, ...] with the given
    buffers, when [nLO] locate-record blocks and [nIDA] address words are
    in use already. *)
Fixpoint records_program (private : dasd_eckd_private) (cmd : ccw_cmd)
    (blksize bpt recid : Z) (nLO nIDA : nat) (buffers : list Z)
  : list ccw1 :=
  match buffers with
  | [] => []
  | dst :: rest =>
      (if needs_locate private bpt recid then [locate_ccw nLO] else [])
      ++ data_ccw private cmd blksize bpt recid dst nIDA
      :: records_program private cmd blksize bpt (recid + 1)
           (if needs_locate private bpt recid then S nLO else nLO)
           (nIDA + length (idaws_of blksize [dst])) rest
  end.

(** The locate-record blocks of [n] records from [recid] on. *)
Fixpoint records_LO (private : dasd_eckd_private) (cmd : ccw_cmd)
    (blksize bpt last_rec recid : Z) (n : nat) : list LO_eckd_data :=
  match n with
  | O => []
  | S n' =>
      record_LO private cmd blksize bpt last_rec recid
      ++ records_LO private cmd blksize bpt last_rec (recid + 1) n'
  end.

(** A request that starts behind the first two tracks of a compatible
    disk layout, or on any other volume, has one locate-record CCW for all
    its records, right behind the first CCW. *)
Definition one_locate (private : dasd_eckd_private) (bpt first : Z) : bool :=
  negb (uses_cdl private) || (first >? 2 * bpt).

(** The length of the channel program [dasd_eckd_build_cp] asks the
    allocator for, for [count] blocks. *)
Definition requested_cplength (private : dasd_eckd_private)
    (bpt first last count : Z) : Z :=
  if uses_cdl private && (first <? 2 * bpt)
  then 2 + count + (if last >=? 2 * bpt then 2 * bpt - first else count)
  else 2 + count.

(** The stores [area] are the stores of the address words [words] and of
    the locate-record blocks [los], each at its index: a store belongs to
    one of them, and each of them has its store. *)
Definition area_of (words : list Z) (los : list LO_eckd_data)
    (area : list area_store) : Prop :=
  (forall s, In s area ->
     match s with
     | store_idaw i w => nth_error words i = Some w
     | store_LO k lo => nth_error los k = Some lo
     end)
  /\ (forall i w, nth_error words i = Some w -> In (store_idaw i w) area)
  /\ (forall k lo, nth_error los k = Some lo -> In (store_LO k lo) area).

(** Whether the prefix command is available on the base device. *)
Definition use_prefix (private : dasd_eckd_private) : bool :=
  negb (Z.land (feature_8 private) 0x01 =? 0).

(** The number of CCWs of [n] records from [recid] on. *)
Fixpoint program_span (private : dasd_eckd_private) (bpt recid : Z)
    (n : nat) : nat :=
  match n with
  | O => O
  | S n' =>
      ((if needs_locate private bpt recid then 2 else 1)
       + program_span private bpt (recid + 1) n')%nat
  end.

(** *** Buffer finalization, segment by segment *)

(** What is to be done for the segments of a request when it is released:
    a segment that the builder moved to a page of the cache is copied back
    to the caller's memory if the request was a read, and its page is
    given back.  The result is the memory and the pages given back. *)
Fixpoint finalized (dir : data_dir) (segs : list bio_vec)
    (cache : option (list (option Z))) (acc : (Z -> Z) * list Z)
  : (Z -> Z) * list Z :=
  match segs with
  | [] => acc
  | bv :: rest =>
      let a := bv_page bv + bv_offset bv in
      let b := fst (segment_buffer bv cache) in
      let acc :=
        if (0 <? bv_len bv) && negb (a =? 0) && negb (a =? b)
        then (match dir with
              | READ => memcpy (fst acc) a b (bv_len bv)
              | WRITE => fst acc
              end,
              snd acc ++ [PAGE_MASK_of b])
        else acc in
      finalized dir rest (snd (segment_buffer bv cache)) acc
  end.

(** The pages the builder takes from the cache for the segments of a
    request. *)
Fixpoint pages_taken (segs : list bio_vec) (cache : option (list (option Z)))
  : list Z :=
  match segs with
  | [] => []
  | bv :: rest =>
      match cache with
      | Some (Some copy :: later) => copy :: pages_taken rest (Some later)
      | Some (None :: later) => pages_taken rest (Some later)
      | Some [] => pages_taken rest (Some [])
      | None => pages_taken rest None
      end
  end.

(** What is left of the page cache after the segments [segs]. *)
Fixpoint cache_after (segs : list bio_vec)
    (cache : option (list (option Z))) : option (list (option Z)) :=
  match segs with
  | [] => cache
  | bv :: rest => cache_after rest (snd (segment_buffer bv cache))
  end.

(** The address [x] lies in the caller's memory of the segment. *)
Definition in_segment (bv : bio_vec) (x : Z) : Prop :=
  bv_page bv + bv_offset bv <= x < bv_page bv + bv_offset bv + bv_len bv.

(** The segments are not empty, do not start at address 0 and start
    inside their page. *)
Definition segments_ok (segs : list bio_vec) : Prop :=
  Forall (fun bv => 0 < bv_len bv
                    /\ bv_page bv + bv_offset bv <> 0
                    /\ 0 <= bv_offset bv < PAGE_SIZE) segs.

(** The pages of the cache are page-aligned and none of them is a page
    of the request. *)
Definition cache_pages_ok (segs : list bio_vec)
    (cache : option (list (option Z))) : Prop :=
  forall outcomes copy,
    cache = Some outcomes -> In (Some copy) outcomes ->
    0 <= copy /\ copy mod PAGE_SIZE = 0
    /\ Forall (fun bv => bv_page bv <> copy) segs.

(** *** Configuration records *)

(** A node-element descriptor, and a general node-element qualifier. *)
Definition is_ned (r : dasd_sneq) : bool :=
  (identifier r =? 3) && (res1 r =? 1).

Definition is_gneq (r : dasd_sneq) : bool := identifier r =? 2.

(** Position [i] holds the last, respectively the first, record of a
    kind. *)
Definition last_of (f : dasd_sneq -> bool) (l : list dasd_sneq) (i : nat)
  : Prop :=
  (exists r, nth_error l i = Some r /\ f r = true)
  /\ forall k r, (i < k)%nat -> nth_error l k = Some r -> f r = false.

Definition first_of (f : dasd_sneq -> bool) (l : list dasd_sneq) (i : nat)
  : Prop :=
  (exists r, nth_error l i = Some r /\ f r = true)
  /\ forall k r, (k < i)%nat -> nth_error l k = Some r -> f r = false.

(** The addresses of the data-transfer CCWs of a program under
    construction, in program order. *)
Definition transfer_cdas (ccws : list ccw1) : list cda_t :=
  map cda (data_ccws (rev ccws)).

(** What the three stages of the format planner keep: the program is an
    open chain and its count CCWs address the count fields written so
    far, in order. *)
Definition format_stage (st : list ccw1 * list eckd_count) : Prop :=
  open_chain (fst st)
  /\ transfer_cdas (fst st) = map pa_ect (seq 0 (length (snd st))).

(** * Properties *)

(** ** Arithmetic helpers *)

Lemma u32_small (x : Z) : 0 <= x < 2 ^ 32 -> u32 x = x.
Proof. intros H. unfold u32. apply Z.mod_small. exact H. Qed.

Lemma ceiling_div (a b : Z) : 0 < b -> ceiling a b = (a + b - 1) / b.
Proof.
  intros Hb. unfold ceiling.
  pose proof (Z.div_mod (a + b - 1) b ltac:(lia)) as E.
  pose proof (Z.mod_pos_bound (a + b - 1) b Hb) as B.
  assert (- a / b = - ((a + b - 1) / b)) as ->; [|lia].
  symmetry. apply Z.div_unique with (r := b - 1 - (a + b - 1) mod b); lia.
Qed.

Lemma ceil_quot_ceiling (a b : Z) :
  0 < b -> 0 <= a -> a + b <= 2 ^ 32 -> ceil_quot a b = ceiling a b.
Proof.
  intros Hb Ha Hs. unfold ceil_quot.
  rewrite (u32_small (b - 1)) by lia.
  rewrite u32_small by lia.
  rewrite ceiling_div by exact Hb. f_equal. lia.
Qed.

Lemma ceiling_bounds (a b : Z) :
  0 < b -> 0 <= a -> 0 <= ceiling a b /\ b * ceiling a b < a + b.
Proof.
  intros Hb Ha. rewrite ceiling_div by exact Hb.
  pose proof (Z.div_mod (a + b - 1) b ltac:(lia)) as E.
  pose proof (Z.mod_pos_bound (a + b - 1) b Hb) as B.
  split; [apply Z.div_pos; lia | lia].
Qed.

Lemma data_cells_eq (len : Z) :
  0 <= len < 2 ^ 31 ->
  ceil_quot (u32 (len + 6 * (ceil_quot (u32 (len + 6)) 232 + 1))) 34
  = data_cells len
  /\ 0 <= data_cells len < 2 ^ 28.
Proof.
  intros H. unfold data_cells.
  rewrite (u32_small (len + 6)) by lia.
  rewrite (ceil_quot_ceiling (len + 6) 232) by lia.
  pose proof (ceiling_bounds (len + 6) 232 ltac:(lia) ltac:(lia)) as [B1 B2].
  set (dn := ceiling (len + 6) 232) in *.
  rewrite u32_small by lia.
  rewrite ceil_quot_ceiling by lia.
  pose proof (ceiling_bounds (len + 6 * (dn + 1)) 34 ltac:(lia) ltac:(lia)).
  split; [reflexivity | lia].
Qed.

Lemma ceil32_eq (len : Z) :
  0 <= len < 2 ^ 31 ->
  ceil_quot (u32 (len + 12)) 32 = ceiling (len + 12) 32
  /\ 0 <= ceiling (len + 12) 32 < 2 ^ 28.
Proof.
  intros H.
  rewrite (u32_small (len + 12)) by lia.
  rewrite ceil_quot_ceiling by lia.
  pose proof (ceiling_bounds (len + 12) 32 ltac:(lia) ltac:(lia)).
  split; [reflexivity | lia].
Qed.

(** ** Geometry calculator *)

(** C2 (as amended).  [recs_per_track] is a function of the device
    type, the key length and the data length.  It returns 0 for every
    device type other than 0x3380, 0x3390 and 0x9345.  For key and data
    lengths below 2^31, where no intermediate sum wraps, it is the closed
    capacity formula of the model, with the mathematical ceiling inside
    and one truncating division outside; for a 0x3390 and key length 0
    that is 1729 / (19 + ceil((dl + 6 * (ceil((dl + 6) / 232) + 1)) / 34)).
    *)
Theorem recs_per_track_closed_form (dev kl dl : Z) :
  (dev <> 0x3380 -> dev <> 0x3390 -> dev <> 0x9345 ->
   recs_per_track dev kl dl = 0)
  /\ (0 <= kl < 2 ^ 31 -> 0 <= dl < 2 ^ 31 ->
      recs_per_track dev kl dl = capacity_formula dev kl dl)
  /\ (0 <= dl < 2 ^ 31 ->
      recs_per_track 0x3390 0 dl
      = 1729 / (19 + ceiling (dl + 6 * (ceiling (dl + 6) 232 + 1)) 34)).
Proof.
  split; [|split].
  - intros H1 H2 H3. unfold recs_per_track.
    destruct (Z.eqb_spec dev 0x3380); [contradiction|].
    destruct (Z.eqb_spec dev 0x3390); [contradiction|].
    destruct (Z.eqb_spec dev 0x9345); [contradiction|].
    reflexivity.
  - intros Hk Hd.
    destruct (data_cells_eq dl Hd) as [Ed Bd].
    destruct (data_cells_eq kl Hk) as [Ek Bk].
    destruct (ceil32_eq dl Hd) as [Ed' Bd'].
    destruct (ceil32_eq kl Hk) as [Ek' Bk'].
    unfold recs_per_track, capacity_formula.
    destruct (dev =? 0x3380).
    { destruct (kl =? 0); cbn [negb].
      - rewrite Ed'. rewrite u32_small by lia. reflexivity.
      - rewrite Ed', Ek'. rewrite u32_small by lia. reflexivity. }
    destruct (dev =? 0x3390).
    { cbv zeta. destruct (kl =? 0); cbn [negb].
      - rewrite Ed. rewrite u32_small by lia. reflexivity.
      - rewrite Ed, Ek. rewrite u32_small by lia. reflexivity. }
    destruct (dev =? 0x9345).
    { cbv zeta. destruct (kl =? 0); cbn [negb].
      - rewrite Ed. rewrite u32_small by lia. reflexivity.
      - rewrite Ed, Ek. rewrite u32_small by lia. reflexivity. }
    reflexivity.
  - intros Hd. destruct (data_cells_eq dl Hd) as [Ed Bd].
    unfold recs_per_track. cbn [Z.eqb Pos.eqb negb]. cbv zeta.
    rewrite Ed. rewrite u32_small by lia. unfold data_cells.
    f_equal.
Qed.

(** ** Record layout classifier *)

(** C1 (as amended).  On a compatible-disk-layout volume, for every
    number of records per track, record [i] is special exactly when
    [i < 3] or [rpt <= i < 2 * rpt]; the special records 0, 1 and 2 have the
    lengths 28, 148 and 84, the special records [i >= 3] of the second
    track have the label length 140, and the builder gives a special
    record below [2 * rpt] its special length and every other record, in
    particular every [i >= 2 * rpt], the caller's block size. *)
Theorem cdl_record_classification (rpt i blksize : Z) :
  - 2 ^ 30 <= rpt < 2 ^ 30 ->
  (dasd_eckd_cdl_special rpt i <> 0 <-> (i < 3 \/ rpt <= i < 2 * rpt))
  /\ dasd_eckd_cdl_reclen 0 = 28
  /\ dasd_eckd_cdl_reclen 1 = 148
  /\ dasd_eckd_cdl_reclen 2 = 84
  /\ (3 <= i -> rpt <= i < 2 * rpt -> dasd_eckd_cdl_reclen i = 140)
  /\ (dasd_eckd_cdl_special rpt i <> 0 -> i < 2 * rpt ->
      record_count true rpt i blksize = dasd_eckd_cdl_reclen i)
  /\ (dasd_eckd_cdl_special rpt i = 0 ->
      record_count true rpt i blksize = blksize)
  /\ (2 * rpt <= i -> record_count true rpt i blksize = blksize).
Proof.
  intros _.
  split; [|split; [|split; [|split; [|split; [|split; [|split]]]]]];
    try reflexivity.
  - unfold dasd_eckd_cdl_special.
    destruct (Z.ltb_spec i 3); [split; [lia | discriminate]|].
    destruct (Z.ltb_spec i rpt); [split; [congruence | lia]|].
    destruct (Z.ltb_spec i (2 * rpt)); split; (congruence || lia).
  - intros H3 Hi. unfold dasd_eckd_cdl_reclen.
    destruct (Z.ltb_spec i 3); [lia|reflexivity].
  - intros Hs Hi. unfold record_count.
    destruct (Z.ltb_spec i (2 * rpt)); [|lia].
    destruct (Z.eqb_spec (dasd_eckd_cdl_special rpt i) 0); [contradiction|].
    reflexivity.
  - intros Hs. unfold record_count. rewrite Hs.
    destruct (i <? 2 * rpt); reflexivity.
  - intros Hi. unfold record_count.
    destruct (Z.ltb_spec i (2 * rpt)); [lia|reflexivity].
Qed.

(** ** Extent definition *)

Lemma u16_small (x : Z) : 0 <= x < 2 ^ 16 -> u16 x = x.
Proof. intros H. unfold u16. apply Z.mod_small. exact H. Qed.

Lemma check_XRC_mask clk ccw data private :
  mask_perm (snd (check_XRC clk ccw data private)) = mask_perm data
  /\ mask_auth (snd (check_XRC clk ccw data private)) = mask_auth data
  /\ attributes_operation (snd (check_XRC clk ccw data private))
     = attributes_operation data.
Proof.
  unfold check_XRC. destruct (XRC_supported (rdc_data private)); cbn; auto.
Qed.

Lemma extent_of_mask private trk totrk data :
  mask_perm (extent_of private trk totrk data) = mask_perm data
  /\ mask_auth (extent_of private trk totrk data) = mask_auth data
  /\ attributes_operation (extent_of private trk totrk data)
     = attributes_operation data.
Proof. unfold extent_of. cbn. auto. Qed.

Lemma regular_data_format_mask private trk data :
  mask_perm (regular_data_format private trk data) = mask_perm data
  /\ mask_auth (regular_data_format private trk data) = mask_auth data
  /\ attributes_operation (regular_data_format private trk data)
     = attributes_operation data.
Proof.
  unfold regular_data_format.
  match goal with |- context [if ?c then _ else _] => destruct c end;
    cbn; auto.
Qed.

(** C7 (as amended).  The permission mask [define_extent] writes depends
    on the command code alone: the nine read commands give permission 0x1,
    WRITE, WRITE_MT, WRITE_KD and WRITE_KD_MT give 0x2, ERASE,
    WRITE_HOME_ADDRESS and WRITE_RECORD_ZERO give 0x3 with authorization
    0x1, and WRITE_CKD, WRITE_CKD_MT and every other code leave the mask
    zero. *)
Theorem define_extent_mask clk trk totrk cmd private :
  let de := snd (define_extent clk trk totrk cmd private) in
  (mask_perm de, mask_auth de) = expected_mask cmd.
Proof.
  cbv zeta. unfold define_extent.
  destruct cmd; cbv zeta;
    repeat match goal with
      | |- context [check_XRC ?c ?w ?d ?p] =>
          let H := fresh in
          pose proof (check_XRC_mask c w d p) as H;
          destruct (check_XRC c w d p) as [[? ?] ?]; cbn [snd] in H
      end;
    cbn [snd];
    match goal with
    | |- context [extent_of ?p ?a ?b ?d] =>
        destruct (extent_of_mask p a b d) as (-> & -> & _)
    end;
    match goal with
    | |- context [regular_data_format ?p ?a ?d] =>
        destruct (regular_data_format_mask p a d) as (-> & -> & _)
    end;
    cbn [mask_perm mask_auth set_attributes_mode];
    try match goal with
      | H : _ /\ _ /\ _ |- _ => destruct H as (-> & -> & _)
      end;
    reflexivity.
Qed.

Lemma define_extent_is_extent clk trk totrk cmd private :
  exists d, snd (define_extent clk trk totrk cmd private)
            = extent_of private trk totrk d.
Proof.
  unfold define_extent.
  destruct cmd; cbv zeta;
    repeat match goal with
      | |- context [check_XRC ?c ?w ?d ?p] =>
          destruct (check_XRC c w d p) as [[? ?] ?]
      end;
    cbn [snd]; eexists; reflexivity.
Qed.

Lemma extent_of_end_cylinder private trk totrk d :
  0 < trk_per_cyl (rdc_data private) < 2 ^ 16 ->
  0 < no_cyl (rdc_data private) < 2 ^ 16 ->
  0 <= nr_cyl (attrib private) < 2 ^ 16 ->
  0 <= totrk < 2 ^ 16 * trk_per_cyl (rdc_data private) ->
  let de := extent_of private trk totrk d in
  let e := totrk / trk_per_cyl (rdc_data private) in
  (attributes_operation de = DASD_SEQ_PRESTAGE
   \/ attributes_operation de = DASD_SEQ_ACCESS ->
   cyl (end_ext de)
   = Z.min (e + nr_cyl (attrib private)) (no_cyl (rdc_data private) - 1))
  /\ (attributes_operation de <> DASD_SEQ_PRESTAGE ->
      attributes_operation de <> DASD_SEQ_ACCESS ->
      cyl (end_ext de) = e).
Proof.
  intros Hh Hc Hn Ht. cbv zeta.
  unfold extent_of. cbn [end_ext set_extent attributes_operation cyl head].
  rewrite (u16_small (trk_per_cyl _)) by lia.
  rewrite (u16_small (no_cyl _)) by lia.
  rewrite Z.quot_div_nonneg by lia.
  set (e := totrk / trk_per_cyl (rdc_data private)).
  assert (He : 0 <= e < 2 ^ 16).
  { subst e. split; [apply Z.div_pos; lia|].
    apply Z.div_lt_upper_bound; lia. }
  rewrite (u16_small e) by lia.
  destruct (attributes_operation d); cbn [cache_op_eqb orb cyl];
    (split; [intros [E|E]; try discriminate E | intros N1 N2; try congruence]);
    destruct (Z.ltb_spec (e + nr_cyl (attrib private))
                (no_cyl (rdc_data private)));
    cbn [cyl]; rewrite u16_small by lia; lia.
Qed.

(** C6.  When the operation attribute of the extent is sequential
    prestage or sequential access, its end cylinder is the smaller of the
    end track's cylinder plus the configured number of cylinders and the
    last cylinder of the volume; for every other operation it is the end
    track's cylinder, [totrk / trk_per_cyl]. *)
Theorem define_extent_end_cylinder clk trk totrk cmd private :
  0 < trk_per_cyl (rdc_data private) < 2 ^ 16 ->
  0 < no_cyl (rdc_data private) < 2 ^ 16 ->
  0 <= nr_cyl (attrib private) < 2 ^ 16 ->
  0 <= totrk < 2 ^ 16 * trk_per_cyl (rdc_data private) ->
  let de := snd (define_extent clk trk totrk cmd private) in
  let e := totrk / trk_per_cyl (rdc_data private) in
  (attributes_operation de = DASD_SEQ_PRESTAGE
   \/ attributes_operation de = DASD_SEQ_ACCESS ->
   cyl (end_ext de)
   = Z.min (e + nr_cyl (attrib private)) (no_cyl (rdc_data private) - 1))
  /\ (attributes_operation de <> DASD_SEQ_PRESTAGE ->
      attributes_operation de <> DASD_SEQ_ACCESS ->
      cyl (end_ext de) = e).
Proof.
  intros Hh Hc Hn Ht.
  destruct (define_extent_is_extent clk trk totrk cmd private) as [d ->].
  apply extent_of_end_cylinder; assumption.
Qed.

(** ** Format planner *)

Lemma recs_per_track_nonneg dev kl dl : 0 <= recs_per_track dev kl dl.
Proof.
  assert (H : forall c x, 0 <= c -> 0 <= c / u32 x).
  { intros c x Hc. apply Z_div_nonneg_nonneg; [exact Hc|].
    unfold u32. apply Z.mod_pos_bound. lia. }
  unfold recs_per_track.
  repeat match goal with
    | |- context [if ?c then _ else _] => destruct c
    end; cbv zeta; try apply H; lia.
Qed.

Lemma emit_length c l : length (emit c l) = S (length l).
Proof. destruct l; reflexivity. Qed.

Lemma format_records_length fdata cyl head n :
  forall i ccws ects,
    length (fst (format_records fdata cyl head i n (ccws, ects)))
    = (n + length ccws)%nat.
Proof.
  induction n as [|n IH]; intros i ccws ects; cbn [format_records].
  - reflexivity.
  - rewrite IH, emit_length. lia.
Qed.

(** Runs the second half of [dasd_eckd_format_device] symbolically for a
    known intensity. *)
Ltac format_program :=
  repeat match goal with
    | |- context [Z.land ?a ?b] =>
        let v := eval vm_compute in (Z.land a b) in
        progress change (Z.land a b) with v
    end;
  cbn [Z.eqb Pos.eqb negb];
  cbv zeta;
  repeat match goal with
    | |- context [define_extent ?a ?b ?c ?d ?e] =>
        destruct (define_extent a b c d e) as [[? ?] ?]
    | |- context [locate_record ?a ?b ?c ?d ?e ?f ?g] =>
        destruct (locate_record a b c d e f g) as [? ?]
    end;
  try match goal with
    | |- context [format_records ?a ?b ?c ?d ?e (?f, ?g)] =>
        let L := fresh "L" in
        pose proof (format_records_length a b c e d f g) as L;
        destruct (format_records a b c d e (f, g)) as [? ?];
        cbn [fst] in L
    end;
  cbn [fst].

(** C8.  Once the sanity checks on the track range and block size have
    passed and the request pool has room, [dasd_eckd_format_device]
    accepts the intensities 0x00/0x08 (normal format), 0x01/0x09 (write
    record zero, then format) and 0x04/0x0c (invalidate track), asks for
    and builds 2 + rpt, 3 + rpt and 3 CCWs respectively, and answers
    every other intensity with -EINVAL. *)
Theorem format_device_intensity clk now device block fdata m :
  let rdc := rdc_data (privs m device) in
  let rpt := recs_per_track (dev_type rdc) 0 (blksize fdata) in
  let r := fst (dasd_eckd_format_device clk now device block fdata m) in
  let built n :=
    option_map fst (format_sizes (intensity fdata) rpt) = Some n
    /\ exists fcp, r = PTR fcp /\ Z.of_nat (length (cpaddr fcp)) = n in
  start_unit fdata < no_cyl rdc * trk_per_cyl rdc ->
  start_unit fdata <= stop_unit fdata ->
  dasd_check_blocksize (blksize fdata) = 0 ->
  (forall cpl ds, exists fcp, dasd_smalloc_request cpl ds device = PTR fcp) ->
  (intensity fdata = 0x00 \/ intensity fdata = 0x08 -> built (2 + rpt))
  /\ (intensity fdata = 0x01 \/ intensity fdata = 0x09 -> built (3 + rpt))
  /\ (intensity fdata = 0x04 \/ intensity fdata = 0x0c -> built 3)
  /\ (intensity fdata <> 0x00 -> intensity fdata <> 0x08 ->
      intensity fdata <> 0x01 -> intensity fdata <> 0x09 ->
      intensity fdata <> 0x04 -> intensity fdata <> 0x0c ->
      r = ERR_PTR (- EINVAL)).
Proof.
  cbv zeta. intros H1 H2 H3 Halloc.
  pose proof (recs_per_track_nonneg
                (dev_type (rdc_data (privs m device))) 0 (blksize fdata))
    as Hrpt.
  unfold dasd_eckd_format_device.
  destruct (Z.geb_spec (start_unit fdata)
              (no_cyl (rdc_data (privs m device))
               * trk_per_cyl (rdc_data (privs m device)))); [lia|].
  destruct (Z.gtb_spec (start_unit fdata) (stop_unit fdata)); [lia|].
  rewrite H3. cbn [Z.eqb negb].
  set (rpt := recs_per_track _ 0 (blksize fdata)) in *.
  split; [|split; [|split]];
    try (intros [E|E]; rewrite E; (split; [reflexivity|]);
         cbn [format_sizes Z.eqb Pos.eqb orb];
         match goal with
         | |- context [dasd_smalloc_request ?cpl ?ds device] =>
             destruct (Halloc cpl ds) as [fcp ->]
         end;
         format_program;
         eexists; (split; [reflexivity|]);
         cbn [cpaddr]; rewrite length_rev;
         try match goal with L : length _ = _ |- _ => rewrite L end;
         cbn [emit length]; lia).
  - intros N0 N8 N1 N9 N4 Nc. unfold format_sizes.
    destruct (Z.eqb_spec (intensity fdata) 0x00); [contradiction|].
    destruct (Z.eqb_spec (intensity fdata) 0x08); [contradiction|].
    destruct (Z.eqb_spec (intensity fdata) 0x01); [contradiction|].
    destruct (Z.eqb_spec (intensity fdata) 0x09); [contradiction|].
    destruct (Z.eqb_spec (intensity fdata) 0x04); [contradiction|].
    destruct (Z.eqb_spec (intensity fdata) 0x0c); [contradiction|].
    reflexivity.
Qed.

(** ** Disk-layout analyzer *)

Lemma scan_range stop n :
  forall i, (i <= scan stop i n <= i + n)%nat.
Proof.
  induction n as [|n IH]; intros i; cbn [scan]; [lia|].
  destruct (stop i); [lia|]. specialize (IH (S i)). lia.
Qed.

Lemma scan_full stop n :
  forall i,
    scan stop i n = (i + n)%nat
    <-> (forall j, (i <= j < i + n)%nat -> stop j = false).
Proof.
  induction n as [|n IH]; intros i; cbn [scan].
  - split; [intros _ j Hj; lia | intros _; lia].
  - destruct (stop i) eqn:Si.
    + split; [lia|]. intros H. rewrite (H i) in Si by lia. discriminate.
    + replace (i + S n)%nat with (S i + n)%nat by lia. rewrite (IH (S i)).
      split; intros H j Hj.
      * destruct (Nat.eq_dec j i) as [->|]; [exact Si|]. apply H. lia.
      * apply H. lia.
Qed.

Lemma cdl_track0_scan p :
  scan (fun i =>
          negb (ec_kl (count_area_at p i) =? 4)
          || negb (ec_dl (count_area_at p i)
                   =? dasd_eckd_cdl_reclen (Z.of_nat i) - 4)) 0 3 = 3%nat
  <-> cdl_track0 p.
Proof.
  rewrite (scan_full _ 3 0). unfold cdl_track0. cbn [Nat.add].
  split; intros H i Hi.
  - specialize (H i ltac:(lia)). apply orb_false_elim in H as [H1 H2].
    apply negb_false_iff in H1, H2. apply Z.eqb_eq in H1, H2.
    split; [exact H1|]. rewrite H2.
    destruct i as [|[|[|i]]]; try reflexivity; lia.
  - destruct (H i ltac:(lia)) as [H1 H2]. rewrite H1, H2.
    replace (dasd_eckd_cdl_reclen (Z.of_nat i)) with (nth i sizes_trk0 0)
      by (destruct i as [|[|[|i]]]; try reflexivity; lia).
    rewrite !Z.eqb_refl. reflexivity.
Qed.

Lemma uniform_records_scan p :
  scan (fun i =>
          negb (ec_kl (count_area_at p i) =? 0)
          || negb (ec_dl (count_area_at p i)
                   =? ec_dl (count_area_at p 0))) 0 5 = 5%nat
  <-> uniform_records p.
Proof.
  rewrite (scan_full _ 5 0). unfold uniform_records. cbn [Nat.add].
  split; intros H i Hi.
  - specialize (H i ltac:(lia)). apply orb_false_elim in H as [H1 H2].
    apply negb_false_iff in H1, H2. apply Z.eqb_eq in H1, H2. auto.
  - destruct (H i ltac:(lia)) as [H1 H2]. rewrite H1, H2.
    rewrite !Z.eqb_refl. reflexivity.
Qed.

(** C4 (as amended).  After a phase-1 command list that completed with
    status Done, and with no block size set yet, [dasd_eckd_end_analysis]
    sets [uses_cdl] exactly when the first three count fields of track 0
    have key length 4 and data lengths 24, 144 and 80.  It then returns 0
    exactly when the count field read from track 2 has key length 0 and a
    valid block size as data length, which becomes the block size.  When
    track 0 does not match, it returns 0 exactly when the five count fields
    all have key length 0 and the data length of the first, and that is a
    valid block size.  In every other case it returns -EMEDIUMTYPE. *)
Theorem end_analysis_classification private block :
  init_cqr_status private = DASD_CQR_DONE ->
  bp_block block = 0 ->
  let '(rc, private', block') := dasd_eckd_end_analysis private block in
  let track2 := count_area_at private 4 in
  let first := count_area_at private 0 in
  (uses_cdl private' = true <-> cdl_track0 private)
  /\ (rc = 0 \/ rc = - EMEDIUMTYPE)
  /\ (cdl_track0 private ->
      (rc = 0 <->
       ec_kl track2 = 0 /\ dasd_check_blocksize (ec_dl track2) = 0
       /\ ec_dl track2 <> 0)
      /\ (rc = 0 -> bp_block block' = ec_dl track2))
  /\ (~ cdl_track0 private ->
      (rc = 0 <->
       uniform_records private /\ dasd_check_blocksize (ec_dl first) = 0
       /\ ec_dl first <> 0)
      /\ (rc = 0 -> bp_block block' = ec_dl first)).
Proof.
  clear sizeof_DE_eckd_data sizeof_LO_eckd_data sizeof_PFX_eckd_data
        sizeof_eckd_count sizeof_long idal_is_needed idal_create_words
        dasd_smalloc_request dasd_alias_get_start_dev.
  intros Hdone Hbp. unfold dasd_eckd_end_analysis.
  rewrite Hdone, Z.eqb_refl. cbn [negb]. cbv zeta.
  change (count_area_at (set_init_cqr_status (-1) private))
    with (count_area_at private).
  pose proof (cdl_track0_scan private) as Hc.
  pose proof (uniform_records_scan private) as Hu.
  set (i3 := scan _ 0 3) in *.
  assert (E3 : Nat.eqb i3 3 = true <-> cdl_track0 private)
    by (rewrite Nat.eqb_eq; exact Hc).
  destruct (Nat.eqb i3 3) eqn:B3; cbn [uses_cdl set_uses_cdl negb].
  - assert (C : cdl_track0 private) by (apply E3; reflexivity).
    change (count_area_at (set_uses_cdl true
              (set_init_cqr_status (-1) private)))
      with (count_area_at private).
    destruct (Z.eqb_spec (ec_kl (count_area_at private 4)) 0) as [K|K];
      cbn [andb];
      [destruct (Z.eqb_spec
                   (dasd_check_blocksize (ec_dl (count_area_at private 4))) 0)
         as [V|V]|];
      try rewrite Hbp;
      try (destruct (Z.eqb_spec (ec_dl (count_area_at private 4)) 0)
             as [Z0|Z0]);
      cbn [Z.eqb bp_block uses_cdl set_uses_cdl];
      unfold EMEDIUMTYPE;
      (split; [tauto|]); (split; [auto|]);
      (split; [intros _ | intros N; contradiction]);
      (split; [split; [intros R; try discriminate R; auto | tauto]
              | intros R; try discriminate R; reflexivity]).
  - assert (C : ~ cdl_track0 private)
      by (intros C; apply E3 in C; discriminate C).
    change (count_area_at (set_uses_cdl false
              (set_init_cqr_status (-1) private)))
      with (count_area_at private).
    set (i5 := scan _ 0 5) in *.
    assert (E5 : Nat.eqb i5 5 = true <-> uniform_records private)
      by (rewrite Nat.eqb_eq; exact Hu).
    destruct (Nat.eqb i5 5) eqn:B5.
    + assert (U : uniform_records private) by (apply E5; reflexivity).
      destruct (U 0%nat ltac:(lia)) as [K _]. rewrite K. cbn [Z.eqb andb].
      destruct (Z.eqb_spec
                  (dasd_check_blocksize (ec_dl (count_area_at private 0))) 0)
        as [V|V];
        try rewrite Hbp;
        try (destruct (Z.eqb_spec (ec_dl (count_area_at private 0)) 0)
               as [Z0|Z0]);
        cbn [Z.eqb bp_block uses_cdl set_uses_cdl];
        unfold EMEDIUMTYPE;
        (split; [split; [discriminate | intros X; contradiction]|]);
        (split; [auto|]);
        (split; [intros X; contradiction | intros _]);
        (split; [split; [intros R; try discriminate R; auto | tauto]
                | intros R; try discriminate R; reflexivity]).
    + assert (U : ~ uniform_records private)
        by (intros U; apply E5 in U; discriminate U).
      rewrite Hbp. cbn [Z.eqb]. unfold EMEDIUMTYPE.
      (split; [split; [discriminate | intros X; contradiction]|]).
      (split; [auto|]).
      (split; [intros X; contradiction | intros _]).
      split; [split; [discriminate | tauto] | discriminate].
Qed.

(** ** Block request translator: error paths *)

Lemma define_extent_rc clk trk totrk cmd private :
  write_family cmd = true ->
  XRC_supported (rdc_data private) = true ->
  fst (fst (define_extent clk trk totrk cmd private)) = xrc_rc clk.
Proof.
  intros W X. unfold define_extent, check_XRC. rewrite X.
  destruct cmd; try discriminate W; reflexivity.
Qed.

Lemma prefix_rc clk trk totrk cmd basepriv startpriv :
  write_family cmd = true ->
  XRC_supported (rdc_data basepriv) = true ->
  fst (fst (prefix clk trk totrk cmd basepriv startpriv)) = xrc_rc clk.
Proof.
  intros W X. unfold prefix, check_XRC_on_prefix. rewrite X.
  destruct cmd; try discriminate W; reflexivity.
Qed.

Lemma machine_eta (m : machine) :
  {| privs := privs m; ccw_reqs := ccw_reqs m; mem := mem m;
     dasd_page_cache := dasd_page_cache m |} = m.
Proof. destruct m; reflexivity. Qed.

(** Steps [dasd_eckd_build_cp] past its allocation when the pool has
    room. *)
Ltac request_allocated Halloc :=
  match goal with
  | |- context [if (uses_cdl ?p && ?c) then _ else _] =>
      destruct (uses_cdl p && c)
  end;
  match goal with
  | |- context [dasd_smalloc_request ?a ?b ?dev] =>
      let cqr := fresh "cqr" in destruct (Halloc a b) as [cqr ->]
  end.

Lemma define_extent_stamped clk trk totrk cmd private :
  write_family cmd = true ->
  XRC_supported (rdc_data private) = true ->
  let de := snd (define_extent clk trk totrk cmd private) in
  Z.land (ga_extended de) 0x0a = 0x0a /\ ep_sys_time de = sc_time clk.
Proof.
  intros W X. cbv zeta. unfold define_extent, check_XRC. rewrite X.
  unfold regular_data_format.
  destruct cmd; try discriminate W; cbn [negb snd];
    match goal with
    | |- context [if ?c then or_ga_extended 64 _ else _] => destruct c
    end;
    split; reflexivity.
Qed.

Lemma prefix_stamped clk trk totrk cmd basepriv startpriv :
  write_family cmd = true ->
  XRC_supported (rdc_data basepriv) = true ->
  let pfx := snd (prefix clk trk totrk cmd basepriv startpriv) in
  Z.land (ga_extended (define_extend pfx)) 0x0a = 0x0a
  /\ ep_sys_time (define_extend pfx) = sc_time clk
  /\ validity_time_stamp pfx = 1.
Proof.
  intros W X. cbv zeta. unfold prefix, check_XRC_on_prefix. rewrite X.
  unfold regular_data_format.
  destruct cmd; try discriminate W; cbn [negb snd];
    match goal with
    | |- context [if ?c then or_ga_extended 64 _ else _] => destruct c
    end;
    repeat split; reflexivity.
Qed.

(** Replaces the return code of the define-extent or prefix step by
    [xrc_rc], given that the device consulted supports XRC, and records
    what the step left in its block. *)
Ltac clock_rc Hx :=
  first
    [ match goal with
      | |- context [prefix ?c ?a ?b ?cmd ?bp ?sp] =>
          let P := fresh "P" in
          let S := fresh "S" in
          pose proof (prefix_rc c a b cmd bp sp eq_refl Hx) as P;
          pose proof (prefix_stamped c a b cmd bp sp eq_refl Hx) as S;
          destruct (prefix c a b cmd bp sp) as [[? ?] ?];
          cbv zeta in S; cbn [fst snd] in P, S; rewrite P
      end
    | match goal with
      | |- context [define_extent ?c ?a ?b ?cmd ?p] =>
          let P := fresh "P" in
          let S := fresh "S" in
          pose proof (define_extent_rc c a b cmd p eq_refl Hx) as P;
          pose proof (define_extent_stamped c a b cmd p eq_refl Hx) as S;
          destruct (define_extent c a b cmd p) as [[? ?] ?];
          cbv zeta in S; cbn [fst snd] in P, S; rewrite P
      end ].

(** C5 (as amended).  On a device with XRC support the return code of a
    write-family [define_extent] is 0 when the clock read fails with
    -ENOSYS or -EACCES and the clock's own code otherwise.  For a write
    request that passes the checks of [dasd_eckd_build_cp] and gets its
    request from the pool, the build therefore succeeds when the clock is
    unavailable, and the define-extent block of the request it returns
    is time-stamped all the same: the bits 0x08 and 0x02 of its extended
    attributes are set, its time field holds what the clock read left
    there, and a prefix block says that the time stamp is valid.  When the
    clock answers -EAGAIN, the request just allocated is freed again,
    -EAGAIN is returned and the machine is left as it was. *)
Theorem build_cp_clock_policy clk now startdev block req m :
  let basepriv := privs m (base block) in
  let use_prefix := negb (Z.land (feature_8 basepriv) 0x01 =? 0) in
  let clocked := privs m (if use_prefix then base block else startdev) in
  let r := dasd_eckd_build_cp clk now startdev block req m in
  rq_data_dir req = WRITE ->
  XRC_supported (rdc_data clocked) = true ->
  request_checks_pass block req ->
  (forall cpl ds, exists cqr, dasd_smalloc_request cpl ds startdev = PTR cqr) ->
  (forall trk totrk cmd, write_family cmd = true ->
     fst (fst (define_extent clk trk totrk cmd clocked))
     = if (sc_rc clk =? - ENOSYS) || (sc_rc clk =? - EACCES) then 0
       else sc_rc clk)
  /\ (sc_rc clk = - ENOSYS \/ sc_rc clk = - EACCES ->
      exists cqr de,
        fst r = PTR cqr
        /\ ccw_reqs (snd r) = cqr :: ccw_reqs m
        /\ status cqr = DASD_CQR_FILLED
        /\ extent_block (data cqr) = Some de
        /\ Z.land (ga_extended de) 0x0a = 0x0a
        /\ ep_sys_time de = sc_time clk
        /\ (forall pfx, d_PFX (data cqr) = Some pfx ->
                        validity_time_stamp pfx = 1))
  /\ (sc_rc clk = - EAGAIN -> r = (ERR_PTR (- EAGAIN), m)).
Proof.
  cbv zeta. intros Hw Hx (count & cidaw & Hseg & Hcnt) Halloc.
  split; [|split].
  - intros trk totrk cmd W. apply define_extent_rc; assumption.
  - intros Hrc.
    assert (R : xrc_rc clk = 0).
    { unfold xrc_rc. destruct Hrc as [-> | ->]; reflexivity. }
    unfold dasd_eckd_build_cp.
    fold (first_rec_of block req). fold (last_rec_of block req).
    rewrite Hseg, Hcnt, Z.eqb_refl. cbn [negb]. cbv zeta.
    request_allocated Halloc.
    all: cbn [privs pool_add]; rewrite Hw.
    all: destruct (negb (Z.land (feature_8 (privs m (base block))) 1 =? 0)).
    all: clock_rc Hx; rewrite R; cbn [Z.eqb EAGAIN Z.opp].
    all: repeat match goal with
           | |- context [let '(_, _) := ?x in _] => destruct x
           end.
    all: eexists; eexists;
         cbn [fst snd ccw_reqs tl data status extent_block d_PFX d_DE];
         (split; [reflexivity|]); (split; [reflexivity|]);
         (split; [reflexivity|]); (split; [reflexivity|]).
    all: repeat split; try apply S.
    all: intros pfx H; try discriminate H; injection H as <-; apply S.
  - intros Hrc.
    assert (R : xrc_rc clk = - EAGAIN).
    { unfold xrc_rc. rewrite Hrc. reflexivity. }
    unfold dasd_eckd_build_cp.
    fold (first_rec_of block req). fold (last_rec_of block req).
    rewrite Hseg, Hcnt, Z.eqb_refl. cbn [negb]. cbv zeta.
    request_allocated Halloc.
    all: cbn [privs pool_add]; rewrite Hw.
    all: destruct (negb (Z.land (feature_8 (privs m (base block))) 1 =? 0)).
    all: clock_rc Hx; rewrite R, Z.eqb_refl.
    all: unfold dasd_sfree_request; cbn; rewrite machine_eta; reflexivity.
Qed.

Lemma build_cp_privs clk now startdev block req m :
  privs (snd (dasd_eckd_build_cp clk now startdev block req m)) = privs m.
Proof.
  unfold dasd_eckd_build_cp. cbv zeta.
  destruct (check_segments _ _ _ 0 0) as [[count cidaw]|]; [|reflexivity].
  destruct (negb (u64 count =? _)); [reflexivity|].
  match goal with
  | |- context [if (uses_cdl ?p && ?c) then _ else _] =>
      destruct (uses_cdl p && c)
  end;
    (destruct (dasd_smalloc_request _ _ startdev); [reflexivity|]);
    destruct (negb (Z.land (feature_8 (privs m (base block))) 1 =? 0));
    repeat match goal with
      | |- context [let '(_, _) := ?x in _] => destruct x
      end;
    match goal with
    | |- context [if ?rc =? - EAGAIN then _ else _] =>
        destruct (rc =? - EAGAIN)
    end;
    try reflexivity;
    repeat match goal with
      | |- context [let '(_, _) := ?x in _] => destruct x
      end;
    reflexivity.
Qed.

Lemma add_priv_count_count dev d m :
  priv_count (privs (add_priv_count dev d m) dev)
  = priv_count (privs m dev) + d.
Proof. cbn. rewrite Nat.eqb_refl. reflexivity. Qed.

(** C9.  With the cap [DASD_ECKD_CHANQ_MAX_SIZE] = 4: when the start
    device already has four or more requests in flight,
    [dasd_eckd_build_alias_cp] returns -EBUSY and leaves the whole machine,
    counters and allocated requests included, as it was.  Below the cap the
    counter of the start device ends one higher when a request was built
    and unchanged when the inner build failed. *)
Theorem build_alias_cp_busy clk now base_dev block req m :
  let startdev :=
    match dasd_alias_get_start_dev base_dev with
    | Some dev => dev
    | None => base_dev
    end in
  let r := dasd_eckd_build_alias_cp clk now base_dev block req m in
  let inflight m := priv_count (privs m startdev) in
  DASD_ECKD_CHANQ_MAX_SIZE = 4
  /\ (4 <= inflight m -> r = (ERR_PTR (- EBUSY), m))
  /\ (inflight m < 4 ->
      match fst r with
      | PTR cqr => inflight (snd r) = inflight m + 1
      | ERR_PTR e => inflight (snd r) = inflight m
      end).
Proof.
  cbv zeta. unfold dasd_eckd_build_alias_cp.
  set (startdev := match dasd_alias_get_start_dev base_dev with
                   | Some dev => dev
                   | None => base_dev
                   end).
  split; [reflexivity|]. unfold DASD_ECKD_CHANQ_MAX_SIZE.
  split; intros H.
  - destruct (Z.geb_spec (priv_count (privs m startdev)) 4); [reflexivity|lia].
  - destruct (Z.geb_spec (priv_count (privs m startdev)) 4); [lia|].
    pose proof (build_cp_privs clk now startdev block req
                  (add_priv_count startdev 1 m)) as P.
    destruct (dasd_eckd_build_cp clk now startdev block req
                (add_priv_count startdev 1 m)) as [[e|cqr] m'];
      cbn [fst snd] in *.
    + rewrite add_priv_count_count, P, add_priv_count_count. lia.
    + rewrite P, add_priv_count_count. reflexivity.
Qed.

(** ** Block request translator: the channel program *)

Lemma for_blocks_iter body blksize :
  0 < blksize ->
  forall n fuel j len st,
    (n <= fuel)%nat ->
    0 <= j ->
    len = (j + Z.of_nat n) * blksize ->
    len + blksize <= 2 ^ 32 ->
    for_blocks fuel (j * blksize) len blksize body st = Nat.iter n body st.
Proof.
  intros Hb. induction n as [|n IH]; intros fuel j len st Hf Hj Hlen Hw.
  - destruct fuel; cbn [for_blocks Nat.iter]; [reflexivity|].
    destruct (Z.ltb_spec (j * blksize) len); [nia|reflexivity].
  - destruct fuel as [|fuel]; [lia|]. cbn [for_blocks].
    destruct (Z.ltb_spec (j * blksize) len); [|nia].
    rewrite u32_small by nia.
    replace (j * blksize + blksize) with ((j + 1) * blksize) by lia.
    rewrite (IH fuel (j + 1) len (body st)) by lia.
    symmetry. apply Nat.iter_succ_r.
Qed.

Lemma clear_CC_or_CC c : clear_CC (or_CC c) = clear_CC c.
Proof. reflexivity. Qed.

Lemma data_view_emit c l :
  data_view (emit c l)
  = (if is_data_ccw c then [clear_CC c] else []) ++ data_view l.
Proof.
  unfold data_view, data_ccws. destruct l as [|h t]; cbn [emit filter].
  - destruct (is_data_ccw c); reflexivity.
  - change (is_data_ccw (or_CC h)) with (is_data_ccw h).
    destruct (is_data_ccw c), (is_data_ccw h); reflexivity.
Qed.

Lemma locate_record_ccw n trk rec_on_trk no_rec cmd private reclen :
  fst (locate_record n trk rec_on_trk no_rec cmd private reclen)
  = {| cmd_code := DASD_ECKD_CCW_LOCATE_RECORD; flags := flags_0;
       count := 16; cda := pa_LO_data n |}.
Proof. unfold locate_record. destruct cmd; reflexivity. Qed.

Lemma define_extent_ccw clk trk totrk cmd private :
  is_data_ccw (snd (fst (define_extent clk trk totrk cmd private))) = false.
Proof.
  unfold define_extent, check_XRC.
  destruct cmd, (XRC_supported (rdc_data private)); reflexivity.
Qed.

Lemma prefix_ccw clk trk totrk cmd basepriv startpriv :
  is_data_ccw (snd (fst (prefix clk trk totrk cmd basepriv startpriv)))
  = false.
Proof.
  unfold prefix, check_XRC_on_prefix.
  destruct cmd, (XRC_supported (rdc_data basepriv)); reflexivity.
Qed.

(** Replaces a [locate_record] call by its CCW and an opaque block. *)
Ltac locate_step :=
  match goal with
  | |- context [locate_record ?n ?a ?b ?c ?d ?e ?f] =>
      let H := fresh "H" in
      let ccw := fresh "lo_ccw" in
      let lo := fresh "lo" in
      pose proof (locate_record_ccw n a b c d e f) as H;
      destruct (locate_record n a b c d e f) as [ccw lo];
      cbn [fst] in H; subst ccw
  end.

(** One pass through the body of the inner loop appends exactly one data
    CCW, whose count is [record_count] of the current record and whose
    addressing follows [idal_is_needed]; it advances [recid] and [dst]. *)
Lemma build_block_data private cmd dir blksize bpt last_rec st :
  cmd = DASD_ECKD_CCW_READ_MT \/ cmd = DASD_ECKD_CCW_WRITE_MT ->
  let st' := build_block private cmd dir blksize bpt last_rec st in
  st_recid st' = st_recid st + 1
  /\ st_dst st' = st_dst st + blksize
  /\ exists c,
       data_view (st_ccws st') = clear_CC c :: data_view (st_ccws st)
       /\ count c = record_count (uses_cdl private) bpt (st_recid st) blksize
       /\ addressing_ok blksize c.
Proof.
  intros Hcmd. cbv zeta. unfold build_block, record_count. cbv zeta.
  destruct Hcmd as [-> | ->];
  destruct (uses_cdl private && (st_recid st <? 2 * bpt)) eqn:Hc1.
  1,3: destruct (negb (dasd_eckd_cdl_special bpt (st_recid st) =? 0)) eqn:Hs;
    cbv zeta; locate_step.
  all: cbv zeta;
    (destruct (uses_cdl private && (st_recid st =? 2 * bpt));
     [locate_step|]);
    destruct (idal_is_needed (st_dst st) blksize) eqn:Hi;
    cbn [st_recid st_dst st_ccws];
    (split; [reflexivity|]); (split; [reflexivity|]);
    eexists; rewrite !data_view_emit;
    cbn [is_data_ccw cmd_code kd_variant app];
    (split; [reflexivity|]);
    (split; [reflexivity|]);
    unfold addressing_ok; cbn [cda flags flags_IDA flags_0 CCW_FLAG_IDA];
    auto.
Qed.


Lemma iter_state private cmd dir blksize bpt last_rec st :
  cmd = DASD_ECKD_CCW_READ_MT \/ cmd = DASD_ECKD_CCW_WRITE_MT ->
  forall j,
    let stj :=
      Nat.iter j (build_block private cmd dir blksize bpt last_rec) st in
    st_recid stj = st_recid st + Z.of_nat j
    /\ st_dst stj = st_dst st + Z.of_nat j * blksize.
Proof.
  intros Hcmd. induction j as [|j [IHr IHd]]; cbv zeta.
  - simpl. lia.
  - rewrite Nat2Z.inj_succ, Nat.iter_succ.
    destruct (build_block_data private cmd dir blksize bpt last_rec
                (Nat.iter j (build_block private cmd dir blksize bpt
                               last_rec) st) Hcmd) as (Er & Ed & _).
    rewrite Er, Ed, IHr, IHd. lia.
Qed.

Lemma blocks_built_step private cmd dir blksize bpt last_rec first k st :
  cmd = DASD_ECKD_CCW_READ_MT \/ cmd = DASD_ECKD_CCW_WRITE_MT ->
  blocks_built private blksize bpt first k st ->
  blocks_built private blksize bpt first (S k)
    (build_block private cmd dir blksize bpt last_rec st).
Proof.
  intros Hcmd (Hr & Hc & Ha).
  destruct (build_block_data private cmd dir blksize bpt last_rec st Hcmd)
    as (Er & _ & c & Ev & Ec & Eo).
  unfold blocks_built. rewrite Er, Ev. split; [lia|]. split.
  - cbn [map]. change (count (clear_CC c)) with (count c).
    rewrite Ec, Hc, Hr, seq_S, map_app, rev_app_distr. reflexivity.
  - constructor; [exact Eo | exact Ha].
Qed.

Lemma blocks_built_iter private cmd dir blksize bpt last_rec first n :
  cmd = DASD_ECKD_CCW_READ_MT \/ cmd = DASD_ECKD_CCW_WRITE_MT ->
  forall k st,
    blocks_built private blksize bpt first k st ->
    blocks_built private blksize bpt first (k + n)
      (Nat.iter n (build_block private cmd dir blksize bpt last_rec) st).
Proof.
  intros Hcmd. induction n as [|n IH]; intros k st H.
  - rewrite Nat.add_0_r. exact H.
  - cbn [Nat.iter]. rewrite Nat.add_succ_r.
    apply blocks_built_step; [exact Hcmd | apply IH; exact H].
Qed.

(** A segment of full blocks makes the inner loop run once per block,
    starting at the segment's buffer. *)
Lemma build_segment_eq private cmd dir blksize bpt last_rec bv st cache :
  0 < blksize ->
  0 <= bv_len bv ->
  bv_len bv mod blksize = 0 ->
  bv_len bv + blksize <= 2 ^ 32 ->
  build_segment private cmd dir blksize bpt last_rec bv (st, cache)
  = (Nat.iter (Z.to_nat (bv_len bv / blksize))
       (build_block private cmd dir blksize bpt last_rec)
       {| st_ccws := st_ccws st; st_idaws := st_idaws st;
          st_LO := st_LO st; st_area := st_area st;
          st_mem := segment_mem dir bv cache (st_mem st);
          st_dst := fst (segment_buffer bv cache);
          st_recid := st_recid st |},
     snd (segment_buffer bv cache)).
Proof.
  intros Hb Hl Hm Hw.
  assert (Hq : 0 <= bv_len bv / blksize) by (apply Z.div_pos; lia).
  assert (Hd : bv_len bv = blksize * (bv_len bv / blksize))
    by (pose proof (Z.div_mod (bv_len bv) blksize ltac:(lia)); lia).
  assert (Hi : forall s,
             for_blocks (Z.to_nat (bv_len bv)) 0 (bv_len bv) blksize
               (build_block private cmd dir blksize bpt last_rec) s
             = Nat.iter (Z.to_nat (bv_len bv / blksize))
                 (build_block private cmd dir blksize bpt last_rec) s).
  { intros s. change 0 with (0 * blksize) at 1.
    apply for_blocks_iter; try lia.
    all: try (apply Z2Nat.inj_le; nia).
    all: rewrite ?Z2Nat.id by lia; lia. }
  unfold build_segment, segment_buffer, segment_mem.
  destruct cache as [[|[copy|] later]|], dir; cbn [fst snd]; rewrite Hi;
    reflexivity.
Qed.

Lemma blocks_built_segment private cmd dir blksize bpt last_rec first bv :
  cmd = DASD_ECKD_CCW_READ_MT \/ cmd = DASD_ECKD_CCW_WRITE_MT ->
  0 < blksize ->
  0 <= bv_len bv ->
  bv_len bv mod blksize = 0 ->
  bv_len bv + blksize <= 2 ^ 32 ->
  forall k st cache,
    blocks_built private blksize bpt first k st ->
    blocks_built private blksize bpt first
      (k + Z.to_nat (bv_len bv / blksize))
      (fst (build_segment private cmd dir blksize bpt last_rec bv
              (st, cache))).
Proof.
  intros Hcmd Hb Hl Hm Hw k st cache H.
  rewrite build_segment_eq by assumption. cbn [fst].
  apply blocks_built_iter; [exact Hcmd|]. exact H.
Qed.

Lemma blocks_built_fold private cmd dir blksize bpt last_rec first segs :
  cmd = DASD_ECKD_CCW_READ_MT \/ cmd = DASD_ECKD_CCW_WRITE_MT ->
  0 < blksize ->
  Forall (fun bv => 0 <= bv_len bv /\ bv_len bv mod blksize = 0
                    /\ bv_len bv + blksize <= 2 ^ 32) segs ->
  forall k st cache,
    blocks_built private blksize bpt first k st ->
    blocks_built private blksize bpt first (k + blocks_in blksize segs)
      (fst (fold_left
              (fun sp bv =>
                 build_segment private cmd dir blksize bpt last_rec bv sp)
              segs (st, cache))).
Proof.
  intros Hcmd Hb Hsegs. induction Hsegs as [|bv segs (Hl & Hm & Hw) _ IH];
    intros k st cache H; cbn [fold_left blocks_in fold_right].
  - rewrite Nat.add_0_r. exact H.
  - rewrite Nat.add_assoc.
    pose proof (blocks_built_segment private cmd dir blksize bpt last_rec
                  first bv Hcmd Hb Hl Hm Hw k st cache H) as H'.
    destruct (build_segment private cmd dir blksize bpt last_rec bv
                (st, cache)) as [st1 cache1].
    apply IH. exact H'.
Qed.

Lemma idaws_of_app blksize l1 l2 :
  idaws_of blksize (l1 ++ l2) = idaws_of blksize l1 ++ idaws_of blksize l2.
Proof. unfold idaws_of. rewrite map_app, concat_app. reflexivity. Qed.

Lemma build_block_idaws private cmd dir blksize bpt last_rec st :
  st_idaws (build_block private cmd dir blksize bpt last_rec st)
  = st_idaws st ++ idaws_of blksize [st_dst st].
Proof.
  unfold build_block, idaws_of. cbv zeta. cbn [map concat].
  rewrite app_nil_r.
  destruct (uses_cdl private && (st_recid st <? 2 * bpt));
    [destruct (negb (dasd_eckd_cdl_special bpt (st_recid st) =? 0));
     cbv zeta; locate_step|];
    (destruct (uses_cdl private && (st_recid st =? 2 * bpt));
     [locate_step|]);
    destruct (idal_is_needed (st_dst st) blksize);
    cbn [st_idaws]; rewrite ?app_nil_r; reflexivity.
Qed.

Lemma iter_idaws private cmd dir blksize bpt last_rec st :
  cmd = DASD_ECKD_CCW_READ_MT \/ cmd = DASD_ECKD_CCW_WRITE_MT ->
  forall n,
    st_idaws (Nat.iter n (build_block private cmd dir blksize bpt last_rec)
                       st)
    = st_idaws st
      ++ idaws_of blksize
           (map (fun j => st_dst st + Z.of_nat j * blksize) (seq 0 n)).
Proof.
  intros Hcmd. induction n as [|n IH].
  - cbn. rewrite app_nil_r. reflexivity.
  - rewrite Nat.iter_succ, build_block_idaws, IH.
    destruct (iter_state private cmd dir blksize bpt last_rec st Hcmd n)
      as [_ ->].
    rewrite seq_S, map_app, idaws_of_app, app_assoc. reflexivity.
Qed.

Lemma fold_idaws private cmd dir blksize bpt last_rec segs :
  cmd = DASD_ECKD_CCW_READ_MT \/ cmd = DASD_ECKD_CCW_WRITE_MT ->
  0 < blksize ->
  Forall (fun bv => 0 <= bv_len bv /\ bv_len bv mod blksize = 0
                    /\ bv_len bv + blksize <= 2 ^ 32) segs ->
  forall st cache,
    st_idaws (fst (fold_left
                     (fun sp bv =>
                        build_segment private cmd dir blksize bpt last_rec
                                      bv sp)
                     segs (st, cache)))
    = st_idaws st ++ idaws_of blksize (block_buffers blksize segs cache).
Proof.
  intros Hcmd Hb Hsegs. induction Hsegs as [|bv segs (Hl & Hm & Hw) _ IH];
    intros st cache; cbn [fold_left block_buffers].
  - cbn. rewrite app_nil_r. reflexivity.
  - rewrite build_segment_eq by assumption.
    rewrite IH, iter_idaws by exact Hcmd.
    cbn [st_idaws st_dst]. rewrite idaws_of_app, app_assoc. reflexivity.
Qed.

Lemma check_segments_full blksize shift segs :
  forall count cidaw r,
    check_segments blksize shift segs count cidaw = Some r ->
    Forall (fun bv => Z.land (bv_len bv) (u32 (blksize - 1)) = 0) segs.
Proof.
  induction segs as [|bv segs IH]; intros count cidaw r H; [constructor|].
  cbn [check_segments] in H.
  destruct (Z.eqb_spec (Z.land (bv_len bv) (u32 (blksize - 1))) 0) as [E|E];
    cbn [negb] in H; [|discriminate H].
  constructor; [exact E | eapply IH; exact H].
Qed.

Lemma full_blocks block req count cidaw :
  block_geometry_ok block req ->
  check_segments (bp_block block) (s2b_shift block) (segments req) 0 0
  = Some (count, cidaw) ->
  0 < bp_block block
  /\ Forall (fun bv => 0 <= bv_len bv /\ bv_len bv mod bp_block block = 0
                       /\ bv_len bv + bp_block block <= 2 ^ 32)
            (segments req).
Proof.
  intros (Hs & Hb & Hsegs) Hchk.
  assert (Hpos : 0 < bp_block block)
    by (rewrite Hb; apply Z.pow_pos_nonneg; lia).
  split; [exact Hpos|].
  apply check_segments_full in Hchk.
  rewrite Forall_forall in *. intros bv Hin.
  destruct (Hsegs bv Hin) as [Hl Hw]. specialize (Hchk bv Hin).
  repeat split; try assumption.
  rewrite u32_small in Hchk by lia.
  rewrite Hb in Hchk |- *.
  change (2 ^ (s2b_shift block + 9) - 1)
    with (Z.pred (2 ^ (s2b_shift block + 9))) in Hchk.
  rewrite <- Z.ones_equiv, Z.land_ones in Hchk by lia. exact Hchk.
Qed.

Lemma segments_len_blocks blksize segs :
  0 < blksize ->
  Forall (fun bv => 0 <= bv_len bv /\ bv_len bv mod blksize = 0
                    /\ bv_len bv + blksize <= 2 ^ 32) segs ->
  segments_len segs = Z.of_nat (blocks_in blksize segs) * blksize.
Proof.
  intros Hb Hsegs. unfold segments_len, sum_Z.
  induction Hsegs as [|bv segs (Hl & Hm & _) _ IH]; [reflexivity|].
  change (blocks_in blksize (bv :: segs))
    with (Z.to_nat (bv_len bv / blksize) + blocks_in blksize segs)%nat.
  cbn [map fold_right].
  rewrite IH, Nat2Z.inj_add, Z2Nat.id by (apply Z.div_pos; lia).
  pose proof (Z.div_mod (bv_len bv) blksize ltac:(lia)). lia.
Qed.

(** What a successful [dasd_eckd_build_cp] returns: the channel program
    is the one the second loop leaves, started from a define-extent or
    prefix CCW and possibly one locate-record CCW, and the memory is the
    one the loop leaves. *)
Lemma build_cp_success clk now startdev block req m cqr m' :
  dasd_eckd_build_cp clk now startdev block req m = (PTR cqr, m') ->
  exists count cidaw ccws0 LO0,
    check_segments (bp_block block) (s2b_shift block) (segments req) 0 0
    = Some (count, cidaw)
    /\ data_view ccws0 = []
    /\ let private := privs m (base block) in
       let blksize := bp_block block in
       let bpt := recs_per_track (dev_type (rdc_data private)) 0 blksize in
       let st :=
         fst (fold_left
                (fun sp bv =>
                   build_segment private (cmd_of (rq_data_dir req))
                     (rq_data_dir req) blksize bpt (last_rec_of block req)
                     bv sp)
                (segments req)
                ({| st_ccws := ccws0; st_idaws := []; st_LO := LO0;
                    st_area := LO_stores 0 LO0;
                    st_mem := mem m; st_dst := 0;
                    st_recid := first_rec_of block req |},
                 dasd_page_cache m)) in
       cpaddr cqr = rev (st_ccws st)
       /\ d_idaws (data cqr) = st_idaws st
       /\ mem m' = st_mem st.
Proof.
  unfold dasd_eckd_build_cp. cbv zeta.
  fold (first_rec_of block req). fold (last_rec_of block req).
  fold (cmd_of (rq_data_dir req)).
  destruct (check_segments _ _ _ 0 0) as [[count cidaw]|]; [|discriminate].
  destruct (negb (u64 count =? _)); [discriminate|].
  match goal with
  | |- context [if (uses_cdl ?p && ?c) then _ else _] =>
      destruct (uses_cdl p && c)
  end;
    (destruct (dasd_smalloc_request _ _ startdev) as [e|cqr0];
     [discriminate|]);
    cbn [privs pool_add mem dasd_page_cache ccw_reqs];
    destruct (negb (Z.land (feature_8 (privs m (base block))) 1 =? 0)).
  all: match goal with
       | |- context [prefix ?c ?a ?b ?cmd ?bp ?sp] =>
           pose proof (prefix_ccw c a b cmd bp sp) as Hccw;
           destruct (prefix c a b cmd bp sp) as [[rc ccw] blk]
       | |- context [define_extent ?c ?a ?b ?cmd ?p] =>
           pose proof (define_extent_ccw c a b cmd p) as Hccw;
           destruct (define_extent c a b cmd p) as [[rc ccw] blk]
       end;
       cbn [fst snd] in Hccw;
       destruct (rc =? - EAGAIN); [discriminate|].
  all: match goal with
       | |- context [if ?c then let '(_, _) := _ in _ else _] =>
           destruct c; [locate_step|]
       end.
  all: match goal with
       | |- context [fold_left ?f ?l ?a] =>
           destruct (fold_left f l a) as [st cache] eqn:Hfold
       end;
       intros H; injection H as <- <-;
       exists count, cidaw; eexists; eexists;
       (split; [reflexivity|]); rewrite Hfold;
       cbn [fst cpaddr mem data d_idaws];
       (split; [|split; [|split]; reflexivity]).
  all: rewrite ?data_view_emit; cbn [is_data_ccw cmd_code app];
       unfold data_view, data_ccws; cbn [filter]; rewrite Hccw; reflexivity.
Qed.

Lemma data_ccws_rev l : data_ccws (rev l) = rev (data_ccws l).
Proof.
  unfold data_ccws. induction l as [|c l IH]; [reflexivity|].
  cbn [rev filter]. rewrite filter_app, IH. cbn [filter].
  destruct (is_data_ccw c); cbn [rev]; [reflexivity|].
  apply app_nil_r.
Qed.

Lemma data_view_counts l : map count (data_view l) = map count (data_ccws l).
Proof. unfold data_view. rewrite map_map. reflexivity. Qed.

Lemma data_view_addressing blksize l :
  Forall (addressing_ok blksize) (data_view l) ->
  Forall (addressing_ok blksize) (data_ccws l).
Proof.
  unfold data_view. rewrite Forall_map. intros H.
  eapply Forall_impl; [|exact H]. intros c Hc. exact Hc.
Qed.

Lemma sum_Z_uniform (f : nat -> Z) (b : Z) l :
  (forall j, In j l -> f j = b) ->
  sum_Z (map f l) = Z.of_nat (length l) * b.
Proof.
  intros H. induction l as [|j l IH]; [reflexivity|].
  cbn [map sum_Z fold_right length]. fold (sum_Z (map f l)).
  rewrite IH by (intros k Hk; apply H; right; exact Hk).
  rewrite (H j) by (left; reflexivity). lia.
Qed.

(** C3 (as amended).  A request that [dasd_eckd_build_cp] accepts, with
    segments totalling N * blksize bytes, gets exactly N data-transfer
    CCWs, one per record in record order; each addresses its buffer
    directly unless the buffer needs an indirect address list, the
    request's indirect address words are those of the buffers that need
    them, and each data CCW carries the byte count of its record: the
    block size, or the special length for a special record of a
    compatible-disk-layout volume.  The counts therefore add up to the
    length of the segments when the volume does not use the compatible
    disk layout or the request starts behind the first two tracks. *)
Theorem build_cp_data_ccws clk now startdev block req m cqr m' :
  let private := privs m (base block) in
  let blksize := bp_block block in
  let bpt := recs_per_track (dev_type (rdc_data private)) 0 blksize in
  let first := first_rec_of block req in
  let dc := data_ccws (cpaddr cqr) in
  block_geometry_ok block req ->
  dasd_eckd_build_cp clk now startdev block req m = (PTR cqr, m') ->
  exists N : nat,
    segments_len (segments req) = Z.of_nat N * blksize
    /\ length dc = N
    /\ map count dc
       = map (fun j => record_count (uses_cdl private) bpt
                                    (first + Z.of_nat j) blksize)
             (seq 0 N)
    /\ Forall (addressing_ok blksize) dc
    /\ d_idaws (data cqr)
       = idaws_of blksize
           (block_buffers blksize (segments req) (dasd_page_cache m))
    /\ (uses_cdl private = false \/ 2 * bpt <= first ->
        sum_Z (map count dc) = segments_len (segments req)).
Proof.
  cbv zeta. intros Hgeo Hbuild.
  destruct (build_cp_success _ _ _ _ _ _ _ _ Hbuild)
    as (cnt & cidaw & ccws0 & LO0 & Hchk & Hv0 & Hcp & Hida & _).
  cbv zeta in Hcp, Hida.
  destruct (full_blocks block req cnt cidaw Hgeo Hchk) as [Hpos Hsegs].
  set (private := privs m (base block)) in *.
  set (blksize := bp_block block) in *.
  set (bpt := recs_per_track (dev_type (rdc_data private)) 0 blksize) in *.
  set (first := first_rec_of block req) in *.
  assert (Hcmd : cmd_of (rq_data_dir req) = DASD_ECKD_CCW_READ_MT
                 \/ cmd_of (rq_data_dir req) = DASD_ECKD_CCW_WRITE_MT)
    by (destruct (rq_data_dir req); auto).
  pose proof (blocks_built_fold private (cmd_of (rq_data_dir req))
                (rq_data_dir req) blksize bpt (last_rec_of block req) first
                (segments req) Hcmd Hpos Hsegs O
                {| st_ccws := ccws0; st_idaws := []; st_LO := LO0;
                   st_area := LO_stores 0 LO0;
                   st_mem := mem m; st_dst := 0; st_recid := first |}
                (dasd_page_cache m)) as Hinv.
  cbn [Nat.add] in Hinv.
  destruct Hinv as (_ & Hcounts & Haddr).
  { unfold blocks_built. cbn [st_recid st_ccws]. rewrite Hv0.
    repeat split; [lia | constructor]. }
  set (st := fst (fold_left _ (segments req) _)) in *.
  set (N := blocks_in blksize (segments req)) in *.
  assert (Ecounts :
            map count (data_ccws (cpaddr cqr))
            = map (fun j => record_count (uses_cdl private) bpt
                                         (first + Z.of_nat j) blksize)
                  (seq 0 N)).
  { rewrite Hcp, data_ccws_rev, map_rev, <- data_view_counts, Hcounts.
    apply rev_involutive. }
  exists N. split; [apply segments_len_blocks; assumption|].
  split; [|split; [exact Ecounts|split; [|split]]].
  - rewrite <- (length_map count), Ecounts, length_map. apply length_seq.
  - rewrite Hcp, data_ccws_rev. apply Forall_rev.
    apply data_view_addressing. exact Haddr.
  - rewrite Hida. subst st.
    rewrite (fold_idaws private (cmd_of (rq_data_dir req)) (rq_data_dir req)
               blksize bpt (last_rec_of block req) (segments req) Hcmd Hpos
               Hsegs).
    reflexivity.
  - intros Hplain. rewrite Ecounts.
    rewrite (sum_Z_uniform _ blksize).
    + rewrite length_seq. symmetry. apply segments_len_blocks; assumption.
    + intros j _. unfold record_count.
      destruct Hplain as [-> | Hfar]; [reflexivity|].
      destruct (Z.ltb_spec (first + Z.of_nat j) (2 * bpt)); [lia|].
      rewrite andb_false_r. reflexivity.
Qed.

(** ** Block request translator: the tail of special records *)

(** The only write of [build_block] to memory. *)
Lemma build_block_mem private cmd dir blksize bpt last_rec st :
  st_mem (build_block private cmd dir blksize bpt last_rec st)
  = if uses_cdl private && (st_recid st <? 2 * bpt)
       && negb (dasd_eckd_cdl_special bpt (st_recid st) =? 0)
       && (dasd_eckd_cdl_reclen (st_recid st) <? blksize)
       && match dir with READ => true | WRITE => false end
    then memset (st_mem st)
                (st_dst st + dasd_eckd_cdl_reclen (st_recid st)) 0xe5
                (blksize - dasd_eckd_cdl_reclen (st_recid st))
    else st_mem st.
Proof.
  unfold build_block. cbv zeta.
  destruct (uses_cdl private && (st_recid st <? 2 * bpt));
    [destruct (negb (dasd_eckd_cdl_special bpt (st_recid st) =? 0));
     cbv zeta; locate_step|];
    (destruct (uses_cdl private && (st_recid st =? 2 * bpt));
     [locate_step|]);
    destruct (idal_is_needed (st_dst st) blksize);
    cbn [st_mem andb];
    try reflexivity;
    destruct (dasd_eckd_cdl_reclen (st_recid st) <? blksize), dir;
    reflexivity.
Qed.

Lemma memset_e5 mem dst n a : mem a = 0xe5 -> memset mem dst 0xe5 n a = 0xe5.
Proof.
  intros H. unfold memset.
  destruct ((dst <=? a) && (a <? dst + n)); [reflexivity | exact H].
Qed.

Lemma build_block_keeps private cmd dir blksize bpt last_rec st a :
  st_mem st a = 0xe5 ->
  st_mem (build_block private cmd dir blksize bpt last_rec st) a = 0xe5.
Proof.
  intros H. rewrite build_block_mem.
  match goal with |- context [if ?c then _ else _] => destruct c end;
    [apply memset_e5|]; exact H.
Qed.

Lemma build_block_fills private cmd blksize bpt last_rec st a :
  uses_cdl private = true ->
  st_recid st < 2 * bpt ->
  dasd_eckd_cdl_special bpt (st_recid st) <> 0 ->
  dasd_eckd_cdl_reclen (st_recid st) < blksize ->
  st_dst st + dasd_eckd_cdl_reclen (st_recid st) <= a
  < st_dst st + blksize ->
  st_mem (build_block private cmd READ blksize bpt last_rec st) a = 0xe5.
Proof.
  intros Hc Hr Hs Hl Ha. rewrite build_block_mem, Hc.
  destruct (Z.ltb_spec (st_recid st) (2 * bpt)); [|lia].
  destruct (Z.eqb_spec (dasd_eckd_cdl_special bpt (st_recid st)) 0);
    [contradiction|].
  destruct (Z.ltb_spec (dasd_eckd_cdl_reclen (st_recid st)) blksize); [|lia].
  cbn [andb negb]. unfold memset.
  destruct (Z.leb_spec (st_dst st + dasd_eckd_cdl_reclen (st_recid st)) a);
    [|lia].
  match goal with |- context [?x <? ?y] => destruct (Z.ltb_spec x y) end;
    [reflexivity|lia].
Qed.

Lemma iter_keeps private cmd dir blksize bpt last_rec a n :
  forall st,
    st_mem st a = 0xe5 ->
    st_mem (Nat.iter n (build_block private cmd dir blksize bpt last_rec) st)
           a = 0xe5.
Proof.
  induction n as [|n IH]; intros st H; [exact H|].
  rewrite Nat.iter_succ. apply build_block_keeps, IH, H.
Qed.

Lemma iter_fills private cmd blksize bpt last_rec a n :
  cmd = DASD_ECKD_CCW_READ_MT \/ cmd = DASD_ECKD_CCW_WRITE_MT ->
  uses_cdl private = true ->
  forall st j,
    (j < n)%nat ->
    let recid := st_recid st + Z.of_nat j in
    let dst := st_dst st + Z.of_nat j * blksize in
    recid < 2 * bpt ->
    dasd_eckd_cdl_special bpt recid <> 0 ->
    dasd_eckd_cdl_reclen recid < blksize ->
    dst + dasd_eckd_cdl_reclen recid <= a < dst + blksize ->
    st_mem (Nat.iter n (build_block private cmd READ blksize bpt last_rec)
                     st) a = 0xe5.
Proof.
  intros Hcmd Hc. induction n as [|n IH]; intros st j Hj; [lia|].
  cbv zeta. intros Hr Hs Hl Ha. rewrite Nat.iter_succ.
  destruct (Nat.eq_dec j n) as [->|Hne].
  - destruct (iter_state private cmd READ blksize bpt last_rec st Hcmd n)
      as [Er Ed].
    apply build_block_fills; rewrite ?Er, ?Ed; assumption.
  - apply build_block_keeps. apply (IH st j); [lia | assumption..].
Qed.

(** A read segment of full blocks: the loop starts at the segment's
    buffer with the memory untouched. *)
Lemma build_segment_read private cmd blksize bpt last_rec bv st cache :
  0 < blksize ->
  0 <= bv_len bv ->
  bv_len bv mod blksize = 0 ->
  bv_len bv + blksize <= 2 ^ 32 ->
  build_segment private cmd READ blksize bpt last_rec bv (st, cache)
  = (Nat.iter (Z.to_nat (bv_len bv / blksize))
       (build_block private cmd READ blksize bpt last_rec)
       {| st_ccws := st_ccws st; st_idaws := st_idaws st;
          st_LO := st_LO st; st_area := st_area st; st_mem := st_mem st;
          st_dst := fst (segment_buffer bv cache);
          st_recid := st_recid st |},
     snd (segment_buffer bv cache)).
Proof.
  intros Hb Hl Hm Hw. rewrite build_segment_eq by assumption.
  replace (segment_mem READ bv cache (st_mem st)) with (st_mem st);
    [reflexivity|].
  unfold segment_mem. destruct cache as [[|[copy|] later]|]; reflexivity.
Qed.

Lemma fold_keeps private cmd blksize bpt last_rec a segs :
  0 < blksize ->
  Forall (fun bv => 0 <= bv_len bv /\ bv_len bv mod blksize = 0
                    /\ bv_len bv + blksize <= 2 ^ 32) segs ->
  forall st cache,
    st_mem st a = 0xe5 ->
    st_mem (fst (fold_left
                   (fun sp bv =>
                      build_segment private cmd READ blksize bpt last_rec
                                    bv sp)
                   segs (st, cache))) a = 0xe5.
Proof.
  intros Hb Hsegs. induction Hsegs as [|bv segs (Hl & Hm & Hw) _ IH];
    intros st cache H; cbn [fold_left]; [exact H|].
  rewrite build_segment_read by assumption.
  apply IH. apply iter_keeps. exact H.
Qed.

Lemma nth_error_map_seq (f : nat -> Z) n k :
  (k < n)%nat -> nth_error (map f (seq 0 n)) k = Some (f k).
Proof.
  intros H. rewrite nth_error_map, nth_error_seq.
  destruct (Nat.ltb_spec k n); [reflexivity|lia].
Qed.

Lemma fold_fills private cmd blksize bpt last_rec a segs :
  cmd = DASD_ECKD_CCW_READ_MT \/ cmd = DASD_ECKD_CCW_WRITE_MT ->
  uses_cdl private = true ->
  0 < blksize ->
  Forall (fun bv => 0 <= bv_len bv /\ bv_len bv mod blksize = 0
                    /\ bv_len bv + blksize <= 2 ^ 32) segs ->
  forall st cache k dst,
    nth_error (block_buffers blksize segs cache) k = Some dst ->
    let recid := st_recid st + Z.of_nat k in
    recid < 2 * bpt ->
    dasd_eckd_cdl_special bpt recid <> 0 ->
    dasd_eckd_cdl_reclen recid < blksize ->
    dst + dasd_eckd_cdl_reclen recid <= a < dst + blksize ->
    st_mem (fst (fold_left
                   (fun sp bv =>
                      build_segment private cmd READ blksize bpt last_rec
                                    bv sp)
                   segs (st, cache))) a = 0xe5.
Proof.
  intros Hcmd Hc Hb Hsegs.
  induction Hsegs as [|bv segs (Hl & Hm & Hw) Hrest IH];
    intros st cache k dst Hnth; cbv zeta; intros Hr Hs Hlen Ha.
  - destruct k; discriminate Hnth.
  - cbn [fold_left block_buffers] in *.
    rewrite build_segment_read by assumption.
    set (n := Z.to_nat (bv_len bv / blksize)) in *.
    set (st0 := {| st_ccws := st_ccws st; st_idaws := st_idaws st;
                   st_LO := st_LO st; st_area := st_area st;
                   st_mem := st_mem st;
                   st_dst := fst (segment_buffer bv cache);
                   st_recid := st_recid st |}).
    destruct (Nat.lt_ge_cases k n) as [Hk|Hk].
    + rewrite nth_error_app1 in Hnth by (rewrite length_map, length_seq; lia).
      rewrite nth_error_map_seq in Hnth by exact Hk.
      injection Hnth as <-.
      apply fold_keeps; [assumption..|].
      apply (iter_fills private cmd blksize bpt last_rec a n Hcmd Hc st0 k Hk);
        assumption.
    + rewrite nth_error_app2 in Hnth by (rewrite length_map, length_seq; lia).
      rewrite length_map, length_seq in Hnth.
      destruct (iter_state private cmd READ blksize bpt last_rec st0 Hcmd n)
        as [Er _].
      cbn [st_recid st0] in Er.
      apply (IH _ _ (k - n)%nat dst Hnth); rewrite ?Er;
        replace (st_recid st + Z.of_nat n + Z.of_nat (k - n))
          with (st_recid st + Z.of_nat k) by lia;
        assumption.
Qed.

(** C10 (as amended).  When [dasd_eckd_build_cp] builds a read request on
    a compatible-disk-layout volume and the [k]-th block of the request is
    a special record shorter than the block size, the bytes of that
    block's transfer buffer from the record's length up to the block size
    hold 0xe5 when the build returns.  The transfer buffer is the caller's
    memory when [dasd_page_cache] is not configured, and otherwise the
    cache page that replaced the caller's segment. *)
Theorem build_cp_read_fills_tail clk now startdev block req m cqr m' k dst :
  let private := privs m (base block) in
  let blksize := bp_block block in
  let bpt := recs_per_track (dev_type (rdc_data private)) 0 blksize in
  let recid := first_rec_of block req + Z.of_nat k in
  block_geometry_ok block req ->
  rq_data_dir req = READ ->
  dasd_eckd_build_cp clk now startdev block req m = (PTR cqr, m') ->
  nth_error (block_buffers blksize (segments req) (dasd_page_cache m)) k
  = Some dst ->
  uses_cdl private = true ->
  recid < 2 * bpt ->
  dasd_eckd_cdl_special bpt recid <> 0 ->
  dasd_eckd_cdl_reclen recid < blksize ->
  (forall a, dst + dasd_eckd_cdl_reclen recid <= a < dst + blksize ->
             mem m' a = 0xe5)
  /\ (dasd_page_cache m = None ->
      nth_error (caller_buffers blksize (segments req)) k = Some dst).
Proof.
  cbv zeta. intros Hgeo Hread Hbuild Hnth Hc Hr Hs Hl.
  destruct (build_cp_success _ _ _ _ _ _ _ _ Hbuild)
    as (cnt & cidaw & ccws0 & LO0 & Hchk & _ & _ & _ & Hmem).
  destruct (full_blocks block req cnt cidaw Hgeo Hchk) as [Hpos Hsegs].
  split.
  - intros a Ha. rewrite Hmem, Hread.
    apply (fold_fills _ _ _ _ _ a (segments req) (or_introl eq_refl) Hc Hpos
             Hsegs _ _ k dst Hnth); assumption.
  - intros Hnone. unfold caller_buffers. rewrite <- Hnone. exact Hnth.
Qed.

(** * Further properties of the driver *)

(** ** Rounding and track capacity *)

(** X1.  [round_up_multiple] returns the least multiple of [mult] that is
    not below [no], as long as that multiple fits an [unsigned int]. *)
Theorem round_up_multiple_least (no mult : Z) :
  0 < mult -> 0 <= no -> no + mult <= 2 ^ 32 ->
  let r := round_up_multiple no mult in
  r mod mult = 0 /\ no <= r < no + mult.
Proof.
  intros Hm Hn Hs r. subst r. unfold round_up_multiple. cbv zeta.
  rewrite Z.rem_mod_nonneg by lia.
  pose proof (Z.mod_pos_bound no mult Hm) as B.
  pose proof (Z.div_mod no mult ltac:(lia)) as E.
  pose proof (Z.mod_le no mult Hn Hm) as L.
  destruct (Z.eqb_spec (no mod mult) 0) as [Hz | Hz]; cbn [negb].
  - split; [exact Hz | lia].
  - rewrite (u32_small (no - no mod mult)) by lia.
    rewrite u32_small by lia.
    split; [|lia].
    replace (no - no mod mult + mult) with ((no / mult + 1) * mult) by lia.
    apply Z.mod_mul. lia.
Qed.

Lemma ceiling_mono (a a' b : Z) :
  0 < b -> a <= a' -> ceiling a b <= ceiling a' b.
Proof.
  intros Hb Ha. rewrite !ceiling_div by exact Hb.
  apply Z.div_le_mono; lia.
Qed.

Lemma data_cells_mono (len len' : Z) :
  0 <= len <= len' -> data_cells len <= data_cells len'.
Proof.
  intros H. unfold data_cells.
  pose proof (ceiling_mono (len + 6) (len' + 6) 232 ltac:(lia) ltac:(lia)).
  apply ceiling_mono; lia.
Qed.

Lemma recs_per_track_capacity (dev kl dl : Z) :
  0 <= kl < 2 ^ 31 -> 0 <= dl < 2 ^ 31 ->
  recs_per_track dev kl dl = capacity_formula dev kl dl.
Proof.
  intros Hk Hd.
  destruct (data_cells_eq dl Hd) as [Ed Bd].
  destruct (data_cells_eq kl Hk) as [Ek Bk].
  destruct (ceil32_eq dl Hd) as [Ed' Bd'].
  destruct (ceil32_eq kl Hk) as [Ek' Bk'].
  unfold recs_per_track, capacity_formula.
  destruct (dev =? 0x3380).
  { destruct (kl =? 0); cbn [negb].
    - rewrite Ed'. rewrite u32_small by lia. reflexivity.
    - rewrite Ed', Ek'. rewrite u32_small by lia. reflexivity. }
  destruct (dev =? 0x3390).
  { cbv zeta. destruct (kl =? 0); cbn [negb].
    - rewrite Ed. rewrite u32_small by lia. reflexivity.
    - rewrite Ed, Ek. rewrite u32_small by lia. reflexivity. }
  destruct (dev =? 0x9345).
  { cbv zeta. destruct (kl =? 0); cbn [negb].
    - rewrite Ed. rewrite u32_small by lia. reflexivity.
    - rewrite Ed, Ek. rewrite u32_small by lia. reflexivity. }
  reflexivity.
Qed.

Lemma capacity_formula_antitone (dev kl dl dl' : Z) :
  0 <= kl < 2 ^ 31 -> 0 <= dl <= dl' -> dl' < 2 ^ 31 ->
  capacity_formula dev kl dl' <= capacity_formula dev kl dl.
Proof.
  intros Hk Hd Hd'.
  pose proof (data_cells_mono dl dl' Hd) as M.
  pose proof (ceiling_mono (dl + 12) (dl' + 12) 32 ltac:(lia) ltac:(lia))
    as M'.
  destruct (data_cells_eq dl ltac:(lia)) as [_ Bd].
  destruct (data_cells_eq kl Hk) as [_ Bk].
  destruct (ceil32_eq dl ltac:(lia)) as [_ Bd'].
  destruct (ceil32_eq kl Hk) as [_ Bk'].
  unfold capacity_formula.
  destruct (dev =? 0x3380).
  { destruct (kl =? 0); apply Z.div_le_compat_l; lia. }
  destruct (dev =? 0x3390).
  { destruct (kl =? 0); apply Z.div_le_compat_l; lia. }
  destruct (dev =? 0x9345).
  { destruct (kl =? 0); apply Z.div_le_compat_l; lia. }
  lia.
Qed.

(** X2.  The longer the records, the fewer fit a track; and a track of any
    of the three supported device types holds at least nine keyless records
    of up to 4096 bytes, so that the label records 0..2 and the second track
    of a compatible disk layout never overlap for a valid block size. *)
Theorem recs_per_track_antitone (dev kl dl dl' : Z) :
  0 <= kl < 2 ^ 31 -> 0 <= dl <= dl' -> dl' < 2 ^ 31 ->
  recs_per_track dev kl dl' <= recs_per_track dev kl dl
  /\ (dev = 0x3380 \/ dev = 0x3390 \/ dev = 0x9345 ->
      dl' <= 4096 -> 9 <= recs_per_track dev 0 dl').
Proof.
  intros Hk Hd Hd'. split.
  - rewrite !recs_per_track_capacity by lia.
    apply capacity_formula_antitone; assumption.
  - intros Hdev H4.
    rewrite recs_per_track_capacity by lia.
    pose proof (capacity_formula_antitone dev 0 dl' 4096
                  ltac:(lia) ltac:(lia) ltac:(lia)) as A.
    destruct Hdev as [-> | [-> | ->]];
      (eapply Z.le_trans; [|exact A]); vm_compute; discriminate.
Qed.

(** ** Extents, prefix blocks and locate-record blocks *)

Lemma define_extent_beg clk trk totrk cmd private :
  beg_ext (snd (define_extent clk trk totrk cmd private))
  = {| cyl := u16 (Z.quot trk (u16 (trk_per_cyl (rdc_data private))));
       head := u16 (Z.rem trk (u16 (trk_per_cyl (rdc_data private)))) |}.
Proof.
  destruct (define_extent_is_extent clk trk totrk cmd private) as [d ->].
  reflexivity.
Qed.

(** X3.  The begin of the extent and the seek and search addresses of a
    locate-record block are the cylinder and head of the track: they
    recompose to the track number, the head stays below the number of heads,
    and [define_extent] and [locate_record] agree on them although the first
    divides by a 16-bit copy of the number of heads. *)
Theorem track_address_round_trip clk trk totrk cmd private n rec_on_trk
    no_rec lcmd reclen :
  0 < trk_per_cyl (rdc_data private) < 2 ^ 16 ->
  0 <= trk < 2 ^ 16 * trk_per_cyl (rdc_data private) ->
  let heads := trk_per_cyl (rdc_data private) in
  let de := snd (define_extent clk trk totrk cmd private) in
  let lo := snd (locate_record n trk rec_on_trk no_rec lcmd private reclen) in
  cyl (beg_ext de) * heads + head (beg_ext de) = trk
  /\ 0 <= head (beg_ext de) < heads
  /\ seek_addr lo = beg_ext de
  /\ chr_cyl (search_arg lo) = cyl (beg_ext de)
  /\ chr_head (search_arg lo) = head (beg_ext de).
Proof.
  intros Hh Ht. cbv zeta. rewrite define_extent_beg.
  rewrite (u16_small (trk_per_cyl _)) by lia.
  assert (S : seek_addr (snd (locate_record n trk rec_on_trk no_rec lcmd
                                private reclen))
              = {| cyl := u16 (Z.quot trk (trk_per_cyl (rdc_data private)));
                   head := u16 (Z.rem trk (trk_per_cyl (rdc_data private)))
                |}
              /\ chr_cyl (search_arg (snd (locate_record n trk rec_on_trk
                                             no_rec lcmd private reclen)))
                 = u16 (Z.quot trk (trk_per_cyl (rdc_data private)))
              /\ chr_head (search_arg (snd (locate_record n trk rec_on_trk
                                              no_rec lcmd private reclen)))
                 = u16 (Z.rem trk (trk_per_cyl (rdc_data private)))).
  { unfold locate_record. destruct lcmd; cbn; auto. }
  destruct S as (-> & -> & ->). cbn [cyl head].
  rewrite Z.quot_div_nonneg, Z.rem_mod_nonneg by lia.
  pose proof (Z.mod_pos_bound trk (trk_per_cyl (rdc_data private))
                ltac:(lia)) as B.
  pose proof (Z.div_mod trk (trk_per_cyl (rdc_data private)) ltac:(lia))
    as E.
  assert (0 <= trk / trk_per_cyl (rdc_data private) < 2 ^ 16).
  { split; [apply Z.div_pos; lia|]. apply Z.div_lt_upper_bound; lia. }
  rewrite !u16_small by lia.
  repeat split; try reflexivity; lia.
Qed.

(** X4.  The prefix block embeds the define-extent block that
    [define_extent] builds for the base device, with the same return code;
    what it adds are the validity bits: the base is verified exactly when
    the start device is not a base device, the Hyper-PAV bit is set exactly
    for a Hyper-PAV alias, and the time stamp is valid exactly for a write
    command on a volume with XRC. *)
Theorem prefix_embeds_define_extent clk trk totrk cmd basepriv startpriv :
  let p := prefix clk trk totrk cmd basepriv startpriv in
  let d := define_extent clk trk totrk cmd basepriv in
  define_extend (snd p) = snd d
  /\ fst (fst p) = fst (fst d)
  /\ validity_define_extend (snd p) = 1
  /\ (validity_verify_base (snd p) = 0
      <-> uid_type startpriv = UA_BASE_DEVICE)
  /\ (validity_hyper_pav (snd p) = 1
      <-> uid_type startpriv = UA_HYPER_PAV_ALIAS)
  /\ (validity_time_stamp (snd p) = 1
      <-> write_family cmd = true
          /\ XRC_supported (rdc_data basepriv) = true).
Proof.
  cbv zeta.
  unfold prefix, define_extent, check_XRC, check_XRC_on_prefix.
  destruct cmd; destruct (XRC_supported (rdc_data basepriv));
    cbn [negb write_family fst snd define_extend validity_define_extend
         validity_verify_base validity_hyper_pav validity_time_stamp];
    (split; [reflexivity|]); (split; [reflexivity|]);
    (split; [reflexivity|]);
    destruct (uid_type startpriv);
    repeat split; intros; try reflexivity; try discriminate;
    try match goal with H : _ /\ _ |- _ => destruct H; discriminate end.
Qed.

(** X5.  The global attributes of the extent in closed form: the two
    time-stamp bits, the clock value, the long CCW count with the
    suppress-length flag and the clock's return code appear exactly for a
    write command on a volume with XRC; the regular-data-format bit exactly
    for the control units 2105, 2107 and 1750, unless the extent starts on
    the first two tracks of a compatible disk layout; the mode is always
    ECKD. *)
Theorem define_extent_global_attributes clk trk totrk cmd private :
  let r := define_extent clk trk totrk cmd private in
  let stamped := write_family cmd && XRC_supported (rdc_data private) in
  let rdf :=
    ((cu_type (rdc_data private) =? 0x2105)
     || (cu_type (rdc_data private) =? 0x2107)
     || (cu_type (rdc_data private) =? 0x1750))
    && negb (uses_cdl private && (trk <? 2)) in
  ga_extended (snd r)
  = Z.lor (if stamped then 0x0a else 0) (if rdf then 0x40 else 0)
  /\ attributes_mode (snd r) = 0x3
  /\ ep_sys_time (snd r) = (if stamped then sc_time clk else 0)
  /\ count (snd (fst r)) = (if stamped then sizeof_DE_eckd_data else 16)
  /\ CCW_FLAG_SLI (flags (snd (fst r))) = stamped
  /\ fst (fst r) = (if stamped then xrc_rc clk else 0).
Proof.
  cbv zeta.
  unfold define_extent, check_XRC, regular_data_format, extent_of, xrc_rc.
  set (c := ((cu_type (rdc_data private) =? 0x2105)
             || (cu_type (rdc_data private) =? 0x2107)
             || (cu_type (rdc_data private) =? 0x1750))
            && negb (uses_cdl private && (trk <? 2))).
  destruct cmd; destruct (XRC_supported (rdc_data private)); destruct c;
    cbn; repeat split; reflexivity.
Qed.

(** ** The analysis result feeds the request builder *)

Lemma s2b_loop_pow2 (k : Z) :
  k <= 22 ->
  forall fuel j shift,
    0 <= j <= k ->
    (Z.to_nat (k - j) <= fuel)%nat ->
    s2b_loop fuel (2 ^ (j + 9)) (2 ^ (k + 9)) shift = shift + (k - j).
Proof.
  intros Hk. induction fuel as [|fuel IH]; intros j shift Hj Hf.
  - cbn [s2b_loop]. lia.
  - cbn [s2b_loop].
    destruct (Z.ltb_spec (2 ^ (j + 9)) (2 ^ (k + 9))) as [L | L].
    + assert (j < k).
      { destruct (Z.lt_ge_cases j k) as [G | G]; [exact G|].
        assert (j = k) by lia. subst j. lia. }
      rewrite Z.shiftl_mul_pow2 by lia.
      replace (2 ^ (j + 9) * 2 ^ 1) with (2 ^ (j + 1 + 9))
        by (rewrite (Z.pow_add_r 2 (j + 1) 9), (Z.pow_add_r 2 j 1),
              (Z.pow_add_r 2 j 9) by lia; lia).
      rewrite u32_small.
      * rewrite IH by lia. lia.
      * split; [apply Z.pow_nonneg; lia|].
        apply Z.pow_lt_mono_r; lia.
    + assert (k <= j).
      { destruct (Z.lt_ge_cases j k) as [G | G]; [|lia].
        pose proof (Z.pow_lt_mono_r 2 (j + 9) (k + 9) ltac:(lia) ltac:(lia)
                      ltac:(lia)). lia. }
      lia.
Qed.

Lemma end_analysis_status private block :
  init_cqr_status (snd (fst (dasd_eckd_end_analysis private block))) = -1.
Proof.
  unfold dasd_eckd_end_analysis. cbv zeta.
  destruct (negb (init_cqr_status private =? DASD_CQR_DONE));
    [reflexivity|].
  match goal with
  | |- context [if ?b =? 0 then _ else _] => destruct (b =? 0)
  end; reflexivity.
Qed.

(** X6.  Whatever the saved status, [dasd_eckd_end_analysis] consumes it
    (the next call of [dasd_eckd_do_analysis] starts a new analysis).  When
    it succeeds for a block structure that had no block size yet, it leaves
    an accepted block size that is exactly 512 shifted by the new
    [s2b_shift], and the capacity of the volume in such blocks as an
    [unsigned int] product, that is modulo 2^32; when it fails, the block
    structure is as before, and without a completed
    analysis request the layout flag is not touched either.  The block-size
    check is taken to accept powers of two from 512 on only. *)
Theorem end_analysis_block_geometry private block :
  (forall x, dasd_check_blocksize x = 0 ->
             exists k, 0 <= k <= 22 /\ x = 2 ^ (k + 9)) ->
  bp_block block = 0 ->
  let r := dasd_eckd_end_analysis private block in
  let rc := fst (fst r) in
  let private' := snd (fst r) in
  let block' := snd r in
  init_cqr_status private' = -1
  /\ (rc = 0 ->
      0 <= s2b_shift block'
      /\ bp_block block' = 2 ^ (s2b_shift block' + 9)
      /\ dasd_check_blocksize (bp_block block') = 0
      /\ blocks block'
         = u32 (no_cyl (rdc_data private) * trk_per_cyl (rdc_data private)
                * recs_per_track (dev_type (rdc_data private)) 0
                                 (bp_block block')))
  /\ (rc <> 0 -> rc = - EMEDIUMTYPE /\ block' = block)
  /\ (init_cqr_status private <> DASD_CQR_DONE ->
      rc = - EMEDIUMTYPE /\ uses_cdl private' = uses_cdl private).
Proof.
  clear sizeof_DE_eckd_data sizeof_LO_eckd_data sizeof_PFX_eckd_data
        sizeof_eckd_count sizeof_long idal_is_needed idal_create_words
        dasd_smalloc_request dasd_alias_get_start_dev HZ DASD_CQR_FILLED.
  intros Hpow Hbp. cbv zeta. unfold dasd_eckd_end_analysis. cbv zeta.
  destruct (Z.eqb_spec (init_cqr_status private) DASD_CQR_DONE) as [D | D];
    cbn [negb].
  2:{ cbn [fst snd init_cqr_status set_init_cqr_status uses_cdl].
      unfold EMEDIUMTYPE.
      repeat split; intros; try reflexivity; try discriminate. }
  match goal with
  | |- context [if ?b =? 0 then _ else _] => set (bp := b)
  end.
  assert (B : bp = 0 \/ dasd_check_blocksize bp = 0).
  { subst bp.
    match goal with
    | |- context [match ?x with Some _ => _ | None => _ end] =>
        destruct x as [ca|]; [|left; exact Hbp]
    end.
    destruct (Z.eqb_spec (ec_kl ca) 0); cbn [andb]; [|left; exact Hbp].
    destruct (Z.eqb_spec (dasd_check_blocksize (ec_dl ca)) 0);
      [right; assumption | left; exact Hbp]. }
  destruct (Z.eqb_spec bp 0) as [Z0 | Z0];
    cbn [fst snd init_cqr_status set_init_cqr_status set_uses_cdl
         bp_block s2b_shift blocks rdc_data].
  - unfold EMEDIUMTYPE.
    split; [reflexivity|]. split; [discriminate|].
    split; [|intros N; contradiction].
    intros _. split; [reflexivity|].
    rewrite Z0, <- Hbp. destruct block; reflexivity.
  - destruct B as [B | B]; [contradiction|].
    destruct (Hpow bp B) as (k & Hk & E).
    split; [reflexivity|].
    split; [|split; [intros N; contradiction N; reflexivity
                    |intros N; contradiction]].
    intros _.
    assert (S : s2b_loop 32 512 bp 0 = k).
    { rewrite E. change 512 with (2 ^ (0 + 9)).
      rewrite (s2b_loop_pow2 k) by lia. lia. }
    rewrite S. repeat split; try assumption; try reflexivity; lia.
Qed.

(** ** Failures of the request builder *)

Lemma build_cp_error clk now startdev block req m e m' :
  dasd_eckd_build_cp clk now startdev block req m = (ERR_PTR e, m') ->
  m' = m
  /\ (e = - EINVAL \/ e = - EAGAIN
      \/ exists cplen dsize,
           dasd_smalloc_request cplen dsize startdev = ERR_PTR e).
Proof.
  unfold dasd_eckd_build_cp. cbv zeta.
  destruct (check_segments _ _ _ 0 0) as [[count cidaw]|];
    [|intros H; inversion H; subst; auto].
  destruct (negb (u64 count =? _)); [intros H; inversion H; subst; auto|].
  match goal with
  | |- context [if (uses_cdl ?p && ?c) then _ else _] =>
      destruct (uses_cdl p && c)
  end;
    match goal with
    | |- context [dasd_smalloc_request ?a ?b startdev] =>
        destruct (dasd_smalloc_request a b startdev) eqn:A;
        [intros H; inversion H; subst; split;
         [reflexivity | right; right; eauto]|]
    end;
    destruct (negb (Z.land (feature_8 (privs m (base block))) 1 =? 0));
    repeat match goal with
      | |- context [let '(_, _) := ?x in _] => destruct x
      end;
    match goal with
    | |- context [if ?rc =? - EAGAIN then _ else _] =>
        destruct (rc =? - EAGAIN)
    end;
    try (intros H; inversion H; subst; split;
         [exact (machine_eta m) | auto]; fail);
    repeat match goal with
      | |- context [let '(_, _) := ?x in _] => destruct x
      end;
    intros H; discriminate H.
Qed.

(** X7.  A failed [dasd_eckd_build_cp] has no effect: the request it may
    have allocated is returned to the pool and the machine is as before.
    The error is [-EINVAL], [-EAGAIN] or the allocator's. *)
Theorem build_cp_failure_no_effect clk now startdev block req m e m' :
  dasd_eckd_build_cp clk now startdev block req m = (ERR_PTR e, m') ->
  m' = m
  /\ (e = - EINVAL \/ e = - EAGAIN
      \/ exists cplen dsize,
           dasd_smalloc_request cplen dsize startdev = ERR_PTR e).
Proof. apply build_cp_error. Qed.

Lemma check_segments_partial blksize shift segs :
  Exists (fun bv => Z.land (bv_len bv) (u32 (blksize - 1)) <> 0) segs ->
  forall count cidaw, check_segments blksize shift segs count cidaw = None.
Proof.
  induction 1 as [bv rest H | bv rest H IH]; intros count cidaw;
    cbn [check_segments].
  - destruct (Z.eqb_spec (Z.land (bv_len bv) (u32 (blksize - 1))) 0);
      [contradiction | reflexivity].
  - destruct (negb _); [reflexivity | apply IH].
Qed.

(** X8.  ECKD can only do full blocks: when the block size is a power of two
    and some segment is not a whole number of blocks, the request is refused
    with [-EINVAL] and without any effect. *)
Theorem build_cp_rejects_partial_blocks clk now startdev block req m :
  0 <= s2b_shift block <= 22 ->
  bp_block block = 2 ^ (s2b_shift block + 9) ->
  Exists (fun bv => 0 <= bv_len bv /\ bv_len bv mod bp_block block <> 0)
         (segments req) ->
  dasd_eckd_build_cp clk now startdev block req m = (ERR_PTR (- EINVAL), m).
Proof.
  intros Hs Hb Hex. unfold dasd_eckd_build_cp. cbv zeta.
  rewrite check_segments_partial; [reflexivity|].
  apply Exists_exists. apply Exists_exists in Hex.
  destruct Hex as (bv & Hin & Hl & Hm). exists bv. split; [exact Hin|].
  assert (P : 0 < 2 ^ (s2b_shift block + 9) <= 2 ^ 31).
  { split; [apply Z.pow_pos_nonneg; lia|].
    apply Z.pow_le_mono_r; lia. }
  rewrite Hb in Hm |- *.
  rewrite u32_small by lia.
  change (2 ^ (s2b_shift block + 9) - 1)
    with (Z.pred (2 ^ (s2b_shift block + 9))).
  rewrite <- Z.ones_equiv, Z.land_ones by lia. exact Hm.
Qed.

(** ** The in-flight counter of the start device *)

Lemma set_priv_count_twice a b p :
  set_priv_count a (set_priv_count b p) = set_priv_count a p.
Proof. reflexivity. Qed.

Lemma set_priv_count_same p : set_priv_count (priv_count p) p = p.
Proof. destruct p; reflexivity. Qed.

(** X9.  [dasd_eckd_build_alias_cp] keeps the in-flight counter of the start
    device at or below the queue limit, changes nothing but that counter in
    the private data of the devices, and leaves no trace at all when it
    fails: every device, the request pool, the memory and the page cache are
    as before. *)
Theorem build_alias_cp_counter clk now base_dev block req m :
  let startdev :=
    match dasd_alias_get_start_dev base_dev with
    | Some dev => dev
    | None => base_dev
    end in
  let r := dasd_eckd_build_alias_cp clk now base_dev block req m in
  (priv_count (privs m startdev) <= DASD_ECKD_CHANQ_MAX_SIZE ->
   priv_count (privs (snd r) startdev) <= DASD_ECKD_CHANQ_MAX_SIZE)
  /\ (forall d, d <> startdev -> privs (snd r) d = privs m d)
  /\ set_priv_count (priv_count (privs m startdev)) (privs (snd r) startdev)
     = privs m startdev
  /\ (forall e, fst r = ERR_PTR e ->
      (forall d, privs (snd r) d = privs m d)
      /\ ccw_reqs (snd r) = ccw_reqs m
      /\ mem (snd r) = mem m
      /\ dasd_page_cache (snd r) = dasd_page_cache m).
Proof.
  cbv zeta. unfold dasd_eckd_build_alias_cp.
  set (startdev := match dasd_alias_get_start_dev base_dev with
                   | Some dev => dev
                   | None => base_dev
                   end).
  unfold DASD_ECKD_CHANQ_MAX_SIZE.
  destruct (Z.geb_spec (priv_count (privs m startdev)) 4) as [G | G].
  { cbn [fst snd]. split; [auto|]. split; [reflexivity|].
    split; [apply set_priv_count_same|]. auto. }
  pose proof (build_cp_privs clk now startdev block req
                (add_priv_count startdev 1 m)) as P.
  destruct (dasd_eckd_build_cp clk now startdev block req
              (add_priv_count startdev 1 m)) as [[e | cqr] m'] eqn:B;
    cbn [fst snd] in *.
  - apply build_cp_error in B. destruct B as [-> _].
    assert (Q : forall d,
               privs (add_priv_count startdev (-1)
                        (add_priv_count startdev 1 m)) d = privs m d).
    { intros d. cbn [privs add_priv_count].
      destruct (Nat.eqb d startdev); [|reflexivity].
      cbn [priv_count set_priv_count]. rewrite set_priv_count_twice.
      replace (priv_count (privs m d) + 1 + -1) with (priv_count (privs m d))
        by lia.
      apply set_priv_count_same. }
    split; [rewrite Q; auto|].
    split; [intros d _; apply Q|].
    split; [rewrite Q; apply set_priv_count_same|].
    intros e' _. split; [exact Q|]. repeat split.
  - rewrite P. cbn [privs add_priv_count]. rewrite Nat.eqb_refl.
    cbn [priv_count set_priv_count].
    split; [lia|].
    split.
    { intros d Hd. destruct (Nat.eqb_spec d startdev); [contradiction|].
      reflexivity. }
    split; [rewrite set_priv_count_twice; apply set_priv_count_same|].
    intros e' E. discriminate E.
Qed.

(** ** The channel program of a block request *)

Lemma program_view_emit c l :
  program_view (emit c l) = program_view l ++ [clear_CC c].
Proof.
  unfold program_view. destruct l as [|h t]; cbn [emit rev app map].
  - reflexivity.
  - rewrite !map_app. cbn [map]. rewrite clear_CC_or_CC. reflexivity.
Qed.

Lemma locate_record_data n n' trk rec_on_trk no_rec cmd private reclen :
  snd (locate_record n trk rec_on_trk no_rec cmd private reclen)
  = snd (locate_record n' trk rec_on_trk no_rec cmd private reclen).
Proof. unfold locate_record. destruct cmd; reflexivity. Qed.

(** Names the two results of a [locate_record] call in the goal. *)
Ltac locate_both :=
  match goal with
  | |- context [locate_record ?n ?a ?b ?c ?d ?e ?f] =>
      let H := fresh "H" in
      let D := fresh "D" in
      let ccw := fresh "lo_ccw" in
      let lo := fresh "lo" in
      pose proof (locate_record_ccw n a b c d e f) as H;
      pose proof (locate_record_data n 0 a b c d e f) as D;
      destruct (locate_record n a b c d e f) as [ccw lo];
      cbn [fst snd] in H, D; subst ccw; subst lo
  end.

Lemma build_block_program private cmd dir blksize bpt last_rec st :
  let st' := build_block private cmd dir blksize bpt last_rec st in
  program_view (st_ccws st')
  = program_view (st_ccws st)
    ++ (if needs_locate private bpt (st_recid st)
        then [locate_ccw (length (st_LO st))] else [])
    ++ [data_ccw private cmd blksize bpt (st_recid st) (st_dst st)
                 (length (st_idaws st))]
  /\ st_LO st'
     = st_LO st ++ record_LO private cmd blksize bpt last_rec (st_recid st)
  /\ st_recid st' = st_recid st + 1
  /\ st_dst st' = st_dst st + blksize.
Proof.
  cbv zeta.
  unfold build_block, needs_locate, record_LO, data_ccw, record_cmd,
    record_count.
  cbv zeta.
  destruct (uses_cdl private); cbn [andb].
  2:{ destruct (idal_is_needed (st_dst st) blksize);
      cbn [st_ccws st_LO st_recid st_dst]; rewrite program_view_emit;
      rewrite app_nil_r; repeat split; reflexivity. }
  destruct (Z.ltb_spec (st_recid st) (2 * bpt)) as [L | L];
    destruct (Z.eqb_spec (st_recid st) (2 * bpt)) as [E | E];
    destruct (Z.leb_spec (st_recid st) (2 * bpt)) as [G | G];
    try lia.
  - destruct (negb (dasd_eckd_cdl_special bpt (st_recid st) =? 0));
      cbv zeta; locate_both;
      destruct (idal_is_needed (st_dst st) blksize);
      cbn [st_ccws st_LO st_recid st_dst];
      rewrite !program_view_emit, <- app_assoc;
      repeat split; reflexivity.
  - locate_both.
    destruct (idal_is_needed (st_dst st) blksize);
      cbn [st_ccws st_LO st_recid st_dst];
      rewrite !program_view_emit, <- app_assoc;
      repeat split; reflexivity.
  - destruct (idal_is_needed (st_dst st) blksize);
      cbn [st_ccws st_LO st_recid st_dst]; rewrite program_view_emit;
      rewrite app_nil_r; repeat split; reflexivity.
Qed.

Lemma record_LO_length private cmd blksize bpt last_rec recid :
  length (record_LO private cmd blksize bpt last_rec recid)
  = if needs_locate private bpt recid then 1%nat else 0%nat.
Proof.
  unfold record_LO, needs_locate.
  destruct (uses_cdl private); cbn [andb]; [|reflexivity].
  destruct (Z.ltb_spec recid (2 * bpt)); destruct (Z.eqb_spec recid (2 * bpt));
    destruct (Z.leb_spec recid (2 * bpt)); try lia; reflexivity.
Qed.

Lemma iter_program private cmd dir blksize bpt last_rec n :
  forall st,
    let st' :=
      Nat.iter n (build_block private cmd dir blksize bpt last_rec) st in
    program_view (st_ccws st')
    = program_view (st_ccws st)
      ++ records_program private cmd blksize bpt (st_recid st)
           (length (st_LO st)) (length (st_idaws st))
           (map (fun j => st_dst st + Z.of_nat j * blksize) (seq 0 n))
    /\ st_LO st'
       = st_LO st
         ++ records_LO private cmd blksize bpt last_rec (st_recid st) n.
Proof.
  induction n as [|n IH]; intros st; cbv zeta.
  - cbn. rewrite !app_nil_r. split; reflexivity.
  - rewrite Nat.iter_succ_r.
    destruct (build_block_program private cmd dir blksize bpt last_rec st)
      as (P & L & R & D).
    destruct (IH (build_block private cmd dir blksize bpt last_rec st))
      as [P' L'].
    rewrite P', L', P, L, R, D, build_block_idaws.
    rewrite !length_app, record_LO_length.
    cbn [seq map records_program records_LO].
    rewrite <- seq_shift, map_map.
    replace (st_dst st + Z.of_nat 0 * blksize) with (st_dst st) by lia.
    rewrite (map_ext (fun j => st_dst st + blksize + Z.of_nat j * blksize)
                     (fun j => st_dst st + Z.of_nat (S j) * blksize))
      by (intros j; lia).
    split.
    + rewrite <- !app_assoc. f_equal.
      destruct (needs_locate private bpt (st_recid st)); cbn [app length];
        rewrite ?Nat.add_1_r, ?Nat.add_0_r; reflexivity.
    + rewrite <- app_assoc. reflexivity.
Qed.

Lemma records_LO_app private cmd blksize bpt last_rec n1 :
  forall recid n2,
    records_LO private cmd blksize bpt last_rec recid (n1 + n2)
    = records_LO private cmd blksize bpt last_rec recid n1
      ++ records_LO private cmd blksize bpt last_rec
           (recid + Z.of_nat n1) n2.
Proof.
  induction n1 as [|n1 IH]; intros recid n2.
  - cbn [records_LO Nat.add app]. f_equal. lia.
  - cbn [records_LO Nat.add]. rewrite IH, <- app_assoc.
    do 3 f_equal. lia.
Qed.

Lemma records_program_app private cmd blksize bpt last_rec l1 :
  forall recid nLO nIDA l2,
    records_program private cmd blksize bpt recid nLO nIDA (l1 ++ l2)
    = records_program private cmd blksize bpt recid nLO nIDA l1
      ++ records_program private cmd blksize bpt
           (recid + Z.of_nat (length l1))
           (nLO + length (records_LO private cmd blksize bpt last_rec recid
                            (length l1)))
           (nIDA + length (idaws_of blksize l1)) l2.
Proof.
  induction l1 as [|dst l1 IH]; intros recid nLO nIDA l2.
  - cbn [app records_program length records_LO].
    rewrite !Nat.add_0_r. f_equal. lia.
  - cbn [app records_program length records_LO].
    rewrite IH. rewrite <- app_assoc. cbn [app].
    change (dst :: l1) with ([dst] ++ l1).
    rewrite idaws_of_app, !length_app, record_LO_length.
    f_equal. f_equal. f_equal. f_equal; try lia.
    destruct (needs_locate private bpt recid); lia.
Qed.

Lemma iter_recid private cmd dir blksize bpt last_rec n :
  forall st,
    st_recid (Nat.iter n (build_block private cmd dir blksize bpt last_rec)
                st)
    = st_recid st + Z.of_nat n.
Proof.
  induction n as [|n IH]; intros st.
  - cbn. lia.
  - rewrite Nat.iter_succ_r, IH.
    destruct (build_block_program private cmd dir blksize bpt last_rec st)
      as (_ & _ & -> & _).
    lia.
Qed.

Lemma fold_program private cmd dir blksize bpt last_rec segs :
  cmd = DASD_ECKD_CCW_READ_MT \/ cmd = DASD_ECKD_CCW_WRITE_MT ->
  0 < blksize ->
  Forall (fun bv => 0 <= bv_len bv /\ bv_len bv mod blksize = 0
                    /\ bv_len bv + blksize <= 2 ^ 32) segs ->
  forall st cache,
    let st' :=
      fst (fold_left
             (fun sp bv =>
                build_segment private cmd dir blksize bpt last_rec bv sp)
             segs (st, cache)) in
    program_view (st_ccws st')
    = program_view (st_ccws st)
      ++ records_program private cmd blksize bpt (st_recid st)
           (length (st_LO st)) (length (st_idaws st))
           (block_buffers blksize segs cache)
    /\ st_LO st'
       = st_LO st
         ++ records_LO private cmd blksize bpt last_rec (st_recid st)
              (blocks_in blksize segs)
    /\ length (block_buffers blksize segs cache) = blocks_in blksize segs.
Proof.
  intros Hcmd Hb Hsegs. induction Hsegs as [|bv segs (Hl & Hm & Hw) _ IH];
    intros st cache; cbv zeta;
    cbn [fold_left block_buffers blocks_in fold_right].
  - cbn [fst records_program records_LO length]. rewrite !app_nil_r.
    repeat split.
  - rewrite build_segment_eq by assumption.
    set (n := Z.to_nat (bv_len bv / blksize)).
    set (st0 := {| st_ccws := st_ccws st; st_idaws := st_idaws st;
                   st_LO := st_LO st; st_area := st_area st;
                   st_mem := segment_mem dir bv cache (st_mem st);
                   st_dst := fst (segment_buffer bv cache);
                   st_recid := st_recid st |}).
    destruct (IH (Nat.iter n (build_block private cmd dir blksize bpt
                                last_rec) st0)
                 (snd (segment_buffer bv cache))) as (P & L & N).
    cbv zeta in P, L.
    destruct (iter_program private cmd dir blksize bpt last_rec n st0)
      as [P0 L0].
    rewrite P, L, P0, L0, iter_recid, iter_idaws by exact Hcmd.
    cbn [st_ccws st_LO st_idaws st_recid st_dst st0].
    rewrite (records_program_app private cmd blksize bpt last_rec).
    rewrite records_LO_app, !length_app, length_map, length_seq, N.
    rewrite <- !app_assoc. repeat split.
Qed.

Lemma build_cp_inv clk now sdev block req m cqr m' :
  dasd_eckd_build_cp clk now sdev block req m = (PTR cqr, m') ->
  let private := privs m (base block) in
  let blksize := bp_block block in
  let bpt := recs_per_track (dev_type (rdc_data private)) 0 blksize in
  let first := first_rec_of block req in
  let last := last_rec_of block req in
  let cmd := cmd_of (rq_data_dir req) in
  exists count cidaw dsize cqr0 first_ccw,
    check_segments blksize (s2b_shift block) (segments req) 0 0
    = Some (count, cidaw)
    /\ u64 count = u64 (last - first + 1)
    /\ dasd_smalloc_request (requested_cplength private bpt first last count)
                            dsize sdev = PTR cqr0
    /\ (first_ccw, d_DE (data cqr), d_PFX (data cqr))
       = (if use_prefix private then
            (snd (fst (prefix clk (s32 (first / bpt)) (s32 (last / bpt)) cmd
                         private
                         (privs m sdev))),
             None,
             Some (snd (prefix clk (s32 (first / bpt)) (s32 (last / bpt)) cmd
                          private (privs m sdev))))
          else
            (snd (fst (define_extent clk (s32 (first / bpt))
                         (s32 (last / bpt)) cmd (privs m sdev))),
             Some (snd (define_extent clk (s32 (first / bpt))
                          (s32 (last / bpt)) cmd (privs m sdev))),
             None))
    /\ let r :=
         fold_left
           (fun sp bv =>
              build_segment private cmd (rq_data_dir req) blksize bpt last
                            bv sp)
           (segments req)
           ({| st_ccws := if one_locate private bpt first
                          then emit (locate_ccw 0) [first_ccw]
                          else [first_ccw];
               st_idaws := [];
               st_LO := if one_locate private bpt first
                        then [snd (locate_record 0 (s32 (first / bpt))
                                     (first mod bpt + 1) (last - first + 1)
                                     cmd private blksize)]
                        else [];
               st_area :=
                 LO_stores 0
                   (if one_locate private bpt first
                    then [snd (locate_record 0 (s32 (first / bpt))
                                 (first mod bpt + 1) (last - first + 1)
                                 cmd private blksize)]
                    else []);
               st_mem := mem m; st_dst := 0; st_recid := first |},
            dasd_page_cache m) in
       cpaddr cqr = rev (st_ccws (fst r))
       /\ d_idaws (data cqr) = st_idaws (fst r)
       /\ d_LO (data cqr) = st_LO (fst r)
       /\ mem m' = st_mem (fst r)
       /\ dasd_page_cache m' = snd r
       /\ privs m' = privs m
       /\ ccw_reqs m' = cqr :: ccw_reqs m
       /\ startdev cqr = sdev
       /\ memdev cqr = sdev
       /\ cqr_block cqr = Some (base block)
       /\ status cqr = DASD_CQR_FILLED
       /\ cplength cqr = cplength cqr0
       /\ d_ect (data cqr) = []
       /\ d_cidaw (data cqr) = cidaw
       /\ d_area (data cqr) = st_area (fst r).
Proof.
  unfold dasd_eckd_build_cp, requested_cplength, use_prefix, one_locate.
  cbv zeta.
  fold (first_rec_of block req). fold (last_rec_of block req).
  fold (cmd_of (rq_data_dir req)).
  destruct (check_segments _ _ _ 0 0) as [[count cidaw]|]; [|discriminate].
  destruct (Z.eqb_spec (u64 count)
              (u64 (last_rec_of block req - first_rec_of block req + 1)))
    as [Hcount | Hcount]; [|discriminate].
  cbn [negb].
  match goal with
  | |- context [if (uses_cdl ?p && ?c) then _ else _] =>
      destruct (uses_cdl p && c)
  end;
    (match goal with
     | |- context [dasd_smalloc_request ?a ?b sdev] =>
         destruct (dasd_smalloc_request a b sdev) as [e|cqr0] eqn:A
     end;
     [discriminate|]);
    cbn [privs pool_add mem dasd_page_cache ccw_reqs];
    destruct (negb (Z.land (feature_8 (privs m (base block))) 1 =? 0)).
  all: match goal with
       | |- context [prefix ?c ?a ?b ?cmd ?bp ?sp] =>
           destruct (prefix c a b cmd bp sp) as [[rc ccw] blk]
       | |- context [define_extent ?c ?a ?b ?cmd ?p] =>
           destruct (define_extent c a b cmd p) as [[rc ccw] blk]
       end;
       cbn [fst snd];
       destruct (rc =? - EAGAIN); [discriminate|].
  all: match goal with
       | |- context [if ?c then let '(_, _) := _ in _ else _] =>
           destruct c; [locate_step|]
       end.
  all: match goal with
       | |- context [fold_left ?f ?l ?a] =>
           destruct (fold_left f l a) as [st cache] eqn:Hfold
       end;
       intros H; injection H as <- <-;
       exists count, cidaw; eexists; exists cqr0, ccw;
       (split; [reflexivity|]); (split; [exact Hcount|]);
       (split; [exact A|]); (split; [reflexivity|]);
       unfold locate_ccw; cbn [snd]; rewrite Hfold;
       cbn [fst snd cpaddr mem data d_idaws d_LO d_ect d_cidaw d_area
            dasd_page_cache privs ccw_reqs startdev memdev cqr_block status
            cplength tl];
       repeat split.
Qed.

Lemma for_blocks_invariant (P : cp_state -> Prop) body :
  (forall st, P st -> P (body st)) ->
  forall fuel off len blksize st,
    P st -> P (for_blocks fuel off len blksize body st).
Proof.
  intros Hbody. induction fuel as [|fuel IH]; intros off len blksize st H;
    cbn [for_blocks]; [exact H|].
  destruct (off <? len); [apply IH, Hbody, H | exact H].
Qed.

(** *** The stores into the data area *)

Lemma last_store_found cidaw at_bytes stores t :
  last_store cidaw at_bytes stores = Some t ->
  In t stores /\ bytes_meet at_bytes (store_bytes cidaw t) = true.
Proof.
  induction stores as [|s later IH]; cbn [last_store]; [discriminate|].
  destruct (last_store cidaw at_bytes later) as [t'|].
  - intros H. injection H as <-. destruct (IH eq_refl) as [I M].
    split; [right; exact I | exact M].
  - destruct (bytes_meet at_bytes (store_bytes cidaw s)) eqn:M;
      [|discriminate].
    intros H. injection H as <-. split; [left; reflexivity | exact M].
Qed.

Lemma last_store_none cidaw at_bytes stores :
  (forall s, In s stores ->
             bytes_meet at_bytes (store_bytes cidaw s) = false) ->
  last_store cidaw at_bytes stores = None.
Proof.
  induction stores as [|s later IH]; intros H; cbn [last_store];
    [reflexivity|].
  rewrite IH by (intros x Hx; apply H; right; exact Hx).
  rewrite (H s) by (left; reflexivity). reflexivity.
Qed.

Lemma last_store_unique cidaw at_bytes stores s0 :
  In s0 stores ->
  bytes_meet at_bytes (store_bytes cidaw s0) = true ->
  (forall s, In s stores ->
             bytes_meet at_bytes (store_bytes cidaw s) = true -> s = s0) ->
  last_store cidaw at_bytes stores = Some s0.
Proof.
  induction stores as [|s later IH]; intros I M U; [destruct I|].
  cbn [last_store].
  destruct (last_store cidaw at_bytes later) as [t|] eqn:E.
  - destruct (last_store_found _ _ _ _ E) as [It Mt].
    f_equal. apply U; [right; exact It | exact Mt].
  - destruct (bytes_meet at_bytes (store_bytes cidaw s)) eqn:Ms.
    + f_equal. apply U; [left; reflexivity | exact Ms].
    + destruct I as [-> | I]; [congruence|].
      pose proof (IH I M (fun x Hx => U x (or_intror Hx))) as X.
      congruence.
Qed.

Lemma In_idaw_stores s words :
  forall n,
    In s (idaw_stores n words)
    <-> exists j w, s = store_idaw (n + j) w /\ nth_error words j = Some w.
Proof.
  induction words as [|w rest IH]; intros n; cbn [idaw_stores In].
  - split; [intros [] | intros (j & w & _ & H); destruct j; discriminate H].
  - rewrite IH. split.
    + intros [<- | (j & w' & -> & H)].
      * exists O, w. rewrite Nat.add_0_r. split; reflexivity.
      * exists (S j), w'. rewrite Nat.add_succ_r. split; [reflexivity|].
        exact H.
    + intros (j & w' & -> & H). destruct j as [|j].
      * left. injection H as ->. rewrite Nat.add_0_r. reflexivity.
      * right. exists j, w'. rewrite Nat.add_succ_r.
        split; [reflexivity | exact H].
Qed.

Lemma In_LO_stores s los :
  forall n,
    In s (LO_stores n los)
    <-> exists j lo, s = store_LO (n + j) lo /\ nth_error los j = Some lo.
Proof.
  induction los as [|lo rest IH]; intros n; cbn [LO_stores In].
  - split; [intros [] | intros (j & w & _ & H); destruct j; discriminate H].
  - rewrite IH. split.
    + intros [<- | (j & w' & -> & H)].
      * exists O, lo. rewrite Nat.add_0_r. split; reflexivity.
      * exists (S j), w'. rewrite Nat.add_succ_r. split; [reflexivity|].
        exact H.
    + intros (j & w' & -> & H). destruct j as [|j].
      * left. injection H as ->. rewrite Nat.add_0_r. reflexivity.
      * right. exists j, w'. rewrite Nat.add_succ_r.
        split; [reflexivity | exact H].
Qed.

Lemma nth_error_app_cases {A} (l1 l2 : list A) i x :
  nth_error (l1 ++ l2) i = Some x ->
  nth_error l1 i = Some x
  \/ exists j, i = (length l1 + j)%nat /\ nth_error l2 j = Some x.
Proof.
  intros H. destruct (Nat.lt_ge_cases i (length l1)) as [L | G].
  - left. rewrite nth_error_app1 in H by exact L. exact H.
  - right. rewrite nth_error_app2 in H by exact G.
    exists (i - length l1)%nat. split; [lia | exact H].
Qed.

Lemma nth_error_app_left {A} (l1 l2 : list A) i x :
  nth_error l1 i = Some x -> nth_error (l1 ++ l2) i = Some x.
Proof.
  intros H. rewrite nth_error_app1; [exact H|].
  apply nth_error_Some. congruence.
Qed.

Lemma nth_error_app_right {A} (l1 l2 : list A) j x :
  nth_error l2 j = Some x -> nth_error (l1 ++ l2) (length l1 + j) = Some x.
Proof.
  intros H. rewrite nth_error_app2 by lia.
  replace (length l1 + j - length l1)%nat with j by lia. exact H.
Qed.

Lemma area_of_nil : area_of [] [] [].
Proof.
  split; [intros s []|].
  split; intros i x H; destruct i; discriminate H.
Qed.

Lemma area_of_LO words los area more :
  area_of words los area ->
  area_of words (los ++ more) (area ++ LO_stores (length los) more).
Proof.
  intros (A1 & A2 & A3). split; [|split].
  - intros s Hs. apply in_app_or in Hs. destruct Hs as [Hs | Hs].
    + specialize (A1 s Hs). destruct s; [exact A1|].
      apply nth_error_app_left. exact A1.
    + apply In_LO_stores in Hs. destruct Hs as (j & lo & -> & H).
      apply nth_error_app_right. exact H.
  - intros i w H. apply in_or_app. left. apply A2. exact H.
  - intros k lo H. apply in_or_app.
    destruct (nth_error_app_cases _ _ _ _ H) as [H1 | (j & -> & H2)].
    + left. apply A3. exact H1.
    + right. apply In_LO_stores. exists j, lo. split; [reflexivity|exact H2].
Qed.

Lemma area_of_idaws words los area more :
  area_of words los area ->
  area_of (words ++ more) los (area ++ idaw_stores (length words) more).
Proof.
  intros (A1 & A2 & A3). split; [|split].
  - intros s Hs. apply in_app_or in Hs. destruct Hs as [Hs | Hs].
    + specialize (A1 s Hs). destruct s; [|exact A1].
      apply nth_error_app_left. exact A1.
    + apply In_idaw_stores in Hs. destruct Hs as (j & w & -> & H).
      apply nth_error_app_right. exact H.
  - intros i w H. apply in_or_app.
    destruct (nth_error_app_cases _ _ _ _ H) as [H1 | (j & -> & H2)].
    + left. apply A2. exact H1.
    + right. apply In_idaw_stores. exists j, w. split; [reflexivity|exact H2].
  - intros k lo H. apply in_or_app. left. apply A3. exact H.
Qed.

Lemma area_of_LO_stores los : area_of [] los (LO_stores 0 los).
Proof. exact (area_of_LO [] [] [] los area_of_nil). Qed.

Lemma build_block_area_of private cmd dir blksize bpt last_rec st :
  area_of (st_idaws st) (st_LO st) (st_area st) ->
  let st' := build_block private cmd dir blksize bpt last_rec st in
  area_of (st_idaws st') (st_LO st') (st_area st').
Proof.
  intros H. cbv zeta. unfold build_block. cbv zeta.
  destruct (uses_cdl private && (st_recid st <? 2 * bpt));
    [destruct (negb (dasd_eckd_cdl_special bpt (st_recid st) =? 0))|];
    repeat match goal with
      | |- context [locate_record ?n ?a ?b ?c ?d ?e ?f] =>
          destruct (locate_record n a b c d e f)
      end;
    destruct (uses_cdl private && (st_recid st =? 2 * bpt));
    repeat match goal with
      | |- context [locate_record ?n ?a ?b ?c ?d ?e ?f] =>
          destruct (locate_record n a b c d e f)
      end;
    destruct (idal_is_needed (st_dst st) blksize);
    cbn [st_idaws st_LO st_area];
    repeat first
      [ exact H
      | apply area_of_idaws
      | apply (area_of_LO _ _ _ [_]) ].
Qed.

Lemma fold_area_of private cmd dir blksize bpt last_rec segs :
  forall st cache,
    area_of (st_idaws st) (st_LO st) (st_area st) ->
    let st' :=
      fst (fold_left
             (fun sp bv =>
                build_segment private cmd dir blksize bpt last_rec bv sp)
             segs (st, cache)) in
    area_of (st_idaws st') (st_LO st') (st_area st').
Proof.
  induction segs as [|bv segs IH]; intros st cache H; cbv zeta;
    cbn [fold_left]; [exact H|].
  destruct (build_segment private cmd dir blksize bpt last_rec bv
              (st, cache)) as [st1 cache1] eqn:E.
  apply IH. unfold build_segment in E.
  assert (F : forall s,
             area_of (st_idaws s) (st_LO s) (st_area s) ->
             let s' :=
               for_blocks (Z.to_nat (bv_len bv)) 0 (bv_len bv) blksize
                          (build_block private cmd dir blksize bpt last_rec)
                          s in
             area_of (st_idaws s') (st_LO s') (st_area s')).
  { intros s.
    apply (for_blocks_invariant
             (fun s => area_of (st_idaws s) (st_LO s) (st_area s))).
    intros s0. apply build_block_area_of. }
  destruct cache as [[|[copy|] later]|]; injection E as <- _; apply F;
    exact H.
Qed.

(** Where no more address words are stored than [LO_data] lies behind
    [idaws], no store writes over another: the data area reads back as
    stored. *)
Lemma area_reads_back d :
  0 < sizeof_long -> 0 < sizeof_LO_eckd_data ->
  area_of (d_idaws d) (d_LO d) (d_area d) ->
  Z.of_nat (length (d_idaws d)) <= d_cidaw d ->
  (forall k, LO_data_at d k = nth_error (d_LO d) k)
  /\ (forall i, idaws_at d i = nth_error (d_idaws d) i).
Proof.
  intros Hl Ho (A1 & A2 & A3) Hc.
  unfold LO_data_at, idaws_at.
  set (words := d_idaws d) in *. set (los := d_LO d) in *.
  set (cidaw := d_cidaw d) in *. set (area := d_area d) in *.
  assert (NW : forall i w k,
             nth_error words i = Some w ->
             bytes_meet (LO_data_bytes cidaw k) (idaws_bytes i) = false
             /\ bytes_meet (idaws_bytes i) (LO_data_bytes cidaw k) = false).
  { intros i w k H.
    assert (Hi : (i < length words)%nat)
      by (apply nth_error_Some; congruence).
    assert (B1 : (Z.of_nat i + 1) * sizeof_long <= cidaw * sizeof_long)
      by (apply Z.mul_le_mono_nonneg_r; lia).
    assert (B2 : 0 <= Z.of_nat k * sizeof_LO_eckd_data)
      by (apply Z.mul_nonneg_nonneg; lia).
    unfold bytes_meet, LO_data_bytes, idaws_bytes. cbn [fst snd].
    split.
    - apply andb_false_iff. left. apply Z.ltb_ge. lia.
    - apply andb_false_iff. right. apply Z.ltb_ge. lia. }
  assert (LL : forall k k',
             bytes_meet (LO_data_bytes cidaw k) (LO_data_bytes cidaw k')
             = Nat.eqb k' k).
  { intros k k'. unfold bytes_meet, LO_data_bytes. cbn [fst snd].
    destruct (Nat.eqb_spec k' k) as [-> | N].
    - apply andb_true_iff. split; apply Z.ltb_lt; lia.
    - apply andb_false_iff.
      destruct (Nat.lt_ge_cases k k') as [L | G].
      + right. apply Z.ltb_ge.
        assert ((Z.of_nat k + 1) * sizeof_LO_eckd_data
                <= Z.of_nat k' * sizeof_LO_eckd_data)
          by (apply Z.mul_le_mono_nonneg_r; lia).
        lia.
      + left. apply Z.ltb_ge.
        assert ((Z.of_nat k' + 1) * sizeof_LO_eckd_data
                <= Z.of_nat k * sizeof_LO_eckd_data)
          by (apply Z.mul_le_mono_nonneg_r; lia).
        lia. }
  assert (WW : forall i i',
             bytes_meet (idaws_bytes i) (idaws_bytes i') = Nat.eqb i' i).
  { intros i i'. unfold bytes_meet, idaws_bytes. cbn [fst snd].
    destruct (Nat.eqb_spec i' i) as [-> | N].
    - apply andb_true_iff. split; apply Z.ltb_lt; lia.
    - apply andb_false_iff.
      destruct (Nat.lt_ge_cases i i') as [L | G].
      + right. apply Z.ltb_ge.
        assert ((Z.of_nat i + 1) * sizeof_long <= Z.of_nat i' * sizeof_long)
          by (apply Z.mul_le_mono_nonneg_r; lia).
        lia.
      + left. apply Z.ltb_ge.
        assert ((Z.of_nat i' + 1) * sizeof_long <= Z.of_nat i * sizeof_long)
          by (apply Z.mul_le_mono_nonneg_r; lia).
        lia. }
  split.
  - intros k. destruct (nth_error los k) as [lo|] eqn:E.
    + rewrite (last_store_unique _ _ _ (store_LO k lo)).
      * rewrite Nat.eqb_refl. reflexivity.
      * apply A3. exact E.
      * cbn [store_bytes]. rewrite LL. apply Nat.eqb_refl.
      * intros s Hs M. specialize (A1 s Hs).
        destruct s as [i w | k' lo']; cbn [store_bytes] in M.
        -- destruct (NW i w k A1) as [N _]. congruence.
        -- rewrite LL in M. apply Nat.eqb_eq in M. subst k'. congruence.
    + rewrite last_store_none; [reflexivity|].
      intros s Hs. specialize (A1 s Hs).
      destruct s as [i w | k' lo']; cbn [store_bytes].
      * exact (proj1 (NW i w k A1)).
      * rewrite LL. apply Nat.eqb_neq. intros ->. congruence.
  - intros i. destruct (nth_error words i) as [w|] eqn:E.
    + rewrite (last_store_unique _ _ _ (store_idaw i w)).
      * rewrite Nat.eqb_refl. reflexivity.
      * apply A2. exact E.
      * cbn [store_bytes]. rewrite WW. apply Nat.eqb_refl.
      * intros s Hs M. specialize (A1 s Hs).
        destruct s as [i' w' | k lo]; cbn [store_bytes] in M.
        -- rewrite WW in M. apply Nat.eqb_eq in M. subst i'. congruence.
        -- destruct (NW i w k E) as [_ N]. congruence.
    + destruct (last_store cidaw (idaws_bytes i) area) as [t|] eqn:T;
        [|reflexivity].
      destruct (last_store_found _ _ _ _ T) as [It Mt].
      specialize (A1 t It).
      destruct t as [i' w' | k lo]; [|reflexivity].
      cbn [store_bytes] in Mt. rewrite WW in Mt. rewrite Mt.
      apply Nat.eqb_eq in Mt. subst i'. congruence.
Qed.

Lemma cmd_of_cases dir :
  cmd_of dir = DASD_ECKD_CCW_READ_MT \/ cmd_of dir = DASD_ECKD_CCW_WRITE_MT.
Proof. destruct dir; [left | right]; reflexivity. Qed.

Lemma build_cp_canonical clk now sdev block req m cqr m' :
  block_geometry_ok block req ->
  dasd_eckd_build_cp clk now sdev block req m = (PTR cqr, m') ->
  let private := privs m (base block) in
  let blksize := bp_block block in
  let bpt := recs_per_track (dev_type (rdc_data private)) 0 blksize in
  let first := first_rec_of block req in
  let last := last_rec_of block req in
  let cmd := cmd_of (rq_data_dir req) in
  let buffers := block_buffers blksize (segments req) (dasd_page_cache m) in
  exists first_ccw,
    (first_ccw, d_DE (data cqr), d_PFX (data cqr))
    = (if use_prefix private then
         (snd (fst (prefix clk (s32 (first / bpt)) (s32 (last / bpt)) cmd
                         private
                      (privs m sdev))),
          None,
          Some (snd (prefix clk (s32 (first / bpt)) (s32 (last / bpt)) cmd
                       private (privs m sdev))))
       else
         (snd (fst (define_extent clk (s32 (first / bpt))
                      (s32 (last / bpt)) cmd (privs m sdev))),
          Some (snd (define_extent clk (s32 (first / bpt))
                       (s32 (last / bpt)) cmd (privs m sdev))),
          None))
    /\ map clear_CC (cpaddr cqr)
       = clear_CC first_ccw
         :: (if one_locate private bpt first then [locate_ccw 0] else [])
         ++ records_program private cmd blksize bpt first
              (if one_locate private bpt first then 1%nat else 0%nat) 0
              buffers
    /\ d_LO (data cqr)
       = (if one_locate private bpt first
          then [snd (locate_record 0 (s32 (first / bpt)) (first mod bpt + 1)
                       (last - first + 1) cmd private blksize)]
          else [])
         ++ records_LO private cmd blksize bpt last first (length buffers)
    /\ d_idaws (data cqr) = idaws_of blksize buffers
    /\ segments_len (segments req) = Z.of_nat (length buffers) * blksize.
Proof.
  intros Hgeo Hb. cbv zeta.
  destruct (build_cp_inv _ _ _ _ _ _ _ _ Hb)
    as (count & cidaw & dsize & cqr0 & first_ccw & Hchk & _ & _ & Hfirst
        & Hc & Hi & Hl & _).
  destruct (full_blocks block req count cidaw Hgeo Hchk) as [Hpos Hfull].
  exists first_ccw. split; [exact Hfirst|].
  match type of Hc with
  | cpaddr cqr = rev (st_ccws (fst (fold_left ?f ?l (?s, ?c)))) =>
      destruct (fold_program (privs m (base block))
                  (cmd_of (rq_data_dir req)) (rq_data_dir req)
                  (bp_block block)
                  (recs_per_track
                     (dev_type (rdc_data (privs m (base block)))) 0
                     (bp_block block))
                  (last_rec_of block req) (segments req)
                  (cmd_of_cases _) Hpos Hfull s c) as (P & L & N);
      pose proof (fold_idaws (privs m (base block))
                    (cmd_of (rq_data_dir req)) (rq_data_dir req)
                    (bp_block block)
                    (recs_per_track
                       (dev_type (rdc_data (privs m (base block)))) 0
                       (bp_block block))
                    (last_rec_of block req) (segments req)
                    (cmd_of_cases _) Hpos Hfull s c) as I
  end.
  cbv zeta in P, L. cbn [st_ccws st_LO st_idaws st_recid] in P, L, I.
  rewrite Hc, Hi, Hl, I, L, N.
  unfold program_view in P. rewrite P.
  split; [|split; [|split; [reflexivity|]]].
  - destruct (one_locate _ _ _); cbn [emit rev map app length];
      reflexivity.
  - destruct (one_locate _ _ _); reflexivity.
  - apply segments_len_blocks; assumption.
Qed.

(** X10.  The channel program and the data area of a request are the ones
    the record-by-record description gives, chain flags aside: the
    define-extent or prefix CCW with its block, for the first and last
    track as the [int] arguments receive them; one locate-record CCW for a
    request outside the special tracks; and then for every record its data
    CCW on its buffer, preceded by a locate-record CCW of its own for the
    records of the first two tracks of a compatible disk layout and for the
    first record behind them.  The locate-record blocks and the indirect
    address words are stored in the order of their CCWs, the blocks
    [d_cidaw] words behind the first address word, where [d_cidaw] is the
    number the first loop counted; when no more address words are stored
    than that, no store writes over another and the data area holds every
    block and every word as stored. *)
Theorem build_cp_program clk now sdev block req m cqr m' :
  block_geometry_ok block req ->
  dasd_eckd_build_cp clk now sdev block req m = (PTR cqr, m') ->
  let private := privs m (base block) in
  let blksize := bp_block block in
  let bpt := recs_per_track (dev_type (rdc_data private)) 0 blksize in
  let first := first_rec_of block req in
  let last := last_rec_of block req in
  let cmd := cmd_of (rq_data_dir req) in
  let buffers := block_buffers blksize (segments req) (dasd_page_cache m) in
  exists first_ccw,
    (first_ccw, d_DE (data cqr), d_PFX (data cqr))
    = (if use_prefix private then
         (snd (fst (prefix clk (s32 (first / bpt)) (s32 (last / bpt)) cmd
                      private (privs m sdev))),
          None,
          Some (snd (prefix clk (s32 (first / bpt)) (s32 (last / bpt)) cmd
                       private (privs m sdev))))
       else
         (snd (fst (define_extent clk (s32 (first / bpt)) (s32 (last / bpt))
                      cmd (privs m sdev))),
          Some (snd (define_extent clk (s32 (first / bpt))
                       (s32 (last / bpt)) cmd (privs m sdev))),
          None))
    /\ map clear_CC (cpaddr cqr)
       = clear_CC first_ccw
         :: (if one_locate private bpt first then [locate_ccw 0] else [])
         ++ records_program private cmd blksize bpt first
              (if one_locate private bpt first then 1%nat else 0%nat) 0
              buffers
    /\ d_LO (data cqr)
       = (if one_locate private bpt first
          then [snd (locate_record 0 (s32 (first / bpt)) (first mod bpt + 1)
                       (last - first + 1) cmd private blksize)]
          else [])
         ++ records_LO private cmd blksize bpt last first (length buffers)
    /\ d_idaws (data cqr) = idaws_of blksize buffers
    /\ segments_len (segments req) = Z.of_nat (length buffers) * blksize
    /\ (exists count,
          check_segments blksize (s2b_shift block) (segments req) 0 0
          = Some (count, d_cidaw (data cqr)))
    /\ (0 < sizeof_long -> 0 < sizeof_LO_eckd_data ->
        Z.of_nat (length (d_idaws (data cqr))) <= d_cidaw (data cqr) ->
        (forall k, LO_data_at (data cqr) k = nth_error (d_LO (data cqr)) k)
        /\ (forall i,
              idaws_at (data cqr) i = nth_error (d_idaws (data cqr)) i)).
Proof.
  intros Hgeo Hb. cbv zeta.
  destruct (build_cp_canonical _ _ _ _ _ _ _ _ Hgeo Hb)
    as (first_ccw & H1 & H2 & H3 & H4 & H5).
  destruct (build_cp_inv _ _ _ _ _ _ _ _ Hb)
    as (count & cidaw & dsize & cqr0 & first_ccw' & Hchk & _ & _ & _
        & _ & Hi & Hl & _ & _ & _ & _ & _ & _ & _ & _ & _ & _ & Hci & Har).
  exists first_ccw.
  split; [exact H1|]. split; [exact H2|]. split; [exact H3|].
  split; [exact H4|]. split; [exact H5|].
  split; [exists count; rewrite Hci; exact Hchk|].
  intros Hl0 Ho0 Hfit. apply area_reads_back; try assumption.
  rewrite Hi, Hl, Har. apply fold_area_of.
  cbn [st_idaws st_LO st_area]. apply area_of_LO_stores.
Qed.

(** ** Command chaining *)

Lemma open_chain_emit c l :
  CCW_FLAG_CC (flags c) = false -> open_chain l -> open_chain (emit c l).
Proof.
  intros Hc Hl. destruct l as [|h t]; cbn [emit open_chain].
  - split; [exact Hc | constructor].
  - destruct Hl as [_ Ht]. split; [exact Hc|].
    constructor; [reflexivity | exact Ht].
Qed.

Lemma open_chain_chained l : open_chain l -> chained (rev l).
Proof.
  destruct l as [|c before]; intros H i x Hx.
  - destruct i; discriminate Hx.
  - destruct H as [Hc Hb]. cbn [rev] in Hx |- *.
    rewrite length_app, length_rev. cbn [length].
    destruct (Nat.lt_ge_cases i (length (rev before))) as [L | G].
    + rewrite nth_error_app1 in Hx by exact L.
      apply nth_error_In, in_rev in Hx.
      rewrite Forall_forall in Hb. rewrite (Hb x Hx).
      rewrite length_rev in L.
      destruct (Nat.eqb_spec (S i) (length before + 1)); [lia | reflexivity].
    + rewrite nth_error_app2 in Hx by exact G.
      rewrite length_rev in G, Hx.
      destruct (i - length before)%nat as [|k] eqn:K; cbn in Hx.
      * injection Hx as <-. rewrite Hc.
        destruct (Nat.eqb_spec (S i) (length before + 1)); [reflexivity | lia].
      * destruct k; discriminate Hx.
Qed.

Lemma define_extent_CC clk trk totrk cmd private :
  CCW_FLAG_CC (flags (snd (fst (define_extent clk trk totrk cmd private))))
  = false.
Proof.
  unfold define_extent, check_XRC.
  destruct cmd; destruct (XRC_supported (rdc_data private)); reflexivity.
Qed.

Lemma prefix_CC clk trk totrk cmd basepriv startpriv :
  CCW_FLAG_CC
    (flags (snd (fst (prefix clk trk totrk cmd basepriv startpriv))))
  = false.
Proof.
  unfold prefix, check_XRC_on_prefix.
  destruct cmd; destruct (XRC_supported (rdc_data basepriv)); reflexivity.
Qed.

Lemma emit_nonempty c l : emit c l <> [].
Proof. destruct l; discriminate. Qed.

(** The builder extends the program only by appending CCWs without chain
    flag. *)
Lemma build_block_emits (P : list ccw1 -> Prop) private cmd dir blksize bpt
    last_rec st :
  (forall c l, CCW_FLAG_CC (flags c) = false -> P l -> P (emit c l)) ->
  P (st_ccws st) ->
  P (st_ccws (build_block private cmd dir blksize bpt last_rec st)).
Proof.
  intros HP H. unfold build_block. cbv zeta.
  destruct (uses_cdl private && (st_recid st <? 2 * bpt));
    [destruct (negb (dasd_eckd_cdl_special bpt (st_recid st) =? 0));
     cbv zeta; locate_step|];
    (destruct (uses_cdl private && (st_recid st =? 2 * bpt));
     [locate_step|]);
    destruct (idal_is_needed (st_dst st) blksize);
    cbn [st_ccws];
    repeat (apply HP; [reflexivity|]); exact H.
Qed.

Lemma fold_emits (P : list ccw1 -> Prop) private cmd dir blksize bpt
    last_rec segs :
  (forall c l, CCW_FLAG_CC (flags c) = false -> P l -> P (emit c l)) ->
  forall st cache,
    P (st_ccws st) ->
    P (st_ccws (fst (fold_left
                       (fun sp bv =>
                          build_segment private cmd dir blksize bpt
                                        last_rec bv sp)
                       segs (st, cache)))).
Proof.
  intros HP.
  induction segs as [|bv segs IH]; intros st cache H; cbn [fold_left];
    [exact H|].
  destruct (build_segment private cmd dir blksize bpt last_rec bv
              (st, cache)) as [st1 cache1] eqn:E.
  apply IH. unfold build_segment in E.
  assert (F : forall s, P (st_ccws s) ->
                P (st_ccws (for_blocks (Z.to_nat (bv_len bv)) 0 (bv_len bv)
                              blksize
                              (build_block private cmd dir blksize bpt
                                 last_rec) s))).
  { intros s. apply (for_blocks_invariant (fun s => P (st_ccws s))).
    intros s0. apply build_block_emits. exact HP. }
  destruct cache as [[|[copy|] later]|]; injection E as <- _; apply F;
    exact H.
Qed.

(** X11.  Every CCW of the channel program of a block request carries the
    chain-command flag, except the last one: the channel runs the whole
    program and stops behind it. *)
Theorem build_cp_chained clk now sdev block req m cqr m' :
  dasd_eckd_build_cp clk now sdev block req m = (PTR cqr, m') ->
  cpaddr cqr <> [] /\ chained (cpaddr cqr).
Proof.
  intros Hb.
  destruct (build_cp_inv _ _ _ _ _ _ _ _ Hb)
    as (count & cidaw & dsize & cqr0 & first_ccw & _ & _ & _ & Hfirst
        & Hc & _).
  assert (Hcc : CCW_FLAG_CC (flags first_ccw) = false).
  { destruct (use_prefix _); injection Hfirst as -> _ _;
      [apply prefix_CC | apply define_extent_CC]. }
  match type of Hc with
  | cpaddr cqr = rev (st_ccws (fst (fold_left ?f ?l (?s, ?c)))) =>
      pose proof (fun P HP =>
                    fold_emits P (privs m (base block))
                      (cmd_of (rq_data_dir req)) (rq_data_dir req)
                      (bp_block block)
                      (recs_per_track
                         (dev_type (rdc_data (privs m (base block)))) 0
                         (bp_block block))
                      (last_rec_of block req) (segments req) HP s c) as F
  end.
  cbn [st_ccws] in F. rewrite Hc. split.
  - intros E. apply (f_equal (@rev _)) in E. rewrite rev_involutive in E.
    revert E. apply (F (fun l => l <> [])).
    + intros c l _ _. apply emit_nonempty.
    + destruct (one_locate _ _ _); [apply emit_nonempty | discriminate].
  - apply open_chain_chained. apply (F open_chain).
    + apply open_chain_emit.
    + destruct (one_locate _ _ _);
        [apply open_chain_emit; [reflexivity|]|];
        (split; [exact Hcc | constructor]).
Qed.

(** ** Releasing a block request *)

Lemma for_each_block_iter {S : Type} (body : S -> S) blksize :
  0 < blksize ->
  forall n fuel j len s,
    (n <= fuel)%nat ->
    0 <= j ->
    len = (j + Z.of_nat n) * blksize ->
    len + blksize <= 2 ^ 32 ->
    for_each_block fuel (j * blksize) len blksize body s = Nat.iter n body s.
Proof.
  intros Hb. induction n as [|n IH]; intros fuel j len s Hf Hj Hlen Hw.
  - destruct fuel; cbn [for_each_block Nat.iter]; [reflexivity|].
    destruct (Z.ltb_spec (j * blksize) len); [nia|reflexivity].
  - destruct fuel as [|fuel]; [lia|]. cbn [for_each_block].
    destruct (Z.ltb_spec (j * blksize) len); [|nia].
    rewrite u32_small by nia.
    replace (j * blksize + blksize) with ((j + 1) * blksize) by lia.
    rewrite (IH fuel (j + 1) len (body s)) by lia.
    symmetry. apply Nat.iter_succ_r.
Qed.

Lemma records_program_length private cmd blksize bpt bufs :
  forall recid nLO nIDA,
    length (records_program private cmd blksize bpt recid nLO nIDA bufs)
    = program_span private bpt recid (length bufs).
Proof.
  induction bufs as [|dst bufs IH]; intros recid nLO nIDA;
    cbn [records_program program_span length]; [reflexivity|].
  rewrite length_app. cbn [length]. rewrite IH.
  destruct (needs_locate private bpt recid); cbn [length]; lia.
Qed.

Lemma transfer_address_clear cqr c :
  transfer_address cqr (clear_CC c) = transfer_address cqr c.
Proof. reflexivity. Qed.

Lemma nth_error_clear cp i c' :
  nth_error (map clear_CC cp) i = Some c' ->
  exists c, nth_error cp i = Some c /\ clear_CC c = c'.
Proof.
  rewrite nth_error_map. destruct (nth_error cp i) as [c|]; cbn;
    [|discriminate].
  intros H. injection H as <-. exists c. split; reflexivity.
Qed.

(** The loop body of the release on the blocks of a segment behind the
    first one: only the position advances. *)
Lemma free_skip private cqr dir bpt len n :
  forall fs,
    fs_dst fs = 0 ->
    Nat.iter n
      (fun s => match s with
                | Some s => free_block private cqr dir bpt len s
                | None => None
                end) (Some fs)
    = Some {| fs_ccw := fs_ccw fs
                        + program_span private bpt (fs_recid fs) n;
              fs_recid := fs_recid fs + Z.of_nat n;
              fs_dst := 0;
              fs_mem := fs_mem fs;
              fs_freed := fs_freed fs |}.
Proof.
  induction n as [|n IH]; intros fs Hd.
  - cbn [Nat.iter program_span]. rewrite Nat.add_0_r, Z.add_0_r, <- Hd.
    destruct fs; reflexivity.
  - rewrite Nat.iter_succ_r. unfold free_block at 2. rewrite Hd.
    cbn [Z.eqb negb]. rewrite IH by reflexivity.
    cbn [fs_ccw fs_recid fs_mem fs_freed program_span].
    unfold needs_locate.
    f_equal. f_equal; [|lia].
    destruct (uses_cdl private && (fs_recid fs <=? 2 * bpt)); lia.
Qed.

Lemma program_span_ext p2 p bpt n :
  uses_cdl p2 = uses_cdl p ->
  forall recid, program_span p2 bpt recid n = program_span p bpt recid n.
Proof.
  intros H. induction n as [|n IH]; intros recid; cbn [program_span];
    [reflexivity|].
  rewrite IH. unfold needs_locate. rewrite H. reflexivity.
Qed.

Lemma transfer_data_ccw private cmd blksize bpt recid cqr before b after :
  (forall a l, nth_error (idal_create_words a l) 0 = Some a) ->
  d_idaws (data cqr) = idaws_of blksize (before ++ b :: after) ->
  transfer_address cqr
    (data_ccw private cmd blksize bpt recid b
              (length (idaws_of blksize before)))
  = Some b.
Proof.
  intros Hidal Hi. unfold transfer_address, data_ccw.
  destruct (idal_is_needed b blksize) eqn:I; cbn [flags cda CCW_FLAG_IDA
    flags_IDA flags_0]; [|reflexivity].
  rewrite Hi. change (b :: after) with ([b] ++ after).
  rewrite !idaws_of_app.
  rewrite nth_error_app2 by lia. rewrite Nat.sub_diag.
  unfold idaws_of at 1. cbn [map concat]. rewrite I, app_nil_r.
  specialize (Hidal b blksize).
  destruct (idal_create_words b blksize) as [|w ws]; [discriminate Hidal|].
  exact Hidal.
Qed.

Lemma full_segment_blocks blksize len :
  0 < blksize -> 0 <= len -> len mod blksize = 0 ->
  (Z.to_nat (len / blksize) = O <-> len = 0)
  /\ ((0 <? len) = negb (Nat.eqb (Z.to_nat (len / blksize)) 0)).
Proof.
  intros Hb Hl Hm.
  pose proof (Z.div_mod len blksize ltac:(lia)) as E.
  assert (0 <= len / blksize) by (apply Z.div_pos; lia).
  assert (Z.to_nat (len / blksize) = O <-> len = 0) as Q.
  { split; intros Q; [|rewrite Q; reflexivity].
    assert (len / blksize = 0) by lia. nia. }
  split; [exact Q|].
  destruct (Z.ltb_spec 0 len), (Nat.eqb_spec (Z.to_nat (len / blksize)) 0);
    cbn [negb]; try reflexivity; lia.
Qed.

(** The release of one segment finds, behind the CCWs of earlier
    segments, the data CCW of the segment's first block and the buffer
    the builder chose for it. *)
Lemma free_segment_walk p p2 cqr cmd dir blksize bpt bv cache pre post r
    nLO nIDA fs :
  let b := fst (segment_buffer bv cache) in
  let a := bv_page bv + bv_offset bv in
  let n := Z.to_nat (bv_len bv / blksize) in
  uses_cdl p2 = uses_cdl p ->
  0 < blksize ->
  0 <= bv_len bv ->
  bv_len bv mod blksize = 0 ->
  bv_len bv + blksize <= 2 ^ 32 ->
  map clear_CC (cpaddr cqr)
  = pre
    ++ records_program p cmd blksize bpt r nLO nIDA
         (map (fun j => b + Z.of_nat j * blksize) (seq 0 n))
    ++ post ->
  (n <> O ->
   transfer_address cqr (data_ccw p cmd blksize bpt r b nIDA) = Some b) ->
  fs_ccw fs = length pre ->
  fs_recid fs = r ->
  exists fs',
    free_segment p2 cqr dir blksize bpt bv (Some fs) = Some fs'
    /\ fs_ccw fs' = (length pre + program_span p bpt r n)%nat
    /\ fs_recid fs' = r + Z.of_nat n
    /\ (fs_mem fs', fs_freed fs')
       = if (0 <? bv_len bv) && negb (a =? 0) && negb (a =? b)
         then (match dir with
               | READ => memcpy (fs_mem fs) a b (bv_len bv)
               | WRITE => fs_mem fs
               end,
               fs_freed fs ++ [PAGE_MASK_of b])
         else (fs_mem fs, fs_freed fs).
Proof.
  intros b a n Hcdl Hb Hl Hm Hw Hprog Htr Hi Hr.
  destruct (full_segment_blocks blksize (bv_len bv) Hb Hl Hm) as [Hn0 Hpos].
  fold n in Hn0, Hpos.
  assert (Hq : 0 <= bv_len bv / blksize) by (apply Z.div_pos; lia).
  assert (Hd : bv_len bv = blksize * (bv_len bv / blksize))
    by (pose proof (Z.div_mod (bv_len bv) blksize ltac:(lia)); lia).
  unfold free_segment.
  change 0 with (0 * blksize) at 1.
  rewrite (for_each_block_iter _ blksize Hb n); try lia.
  all: try (apply Z2Nat.inj_le; nia).
  all: try (subst n; rewrite Z2Nat.id by lia; lia).
  rewrite Hpos. fold a.
  destruct n as [|n'] eqn:En.
  - cbn [Nat.iter Nat.eqb negb andb program_span].
    eexists. split; [reflexivity|]. cbn [fs_ccw fs_recid fs_mem fs_freed].
    repeat split; lia.
  - specialize (Htr ltac:(discriminate)).
    rewrite Nat.iter_succ_r. cbn [Nat.eqb negb andb].
    unfold free_block at 2. cbn [fs_dst fs_recid fs_ccw fs_mem fs_freed].
    rewrite Hcdl, Hr, Hi. fold (needs_locate p bpt r).
    destruct (Z.eqb_spec a 0) as [A0 | A0]; cbn [negb].
    + rewrite free_skip by (cbn [fs_dst]; exact A0).
      cbn [fs_ccw fs_recid fs_mem fs_freed program_span].
      eexists. split; [reflexivity|].
      cbn [fs_ccw fs_recid fs_mem fs_freed].
      rewrite (program_span_ext p2 p) by exact Hcdl.
      repeat split; try lia.
      destruct (needs_locate p bpt r); lia.
    + cbn [seq map records_program] in Hprog.
      replace (b + Z.of_nat 0 * blksize) with b in Hprog by lia.
      assert (Hnth : nth_error (map clear_CC (cpaddr cqr))
                       (if needs_locate p bpt r then S (length pre)
                        else length pre)
                     = Some (data_ccw p cmd blksize bpt r b nIDA)).
      { rewrite Hprog. rewrite nth_error_app2
          by (destruct (needs_locate p bpt r); lia).
        destruct (needs_locate p bpt r).
        - replace (S (length pre) - length pre)%nat with 1%nat by lia.
          reflexivity.
        - rewrite Nat.sub_diag. reflexivity. }
      apply nth_error_clear in Hnth. destruct Hnth as (c & Hc & Ec).
      rewrite Hc. rewrite <- (transfer_address_clear cqr c), Ec, Htr.
      destruct (Z.eqb_spec a b) as [AB | AB]; cbn [negb];
        rewrite free_skip by reflexivity;
        cbn [fs_ccw fs_recid fs_mem fs_freed program_span];
        (eexists; split; [reflexivity|]);
        cbn [fs_ccw fs_recid fs_mem fs_freed];
        rewrite (program_span_ext p2 p) by exact Hcdl;
        repeat split; try lia;
        destruct (needs_locate p bpt r); lia.
Qed.

Lemma free_fold_walk p p2 cqr cmd dir blksize bpt segs :
  (forall a l, nth_error (idal_create_words a l) 0 = Some a) ->
  uses_cdl p2 = uses_cdl p ->
  0 < blksize ->
  Forall (fun bv => 0 <= bv_len bv /\ bv_len bv mod blksize = 0
                    /\ bv_len bv + blksize <= 2 ^ 32) segs ->
  forall cache pre r nLO before fs,
    map clear_CC (cpaddr cqr)
    = pre ++ records_program p cmd blksize bpt r nLO
               (length (idaws_of blksize before))
               (block_buffers blksize segs cache) ->
    d_idaws (data cqr)
    = idaws_of blksize (before ++ block_buffers blksize segs cache) ->
    fs_ccw fs = length pre ->
    fs_recid fs = r ->
    exists fs',
      fold_left (fun fs bv => free_segment p2 cqr dir blksize bpt bv fs)
                segs (Some fs)
      = Some fs'
      /\ (fs_mem fs', fs_freed fs')
         = finalized dir segs cache (fs_mem fs, fs_freed fs).
Proof.
  intros Hidal Hcdl Hb Hsegs.
  induction Hsegs as [|bv segs (Hl & Hm & Hw) _ IH];
    intros cache pre r nLO before fs Hprog Hi Hc Hr;
    cbn [fold_left finalized block_buffers] in *.
  - exists fs. split; reflexivity.
  - set (b := fst (segment_buffer bv cache)) in *.
    set (n := Z.to_nat (bv_len bv / blksize)) in *.
    set (seg := map (fun j => b + Z.of_nat j * blksize) (seq 0 n)) in *.
    rewrite (records_program_app p cmd blksize bpt 0) in Hprog.
    assert (Hseg : length seg = n)
      by (subst seg; rewrite length_map, length_seq; reflexivity).
    assert (Htr : n <> O ->
                  transfer_address cqr
                    (data_ccw p cmd blksize bpt r b
                       (length (idaws_of blksize before))) = Some b).
    { intros Hn. destruct n as [|n'] eqn:En; [contradiction|].
      apply (transfer_data_ccw p cmd blksize bpt r cqr before b
               (map (fun j => b + Z.of_nat j * blksize) (seq 1 n')
                ++ block_buffers blksize segs
                     (snd (segment_buffer bv cache))) Hidal).
      rewrite Hi. subst seg. cbn [seq map].
      replace (b + Z.of_nat 0 * blksize) with b by lia. reflexivity. }
    destruct (free_segment_walk p p2 cqr cmd dir blksize bpt bv cache pre _
                r nLO _ fs Hcdl Hb Hl Hm Hw Hprog Htr Hc Hr)
      as (fs1 & -> & Hc1 & Hr1 & Hm1).
    fold b in Hm1. fold n in Hc1, Hr1.
    destruct (IH (snd (segment_buffer bv cache))
                 (pre ++ records_program p cmd blksize bpt r nLO
                           (length (idaws_of blksize before)) seg)
                 (r + Z.of_nat (length seg))
                 (nLO + length (records_LO p cmd blksize bpt 0 r
                                  (length seg)))%nat
                 (before ++ seg) fs1)
      as (fs' & Hfold & Hfin).
    + rewrite Hprog, <- app_assoc, idaws_of_app, length_app. reflexivity.
    + rewrite Hi, <- app_assoc. reflexivity.
    + rewrite Hc1, length_app, records_program_length, Hseg. reflexivity.
    + rewrite Hr1, Hseg. reflexivity.
    + exists fs'. split; [exact Hfold|].
      rewrite Hfin. f_equal. rewrite Hm1.
      destruct ((0 <? bv_len bv)
                && negb (bv_page bv + bv_offset bv =? 0)
                && negb (bv_page bv + bv_offset bv =? b)); reflexivity.
Qed.

Lemma free_cp_after_build clk now sdev block req m cqr m1 cqr' m2 :
  (forall a l, nth_error (idal_create_words a l) 0 = Some a) ->
  block_geometry_ok block req ->
  dasd_eckd_build_cp clk now sdev block req m = (PTR cqr, m1) ->
  cpaddr cqr' = cpaddr cqr ->
  d_idaws (data cqr') = d_idaws (data cqr) ->
  uses_cdl (privs m2 (base block)) = uses_cdl (privs m (base block)) ->
  dev_type (rdc_data (privs m2 (base block)))
  = dev_type (rdc_data (privs m (base block))) ->
  dasd_eckd_free_cp cqr' block req m2
  = let r :=
      match dasd_page_cache m2 with
      | None => (mem m2, [])
      | Some _ =>
          finalized (rq_data_dir req) (segments req) (dasd_page_cache m)
                    (mem m2, [])
      end in
    Some (if status cqr' =? DASD_CQR_DONE then 1 else 0,
          sfree_request cqr' (set_mem (fst r) m2), snd r).
Proof.
  intros Hidal Hgeo Hb Hcp Hid Hcdl Hdev. cbv zeta.
  unfold dasd_eckd_free_cp. cbv zeta.
  destruct (dasd_page_cache m2) as [outcomes|]; [|reflexivity].
  destruct (build_cp_canonical _ _ _ _ _ _ _ _ Hgeo Hb)
    as (first_ccw & _ & Hprog & _ & Hi & _).
  destruct (build_cp_inv _ _ _ _ _ _ _ _ Hb)
    as (count & cidaw & _ & _ & _ & Hchk & _).
  destruct (full_blocks block req count cidaw Hgeo Hchk) as [Hpos Hfull].
  rewrite Hdev, Hcdl.
  fold (first_rec_of block req).
  fold (one_locate (privs m (base block))
          (recs_per_track (dev_type (rdc_data (privs m (base block)))) 0
             (bp_block block))
          (first_rec_of block req)).
  rewrite <- Hcp in Hprog. rewrite <- Hid in Hi.
  rewrite app_comm_cons in Hprog.
  match goal with
  | |- context [fold_left _ _ (Some ?s)] =>
      destruct (free_fold_walk (privs m (base block))
                  (privs m2 (base block)) cqr'
                  (cmd_of (rq_data_dir req)) (rq_data_dir req)
                  (bp_block block)
                  (recs_per_track
                     (dev_type (rdc_data (privs m (base block)))) 0
                     (bp_block block))
                  (segments req) Hidal Hcdl Hpos Hfull
                  (dasd_page_cache m) _ _ _ [] s Hprog Hi)
        as (fs' & Hfold & Hfin)
  end.
  - cbn [fs_ccw length].
    destruct (one_locate _ _ _); reflexivity.
  - reflexivity.
  - rewrite Hfold. cbn [fs_mem fs_freed] in Hfin. rewrite <- Hfin.
    reflexivity.
Qed.

(** X12.  Releasing a request that [dasd_eckd_build_cp] built walks its
    channel program to the data CCW of the first block of every segment and
    finds there the buffer the builder chose: when the page cache is in use,
    a segment that was moved to a page of the cache is copied back for a
    read and its page is given back; the request leaves the pool and the
    result is 1 exactly for a request that is done.  The first indirect
    address word of a buffer is taken to be the buffer's address. *)
Theorem free_cp_finalizes clk now sdev block req m cqr m1 cqr' m2 :
  (forall a l, nth_error (idal_create_words a l) 0 = Some a) ->
  block_geometry_ok block req ->
  dasd_eckd_build_cp clk now sdev block req m = (PTR cqr, m1) ->
  cpaddr cqr' = cpaddr cqr ->
  d_idaws (data cqr') = d_idaws (data cqr) ->
  uses_cdl (privs m2 (base block)) = uses_cdl (privs m (base block)) ->
  dev_type (rdc_data (privs m2 (base block)))
  = dev_type (rdc_data (privs m (base block))) ->
  dasd_eckd_free_cp cqr' block req m2
  = let r :=
      match dasd_page_cache m2 with
      | None => (mem m2, [])
      | Some _ =>
          finalized (rq_data_dir req) (segments req) (dasd_page_cache m)
                    (mem m2, [])
      end in
    Some (if status cqr' =? DASD_CQR_DONE then 1 else 0,
          sfree_request cqr' (set_mem (fst r) m2), snd r).
Proof. apply free_cp_after_build. Qed.

Lemma PAGE_MASK_of_page copy off :
  0 <= copy -> copy mod PAGE_SIZE = 0 -> 0 <= off < PAGE_SIZE ->
  PAGE_MASK_of (copy + off) = copy.
Proof.
  unfold PAGE_MASK_of, PAGE_SIZE. intros Hc Hm Ho.
  change (4096 - 1) with (Z.ones 12).
  rewrite <- Z.ldiff_land, Z.ldiff_ones_r by lia.
  rewrite Z.shiftr_div_pow2, Z.shiftl_mul_pow2 by lia.
  change (2 ^ 12) with 4096.
  pose proof (Z.div_mod copy 4096 ltac:(lia)) as E.
  assert (Q : (copy + off) / 4096 = copy / 4096).
  { symmetry. apply Z.div_unique with (r := off); lia. }
  rewrite Q. lia.
Qed.

Lemma finalized_pages dir segs :
  segments_ok segs ->
  forall cache mem freed,
    cache_pages_ok segs cache ->
    snd (finalized dir segs cache (mem, freed))
    = freed ++ pages_taken segs cache.
Proof.
  induction 1 as [|bv segs (Hl & Ha & Ho) _ IH]; intros cache mem freed Hc;
    cbn [finalized pages_taken].
  - cbn. rewrite app_nil_r. reflexivity.
  - destruct (Z.ltb_spec 0 (bv_len bv)); [|lia].
    destruct (Z.eqb_spec (bv_page bv + bv_offset bv) 0); [contradiction|].
    cbn [andb negb].
    assert (Hrest : forall later,
               (exists o, cache = Some (o :: later)) ->
               cache_pages_ok segs (Some later)).
    { intros later [o Ec] outcomes copy E Hin. injection E as <-.
      destruct (Hc (o :: later) copy Ec (or_intror Hin)) as (P1 & P2 & P3).
      inversion P3; subst. auto. }
    destruct cache as [[|[copy|] later]|]; cbn [segment_buffer fst snd].
    + rewrite Z.eqb_refl. cbn [negb]. apply IH.
      intros outcomes copy E Hin. injection E as <-. destruct Hin.
    + destruct (Hc _ copy eq_refl (or_introl eq_refl)) as (P1 & P2 & P3).
      inversion P3; subst.
      destruct (Z.eqb_spec (bv_page bv + bv_offset bv)
                  (copy + bv_offset bv)); [lia|].
      cbn [negb fst snd]. rewrite PAGE_MASK_of_page by assumption.
      rewrite IH by (apply Hrest; eauto).
      rewrite <- app_assoc. reflexivity.
    + rewrite Z.eqb_refl. cbn [negb]. apply IH. apply Hrest; eauto.
    + rewrite Z.eqb_refl. cbn [negb]. apply IH.
      intros outcomes copy E. discriminate E.
Qed.

Lemma finalized_write segs :
  forall cache mem freed,
    fst (finalized WRITE segs cache (mem, freed)) = mem.
Proof.
  induction segs as [|bv segs IH]; intros cache mem freed;
    cbn [finalized]; [reflexivity|].
  destruct ((0 <? bv_len bv) && _ && _); cbn [fst snd]; apply IH.
Qed.

Lemma pool_remove_head cqr reqs : pool_remove cqr (cqr :: reqs) = reqs.
Proof.
  cbn [pool_remove].
  destruct (dasd_ccw_req_eq_dec cqr cqr); [reflexivity | contradiction].
Qed.

(** X13.  With the page cache in use, releasing a request gives back exactly
    the pages the builder took for it, each once and in the order of the
    segments, and a write request leaves the memory as it is.  The segments
    are taken to be non-empty and inside their pages, and the pages of the
    cache to be aligned and distinct from the caller's. *)
Theorem free_cp_returns_pages clk now sdev block req m cqr m1 cqr' m2 :
  (forall a l, nth_error (idal_create_words a l) 0 = Some a) ->
  block_geometry_ok block req ->
  dasd_eckd_build_cp clk now sdev block req m = (PTR cqr, m1) ->
  cpaddr cqr' = cpaddr cqr ->
  d_idaws (data cqr') = d_idaws (data cqr) ->
  uses_cdl (privs m2 (base block)) = uses_cdl (privs m (base block)) ->
  dev_type (rdc_data (privs m2 (base block)))
  = dev_type (rdc_data (privs m (base block))) ->
  dasd_page_cache m2 <> None ->
  segments_ok (segments req) ->
  cache_pages_ok (segments req) (dasd_page_cache m) ->
  match dasd_eckd_free_cp cqr' block req m2 with
  | Some (rc, m3, freed) =>
      freed = pages_taken (segments req) (dasd_page_cache m)
      /\ (rq_data_dir req = WRITE -> mem m3 = mem m2)
      /\ ccw_reqs m3 = pool_remove cqr' (ccw_reqs m2)
      /\ privs m3 = privs m2
      /\ (rc = 1 <-> status cqr' = DASD_CQR_DONE)
  | None => False
  end.
Proof.
  intros Hidal Hgeo Hb Hcp Hid Hcdl Hdev Hcache Hsegs Hpages.
  rewrite (free_cp_after_build _ _ _ _ _ _ _ _ _ _ Hidal Hgeo Hb Hcp Hid
             Hcdl Hdev).
  cbv zeta.
  destruct (dasd_page_cache m2) as [o2|]; [|contradiction].
  split; [apply (finalized_pages _ _ Hsegs _ _ [] Hpages)|].
  split; [intros ->; apply finalized_write|].
  split; [reflexivity|]. split; [reflexivity|].
  destruct (Z.eqb_spec (status cqr') DASD_CQR_DONE); split; intros;
    try reflexivity; try assumption; try discriminate; contradiction.
Qed.

Lemma memcpy_outside mem dst src n x :
  ~ (dst <= x < dst + n) -> memcpy mem dst src n x = mem x.
Proof.
  intros H. unfold memcpy.
  destruct (Z.leb_spec dst x), (Z.ltb_spec x (dst + n)); cbn [andb];
    try reflexivity; lia.
Qed.

Lemma finalized_untouched dir segs x :
  Forall (fun s => ~ in_segment s x) segs ->
  forall cache mem freed,
    fst (finalized dir segs cache (mem, freed)) x = mem x.
Proof.
  induction 1 as [|bv segs Hx _ IH]; intros cache mem freed;
    cbn [finalized]; [reflexivity|].
  destruct ((0 <? bv_len bv) && _ && _); cbn [fst snd]; rewrite IH;
    [|reflexivity].
  destruct dir; [|reflexivity].
  apply memcpy_outside. exact Hx.
Qed.

Lemma finalized_read_at s1 bv s2 j :
  0 <= j < bv_len bv ->
  forall cache mem freed,
    let a := bv_page bv + bv_offset bv in
    let b := fst (segment_buffer bv (cache_after s1 cache)) in
    a <> 0 ->
    Forall (fun s => ~ in_segment s (b + j)) s1 ->
    Forall (fun s => ~ in_segment s (a + j)) s2 ->
    fst (finalized READ (s1 ++ bv :: s2) cache (mem, freed)) (a + j)
    = mem (b + j).
Proof.
  intros Hj. induction s1 as [|s s1 IH]; intros cache mem freed a b Ha H1 H2.
  - cbn [app finalized cache_after] in *. fold a. fold b.
    destruct (Z.ltb_spec 0 (bv_len bv)); [|lia].
    destruct (Z.eqb_spec a 0); [contradiction|].
    destruct (Z.eqb_spec a b) as [E | E]; cbn [andb negb fst snd];
      rewrite finalized_untouched by exact H2.
    + rewrite E. reflexivity.
    + unfold memcpy.
      destruct (Z.leb_spec a (a + j)), (Z.ltb_spec (a + j) (a + bv_len bv));
        cbn [andb]; try lia.
      f_equal. lia.
  - cbn [app finalized cache_after] in *.
    inversion H1 as [|? ? Hs H1']; subst.
    destruct ((0 <? bv_len s) && _ && _); cbn [fst snd];
      rewrite IH by assumption; [|reflexivity].
    apply memcpy_outside. exact Hs.
Qed.

(** X14.  With the page cache in use, releasing a read request brings the
    data to the caller: every byte of a segment receives the byte at the
    same offset of the buffer the builder chose for the segment, provided no
    earlier segment of the request covers that byte of the buffer and no
    later segment covers the byte of the segment. *)
Theorem free_cp_read_copies_back clk now sdev block req m cqr m1 cqr' m2
    s1 bv s2 j :
  (forall a l, nth_error (idal_create_words a l) 0 = Some a) ->
  block_geometry_ok block req ->
  dasd_eckd_build_cp clk now sdev block req m = (PTR cqr, m1) ->
  cpaddr cqr' = cpaddr cqr ->
  d_idaws (data cqr') = d_idaws (data cqr) ->
  uses_cdl (privs m2 (base block)) = uses_cdl (privs m (base block)) ->
  dev_type (rdc_data (privs m2 (base block)))
  = dev_type (rdc_data (privs m (base block))) ->
  dasd_page_cache m2 <> None ->
  rq_data_dir req = READ ->
  segments req = s1 ++ bv :: s2 ->
  let a := bv_page bv + bv_offset bv in
  let b := fst (segment_buffer bv (cache_after s1 (dasd_page_cache m))) in
  0 <= j < bv_len bv ->
  a <> 0 ->
  Forall (fun s => ~ in_segment s (b + j)) s1 ->
  Forall (fun s => ~ in_segment s (a + j)) s2 ->
  match dasd_eckd_free_cp cqr' block req m2 with
  | Some (_, m3, _) => mem m3 (a + j) = mem m2 (b + j)
  | None => False
  end.
Proof.
  intros Hidal Hgeo Hb Hcp Hid Hcdl Hdev Hcache Hdir Hsegs a b Hj Ha H1 H2.
  rewrite (free_cp_after_build _ _ _ _ _ _ _ _ _ _ Hidal Hgeo Hb Hcp Hid
             Hcdl Hdev).
  cbv zeta.
  destruct (dasd_page_cache m2) as [o2|]; [|contradiction].
  rewrite Hdir, Hsegs. cbn [mem sfree_request set_mem].
  apply finalized_read_at; assumption.
Qed.

Lemma build_cp_memdev clk now sdev block req m cqr m1 :
  dasd_eckd_build_cp clk now sdev block req m = (PTR cqr, m1) ->
  memdev cqr = sdev /\ ccw_reqs m1 = cqr :: ccw_reqs m
  /\ privs m1 = privs m.
Proof.
  intros Hb.
  destruct (build_cp_inv _ _ _ _ _ _ _ _ Hb)
    as (count & cidaw & dsize & cqr0 & first_ccw & _ & _ & _ & _
        & _ & _ & _ & _ & _ & Hp & Hr & _ & Hm & _).
  auto.
Qed.

(** X15.  A request built by [dasd_eckd_build_alias_cp] and released by
    [dasd_eckd_free_alias_cp], whatever status the device layer gave it in
    between, leaves the in-flight counter and the private data of every
    device and the request pool as they were before the build. *)
Theorem alias_cp_round_trip clk now base_dev block req m cqr m1 st :
  (forall a l, nth_error (idal_create_words a l) 0 = Some a) ->
  block_geometry_ok block req ->
  dasd_eckd_build_alias_cp clk now base_dev block req m = (PTR cqr, m1) ->
  let done := set_status st cqr in
  match dasd_eckd_free_alias_cp done block req (pool_fill done m1) with
  | Some (rc, m3, _) =>
      (forall d, privs m3 d = privs m d)
      /\ ccw_reqs m3 = ccw_reqs m
      /\ (rc = 1 <-> st = DASD_CQR_DONE)
  | None => False
  end.
Proof.
  intros Hidal Hgeo Hb done. unfold dasd_eckd_build_alias_cp in Hb.
  set (sdev := match dasd_alias_get_start_dev base_dev with
               | Some dev => dev
               | None => base_dev
               end) in *.
  destruct (priv_count (privs m sdev) >=? DASD_ECKD_CHANQ_MAX_SIZE);
    [discriminate Hb|].
  destruct (dasd_eckd_build_cp clk now sdev block req
              (add_priv_count sdev 1 m)) as [[e | cqr1] m1'] eqn:B;
    [discriminate Hb|].
  injection Hb as -> ->.
  destruct (build_cp_memdev _ _ _ _ _ _ _ _ B) as (Hmd & Hreqs & Hprivs).
  unfold dasd_eckd_free_alias_cp.
  change (memdev done) with (memdev cqr). rewrite Hmd.
  rewrite (free_cp_after_build clk now sdev block req
             (add_priv_count sdev 1 m) cqr m1 done _ Hidal Hgeo B
             eq_refl eq_refl).
  - cbv zeta. cbn [status set_status done].
    split; [|split].
    + intros d. cbn [privs sfree_request set_mem add_priv_count pool_fill
                     pool_add dasd_sfree_request].
      rewrite Hprivs. cbn [privs add_priv_count].
      destruct (Nat.eqb d sdev); [|reflexivity].
      cbn [priv_count set_priv_count]. rewrite set_priv_count_twice.
      replace (priv_count (privs m d) + 1 + -1) with (priv_count (privs m d))
        by lia.
      apply set_priv_count_same.
    + cbn [ccw_reqs sfree_request set_mem add_priv_count pool_fill
           pool_add dasd_sfree_request].
      rewrite pool_remove_head, Hreqs. reflexivity.
    + destruct (Z.eqb_spec st DASD_CQR_DONE); split; intros;
        try reflexivity; try assumption; try discriminate; contradiction.
  - cbn [privs add_priv_count pool_fill pool_add dasd_sfree_request].
    rewrite Hprivs. cbn [privs add_priv_count].
    destruct (Nat.eqb (base block) sdev); reflexivity.
  - cbn [privs add_priv_count pool_fill pool_add dasd_sfree_request].
    rewrite Hprivs. cbn [privs add_priv_count].
    destruct (Nat.eqb (base block) sdev); reflexivity.
Qed.

(** ** Length of the channel program and targets of the data CCWs *)

Lemma check_segments_count blksize shift segs :
  0 <= shift ->
  blksize = 2 ^ (shift + 9) ->
  Forall (fun bv => 0 <= bv_len bv) segs ->
  forall count cidaw r,
    check_segments blksize shift segs count cidaw = Some r ->
    fst r = count + Z.of_nat (blocks_in blksize segs).
Proof.
  intros Hs Hb Hsegs. induction Hsegs as [|bv segs Hl _ IH];
    intros count cidaw r H; cbn [check_segments blocks_in fold_right] in *.
  - injection H as <-. cbn. lia.
  - destruct (negb _); [discriminate|].
    apply IH in H. rewrite H.
    rewrite Z.shiftr_div_pow2 by lia. rewrite <- Hb.
    assert (0 < blksize) by (rewrite Hb; apply Z.pow_pos_nonneg; lia).
    rewrite Nat2Z.inj_add, Z2Nat.id by (apply Z.div_pos; lia).
    fold (blocks_in blksize segs). lia.
Qed.

Lemma program_span_count private bpt n :
  forall recid,
    Z.of_nat (program_span private bpt recid n)
    = Z.of_nat n
      + (if uses_cdl private
         then Z.max 0 (Z.min (Z.of_nat n) (2 * bpt - recid + 1))
         else 0).
Proof.
  induction n as [|n IH]; intros recid; cbn [program_span].
  - destruct (uses_cdl private); lia.
  - rewrite Nat2Z.inj_add, IH. unfold needs_locate.
    destruct (uses_cdl private); cbn [andb]; [|lia].
    destruct (Z.leb_spec recid (2 * bpt)); lia.
Qed.

(** The record range and the segments of a request agree when the sector
    range is a proper one. *)
Lemma request_blocks block req count cidaw :
  block_geometry_ok block req ->
  0 <= sector req ->
  0 < nr_sectors req ->
  sector req + nr_sectors req < 2 ^ 64 ->
  segments_len (segments req) < 2 ^ 64 ->
  check_segments (bp_block block) (s2b_shift block) (segments req) 0 0
  = Some (count, cidaw) ->
  u64 count = u64 (last_rec_of block req - first_rec_of block req + 1) ->
  count = Z.of_nat (blocks_in (bp_block block) (segments req))
  /\ count = last_rec_of block req - first_rec_of block req + 1
  /\ 0 <= first_rec_of block req <= last_rec_of block req.
Proof.
  intros Hgeo Hs Hn Hw Hlen Hchk Hcount.
  destruct (full_blocks block req count cidaw Hgeo Hchk) as [Hpos Hfull].
  pose proof (segments_len_blocks _ _ Hpos Hfull) as HL.
  destruct Hgeo as (Hsh & Hbp & Hsegs).
  assert (Hc : count = Z.of_nat (blocks_in (bp_block block) (segments req))).
  { apply (check_segments_count _ _ _ Hsh Hbp) in Hchk; [exact Hchk|].
    rewrite Forall_forall in *. intros bv Hin. apply Hsegs, Hin. }
  unfold first_rec_of, last_rec_of, u64 in *.
  rewrite (Z.mod_small (sector req + nr_sectors req - 1)) in * by lia.
  rewrite !Z.shiftr_div_pow2 in * by lia.
  set (d := 2 ^ s2b_shift block) in *.
  assert (Hd : 0 < d) by (apply Z.pow_pos_nonneg; lia).
  assert (F0 : 0 <= sector req / d) by (apply Z.div_pos; lia).
  assert (FL : sector req / d <= (sector req + nr_sectors req - 1) / d)
    by (apply Z.div_le_mono; lia).
  assert (LU : (sector req + nr_sectors req - 1) / d
               <= sector req + nr_sectors req - 1).
  { apply Z.div_le_upper_bound; [lia|]. nia. }
  rewrite Z.mod_small in Hcount by (subst count; nia).
  rewrite Z.mod_small in Hcount by lia.
  repeat split; try assumption; lia.
Qed.

(** X16.  The builder never writes more CCWs than it asked the allocator
    for: the program has exactly the requested length, except for a request
    that lies entirely on the first two tracks of a compatible disk layout,
    where one requested CCW stays unused. *)
Theorem build_cp_program_fits clk now sdev block req m cqr m' :
  block_geometry_ok block req ->
  0 <= sector req ->
  0 < nr_sectors req ->
  sector req + nr_sectors req < 2 ^ 64 ->
  segments_len (segments req) < 2 ^ 64 ->
  dasd_eckd_build_cp clk now sdev block req m = (PTR cqr, m') ->
  let private := privs m (base block) in
  let bpt :=
    recs_per_track (dev_type (rdc_data private)) 0 (bp_block block) in
  let first := first_rec_of block req in
  let last := last_rec_of block req in
  let requested :=
    requested_cplength private bpt first last (last - first + 1) in
  (exists dsize cqr0,
     dasd_smalloc_request requested dsize sdev = PTR cqr0
     /\ cplength cqr = cplength cqr0)
  /\ Z.of_nat (length (cpaddr cqr))
     = (if uses_cdl private && (last <? 2 * bpt) then requested - 1
        else requested).
Proof.
  intros Hgeo Hs Hn Hw Hlen Hb. cbv zeta.
  destruct (build_cp_inv _ _ _ _ _ _ _ _ Hb)
    as (count & cidaw & dsize & cqr0 & first_ccw & Hchk & Hcount & Halloc
        & _ & _ & _ & _ & _ & _ & _ & _ & _ & _ & _ & _ & Hcpl & _).
  destruct (request_blocks block req count cidaw Hgeo Hs Hn Hw Hlen Hchk
              Hcount) as (HcN & Hcl & Hfl).
  destruct (build_cp_canonical _ _ _ _ _ _ _ _ Hgeo Hb)
    as (first_ccw' & _ & Hprog & _ & _ & _).
  destruct (full_blocks block req count cidaw Hgeo Hchk) as [Hpos Hfull].
  destruct (fold_program (privs m (base block))
              (cmd_of (rq_data_dir req)) (rq_data_dir req) (bp_block block)
              (recs_per_track (dev_type (rdc_data (privs m (base block)))) 0
                 (bp_block block))
              (last_rec_of block req) (segments req) (cmd_of_cases _) Hpos
              Hfull
              {| st_ccws := []; st_idaws := []; st_LO := []; st_area := [];
                 st_mem := mem m; st_dst := 0; st_recid := 0 |}
              (dasd_page_cache m)) as (_ & _ & HN).
  rewrite <- Hcl. split; [exists dsize, cqr0; split; assumption|].
  rewrite <- (length_map clear_CC), Hprog.
  cbn [length]. rewrite length_app, records_program_length, HN.
  rewrite Nat2Z.inj_succ, Nat2Z.inj_add, program_span_count.
  rewrite <- HcN.
  unfold requested_cplength, one_locate.
  set (bpt := recs_per_track _ 0 _) in *.
  destruct (uses_cdl (privs m (base block))); cbn [andb negb orb].
  - destruct (Z.ltb_spec (last_rec_of block req) (2 * bpt)),
      (Z.ltb_spec (first_rec_of block req) (2 * bpt)),
      (Z.gtb_spec (first_rec_of block req) (2 * bpt)),
      (Z.geb_spec (last_rec_of block req) (2 * bpt));
      cbn [length]; lia.
  - cbn [length]. lia.
Qed.

Lemma data_ccws_clear l :
  map clear_CC (data_ccws l) = data_ccws (map clear_CC l).
Proof.
  unfold data_ccws. induction l as [|c l IH]; cbn [filter map];
    [reflexivity|].
  change (is_data_ccw (clear_CC c)) with (is_data_ccw c).
  destruct (is_data_ccw c); cbn [map]; rewrite IH; reflexivity.
Qed.

Lemma data_ccws_app l1 l2 :
  data_ccws (l1 ++ l2) = data_ccws l1 ++ data_ccws l2.
Proof. apply filter_app. Qed.

Lemma data_ccws_cons c l :
  data_ccws (c :: l)
  = if is_data_ccw c then c :: data_ccws l else data_ccws l.
Proof. reflexivity. Qed.

Lemma data_ccw_is_data private cmd blksize bpt recid dst nIDA :
  cmd = DASD_ECKD_CCW_READ_MT \/ cmd = DASD_ECKD_CCW_WRITE_MT ->
  is_data_ccw (data_ccw private cmd blksize bpt recid dst nIDA) = true.
Proof.
  intros [-> | ->]; unfold is_data_ccw, data_ccw, record_cmd;
    cbn [cmd_code];
    destruct (uses_cdl private && (recid <? 2 * bpt)
              && negb (dasd_eckd_cdl_special bpt recid =? 0));
    reflexivity.
Qed.

Lemma records_program_targets private cmd blksize bpt cqr bufs :
  cmd = DASD_ECKD_CCW_READ_MT \/ cmd = DASD_ECKD_CCW_WRITE_MT ->
  (forall a l, nth_error (idal_create_words a l) 0 = Some a) ->
  forall recid nLO before,
    d_idaws (data cqr) = idaws_of blksize (before ++ bufs) ->
    let dc :=
      data_ccws (records_program private cmd blksize bpt recid nLO
                   (length (idaws_of blksize before)) bufs) in
    map cmd_code dc
    = map (fun j => record_cmd private cmd bpt (recid + Z.of_nat j))
          (seq 0 (length bufs))
    /\ map (transfer_address cqr) dc = map Some bufs.
Proof.
  intros Hcmd Hidal.
  induction bufs as [|b bufs IH]; intros recid nLO before Hi; cbv zeta;
    cbn [records_program length seq map].
  - split; reflexivity.
  - rewrite data_ccws_app.
    assert (L : data_ccws (if needs_locate private bpt recid
                           then [locate_ccw nLO] else []) = [])
      by (destruct (needs_locate private bpt recid); reflexivity).
    rewrite L. cbn [app]. rewrite data_ccws_cons.
    rewrite data_ccw_is_data by exact Hcmd.
    cbn [map].
    pose proof (transfer_data_ccw private cmd blksize bpt recid cqr before
                  b bufs Hidal Hi) as T.
    rewrite T.
    destruct (IH (recid + 1)
                 (if needs_locate private bpt recid then S nLO else nLO)
                 (before ++ [b])) as [C A].
    { rewrite Hi, <- app_assoc. reflexivity. }
    rewrite idaws_of_app, length_app in C, A.
    rewrite C, A. split; [|reflexivity].
    replace (recid + Z.of_nat 0) with recid by lia. f_equal.
    rewrite <- seq_shift, map_map. apply map_ext. intros j.
    f_equal. lia.
Qed.

(** X17.  The data CCWs of a block request, in order, carry the command of
    their record (the key-and-data variant for the special records of a
    compatible disk layout, the plain multi-track read or write otherwise)
    and address the buffers of the request's blocks, directly or through
    their indirect address words. *)
Theorem build_cp_data_targets clk now sdev block req m cqr m' :
  (forall a l, nth_error (idal_create_words a l) 0 = Some a) ->
  block_geometry_ok block req ->
  dasd_eckd_build_cp clk now sdev block req m = (PTR cqr, m') ->
  let private := privs m (base block) in
  let blksize := bp_block block in
  let bpt := recs_per_track (dev_type (rdc_data private)) 0 blksize in
  let first := first_rec_of block req in
  let buffers := block_buffers blksize (segments req) (dasd_page_cache m) in
  let dc := data_ccws (cpaddr cqr) in
  map cmd_code dc
  = map (fun j => record_cmd private (cmd_of (rq_data_dir req)) bpt
                             (first + Z.of_nat j))
        (seq 0 (length buffers))
  /\ map (transfer_address cqr) dc = map Some buffers.
Proof.
  intros Hidal Hgeo Hb. cbv zeta.
  destruct (build_cp_canonical _ _ _ _ _ _ _ _ Hgeo Hb)
    as (first_ccw & Hfirst & Hprog & _ & Hi & _).
  assert (Hfd : is_data_ccw first_ccw = false).
  { destruct (use_prefix _); injection Hfirst as -> _ _;
      [apply prefix_ccw | apply define_extent_ccw]. }
  destruct (records_program_targets (privs m (base block))
              (cmd_of (rq_data_dir req)) (bp_block block)
              (recs_per_track (dev_type (rdc_data (privs m (base block))))
                 0 (bp_block block))
              cqr
              (block_buffers (bp_block block) (segments req)
                 (dasd_page_cache m))
              (cmd_of_cases _) Hidal (first_rec_of block req)
              (if one_locate (privs m (base block))
                    (recs_per_track
                       (dev_type (rdc_data (privs m (base block)))) 0
                       (bp_block block))
                    (first_rec_of block req)
               then 1%nat else 0%nat)
              [] Hi) as [C A].
  cbn [idaws_of map concat length] in C, A.
  assert (E : map clear_CC (data_ccws (cpaddr cqr))
              = data_ccws
                  (records_program (privs m (base block))
                     (cmd_of (rq_data_dir req)) (bp_block block)
                     (recs_per_track
                        (dev_type (rdc_data (privs m (base block)))) 0
                        (bp_block block))
                     (first_rec_of block req)
                     (if one_locate (privs m (base block))
                           (recs_per_track
                              (dev_type (rdc_data (privs m (base block))))
                              0 (bp_block block))
                           (first_rec_of block req)
                      then 1%nat else 0%nat)
                     0
                     (block_buffers (bp_block block) (segments req)
                        (dasd_page_cache m)))).
  { rewrite data_ccws_clear, Hprog.
    change (clear_CC first_ccw :: ?l) with ([clear_CC first_ccw] ++ l).
    rewrite !data_ccws_app. rewrite data_ccws_cons.
    change (is_data_ccw (clear_CC first_ccw)) with (is_data_ccw first_ccw).
    rewrite Hfd.
    destruct (one_locate _ _ _); reflexivity. }
  rewrite <- C, <- A, <- E, !map_map. split; reflexivity.
Qed.

(** ** Restart on the base device *)

Lemma set_status_same cqr : set_status (status cqr) cqr = cqr.
Proof. destruct cqr; reflexivity. Qed.

(** X18.  A terminated request is ready to be started again, on the base
    device of its block: its status is "filled", its start device is the
    base device, its channel program and the device that owns its memory are
    untouched, and handling it twice changes nothing more.  A request
    without block, or one that already starts on the base device, only has
    its status changed. *)
Theorem handle_terminated_request_base cqr :
  let cqr' := dasd_eckd_handle_terminated_request cqr in
  status cqr' = DASD_CQR_FILLED
  /\ cpaddr cqr' = cpaddr cqr
  /\ memdev cqr' = memdev cqr
  /\ cqr_block cqr' = cqr_block cqr
  /\ (forall b, cqr_block cqr = Some b -> startdev cqr' = b)
  /\ (cqr_block cqr = None \/ cqr_block cqr = Some (startdev cqr) ->
      cqr' = set_status DASD_CQR_FILLED cqr)
  /\ dasd_eckd_handle_terminated_request cqr' = cqr'.
Proof.
  cbv zeta. unfold dasd_eckd_handle_terminated_request. cbv zeta.
  cbn [cqr_block set_status startdev status].
  destruct (cqr_block cqr) as [b|] eqn:Eb.
  2:{ cbn [status cpaddr memdev cqr_block set_status].
      rewrite Eb. repeat split; try reflexivity; try discriminate. }
  destruct (Nat.eqb_spec (startdev cqr) b) as [E | E]; cbn [negb].
  { cbn [status cpaddr memdev cqr_block set_status startdev].
    rewrite Eb. destruct (Nat.eqb_spec (startdev cqr) b); [|contradiction].
    cbn [negb]. repeat split; try reflexivity.
    intros b' H. injection H as <-. exact E. }
  unfold dasd_eckd_reset_ccw_to_base_io.
  cbn [cpaddr set_status data].
  destruct (cpaddr cqr) as [|ccw rest] eqn:Ec.
  { cbn [status cpaddr memdev cqr_block set_status set_startdev startdev].
    rewrite Eb, Nat.eqb_refl, Ec. cbn [negb].
    repeat split; try reflexivity.
    - intros b' H. injection H as <-. reflexivity.
    - intros [H | H]; [discriminate H|]. injection H as H. congruence. }
  destruct (cmd_code ccw) eqn:Em;
    cbn [status cpaddr memdev cqr_block set_status set_startdev startdev
         set_data];
    rewrite Eb, Nat.eqb_refl, ?Ec; cbn [negb];
    (repeat split; try reflexivity;
     [intros b' H; injection H as <-; reflexivity
     |intros [H | H]; [discriminate H | injection H as H; congruence]]).
Qed.

Lemma prefix_start_independent clk trk totrk cmd basepriv sp sp' :
  fst (prefix clk trk totrk cmd basepriv sp)
  = fst (prefix clk trk totrk cmd basepriv sp')
  /\ clear_alias_validity (snd (prefix clk trk totrk cmd basepriv sp))
     = clear_alias_validity (snd (prefix clk trk totrk cmd basepriv sp'))
  /\ (uid_type sp' = UA_BASE_DEVICE ->
      clear_alias_validity (snd (prefix clk trk totrk cmd basepriv sp'))
      = snd (prefix clk trk totrk cmd basepriv sp'))
  /\ cmd_code (snd (fst (prefix clk trk totrk cmd basepriv sp)))
     = DASD_ECKD_CCW_PFX.
Proof.
  unfold prefix, check_XRC_on_prefix.
  destruct cmd; destruct (XRC_supported (rdc_data basepriv));
    cbn [negb fst snd clear_alias_validity cmd_code];
    (split; [reflexivity|]); (split; [reflexivity|]);
    (split; [|reflexivity]); intros ->; reflexivity.
Qed.

Lemma cmd_codes_emit c l :
  map cmd_code (rev (emit c l)) = map cmd_code (rev l) ++ [cmd_code c].
Proof.
  destruct l as [|h t]; cbn [emit rev app map]; [reflexivity|].
  rewrite !map_app. reflexivity.
Qed.

Lemma build_cp_first_ccw clk now sdev block req m cqr m1 :
  dasd_eckd_build_cp clk now sdev block req m = (PTR cqr, m1) ->
  exists ccw rest,
    cpaddr cqr = ccw :: rest
    /\ cmd_code ccw
       = if use_prefix (privs m (base block)) then DASD_ECKD_CCW_PFX
         else DASD_ECKD_CCW_DEFINE_EXTENT.
Proof.
  intros Hb.
  destruct (build_cp_inv _ _ _ _ _ _ _ _ Hb)
    as (count & cidaw & dsize & cqr0 & first_ccw & _ & _ & _ & Hfirst
        & Hc & _).
  assert (Hcmd : cmd_code first_ccw
                 = if use_prefix (privs m (base block))
                   then DASD_ECKD_CCW_PFX else DASD_ECKD_CCW_DEFINE_EXTENT).
  { destruct (use_prefix _); injection Hfirst as -> _ _.
    - apply prefix_start_independent with (sp' := privs m sdev).
    - unfold define_extent, check_XRC.
      destruct (cmd_of (rq_data_dir req)); try reflexivity;
        destruct (XRC_supported (rdc_data (privs m sdev))); reflexivity. }
  match type of Hc with
  | cpaddr cqr = rev (st_ccws (fst (fold_left ?f ?l (?s, ?c)))) =>
      pose proof (fun P HP =>
                    fold_emits P (privs m (base block))
                      (cmd_of (rq_data_dir req)) (rq_data_dir req)
                      (bp_block block)
                      (recs_per_track
                         (dev_type (rdc_data (privs m (base block)))) 0
                         (bp_block block))
                      (last_rec_of block req) (segments req) HP s c) as F
  end.
  cbn [st_ccws] in F.
  specialize (F (fun l => hd_error (map cmd_code (rev l))
                          = Some (cmd_code first_ccw))).
  cbv beta in F. rewrite <- Hc in F.
  assert (H : hd_error (map cmd_code (cpaddr cqr))
              = Some (cmd_code first_ccw)).
  { apply F.
    - intros c l _ H. rewrite cmd_codes_emit.
      destruct (map cmd_code (rev l)); [discriminate H | exact H].
    - destruct (one_locate _ _ _); reflexivity. }
  destruct (cpaddr cqr) as [|ccw rest]; [discriminate H|].
  exists ccw, rest. split; [reflexivity|].
  cbn in H. injection H as ->. exact Hcmd.
Qed.

(** X19.  Where the prefix command is available, a request built for an
    alias device and then handled as terminated is the request the builder
    makes for the base device: same channel program, same data area, same
    start device and status; only the device that owns its memory is still
    the alias. *)
Theorem terminated_alias_request_as_base clk now alias block req m
    cqr_a ma cqr_b mb :
  use_prefix (privs m (base block)) = true ->
  uid_type (privs m (base block)) = UA_BASE_DEVICE ->
  dasd_eckd_build_cp clk now alias block req m = (PTR cqr_a, ma) ->
  dasd_eckd_build_cp clk now (base block) block req m = (PTR cqr_b, mb) ->
  let t := dasd_eckd_handle_terminated_request cqr_a in
  cpaddr t = cpaddr cqr_b
  /\ data t = data cqr_b
  /\ startdev t = startdev cqr_b
  /\ status t = status cqr_b
  /\ memdev t = alias.
Proof.
  intros Hpfx Huid Ha Hb.
  destruct (build_cp_first_ccw _ _ _ _ _ _ _ _ Ha)
    as (ccw & rest & Hcp & Hcmd).
  rewrite Hpfx in Hcmd.
  destruct (build_cp_inv _ _ _ _ _ _ _ _ Ha)
    as (count & cidaw & dsize & cqr0 & first_a & Hchk & _ & _ & Hfa
        & Hca & Hia & Hla & _ & _ & _ & _ & Hsa & Hma & Hba & Hsta & _
        & Hea & Hcia & Hara).
  destruct (build_cp_inv _ _ _ _ _ _ _ _ Hb)
    as (count' & cidaw' & dsize' & cqr0' & first_b & Hchk' & _ & _ & Hfb
        & Hcb & Hib & Hlb & _ & _ & _ & _ & Hsb & Hmb & Hbb & Hstb & _
        & Heb & Hcib & Harb).
  rewrite Hchk in Hchk'. injection Hchk' as _ Ecidaw.
  rewrite Hpfx in Hfa, Hfb.
  injection Hfa as Ef_a Ede_a Epfx_a. injection Hfb as Ef_b Ede_b Epfx_b.
  match type of Epfx_a with
  | _ = Some (snd (prefix ?c ?a ?b ?cmd ?bp ?sp)) =>
      destruct (prefix_start_independent c a b cmd bp sp
                  (privs m (base block))) as (P1 & P2 & P3 & _)
  end.
  specialize (P3 Huid).
  assert (Efirst : first_a = first_b).
  { rewrite Ef_a, Ef_b. apply (f_equal snd) in P1. exact P1. }
  clear Ef_b. subst first_b.
  rewrite <- Hca in Hcb. rewrite <- Hia in Hib. rewrite <- Hla in Hlb.
  rewrite <- Hara in Harb. rewrite <- Ecidaw, <- Hcia in Hcib.
  cbv zeta. unfold dasd_eckd_handle_terminated_request. cbv zeta.
  cbn [cqr_block set_status startdev]. rewrite Hba, Hsa.
  destruct (Nat.eqb_spec alias (base block)) as [E | E]; cbn [negb].
  - cbn [cpaddr data startdev status memdev set_status].
    rewrite E in Ha. rewrite Ha in Hb. injection Hb as <- _.
    rewrite Hsta, Hsa, Hma. repeat split; reflexivity.
  - unfold dasd_eckd_reset_ccw_to_base_io.
    cbn [cpaddr set_status data]. rewrite Hcp, Hcmd.
    cbn [cpaddr data startdev status memdev set_status set_startdev
         set_data].
    rewrite Hcb, Hsb, Hstb, Hma.
    split; [reflexivity|]. split; [|repeat split; reflexivity].
    rewrite Ede_a, Epfx_a, Hea. cbn [option_map]. rewrite P2, P3.
    destruct (data cqr_b) as [de pfx idaws ci lo area ect].
    cbn [d_DE d_PFX d_idaws d_cidaw d_LO d_area d_ect] in *.
    subst. reflexivity.
Qed.

(** ** Configuration data *)

Lemma existsb_false_nth (f : dasd_sneq -> bool) l :
  existsb f l = false ->
  forall k r, nth_error l k = Some r -> f r = false.
Proof.
  intros H k r Hk. apply nth_error_In in Hk.
  destruct (f r) eqn:F; [|reflexivity].
  assert (existsb f l = true) by (apply existsb_exists; eauto).
  congruence.
Qed.

Lemma last_of_cons f r l j : last_of f l j -> last_of f (r :: l) (S j).
Proof.
  intros [[x [Hx Fx]] Hlast]. split.
  - exists x. split; assumption.
  - intros k y Hk Hy. destruct k as [|k]; [lia|].
    apply (Hlast k y); [lia | exact Hy].
Qed.

Lemma identify_field (sel : conf_parts -> option nat)
    (f : dasd_sneq -> bool) :
  (forall i r p,
     sel (identify_records i [r] p) = if f r then Some i else sel p) ->
  forall l i p,
    match sel (identify_records i l p) with
    | Some k =>
        (sel p = Some k /\ existsb f l = false)
        \/ ((i <= k)%nat /\ last_of f l (k - i))
    | None => sel p = None /\ existsb f l = false
    end.
Proof.
  intros Hstep. induction l as [|r l IH]; intros i p.
  - cbn [identify_records existsb]. destruct (sel p); auto.
  - change (identify_records i (r :: l) p)
      with (identify_records (S i) l (identify_records i [r] p)).
    specialize (IH (S i) (identify_records i [r] p)).
    rewrite Hstep in IH. cbn [existsb].
    destruct (sel (identify_records (S i) l (identify_records i [r] p)))
      as [k|].
    + destruct IH as [[Hs He] | [Hk Hl]].
      * destruct (f r) eqn:F.
        -- injection Hs as <-. right. split; [lia|].
           rewrite Nat.sub_diag. split.
           ++ exists r. split; [reflexivity | exact F].
           ++ intros k y Hk Hy. destruct k as [|k]; [lia|].
              apply (existsb_false_nth f l He k y Hy).
        -- left. split; [exact Hs | exact He].
      * right. split; [lia|].
        replace (k - i)%nat with (S (k - S i)) by lia.
        apply last_of_cons, Hl.
    + destruct IH as [Hs He]. destruct (f r); [discriminate Hs|].
      split; assumption.
Qed.

Lemma last_of_exists f l i : last_of f l i -> existsb f l = true.
Proof.
  intros [[r [Hr Fr]] _]. apply existsb_exists. exists r.
  split; [apply nth_error_In with (n := i); exact Hr | exact Fr].
Qed.

Lemma identify_ned_step i r p :
  ned (identify_records i [r] p) = if is_ned r then Some i else ned p.
Proof.
  unfold is_ned. cbn [identify_records].
  destruct (Z.eqb_spec (identifier r) 1) as [E1 | E1];
    destruct (Z.eqb_spec (identifier r) 2) as [E2 | E2];
    destruct (Z.eqb_spec (identifier r) 3) as [E3 | E3];
    try lia; cbn [andb];
    destruct (sneq_format r =? 1), (sneq_format r =? 4), (res1 r =? 1);
    reflexivity.
Qed.

Lemma identify_gneq_step i r p :
  gneq (identify_records i [r] p) = if is_gneq r then Some i else gneq p.
Proof.
  unfold is_gneq. cbn [identify_records].
  destruct (Z.eqb_spec (identifier r) 1) as [E1 | E1];
    destruct (Z.eqb_spec (identifier r) 2) as [E2 | E2];
    destruct (Z.eqb_spec (identifier r) 3) as [E3 | E3];
    try lia; cbn [andb];
    destruct (sneq_format r =? 1), (sneq_format r =? 4), (res1 r =? 1);
    reflexivity.
Qed.

(** X20.  [dasd_eckd_identify_conf_parts] succeeds exactly when the
    configuration data hold a node-element descriptor and a general
    node-element qualifier; it then points at the last record of each kind.
    Otherwise it returns [-EINVAL] and leaves all four pointers [NULL], also
    those of the kinds that were found. *)
Theorem identify_conf_parts_found conf_data :
  let r := dasd_eckd_identify_conf_parts conf_data in
  (fst r = 0
   <-> existsb is_ned conf_data = true /\ existsb is_gneq conf_data = true)
  /\ (fst r = 0 ->
      exists i j,
        ned (snd r) = Some i /\ last_of is_ned conf_data i
        /\ gneq (snd r) = Some j /\ last_of is_gneq conf_data j)
  /\ (fst r <> 0 -> fst r = - EINVAL /\ snd r = no_conf_parts).
Proof.
  cbv zeta. unfold dasd_eckd_identify_conf_parts. cbv zeta.
  pose proof (identify_field ned is_ned identify_ned_step conf_data 0
                no_conf_parts) as N.
  pose proof (identify_field gneq is_gneq identify_gneq_step conf_data 0
                no_conf_parts) as G.
  destruct (ned (identify_records 0 conf_data no_conf_parts)) as [i|] eqn:En.
  - destruct N as [[N _] | [_ N]]; [discriminate N|].
    rewrite Nat.sub_0_r in N.
    destruct (gneq (identify_records 0 conf_data no_conf_parts)) as [j|]
      eqn:Eg.
    + destruct G as [[G _] | [_ G]]; [discriminate G|].
      rewrite Nat.sub_0_r in G. cbn [fst snd].
      split; [split; [intros _; split; eapply last_of_exists; eassumption
                     |reflexivity]|].
      split; [|intros H; contradiction H; reflexivity].
      intros _. exists i, j. auto.
    + destruct G as [_ G]. cbn [fst snd]. unfold EINVAL.
      split; [split; [discriminate|intros [_ H]; congruence]|].
      split; [discriminate|]. intros _. split; reflexivity.
  - destruct N as [_ N]. cbn [fst snd]. unfold EINVAL.
    split; [split; [discriminate|intros [H _]; congruence]|].
    split; [discriminate|]. intros _. split; reflexivity.
Qed.

(** X21.  [dasd_eckd_path_access] is a three-bit value taken from byte 18 of
    the first general node-element qualifier, and 0 when the configuration
    data hold none. *)
Theorem path_access_first_gneq conf_data :
  0 <= dasd_eckd_path_access conf_data <= 7
  /\ (existsb is_gneq conf_data = false ->
      dasd_eckd_path_access conf_data = 0)
  /\ (forall i r,
        first_of is_gneq conf_data i -> nth_error conf_data i = Some r ->
        dasd_eckd_path_access conf_data = byte_18 r mod 8).
Proof.
  assert (L : forall x, Z.land x 7 = x mod 8).
  { intros x. change 7 with (Z.ones 3). rewrite Z.land_ones by lia.
    reflexivity. }
  induction conf_data as [|r0 l (IH1 & IH2 & IH3)];
    cbn [dasd_eckd_path_access existsb].
  - split; [lia|]. split; [reflexivity|].
    intros i r _ H. destruct i; discriminate H.
  - unfold is_gneq at 1.
    destruct (Z.eqb_spec (identifier r0) 2) as [E | E]; cbn [orb].
    + rewrite L. pose proof (Z.mod_pos_bound (byte_18 r0) 8 ltac:(lia)).
      split; [lia|]. split; [discriminate|].
      intros i r [_ Hfirst] Hr. destruct i as [|i].
      * injection Hr as <-. reflexivity.
      * specialize (Hfirst 0%nat r0 ltac:(lia) eq_refl).
        unfold is_gneq in Hfirst. rewrite E in Hfirst. discriminate Hfirst.
    + split; [exact IH1|]. split; [exact IH2|].
      intros i r [[x [Hx Fx]] Hfirst] Hr. destruct i as [|i].
      * injection Hx as <-. unfold is_gneq in Fx.
        destruct (Z.eqb_spec (identifier r0) 2); [contradiction|discriminate].
      * apply (IH3 i r); [|exact Hr]. split.
        -- exists x. split; assumption.
        -- intros k y Hk Hy. apply (Hfirst (S k) y); [lia | exact Hy].
Qed.

(** ** Initial analysis *)

Lemma pool_fill_reqs cqr m :
  ccw_reqs (pool_fill cqr m) = cqr :: tl (ccw_reqs m).
Proof. reflexivity. Qed.

(** X22.  The analysis request reads five count fields into [count_area[0 ..
    4]], in this order: four from the start of track 0 and, behind a second
    locate-record CCW, one from the start of track 2, which is what
    [dasd_eckd_end_analysis] expects to find there.  Its program fills the
    eight CCWs it asked for and is properly chained. *)
Theorem analysis_ccw_reads_count_area clk now device m cqr m' :
  dasd_eckd_analysis_ccw clk now device m = (PTR cqr, m') ->
  let private := privs m device in
  map clear_CC (cpaddr cqr)
  = [clear_CC (snd (fst (define_extent clk 0 2 DASD_ECKD_CCW_READ_COUNT
                           private)));
     locate_ccw 0; read_count_ccw 0; read_count_ccw 1; read_count_ccw 2;
     read_count_ccw 3; locate_ccw 1; read_count_ccw 4]
  /\ chained (cpaddr cqr)
  /\ map cda (data_ccws (cpaddr cqr)) = map pa_count_area (seq 0 5)
  /\ d_LO (data cqr)
     = [snd (locate_record 0 0 0 4 DASD_ECKD_CCW_READ_COUNT private 0);
        snd (locate_record 0 2 0 1 DASD_ECKD_CCW_READ_COUNT private 0)]
  /\ (exists dsize cqr0,
        dasd_smalloc_request 8 dsize device = PTR cqr0
        /\ cplength cqr = cplength cqr0)
  /\ ccw_reqs m' = cqr :: ccw_reqs m.
Proof.
  unfold dasd_eckd_analysis_ccw. cbv zeta.
  destruct (dasd_smalloc_request 8 _ device) as [e | cqr0] eqn:A;
    [discriminate|].
  cbn [privs pool_add].
  pose proof (define_extent_CC clk 0 2 DASD_ECKD_CCW_READ_COUNT
                (privs m device)) as Hcc.
  pose proof (define_extent_ccw clk 0 2 DASD_ECKD_CCW_READ_COUNT
                (privs m device)) as Hd.
  destruct (define_extent clk 0 2 DASD_ECKD_CCW_READ_COUNT (privs m device))
    as [[rc de_ccw] de].
  cbn [fst snd] in Hcc, Hd |- *.
  intros H. injection H as <- <-.
  cbn [cpaddr data d_LO cplength].
  split; [|split; [|split; [|split; [|split]]]].
  - cbn [read_counts emit rev app map fst locate_record].
    rewrite !clear_CC_or_CC. reflexivity.
  - cbn [read_counts emit rev app map fst locate_record].
    intros i c Hi.
    do 8 (destruct i as [|i]; [injection Hi as <-; reflexivity|]).
    destruct i; discriminate Hi.
  - cbn [read_counts emit rev app map fst locate_record].
    unfold data_ccws. cbn [filter or_CC].
    change (is_data_ccw (or_CC de_ccw)) with (is_data_ccw de_ccw).
    rewrite Hd. reflexivity.
  - reflexivity.
  - eauto.
  - reflexivity.
Qed.

(** X23.  The start-up handshake: with no saved status,
    [dasd_eckd_do_analysis] queues the analysis request and asks to be
    called again; the callback saves the status of the completed request and
    releases it, so that the pool is as before; the next call then is the
    end analysis, which uses the saved status up. *)
Theorem do_analysis_handshake clk now block m :
  init_cqr_status (privs m (base block)) < 0 ->
  (forall cpl ds,
     exists cqr, dasd_smalloc_request cpl ds (base block) = PTR cqr) ->
  let r1 := dasd_eckd_do_analysis clk now block m in
  fst (fst r1) = - EAGAIN
  /\ snd r1 = block
  /\ privs (snd (fst r1)) = privs m
  /\ exists init_cqr,
       ccw_reqs (snd (fst r1)) = init_cqr :: ccw_reqs m
       /\ expires init_cqr = 5 * HZ
       /\ startdev init_cqr = base block
       /\ forall st m1,
            0 <= st ->
            ccw_reqs m1 = set_status st init_cqr :: ccw_reqs m ->
            let m2 :=
              dasd_eckd_analysis_callback (set_status st init_cqr) m1 in
            ccw_reqs m2 = ccw_reqs m
            /\ privs m2 (base block)
               = set_init_cqr_status st (privs m1 (base block))
            /\ (forall d, d <> base block -> privs m2 d = privs m1 d)
            /\ forall clk' now',
                 let r2 := dasd_eckd_do_analysis clk' now' block m2 in
                 fst (fst r2)
                 = fst (fst (dasd_eckd_end_analysis (privs m2 (base block))
                               block))
                 /\ init_cqr_status (privs (snd (fst r2)) (base block))
                    = -1.
Proof.
  intros Hneg Halloc r1.
  assert (E : exists init_cqr,
             r1 = (- EAGAIN,
                   {| privs := privs m; ccw_reqs := init_cqr :: ccw_reqs m;
                      mem := mem m; dasd_page_cache := dasd_page_cache m |},
                   block)
             /\ expires init_cqr = 5 * HZ
             /\ startdev init_cqr = base block).
  { subst r1. unfold dasd_eckd_do_analysis. cbv zeta.
    destruct (Z.ltb_spec (init_cqr_status (privs m (base block))) 0);
      [|lia].
    unfold dasd_eckd_start_analysis, dasd_eckd_analysis_ccw. cbv zeta.
    destruct (Halloc 8 (sizeof_DE_eckd_data + 2 * sizeof_LO_eckd_data))
      as [cqr0 ->].
    destruct (define_extent clk 0 2 DASD_ECKD_CCW_READ_COUNT
                (privs (pool_add cqr0 m) (base block))) as [[rc de_ccw] de].
    cbn [fst snd locate_record].
    eexists. split; [reflexivity|]. split; reflexivity. }
  destruct E as (init_cqr & -> & He & Hs). cbn [fst snd privs ccw_reqs].
  split; [reflexivity|]. split; [reflexivity|]. split; [reflexivity|].
  exists init_cqr. split; [reflexivity|]. split; [exact He|].
  split; [exact Hs|].
  intros st m1 Hst Hreqs. cbv zeta.
  unfold dasd_eckd_analysis_callback. cbv zeta.
  cbn [startdev set_status status]. rewrite Hs.
  split; [|split; [|split]].
  - cbn [ccw_reqs sfree_request set_private]. rewrite Hreqs.
    apply pool_remove_head.
  - cbn [privs sfree_request set_private]. rewrite Nat.eqb_refl.
    reflexivity.
  - intros d Hd. cbn [privs sfree_request set_private].
    destruct (Nat.eqb_spec d (base block)); [contradiction | reflexivity].
  - intros clk' now'. unfold dasd_eckd_do_analysis.
    cbn [privs sfree_request set_private]. rewrite Nat.eqb_refl.
    cbn [init_cqr_status set_init_cqr_status].
    destruct (Z.ltb_spec st 0); [lia|].
    match goal with
    | |- context [dasd_eckd_end_analysis ?p ?b] =>
        pose proof (end_analysis_status p b) as S;
        destruct (dasd_eckd_end_analysis p b) as [[rc2 p2] b2]
    end.
    cbn [fst snd privs set_private] in *. rewrite Nat.eqb_refl.
    split; [reflexivity | exact S].
Qed.

(** ** Format requests *)

Lemma transfer_cdas_emit c l :
  transfer_cdas (emit c l)
  = transfer_cdas l ++ (if is_data_ccw c then [cda c] else []).
Proof.
  unfold transfer_cdas. rewrite !data_ccws_rev, !map_rev.
  assert (V : forall x, map cda (data_ccws x) = map cda (data_view x)).
  { intros x. unfold data_view. rewrite map_map. reflexivity. }
  rewrite !V, data_view_emit, map_app, rev_app_distr.
  destruct (is_data_ccw c); reflexivity.
Qed.

Lemma format_records_spec fdata cyl head n :
  forall i ccws ects,
    let r := format_records fdata cyl head i n (ccws, ects) in
    snd r = ects ++ map (format_count fdata cyl head) (seq i n)
    /\ (open_chain ccws -> open_chain (fst r))
    /\ transfer_cdas (fst r)
       = transfer_cdas ccws ++ map pa_ect (seq (length ects) n).
Proof.
  induction n as [|n IH]; intros i ccws ects; cbv zeta;
    cbn [format_records seq map].
  - rewrite !app_nil_r. auto.
  - destruct (IH (S i)
                 (emit (count_ccw DASD_ECKD_CCW_WRITE_CKD (length ects))
                       ccws)
                 (ects ++ [format_count fdata cyl head i]))
      as (E & C & A).
    cbv zeta in E, C, A. rewrite E, A, transfer_cdas_emit.
    rewrite length_app. cbn [length is_data_ccw count_ccw cmd_code cda].
    rewrite Nat.add_1_r, <- !app_assoc.
    split; [reflexivity|]. split; [|reflexivity].
    intros H. apply C, open_chain_emit; [reflexivity | exact H].
Qed.

(** X24.  The channel program of a format request is properly chained, and
    its count CCWs address, in order, exactly the count fields the request
    carries; building it has no effect on devices or memory. *)
Theorem format_device_program clk now device block fdata m fcp m' :
  dasd_eckd_format_device clk now device block fdata m = (PTR fcp, m') ->
  chained (cpaddr fcp)
  /\ map cda (data_ccws (cpaddr fcp))
     = map pa_ect (seq 0 (length (d_ect (data fcp))))
  /\ ccw_reqs m' = fcp :: ccw_reqs m
  /\ privs m' = privs m
  /\ mem m' = mem m.
Proof.
  unfold dasd_eckd_format_device. cbv zeta.
  destruct (start_unit fdata >=? _); [discriminate|].
  destruct (start_unit fdata >? _); [discriminate|].
  destruct (negb _); [discriminate|].
  destruct (format_sizes _ _) as [[cplen dsize]|]; [|discriminate].
  destruct (dasd_smalloc_request cplen dsize device) as [e | fcp0];
    [discriminate|].
  cbn [privs pool_add].
  set (kind := Z.land (intensity fdata) (Z.lnot 8)).
  match goal with
  | |- context [if kind =? 0 then ?A else ?B] =>
      set (stage1 := if kind =? 0 then A else B)
  end.
  assert (S1 : format_stage (fst (fst stage1), [])).
  { subst stage1.
    destruct (kind =? 0); [|destruct (kind =? 1); [|destruct (kind =? 4)]];
      try (split; [exact I | reflexivity]; fail);
      match goal with
      | |- context [define_extent ?c ?a ?b ?cmd ?p] =>
          pose proof (define_extent_CC c a b cmd p) as Hcc;
          pose proof (define_extent_ccw c a b cmd p) as Hd;
          destruct (define_extent c a b cmd p) as [[rc de_ccw] de]
      end;
      cbn [fst snd] in Hcc, Hd; locate_step; cbn [fst snd].
    all: unfold format_stage; cbn [fst snd]; split.
    all: try (apply open_chain_emit;
              [reflexivity | split; [exact Hcc | apply Forall_nil]]).
    all: rewrite transfer_cdas_emit; unfold transfer_cdas, data_ccws;
      cbn [rev app filter]; rewrite Hd; reflexivity. }
  destruct stage1 as [[ccws1 de1] lo1]. cbn [fst snd] in S1.
  match goal with
  | |- context [if negb (Z.land (intensity fdata) 1 =? 0) then ?A else ?B] =>
      set (stage2 := if negb (Z.land (intensity fdata) 1 =? 0)
                     then A else B)
  end.
  assert (S2 : format_stage stage2).
  { subst stage2. destruct (negb _); [|exact S1].
    destruct S1 as [C A]. split; cbn [fst snd] in *.
    - apply open_chain_emit; [reflexivity | exact C].
    - rewrite transfer_cdas_emit, A. reflexivity. }
  destruct stage2 as [ccws2 ects2].
  match goal with
  | |- context [if negb (Z.land kind 4 =? 0) then ?A else ?B] =>
      set (stage3 := if negb (Z.land kind 4 =? 0) then A else B)
  end.
  assert (S3 : format_stage stage3).
  { subst stage3. destruct S2 as [C A]. cbn [fst snd] in C, A.
    destruct (negb _).
    - split; cbn [fst snd].
      + apply open_chain_emit; [reflexivity | exact C].
      + rewrite transfer_cdas_emit, A, length_app, seq_app, map_app.
        reflexivity.
    - match goal with
      | |- context [format_records ?f ?c ?h ?i ?n (?l, ?e)] =>
          destruct (format_records_spec f c h n i l e) as (E & C' & A')
      end.
      cbv zeta in E, C', A'. split.
      + apply C', C.
      + rewrite A', A, E, length_app, length_map, length_seq, seq_app,
          map_app.
        reflexivity. }
  destruct stage3 as [ccws3 ects3]. destruct S3 as [C A].
  cbn [fst snd] in C, A.
  intros H. injection H as <- <-. cbn [cpaddr data d_ect].
  split; [apply open_chain_chained, C|].
  split; [exact A|]. repeat split.
Qed.

Lemma format_device_ects clk now device block fdata m fcp m' :
  intensity fdata = 0x00 \/ intensity fdata = 0x08 ->
  dasd_eckd_format_device clk now device block fdata m = (PTR fcp, m') ->
  let rdc := rdc_data (privs m device) in
  d_ect (data fcp)
  = map (format_count fdata (Z.quot (start_unit fdata) (trk_per_cyl rdc))
                      (Z.rem (start_unit fdata) (trk_per_cyl rdc)))
        (seq 0 (Z.to_nat (recs_per_track (dev_type rdc) 0 (blksize fdata))))
  /\ dasd_check_blocksize (blksize fdata) = 0.
Proof.
  intros Hi. unfold dasd_eckd_format_device. cbv zeta.
  destruct (start_unit fdata >=? _); [discriminate|].
  destruct (start_unit fdata >? _); [discriminate|].
  destruct (Z.eqb_spec (dasd_check_blocksize (blksize fdata)) 0)
    as [Hchk | Hchk]; [|discriminate].
  cbn [negb].
  destruct (format_sizes _ _) as [[cplen dsize]|]; [|discriminate].
  destruct (dasd_smalloc_request cplen dsize device) as [e | fcp0];
    [discriminate|].
  cbn [privs pool_add].
  destruct Hi as [-> | ->];
    repeat match goal with
      | |- context [Z.land ?a ?b] =>
          let v := eval vm_compute in (Z.land a b) in
          progress change (Z.land a b) with v
      end;
    cbn [Z.eqb Pos.eqb negb]; cbv zeta;
    repeat match goal with
      | |- context [define_extent ?a ?b ?c ?d ?e] =>
          destruct (define_extent a b c d e) as [[? ?] ?]
      | |- context [locate_record ?a ?b ?c ?d ?e ?f ?g] =>
          destruct (locate_record a b c d e f g) as [? ?]
      end;
    match goal with
    | |- context [format_records ?f ?c ?h ?i ?n (?l, ?e)] =>
        destruct (format_records_spec f c h n i l e) as (E & _);
        destruct (format_records f c h i n (l, e)) as [ccws ects]
    end;
    cbv zeta in E; cbn [snd app] in E;
    intros H; injection H as <- <-; cbn [data d_ect];
    (split; [exact E | exact Hchk]).
Qed.

Lemma firstn_map_seq {A : Type} (f : nat -> A) k n :
  (k <= n)%nat -> firstn k (map f (seq 0 n)) = map f (seq 0 k).
Proof.
  intros H. replace n with (k + (n - k))%nat by lia.
  rewrite seq_app, map_app, firstn_app, length_map, length_seq.
  rewrite Nat.sub_diag. cbn [firstn]. rewrite app_nil_r.
  apply firstn_all2. rewrite length_map, length_seq. lia.
Qed.

(** X25.  Formatting and analysis fit together: when track 0 and track 2
    have been formatted with the same block size, in the compatible disk
    layout or not, the analysis of the count fields it reads back (four from
    track 0, one from track 2) succeeds, recovers that block size and
    recognizes the layout. *)
Theorem format_then_analysis clk0 now0 clk2 now2 device block0 block2
    fd0 fd2 m0 m2 f0 m0' f2 m2' private block :
  intensity fd0 = 0x00 \/ intensity fd0 = 0x08 ->
  intensity fd2 = intensity fd0 ->
  blksize fd2 = blksize fd0 ->
  start_unit fd0 = 0 ->
  start_unit fd2 = 2 ->
  rdc_data (privs m2 device) = rdc_data (privs m0 device) ->
  dasd_eckd_format_device clk0 now0 device block0 fd0 m0 = (PTR f0, m0') ->
  dasd_eckd_format_device clk2 now2 device block2 fd2 m2 = (PTR f2, m2') ->
  4 <= recs_per_track (dev_type (rdc_data (privs m0 device))) 0
                      (blksize fd0) ->
  0 < blksize fd0 < 2 ^ 16 ->
  count_area private
  = firstn 4 (d_ect (data f0)) ++ firstn 1 (d_ect (data f2)) ->
  init_cqr_status private = DASD_CQR_DONE ->
  bp_block block = 0 ->
  let r := dasd_eckd_end_analysis private block in
  fst (fst r) = 0
  /\ bp_block (snd r) = blksize fd0
  /\ uses_cdl (snd (fst r)) = (intensity fd0 =? 0x08).
Proof.
  clear sizeof_PFX_eckd_data sizeof_long idal_is_needed idal_create_words
        dasd_alias_get_start_dev HZ.
  intros Hi Hi2 Hbs Hs0 Hs2 Hrdc Hf0 Hf2 Hrpt Hb Harea Hdone Hbp.
  destruct (format_device_ects _ _ _ _ _ _ _ _ Hi Hf0) as [E0 Hchk].
  assert (Hi' : intensity fd2 = 0x00 \/ intensity fd2 = 0x08)
    by (rewrite Hi2; exact Hi).
  destruct (format_device_ects _ _ _ _ _ _ _ _ Hi' Hf2) as [E2 _].
  cbv zeta in E0, E2. rewrite Hrdc, Hbs in E2.
  rewrite E0, E2 in Harea.
  rewrite !firstn_map_seq in Harea by lia.
  cbn [seq map app] in Harea.
  assert (A : forall i,
             (i < 5)%nat ->
             ec_kl (count_area_at private i)
             = (if (intensity fd0 =? 8) && (i <? 3)%nat then 4 else 0)
             /\ ec_dl (count_area_at private i)
                = (if (intensity fd0 =? 8) && (i <? 3)%nat
                   then nth i sizes_trk0 0 - 4 else blksize fd0)).
  { intros i Hlt. unfold count_area_at. rewrite Harea.
    unfold format_count. rewrite Hi2, Hbs, Hs0, Hs2.
    assert (U : u16 (blksize fd0) = blksize fd0) by (apply u16_small; lia).
    destruct Hi as [-> | ->];
      do 5 (destruct i as [|i]; [cbn; rewrite ?U; split; reflexivity|]);
      lia. }
  cbv zeta. unfold dasd_eckd_end_analysis.
  rewrite Hdone, Z.eqb_refl. cbn [negb]. cbv zeta.
  change (count_area_at (set_init_cqr_status (-1) private))
    with (count_area_at private).
  pose proof (cdl_track0_scan private) as Hc.
  pose proof (uniform_records_scan private) as Hu.
  set (i3 := scan _ 0 3) in *.
  destruct (A 4%nat ltac:(lia)) as [K4 D4].
  rewrite Bool.andb_false_r in K4, D4.
  destruct (A 0%nat ltac:(lia)) as [K0 D0].
  destruct Hi as [Hz | Hz]; rewrite Hz in *; cbn [Z.eqb Pos.eqb andb] in *.
  - (* not the compatible disk layout *)
    assert (N3 : Nat.eqb i3 3 = false).
    { apply Nat.eqb_neq. intros E. apply Hc in E.
      destruct (E 0%nat ltac:(lia)) as [K _]. rewrite K0 in K.
      discriminate K. }
    rewrite N3. cbn [uses_cdl set_uses_cdl negb].
    change (count_area_at (set_uses_cdl false
              (set_init_cqr_status (-1) private)))
      with (count_area_at private).
    set (i5 := scan _ 0 5) in *.
    assert (N5 : i5 = 5%nat).
    { apply Hu. intros i Hlt. destruct (A i Hlt) as [K D].
      rewrite K, D, D0. split; reflexivity. }
    rewrite N5. cbn [Nat.eqb]. rewrite K0, D0, Hchk. cbn [Z.eqb andb].
    destruct (Z.eqb_spec (blksize fd0) 0); [lia|].
    cbn [fst snd bp_block uses_cdl set_uses_cdl]. repeat split.
  - (* compatible disk layout *)
    assert (N3 : i3 = 3%nat).
    { apply Hc. intros i Hlt. destruct (A i ltac:(lia)) as [K D].
      destruct (Nat.ltb_spec i 3); [|lia]. rewrite K, D. split; reflexivity. }
    rewrite N3. cbn [Nat.eqb uses_cdl set_uses_cdl negb].
    change (count_area_at (set_uses_cdl true
              (set_init_cqr_status (-1) private)))
      with (count_area_at private).
    rewrite K4, D4, Hchk. cbn [Z.eqb andb].
    destruct (Z.eqb_spec (blksize fd0) 0); [lia|].
    cbn [fst snd bp_block uses_cdl set_uses_cdl]. repeat split.
Qed.

(** ** What a build does to memory and to the page cache *)

Lemma build_block_quiet private cmd dir blksize bpt last_rec st :
  dir = WRITE \/ uses_cdl private = false ->
  st_mem (build_block private cmd dir blksize bpt last_rec st) = st_mem st.
Proof.
  intros H. rewrite build_block_mem.
  destruct H as [-> | ->]; [|reflexivity].
  rewrite Bool.andb_false_r. reflexivity.
Qed.

Lemma build_segment_cache private cmd dir blksize bpt last_rec bv st cache :
  snd (build_segment private cmd dir blksize bpt last_rec bv (st, cache))
  = snd (segment_buffer bv cache).
Proof.
  unfold build_segment, segment_buffer.
  destruct cache as [[|[copy|] later]|]; reflexivity.
Qed.

Lemma build_segment_quiet private cmd dir blksize bpt last_rec bv st cache :
  (dir = WRITE /\ cache = None)
  \/ (dir = READ /\ uses_cdl private = false) ->
  st_mem (fst (build_segment private cmd dir blksize bpt last_rec bv
                 (st, cache)))
  = st_mem st.
Proof.
  intros H.
  assert (Q : dir = WRITE \/ uses_cdl private = false)
    by (destruct H as [[-> _] | [_ ->]]; auto).
  assert (F : forall s mem0,
             st_mem s = mem0 ->
             st_mem (for_blocks (Z.to_nat (bv_len bv)) 0 (bv_len bv) blksize
                       (build_block private cmd dir blksize bpt last_rec) s)
             = mem0).
  { intros s mem0.
    apply (for_blocks_invariant (fun s => st_mem s = mem0)).
    intros s0 H0. rewrite build_block_quiet by exact Q. exact H0. }
  unfold build_segment.
  destruct H as [[-> ->] | [-> _]].
  - cbn [fst]. apply F. reflexivity.
  - destruct cache as [[|[copy|] later]|]; cbn [fst]; apply F; reflexivity.
Qed.

Lemma fold_quiet private cmd dir blksize bpt last_rec segs :
  forall st cache,
    (dir = WRITE /\ cache = None)
    \/ (dir = READ /\ uses_cdl private = false) ->
    st_mem (fst (fold_left
                   (fun sp bv =>
                      build_segment private cmd dir blksize bpt last_rec bv
                                    sp)
                   segs (st, cache)))
    = st_mem st.
Proof.
  induction segs as [|bv segs IH]; intros st cache H; cbn [fold_left];
    [reflexivity|].
  pose proof (build_segment_quiet private cmd dir blksize bpt last_rec bv
                st cache H) as Q.
  pose proof (build_segment_cache private cmd dir blksize bpt last_rec bv
                st cache) as C.
  destruct (build_segment private cmd dir blksize bpt last_rec bv
              (st, cache)) as [st1 cache1].
  cbn [fst snd] in Q, C. rewrite IH; [exact Q|].
  destruct H as [[Hd Hc] | H]; [left | right; exact H].
  split; [exact Hd|]. rewrite C, Hc. reflexivity.
Qed.

Lemma fold_cache private cmd dir blksize bpt last_rec segs :
  forall st cache,
    snd (fold_left
           (fun sp bv =>
              build_segment private cmd dir blksize bpt last_rec bv sp)
           segs (st, cache))
    = cache_after segs cache.
Proof.
  induction segs as [|bv segs IH]; intros st cache;
    cbn [fold_left cache_after]; [reflexivity|].
  pose proof (build_segment_cache private cmd dir blksize bpt last_rec bv
                st cache) as C.
  destruct (build_segment private cmd dir blksize bpt last_rec bv
              (st, cache)) as [st1 cache1].
  cbn [snd] in C. rewrite IH, C. reflexivity.
Qed.

(** X26.  A build touches the memory only to pad the special records of a
    read on a compatible disk layout, or to fill the pages it takes from the
    cache for a write: a write without page cache and a read on any other
    layout leave the memory as it is.  The page cache is asked for one page
    per segment. *)
Theorem build_cp_memory clk now sdev block req m cqr m' :
  dasd_eckd_build_cp clk now sdev block req m = (PTR cqr, m') ->
  (rq_data_dir req = WRITE -> dasd_page_cache m = None -> mem m' = mem m)
  /\ (rq_data_dir req = READ ->
      uses_cdl (privs m (base block)) = false -> mem m' = mem m)
  /\ dasd_page_cache m' = cache_after (segments req) (dasd_page_cache m).
Proof.
  intros Hb.
  destruct (build_cp_inv _ _ _ _ _ _ _ _ Hb)
    as (count & cidaw & dsize & cqr0 & first_ccw & _ & _ & _ & _
        & _ & _ & _ & Hm & Hc & _).
  rewrite Hm, Hc.
  split; [|split].
  - intros Hd Hn. rewrite fold_quiet; [reflexivity | left; auto].
  - intros Hd Hn. rewrite fold_quiet; [reflexivity | right; auto].
  - apply fold_cache.
Qed.

End Driver.

(** * The properties on concrete volumes and requests *)

Import Geometry Layout.

Local Abbreviation define_extent_s390 :=
  (define_extent S390.sizeof_DE_eckd_data).
Local Abbreviation end_analysis_s390 :=
  (dasd_eckd_end_analysis S390.dasd_check_blocksize S390.DASD_CQR_DONE).
Local Abbreviation format_device_s390 :=
  (dasd_eckd_format_device S390.sizeof_DE_eckd_data S390.sizeof_LO_eckd_data
     S390.sizeof_eckd_count S390.dasd_check_blocksize S390.DASD_CQR_FILLED
     S390.dasd_smalloc_request).
Local Abbreviation build_cp_s390 :=
  (dasd_eckd_build_cp S390.sizeof_DE_eckd_data S390.sizeof_LO_eckd_data
     S390.sizeof_PFX_eckd_data S390.sizeof_long S390.idal_is_needed
     S390.idal_create_words S390.DASD_CQR_FILLED S390.HZ
     S390.dasd_smalloc_request).
Local Abbreviation build_alias_cp_s390 :=
  (dasd_eckd_build_alias_cp S390.sizeof_DE_eckd_data
     S390.sizeof_LO_eckd_data S390.sizeof_PFX_eckd_data S390.sizeof_long
     S390.idal_is_needed S390.idal_create_words S390.DASD_CQR_FILLED S390.HZ
     S390.dasd_smalloc_request S390.dasd_alias_get_start_dev).

(** Twelve records per track: record 12, the first of track 1, is special
    and has the label length. *)
Lemma cdl_record_classification_witness :
  - 2 ^ 30 <= 12 < 2 ^ 30
  /\ (dasd_eckd_cdl_special 12 12 <> 0 <-> (12 < 3 \/ 12 <= 12 < 2 * 12))
  /\ dasd_eckd_cdl_reclen 12 = 140.
Proof.
  assert (H : - 2 ^ 30 <= 12 < 2 ^ 30) by lia.
  pose proof (cdl_record_classification 12 12 4096 H)
    as (T & _ & _ & _ & L & _).
  split; [exact H|]. split; [exact T|]. apply L; lia.
Defined.

(** Two records per track: record 2 lies in [rpt, 2 * rpt) and is
    special, yet its length is 84, not the label length 140. *)
Lemma cdl_label_length_overlap :
  2 <= 2 < 2 * 2
  /\ dasd_eckd_cdl_special 2 2 = 1
  /\ dasd_eckd_cdl_reclen 2 = 84
  /\ record_count true 2 2 4096 <> 140.
Proof. repeat split; try lia; try reflexivity. discriminate. Qed.

(** A 3390 with 4096-byte blocks without key. *)
Lemma recs_per_track_closed_form_witness :
  0 <= 0 < 2 ^ 31
  /\ 0 <= 4096 < 2 ^ 31
  /\ recs_per_track 0x3390 0 4096
     = 1729 / (19 + ceiling (4096 + 6 * (ceiling (4096 + 6) 232 + 1)) 34).
Proof.
  assert (Hk : 0 <= 0 < 2 ^ 31) by lia.
  assert (Hd : 0 <= 4096 < 2 ^ 31) by lia.
  split; [exact Hk|]. split; [exact Hd|].
  exact (proj2 (proj2 (recs_per_track_closed_form 0x3390 0 4096)) Hd).
Defined.

(** The data length 2^32 - 6 is an [unsigned int], but [dl + 6] wraps to
    0: the code answers 91 records per track where the closed formula
    gives none. *)
Lemma recs_per_track_wraps :
  let dl := 2 ^ 32 - 6 in
  0 <= dl < 2 ^ 32
  /\ recs_per_track 0x3390 0 dl = 91
  /\ 1729 / (19 + ceiling (dl + 6 * (ceiling (dl + 6) 232 + 1)) 34) = 0
  /\ recs_per_track 0x3390 0 dl <> capacity_formula 0x3390 0 dl.
Proof.
  cbv zeta. split; [lia|]. split; [reflexivity|]. split; [reflexivity|].
  vm_compute. discriminate.
Qed.

(** On a 10-cylinder volume a prestage read ending on cylinder 9 with an
    extension of 5 cylinders gets the end cylinder 9. *)
Lemma define_extent_end_cylinder_witness :
  let private := S390.volume 10 false false DASD_SEQ_PRESTAGE 5 0 [] (-1) in
  let de :=
    snd (define_extent_s390 S390.clock_in_sync 135 149
           DASD_ECKD_CCW_READ_MT private) in
  149 / trk_per_cyl (rdc_data private) = 9
  /\ attributes_operation de = DASD_SEQ_PRESTAGE
  /\ cyl (end_ext de) = Z.min (9 + 5) (10 - 1).
Proof.
  cbv zeta.
  split; [reflexivity|]. split; [reflexivity|].
  refine (proj1 (define_extent_end_cylinder S390.sizeof_DE_eckd_data
                   S390.clock_in_sync 135 149 DASD_ECKD_CCW_READ_MT
                   (S390.volume 10 false false DASD_SEQ_PRESTAGE 5 0 []
                      (-1)) _ _ _ _) _);
    [cbn; lia .. | left; reflexivity].
Defined.

(** The format write WRITE_CKD is a write command whose extent gets
    neither the write-only nor the read+write permission. *)
Lemma define_extent_write_ckd_mask :
  let de :=
    snd (define_extent_s390 S390.clock_in_sync 0 0 DASD_ECKD_CCW_WRITE_CKD
           (S390.plain_volume false false 0)) in
  mask_perm de = 0
  /\ mask_perm de <> 0x2
  /\ ~ (mask_perm de = 0x3 /\ mask_auth de = 0x1).
Proof.
  cbv zeta. split; [reflexivity|]. split; [discriminate|].
  intros [H _]. discriminate H.
Qed.

(** "Write record zero, then format, compatible disk layout" (0x09) on
    track 0 with 4096-byte blocks: 3 + 12 CCWs. *)
Lemma format_device_intensity_witness :
  let m := S390.machine_of (S390.plain_volume false false 0) None in
  let fdata :=
    {| start_unit := 0; stop_unit := 0; blksize := 4096;
       intensity := 0x09 |} in
  S390.dasd_check_blocksize (blksize fdata) = 0
  /\ exists fcp,
       fst (format_device_s390 S390.clock_in_sync 0 O S390.block_4k fdata m)
       = PTR fcp
       /\ Z.of_nat (length (cpaddr fcp)) = 3 + recs_per_track 0x3390 0 4096.
Proof.
  cbv zeta. split; [reflexivity|].
  refine (proj2 (proj1 (proj2
            (format_device_intensity S390.sizeof_DE_eckd_data
               S390.sizeof_LO_eckd_data S390.sizeof_eckd_count
               S390.dasd_check_blocksize S390.DASD_CQR_FILLED
               S390.dasd_smalloc_request S390.clock_in_sync 0 O
               S390.block_4k
               {| start_unit := 0; stop_unit := 0; blksize := 4096;
                  intensity := 0x09 |}
               (S390.machine_of (S390.plain_volume false false 0) None)
               _ _ _ _)) _)).
  - cbn. lia.
  - cbn. lia.
  - reflexivity.
  - intros cpl ds. eexists. reflexivity.
  - right. reflexivity.
Defined.

(** Track 0 starts with the data lengths 24, 144 and 80 under key length
    4, and track 2 starts with a 4096-byte record without key: compatible
    disk layout with 4096-byte blocks. *)
Lemma end_analysis_classification_witness :
  let private :=
    S390.volume 10 false false DASD_NORMAL_CACHE 0 0
      (S390.cdl_count_area (S390.header 1 0 4096)) S390.DASD_CQR_DONE in
  let block := {| base := O; bp_block := 0; s2b_shift := 0; blocks := 0 |} in
  let r := end_analysis_s390 private block in
  init_cqr_status private = S390.DASD_CQR_DONE
  /\ bp_block block = 0
  /\ (uses_cdl (snd (fst r)) = true <-> cdl_track0 private)
  /\ fst (fst r) = 0
  /\ bp_block (snd r) = 4096.
Proof.
  cbv zeta.
  pose proof (end_analysis_classification S390.dasd_check_blocksize
                S390.DASD_CQR_DONE
                (S390.volume 10 false false DASD_NORMAL_CACHE 0 0
                   (S390.cdl_count_area (S390.header 1 0 4096))
                   S390.DASD_CQR_DONE)
                {| base := O; bp_block := 0; s2b_shift := 0; blocks := 0 |}
                eq_refl eq_refl) as T.
  destruct (end_analysis_s390 _ _) as [[rc private'] block'] eqn:E.
  cbv zeta in T. destruct T as (Tcdl & _).
  split; [reflexivity|]. split; [reflexivity|].
  split; [exact Tcdl|].
  vm_compute in E. injection E as <- _ <-. split; reflexivity.
Defined.

(** Track 0 carries the three label records but the record read from
    track 2 has a key: the volume is reported as unusable although the
    first three count fields match. *)
Lemma end_analysis_cdl_rejected :
  let private :=
    S390.volume 10 false false DASD_NORMAL_CACHE 0 0
      (S390.cdl_count_area (S390.header 1 4 4092)) S390.DASD_CQR_DONE in
  let block := {| base := O; bp_block := 0; s2b_shift := 0; blocks := 0 |} in
  cdl_track0 private
  /\ fst (fst (end_analysis_s390 private block)) = - EMEDIUMTYPE.
Proof.
  cbv zeta. split; [|reflexivity].
  intros i Hi. destruct i as [|[|[|i]]]; [split; reflexivity ..|lia].
Qed.

(** A one-block write on an XRC volume: with the clock switched off the
    request is built, time-stamped with what the clock read left; while
    the clock is not in sync the build is answered with -EAGAIN and the
    machine is as before. *)
Lemma build_cp_clock_policy_witness :
  let m := S390.machine_of (S390.plain_volume false true 0) None in
  let req := S390.request_4k WRITE 100 1 0x10000 in
  let switched_off := {| sc_rc := - ENOSYS; sc_time := 7 |} in
  rq_data_dir req = WRITE
  /\ XRC_supported (rdc_data (privs m O)) = true
  /\ (exists cqr de,
        fst (build_cp_s390 switched_off 0 O S390.block_4k req m) = PTR cqr
        /\ extent_block (data cqr) = Some de
        /\ Z.land (ga_extended de) 0x0a = 0x0a
        /\ ep_sys_time de = 7)
  /\ build_cp_s390 S390.clock_not_in_sync 0 O S390.block_4k req m
     = (ERR_PTR (- EAGAIN), m).
Proof.
  cbv zeta. split; [reflexivity|]. split; [reflexivity|].
  assert (Hchk : request_checks_pass S390.idal_is_needed S390.block_4k
                   (S390.request_4k WRITE 100 1 0x10000))
    by (exists 1, 0; split; reflexivity).
  assert (Halloc : forall cpl ds, exists cqr,
             S390.dasd_smalloc_request cpl ds O = PTR cqr)
    by (intros cpl ds; eexists; reflexivity).
  split.
  - destruct (proj1 (proj2
               (build_cp_clock_policy S390.sizeof_DE_eckd_data
                  S390.sizeof_LO_eckd_data S390.sizeof_PFX_eckd_data
                  S390.sizeof_long S390.idal_is_needed
                  S390.idal_create_words S390.DASD_CQR_FILLED S390.HZ
                  S390.dasd_smalloc_request
                  {| sc_rc := - ENOSYS; sc_time := 7 |} 0 O S390.block_4k
                  (S390.request_4k WRITE 100 1 0x10000)
                  (S390.machine_of (S390.plain_volume false true 0) None)
                  eq_refl eq_refl Hchk Halloc)) (or_introl eq_refl))
      as (cqr & de & T1 & _ & _ & T4 & T5 & T6 & _).
    exists cqr, de. repeat split; assumption.
  - exact (proj2 (proj2
             (build_cp_clock_policy S390.sizeof_DE_eckd_data
                S390.sizeof_LO_eckd_data S390.sizeof_PFX_eckd_data
                S390.sizeof_long S390.idal_is_needed S390.idal_create_words
                S390.DASD_CQR_FILLED S390.HZ S390.dasd_smalloc_request
                S390.clock_not_in_sync 0 O S390.block_4k
                (S390.request_4k WRITE 100 1 0x10000)
                (S390.machine_of (S390.plain_volume false true 0) None)
                eq_refl eq_refl Hchk Halloc)) eq_refl).
Defined.

(** The same write with the clock switched off (-ENOSYS): the request is
    built, and its define-extent block is not without a time stamp: the
    bits "time stamp valid" and "extended parameter" are set, the time
    field holds the 7 the clock read left, and the define-extent CCW has
    the long count with the suppress-length flag. *)
Lemma build_cp_unavailable_clock_stamped :
  let m := S390.machine_of (S390.plain_volume false true 0) None in
  let req := S390.request_4k WRITE 100 1 0x10000 in
  let switched_off := {| sc_rc := - ENOSYS; sc_time := 7 |} in
  exists cqr de de_ccw,
    fst (build_cp_s390 switched_off 0 O S390.block_4k req m) = PTR cqr
    /\ d_DE (data cqr) = Some de
    /\ ga_extended de = 0x0a
    /\ ep_sys_time de = 7
    /\ nth_error (cpaddr cqr) 0 = Some de_ccw
    /\ cmd_code de_ccw = DASD_ECKD_CCW_DEFINE_EXTENT
    /\ count de_ccw = S390.sizeof_DE_eckd_data
    /\ CCW_FLAG_SLI (flags de_ccw) = true.
Proof.
  cbv zeta. eexists. eexists. eexists.
  split; [vm_compute; reflexivity|].
  repeat split; reflexivity.
Qed.

(** With four requests in flight a fifth build is answered with -EBUSY
    and changes nothing. *)
Lemma build_alias_cp_busy_witness :
  let m := S390.machine_of (S390.plain_volume false false 4) None in
  let req := S390.request_4k READ 100 1 0x10000 in
  build_alias_cp_s390 S390.clock_in_sync 0 O S390.block_4k req m
  = (ERR_PTR (- EBUSY), m).
Proof.
  cbv zeta.
  refine (proj1 (proj2
            (build_alias_cp_busy S390.sizeof_DE_eckd_data
               S390.sizeof_LO_eckd_data S390.sizeof_PFX_eckd_data
               S390.sizeof_long S390.idal_is_needed S390.idal_create_words
               S390.DASD_CQR_FILLED S390.HZ S390.dasd_smalloc_request
               S390.dasd_alias_get_start_dev S390.clock_in_sync 0 O
               S390.block_4k (S390.request_4k READ 100 1 0x10000)
               (S390.machine_of (S390.plain_volume false false 4) None)))
            _).
  cbn. lia.
Defined.

(** A two-block read on a volume in Linux layout gets two data CCWs
    whose counts add up to the 8192 bytes of the segment. *)
Lemma build_cp_data_ccws_witness :
  let m := S390.machine_of (S390.plain_volume false false 0) None in
  let req := S390.request_4k READ 100 2 0x10000 in
  exists cqr m',
    build_cp_s390 S390.clock_in_sync 0 O S390.block_4k req m = (PTR cqr, m')
    /\ block_geometry_ok S390.block_4k req
    /\ length (data_ccws (cpaddr cqr)) = 2%nat
    /\ sum_Z (map count (data_ccws (cpaddr cqr))) = 8192.
Proof.
  cbv zeta.
  set (m := S390.machine_of (S390.plain_volume false false 0) None).
  set (req := S390.request_4k READ 100 2 0x10000).
  set (r := build_cp_s390 S390.clock_in_sync 0 O S390.block_4k req m).
  exists (match fst r with
          | PTR cqr => cqr
          | ERR_PTR _ => S390.blank_request 0 0
          end), (snd r).
  assert (Hgeo : block_geometry_ok S390.block_4k req).
  { split; [cbn; lia|]. split; [reflexivity|].
    repeat constructor; cbn; lia. }
  assert (Hfst : fst r = PTR (match fst r with
                              | PTR cqr => cqr
                              | ERR_PTR _ => S390.blank_request 0 0
                              end)) by (vm_compute; reflexivity).
  assert (Hb : r = (PTR (match fst r with
                         | PTR cqr => cqr
                         | ERR_PTR _ => S390.blank_request 0 0
                         end), snd r))
    by (rewrite <- Hfst; apply surjective_pairing).
  destruct (build_cp_data_ccws S390.sizeof_DE_eckd_data
              S390.sizeof_LO_eckd_data S390.sizeof_PFX_eckd_data
              S390.sizeof_long S390.idal_is_needed S390.idal_create_words
              S390.DASD_CQR_FILLED S390.HZ S390.dasd_smalloc_request
              S390.clock_in_sync 0 O S390.block_4k req m _ _ Hgeo Hb)
    as (N & Hlen & HN & _ & _ & _ & Hsum).
  split; [exact Hb|]. split; [exact Hgeo|]. split.
  - vm_compute. reflexivity.
  - refine (eq_trans (Hsum (or_introl eq_refl)) _). reflexivity.
Defined.

(** On a volume in compatible disk layout the read of block 0 is
    accepted and gets one data CCW, whose count is the 28 bytes of the
    first label record, for a segment of 4096 bytes. *)
Lemma build_cp_cdl_counts_differ :
  let m := S390.machine_of (S390.plain_volume true false 0) None in
  let req := S390.request_4k READ 0 1 0x10000 in
  match fst (build_cp_s390 S390.clock_in_sync 0 O S390.block_4k req m) with
  | PTR cqr =>
      map count (data_ccws (cpaddr cqr)) = [28]
      /\ segments_len (segments req) = 4096
  | ERR_PTR _ => False
  end.
Proof. vm_compute. split; reflexivity. Qed.

(** Without a page cache, the read of block 0 of a volume in compatible
    disk layout leaves 0xe5 in the bytes 28 .. 4095 of the caller's
    buffer. *)
Lemma build_cp_read_fills_tail_witness :
  let m := S390.machine_of (S390.plain_volume true false 0) None in
  let req := S390.request_4k READ 0 1 0x200000 in
  exists cqr m',
    build_cp_s390 S390.clock_in_sync 0 O S390.block_4k req m = (PTR cqr, m')
    /\ nth_error (caller_buffers 4096 (segments req)) 0 = Some 0x200000
    /\ dasd_eckd_cdl_reclen 0 = 28
    /\ forall a, 0x200000 + 28 <= a < 0x200000 + 4096 -> mem m' a = 0xe5.
Proof.
  cbv zeta.
  set (m := S390.machine_of (S390.plain_volume true false 0) None).
  set (req := S390.request_4k READ 0 1 0x200000).
  set (r := build_cp_s390 S390.clock_in_sync 0 O S390.block_4k req m).
  exists (match fst r with
          | PTR cqr => cqr
          | ERR_PTR _ => S390.blank_request 0 0
          end), (snd r).
  assert (Hfst : fst r = PTR (match fst r with
                              | PTR cqr => cqr
                              | ERR_PTR _ => S390.blank_request 0 0
                              end)) by (vm_compute; reflexivity).
  assert (Hb : r = (PTR (match fst r with
                         | PTR cqr => cqr
                         | ERR_PTR _ => S390.blank_request 0 0
                         end), snd r))
    by (rewrite <- Hfst; apply surjective_pairing).
  assert (Hgeo : block_geometry_ok S390.block_4k req).
  { split; [cbn; lia|]. split; [reflexivity|].
    repeat constructor; cbn; lia. }
  destruct (build_cp_read_fills_tail S390.sizeof_DE_eckd_data
              S390.sizeof_LO_eckd_data S390.sizeof_PFX_eckd_data
              S390.sizeof_long S390.idal_is_needed S390.idal_create_words
              S390.DASD_CQR_FILLED S390.HZ S390.dasd_smalloc_request
              S390.clock_in_sync 0 O S390.block_4k req m _ _ O 0x200000
              Hgeo eq_refl Hb eq_refl eq_refl)
    as [Hfill Hcaller].
  - vm_compute. reflexivity.
  - vm_compute. discriminate.
  - vm_compute. reflexivity.
  - split; [exact Hb|]. split; [apply Hcaller; reflexivity|].
    split; [reflexivity|]. exact Hfill.
Defined.

(** When [dasd_page_cache] hands out a page, the 0xe5 bytes go to the
    page that replaces the caller's segment, and the caller's buffer is as
    it was when the build returns. *)
Lemma build_cp_read_fills_copy :
  let m :=
    S390.machine_of (S390.plain_volume true false 0)
      (Some [Some 0x100000]) in
  let req := S390.request_4k READ 0 1 0x200000 in
  match build_cp_s390 S390.clock_in_sync 0 O S390.block_4k req m with
  | (PTR cqr, m') =>
      mem m (0x200000 + 28) = 0
      /\ mem m' (0x200000 + 28) = 0
      /\ mem m' (0x100000 + 28) = 0xe5
  | (ERR_PTR _, _) => False
  end.
Proof. vm_compute. repeat split. Qed.

(** * Further properties on concrete inputs *)

Local Abbreviation free_cp_s390 :=
  (dasd_eckd_free_cp S390.DASD_CQR_DONE).
Local Abbreviation free_alias_cp_s390 :=
  (dasd_eckd_free_alias_cp S390.DASD_CQR_DONE).
Local Abbreviation analysis_ccw_s390 :=
  (dasd_eckd_analysis_ccw S390.sizeof_DE_eckd_data S390.sizeof_LO_eckd_data
     S390.DASD_CQR_FILLED S390.dasd_smalloc_request).
Local Abbreviation do_analysis_s390 :=
  (dasd_eckd_do_analysis S390.sizeof_DE_eckd_data S390.sizeof_LO_eckd_data
     S390.dasd_check_blocksize S390.DASD_CQR_DONE S390.DASD_CQR_FILLED
     S390.HZ S390.dasd_smalloc_request).
Local Abbreviation handle_terminated_s390 :=
  (dasd_eckd_handle_terminated_request S390.DASD_CQR_FILLED).
Local Abbreviation transfer_cdas_of cp := (map cda (data_ccws cp)).

(** A successful build, as a pair. *)
Lemma built_pair {A B : Type} (r : ERR_OR A * B) (d : A) :
  (exists c, fst r = PTR c) ->
  r = (PTR (match fst r with
            | PTR c => c
            | ERR_PTR _ => d
            end), snd r).
Proof.
  intros [c H]. destruct r as [[e | a] b]; cbn in *;
    [discriminate H | reflexivity].
Qed.

Lemma block_4k_geometry dir first n addr :
  0 <= n < 2 ^ 19 ->
  block_geometry_ok S390.block_4k (S390.request_4k dir first n addr).
Proof.
  intros H. split; [cbn; lia|]. split; [reflexivity|].
  cbn [segments S390.request_4k].
  apply Forall_cons; [|apply Forall_nil].
  cbn [bv_len bp_block S390.block_4k]. lia.
Qed.

Lemma s390_first_word a l :
  nth_error (S390.idal_create_words a l) 0 = Some a.
Proof. reflexivity. Qed.

Lemma s390_blocksizes x :
  S390.dasd_check_blocksize x = 0 ->
  exists k, 0 <= k <= 22 /\ x = 2 ^ (k + 9).
Proof.
  unfold S390.dasd_check_blocksize.
  destruct (Z.eqb_spec x 512) as [-> |]; [exists 0; split; [lia|reflexivity]|].
  destruct (Z.eqb_spec x 1024) as [-> |];
    [exists 1; split; [lia|reflexivity]|].
  destruct (Z.eqb_spec x 2048) as [-> |];
    [exists 2; split; [lia|reflexivity]|].
  destruct (Z.eqb_spec x 4096) as [-> |];
    [exists 3; split; [lia|reflexivity]|].
  cbn. discriminate.
Qed.

(** Rounding 10 up to a multiple of 4. *)
Lemma round_up_multiple_least_witness :
  round_up_multiple 10 4 mod 4 = 0 /\ 10 <= round_up_multiple 10 4 < 14.
Proof. apply (round_up_multiple_least 10 4); lia. Defined.

(** 4096-byte against 512-byte records on a 3390. *)
Lemma recs_per_track_antitone_witness :
  recs_per_track 0x3390 0 4096 <= recs_per_track 0x3390 0 512
  /\ (0x3390 = 0x3380 \/ 0x3390 = 0x3390 \/ 0x3390 = 0x9345 ->
      4096 <= 4096 -> 9 <= recs_per_track 0x3390 0 4096).
Proof. apply (recs_per_track_antitone 0x3390 0 512 4096); lia. Defined.

(** Track 37 of a volume with 15 heads is cylinder 2, head 7. *)
Lemma track_address_round_trip_witness :
  let private := S390.plain_volume false false 0 in
  let de :=
    snd (define_extent_s390 S390.clock_in_sync 37 40 DASD_ECKD_CCW_READ_MT
           private) in
  let lo := snd (locate_record 0 37 1 4 DASD_ECKD_CCW_READ_MT private 4096) in
  0 < trk_per_cyl (rdc_data private) < 2 ^ 16
  /\ cyl (beg_ext de) * 15 + head (beg_ext de) = 37
  /\ seek_addr lo = beg_ext de.
Proof.
  cbv zeta.
  assert (H1 : 0 < trk_per_cyl
                     (rdc_data (S390.plain_volume false false 0)) < 2 ^ 16)
    by (cbn; lia).
  assert (H2 : 0 <= 37 < 2 ^ 16 * trk_per_cyl
                     (rdc_data (S390.plain_volume false false 0)))
    by (cbn; lia).
  destruct (track_address_round_trip S390.sizeof_DE_eckd_data
              S390.clock_in_sync 37 40 DASD_ECKD_CCW_READ_MT
              (S390.plain_volume false false 0) 0 1 4 DASD_ECKD_CCW_READ_MT
              4096 H1 H2) as (T1 & _ & T3 & _).
  split; [exact H1|]. split; [exact T1 | exact T3].
Defined.

(** A write prefix for a Hyper-PAV alias of an XRC volume. *)
Lemma prefix_embeds_define_extent_witness :
  let basepriv := S390.plain_volume false true 0 in
  let startpriv :=
    {| rdc_data := rdc_data basepriv; attrib := attrib basepriv;
       uses_cdl := false; priv_count := 0; init_cqr_status := -1;
       count_area := []; feature_8 := 0; ned_unit_addr := 0; ned_ID := 0;
       uid_type := UA_HYPER_PAV_ALIAS; path_data_ppm := 0x80 |} in
  let p :=
    prefix S390.sizeof_PFX_eckd_data S390.clock_in_sync 30 31
           DASD_ECKD_CCW_WRITE_MT basepriv startpriv in
  define_extend (snd p)
  = snd (define_extent_s390 S390.clock_in_sync 30 31 DASD_ECKD_CCW_WRITE_MT
           basepriv)
  /\ validity_hyper_pav (snd p) = 1
  /\ validity_time_stamp (snd p) = 1.
Proof.
  cbv zeta.
  destruct (prefix_embeds_define_extent S390.sizeof_DE_eckd_data
              S390.sizeof_PFX_eckd_data S390.clock_in_sync 30 31
              DASD_ECKD_CCW_WRITE_MT (S390.plain_volume false true 0)
              {| rdc_data := rdc_data (S390.plain_volume false true 0);
                 attrib := attrib (S390.plain_volume false true 0);
                 uses_cdl := false; priv_count := 0; init_cqr_status := -1;
                 count_area := []; feature_8 := 0; ned_unit_addr := 0;
                 ned_ID := 0; uid_type := UA_HYPER_PAV_ALIAS;
                 path_data_ppm := 0x80 |})
    as (T1 & _ & _ & _ & T5 & T6).
  split; [exact T1|]. split.
  - apply T5. reflexivity.
  - apply T6. split; reflexivity.
Defined.

(** The analysis of a volume in compatible disk layout with 4096-byte
    blocks leaves the sector shift 3. *)
Lemma end_analysis_block_geometry_witness :
  let private :=
    S390.volume 10 false false DASD_NORMAL_CACHE 0 0
      (S390.cdl_count_area (S390.header 1 0 4096)) S390.DASD_CQR_DONE in
  let block := {| base := O; bp_block := 0; s2b_shift := 0; blocks := 0 |} in
  let r := end_analysis_s390 private block in
  bp_block block = 0
  /\ fst (fst r) = 0
  /\ bp_block (snd r) = 2 ^ (s2b_shift (snd r) + 9)
  /\ s2b_shift (snd r) = 3
  /\ blocks (snd r) = 10 * 15 * 12.
Proof.
  cbv zeta.
  destruct (end_analysis_block_geometry S390.dasd_check_blocksize
              S390.DASD_CQR_DONE
              (S390.volume 10 false false DASD_NORMAL_CACHE 0 0
                 (S390.cdl_count_area (S390.header 1 0 4096))
                 S390.DASD_CQR_DONE)
              {| base := O; bp_block := 0; s2b_shift := 0; blocks := 0 |}
              s390_blocksizes eq_refl) as (_ & T & _).
  assert (R : fst (fst (end_analysis_s390
                          (S390.volume 10 false false DASD_NORMAL_CACHE 0 0
                             (S390.cdl_count_area (S390.header 1 0 4096))
                             S390.DASD_CQR_DONE)
                          {| base := O; bp_block := 0; s2b_shift := 0;
                             blocks := 0 |})) = 0) by reflexivity.
  destruct (T R) as (_ & T2 & _ & _).
  split; [reflexivity|]. split; [exact R|]. split; [exact T2|].
  split; reflexivity.
Defined.

(** A request whose only segment is 100 bytes long. *)
(** 40000 cylinders of 40000 tracks with twelve blocks each: the product
    19200000000 does not fit an [unsigned int], and [blocks] receives
    what is left of it. *)
Lemma end_analysis_blocks_wrap :
  let private :=
    {| rdc_data := {| cu_type := 0x3990; dev_type := 0x3390;
                      no_cyl := 40000; trk_per_cyl := 40000;
                      XRC_supported := false |};
       attrib := {| operation := DASD_NORMAL_CACHE; nr_cyl := 0 |};
       uses_cdl := false; priv_count := 0;
       init_cqr_status := S390.DASD_CQR_DONE;
       count_area := S390.cdl_count_area (S390.header 1 0 4096);
       feature_8 := 0; ned_unit_addr := 0; ned_ID := 0;
       uid_type := UA_BASE_DEVICE; path_data_ppm := 0x80 |} in
  let block := {| base := O; bp_block := 0; s2b_shift := 0; blocks := 0 |} in
  let r := end_analysis_s390 private block in
  fst (fst r) = 0
  /\ 40000 * 40000 * 12 = 19200000000
  /\ blocks (snd r) = 2020130816.
Proof. cbv zeta. repeat split; reflexivity. Qed.

Local Abbreviation short_request :=
  {| rq_data_dir := READ; sector := 0; nr_sectors := 8;
     segments := [{| bv_page := 0x10000; bv_offset := 0; bv_len := 100 |}];
     blk_noretry_request := false |}.

(** The proof that the build of a request succeeds, by running it. *)
Ltac built r H :=
  let v := eval vm_compute in (fst r) in
  match v with
  | PTR ?x =>
      assert (H : r = (PTR (match fst r with
                            | PTR c => c
                            | ERR_PTR _ => S390.blank_request 0 0
                            end), snd r))
        by (apply built_pair; exists x; vm_compute; reflexivity)
  end.

(** A segment of 100 bytes is refused and nothing has changed. *)
Lemma build_cp_failure_no_effect_witness :
  let m := S390.machine_of (S390.plain_volume false false 0) None in
  exists e m',
    build_cp_s390 S390.clock_in_sync 0 O S390.block_4k short_request m
    = (ERR_PTR e, m')
    /\ m' = m.
Proof.
  cbv zeta. exists (- EINVAL). eexists. split; [reflexivity|].
  refine (proj1 (build_cp_failure_no_effect S390.sizeof_DE_eckd_data
                   S390.sizeof_LO_eckd_data S390.sizeof_PFX_eckd_data
                   S390.sizeof_long S390.idal_is_needed
                   S390.idal_create_words S390.DASD_CQR_FILLED S390.HZ
                   S390.dasd_smalloc_request S390.clock_in_sync 0 O
                   S390.block_4k short_request _ (- EINVAL) _ _)).
  reflexivity.
Defined.

(** The same request, seen from the block size: 100 is not a multiple of
    4096. *)
Lemma build_cp_rejects_partial_blocks_witness :
  let m := S390.machine_of (S390.plain_volume false false 0) None in
  0 <= s2b_shift S390.block_4k <= 22
  /\ bp_block S390.block_4k = 2 ^ (s2b_shift S390.block_4k + 9)
  /\ 100 mod bp_block S390.block_4k <> 0
  /\ build_cp_s390 S390.clock_in_sync 0 O S390.block_4k short_request m
     = (ERR_PTR (- EINVAL), m).
Proof.
  cbv zeta.
  assert (H1 : 0 <= s2b_shift S390.block_4k <= 22) by (cbn; lia).
  assert (H2 : bp_block S390.block_4k = 2 ^ (s2b_shift S390.block_4k + 9))
    by reflexivity.
  assert (H3 : 100 mod bp_block S390.block_4k <> 0) by (cbn; discriminate).
  split; [exact H1|]. split; [exact H2|]. split; [exact H3|].
  apply (build_cp_rejects_partial_blocks S390.sizeof_DE_eckd_data
           S390.sizeof_LO_eckd_data S390.sizeof_PFX_eckd_data
           S390.sizeof_long S390.idal_is_needed S390.idal_create_words
           S390.DASD_CQR_FILLED S390.HZ S390.dasd_smalloc_request
           S390.clock_in_sync 0 O S390.block_4k short_request _ H1 H2).
  apply Exists_cons_hd. split; [cbn; lia | exact H3].
Defined.

(** With three requests in flight a failed build leaves the counter at
    three. *)
Lemma build_alias_cp_counter_witness :
  let m := S390.machine_of (S390.plain_volume false false 3) None in
  let r :=
    build_alias_cp_s390 S390.clock_in_sync 0 O S390.block_4k short_request
      m in
  fst r = ERR_PTR (- EINVAL)
  /\ priv_count (privs (snd r) O) = 3
  /\ ccw_reqs (snd r) = [].
Proof.
  cbv zeta.
  destruct (build_alias_cp_counter S390.sizeof_DE_eckd_data
              S390.sizeof_LO_eckd_data S390.sizeof_PFX_eckd_data
              S390.sizeof_long S390.idal_is_needed S390.idal_create_words
              S390.DASD_CQR_FILLED S390.HZ S390.dasd_smalloc_request
              S390.dasd_alias_get_start_dev S390.clock_in_sync 0 O
              S390.block_4k short_request
              (S390.machine_of (S390.plain_volume false false 3) None))
    as (_ & _ & _ & T).
  assert (R : fst (build_alias_cp_s390 S390.clock_in_sync 0 O S390.block_4k
                     short_request
                     (S390.machine_of (S390.plain_volume false false 3)
                        None))
              = ERR_PTR (- EINVAL)) by reflexivity.
  destruct (T _ R) as (T1 & T2 & _).
  split; [exact R|]. split.
  - rewrite (T1 O). reflexivity.
  - exact T2.
Defined.

(** Blocks 23 to 25 of a volume in compatible disk layout with twelve
    blocks per track, read into a buffer above 2 GB: the last record of
    the second track, with a locate-record CCW of its own and the
    key-and-data command, then the locate-record CCW for the rest and two
    plain reads.  Three address words were counted and three are stored,
    so the data area holds both locate-record blocks. *)
Lemma build_cp_program_witness :
  let m := S390.machine_of (S390.plain_volume true false 0) None in
  let req := S390.request_4k READ 23 3 0x80000000 in
  exists cqr m',
    build_cp_s390 S390.clock_in_sync 0 O S390.block_4k req m = (PTR cqr, m')
    /\ block_geometry_ok S390.block_4k req
    /\ map cmd_code (cpaddr cqr)
       = [DASD_ECKD_CCW_DEFINE_EXTENT; DASD_ECKD_CCW_LOCATE_RECORD;
          DASD_ECKD_CCW_READ_KD_MT; DASD_ECKD_CCW_LOCATE_RECORD;
          DASD_ECKD_CCW_READ_MT; DASD_ECKD_CCW_READ_MT]
    /\ length (d_LO (data cqr)) = 2%nat
    /\ d_cidaw (data cqr) = 3
    /\ forall k,
         LO_data_at S390.sizeof_LO_eckd_data S390.sizeof_long (data cqr) k
         = nth_error (d_LO (data cqr)) k.
Proof.
  cbv zeta.
  set (m := S390.machine_of (S390.plain_volume true false 0) None).
  set (req := S390.request_4k READ 23 3 0x80000000).
  set (r := build_cp_s390 S390.clock_in_sync 0 O S390.block_4k req m).
  built r Hb.
  assert (Hgeo : block_geometry_ok S390.block_4k req)
    by (apply block_4k_geometry; lia).
  destruct (build_cp_program S390.sizeof_DE_eckd_data
              S390.sizeof_LO_eckd_data S390.sizeof_PFX_eckd_data
              S390.sizeof_long S390.idal_is_needed S390.idal_create_words
              S390.DASD_CQR_FILLED S390.HZ S390.dasd_smalloc_request
              S390.clock_in_sync 0 O S390.block_4k req m _ _ Hgeo Hb)
    as (first_ccw & Hfirst & Hprog & HLO & _ & _ & _ & Harea).
  eexists. eexists. split; [exact Hb|]. split; [exact Hgeo|]. split.
  { vm_compute. reflexivity. }
  split; [rewrite HLO; reflexivity|].
  split; [vm_compute; reflexivity|].
  apply Harea.
  - reflexivity.
  - reflexivity.
  - vm_compute. discriminate.
Defined.

(** A block that starts 512 bytes into a page above 2 GB takes two
    address words where the first loop counted one: the second word is
    stored where the locate-record block was, and the data area no longer
    holds that block. *)
Lemma build_cp_extra_word_overwrites :
  let m := S390.machine_of (S390.plain_volume false false 0) None in
  let req :=
    {| rq_data_dir := READ; sector := 800; nr_sectors := 8;
       segments := [{| bv_page := 0x80000000; bv_offset := 512;
                       bv_len := 4096 |}];
       blk_noretry_request := false |} in
  exists cqr,
    fst (build_cp_s390 S390.clock_in_sync 0 O S390.block_4k req m) = PTR cqr
    /\ d_cidaw (data cqr) = 1
    /\ d_idaws (data cqr) = [0x80000200; 0x80001000]
    /\ length (d_LO (data cqr)) = 1%nat
    /\ LO_data_at S390.sizeof_LO_eckd_data S390.sizeof_long (data cqr) 0
       = None
    /\ idaws_at S390.sizeof_LO_eckd_data S390.sizeof_long (data cqr) 1
       = Some 0x80001000.
Proof.
  cbv zeta. eexists. split; [vm_compute; reflexivity|].
  repeat split; reflexivity.
Qed.

(** Sector 2400000000000 lies on track 25000000000, which the [int]
    arguments of [define_extent] receive as -769803776: the extent begins
    at what the 16-bit fields keep of its quotient and remainder by 15. *)
Lemma build_cp_track_as_int :
  let m := S390.machine_of (S390.plain_volume false false 0) None in
  let req :=
    {| rq_data_dir := READ; sector := 2400000000000; nr_sectors := 8;
       segments := [{| bv_page := 0x10000; bv_offset := 0;
                       bv_len := 4096 |}];
       blk_noretry_request := false |} in
  s32 (first_rec_of S390.block_4k req / 12) = -769803776
  /\ exists cqr de,
       fst (build_cp_s390 S390.clock_in_sync 0 O S390.block_4k req m)
       = PTR cqr
       /\ d_DE (data cqr) = Some de
       /\ beg_ext de = {| cyl := 59973; head := 65525 |}.
Proof.
  cbv zeta. split; [reflexivity|].
  eexists. eexists. split; [vm_compute; reflexivity|].
  split; reflexivity.
Qed.

(** The program of a two-block read: three CCWs chained, the last one
    not. *)
Lemma build_cp_chained_witness :
  let m := S390.machine_of (S390.plain_volume false false 0) None in
  let req := S390.request_4k READ 100 2 0x10000 in
  exists cqr m',
    build_cp_s390 S390.clock_in_sync 0 O S390.block_4k req m = (PTR cqr, m')
    /\ chained (cpaddr cqr)
    /\ map (fun c => CCW_FLAG_CC (flags c)) (cpaddr cqr)
       = [true; true; true; false].
Proof.
  cbv zeta.
  set (m := S390.machine_of (S390.plain_volume false false 0) None).
  set (req := S390.request_4k READ 100 2 0x10000).
  set (r := build_cp_s390 S390.clock_in_sync 0 O S390.block_4k req m).
  built r Hb.
  destruct (build_cp_chained S390.sizeof_DE_eckd_data
              S390.sizeof_LO_eckd_data S390.sizeof_PFX_eckd_data
              S390.sizeof_long S390.idal_is_needed S390.idal_create_words
              S390.DASD_CQR_FILLED S390.HZ S390.dasd_smalloc_request
              S390.clock_in_sync 0 O S390.block_4k req m _ _ Hb)
    as [_ T].
  eexists. eexists. split; [exact Hb|]. split; [exact T|].
  vm_compute. reflexivity.
Defined.

(** Two blocks on the first track of a compatible disk layout: six CCWs
    are asked for and five are used. *)
Lemma build_cp_program_fits_witness :
  let m := S390.machine_of (S390.plain_volume true false 0) None in
  let req := S390.request_4k READ 3 2 0x10000 in
  exists cqr m',
    build_cp_s390 S390.clock_in_sync 0 O S390.block_4k req m = (PTR cqr, m')
    /\ block_geometry_ok S390.block_4k req
    /\ 0 < nr_sectors req
    /\ requested_cplength (privs m O) 12 3 4 2 = 6
    /\ Z.of_nat (length (cpaddr cqr)) = 5.
Proof.
  cbv zeta.
  set (m := S390.machine_of (S390.plain_volume true false 0) None).
  set (req := S390.request_4k READ 3 2 0x10000).
  set (r := build_cp_s390 S390.clock_in_sync 0 O S390.block_4k req m).
  built r Hb.
  assert (Hgeo : block_geometry_ok S390.block_4k req)
    by (apply block_4k_geometry; lia).
  assert (H1 : 0 <= sector req) by (cbn; lia).
  assert (H2 : 0 < nr_sectors req) by (cbn; lia).
  assert (H3 : sector req + nr_sectors req < 2 ^ 64) by (cbn; lia).
  assert (H4 : segments_len (segments req) < 2 ^ 64) by (cbn; lia).
  destruct (build_cp_program_fits S390.sizeof_DE_eckd_data
              S390.sizeof_LO_eckd_data S390.sizeof_PFX_eckd_data
              S390.sizeof_long S390.idal_is_needed S390.idal_create_words
              S390.DASD_CQR_FILLED S390.HZ S390.dasd_smalloc_request
              S390.clock_in_sync 0 O S390.block_4k req m _ _ Hgeo H1 H2 H3
              H4 Hb) as [_ T].
  eexists. eexists. split; [exact Hb|]. split; [exact Hgeo|].
  split; [exact H2|]. split; [reflexivity|].
  rewrite T. reflexivity.
Defined.

(** A two-block read into a buffer above 2 GB: both data CCWs go through
    indirect address words and reach the two halves of the buffer. *)
Lemma build_cp_data_targets_witness :
  let m := S390.machine_of (S390.plain_volume false false 0) None in
  let req := S390.request_4k READ 100 2 0x80000000 in
  exists cqr m',
    build_cp_s390 S390.clock_in_sync 0 O S390.block_4k req m = (PTR cqr, m')
    /\ block_geometry_ok S390.block_4k req
    /\ map cda (data_ccws (cpaddr cqr)) = [pa_idaws 0; pa_idaws 1]
    /\ map (transfer_address cqr) (data_ccws (cpaddr cqr))
       = [Some 0x80000000; Some 0x80001000].
Proof.
  cbv zeta.
  set (m := S390.machine_of (S390.plain_volume false false 0) None).
  set (req := S390.request_4k READ 100 2 0x80000000).
  set (r := build_cp_s390 S390.clock_in_sync 0 O S390.block_4k req m).
  built r Hb.
  assert (Hgeo : block_geometry_ok S390.block_4k req)
    by (apply block_4k_geometry; lia).
  destruct (build_cp_data_targets S390.sizeof_DE_eckd_data
              S390.sizeof_LO_eckd_data S390.sizeof_PFX_eckd_data
              S390.sizeof_long S390.idal_is_needed S390.idal_create_words
              S390.DASD_CQR_FILLED S390.HZ S390.dasd_smalloc_request
              S390.clock_in_sync 0 O S390.block_4k req m _ _
              s390_first_word Hgeo Hb) as [_ T].
  eexists. eexists. split; [exact Hb|]. split; [exact Hgeo|]. split.
  - vm_compute. reflexivity.
  - rewrite T. reflexivity.
Defined.

(** A write without page cache leaves the memory alone. *)
Lemma build_cp_memory_witness :
  let m := S390.machine_of (S390.plain_volume true false 0) None in
  let req := S390.request_4k WRITE 0 1 0x10000 in
  exists cqr m',
    build_cp_s390 S390.clock_in_sync 0 O S390.block_4k req m = (PTR cqr, m')
    /\ rq_data_dir req = WRITE
    /\ dasd_page_cache m = None
    /\ mem m' = mem m.
Proof.
  cbv zeta.
  set (m := S390.machine_of (S390.plain_volume true false 0) None).
  set (req := S390.request_4k WRITE 0 1 0x10000).
  set (r := build_cp_s390 S390.clock_in_sync 0 O S390.block_4k req m).
  built r Hb.
  destruct (build_cp_memory S390.sizeof_DE_eckd_data
              S390.sizeof_LO_eckd_data S390.sizeof_PFX_eckd_data
              S390.sizeof_long S390.idal_is_needed S390.idal_create_words
              S390.DASD_CQR_FILLED S390.HZ S390.dasd_smalloc_request
              S390.clock_in_sync 0 O S390.block_4k req m _ _ Hb)
    as (T & _).
  eexists. eexists. split; [exact Hb|]. split; [reflexivity|].
  split; [reflexivity|]. apply T; reflexivity.
Defined.

(** A one-block read of block 0 of a volume in compatible disk layout,
    with one page in the cache. *)
Local Abbreviation cached_machine :=
  (S390.machine_of (S390.plain_volume true false 0) (Some [Some 0x100000])).
Local Abbreviation cached_read := (S390.request_4k READ 0 1 0x200000).

Lemma cached_read_segments : segments_ok (segments cached_read).
Proof.
  apply Forall_cons; [|apply Forall_nil].
  cbn. unfold PAGE_SIZE. repeat split; lia.
Qed.

Lemma cached_read_pages :
  cache_pages_ok (segments cached_read) (dasd_page_cache cached_machine).
Proof.
  intros outcomes copy E Hin. injection E as <-.
  destruct Hin as [H | []]. injection H as <-.
  split; [lia|]. split; [reflexivity|].
  apply Forall_cons; [cbn; discriminate | apply Forall_nil].
Qed.

(** Releasing it gives the page back. *)
Lemma free_cp_finalizes_witness :
  exists cqr m1,
    build_cp_s390 S390.clock_in_sync 0 O S390.block_4k cached_read
                  cached_machine = (PTR cqr, m1)
    /\ block_geometry_ok S390.block_4k cached_read
    /\ match free_cp_s390 cqr S390.block_4k cached_read m1 with
       | Some (rc, _, freed) => rc = 0 /\ freed = [0x100000]
       | None => False
       end.
Proof.
  set (r := build_cp_s390 S390.clock_in_sync 0 O S390.block_4k cached_read
              cached_machine).
  built r Hb.
  assert (Hgeo : block_geometry_ok S390.block_4k cached_read)
    by (apply block_4k_geometry; lia).
  eexists. eexists. split; [exact Hb|]. split; [exact Hgeo|].
  rewrite (free_cp_finalizes S390.sizeof_DE_eckd_data
             S390.sizeof_LO_eckd_data S390.sizeof_PFX_eckd_data
             S390.sizeof_long S390.idal_is_needed S390.idal_create_words
             S390.DASD_CQR_DONE S390.DASD_CQR_FILLED S390.HZ
             S390.dasd_smalloc_request S390.clock_in_sync 0 O S390.block_4k
             cached_read cached_machine _ _ _ _ s390_first_word Hgeo Hb
             eq_refl eq_refl);
    [|vm_compute; reflexivity ..].
  cbv zeta. cbv beta iota. split; vm_compute; reflexivity.
Defined.

Lemma free_cp_returns_pages_witness :
  exists cqr m1,
    build_cp_s390 S390.clock_in_sync 0 O S390.block_4k cached_read
                  cached_machine = (PTR cqr, m1)
    /\ segments_ok (segments cached_read)
    /\ cache_pages_ok (segments cached_read)
                      (dasd_page_cache cached_machine)
    /\ match free_cp_s390 cqr S390.block_4k cached_read m1 with
       | Some (_, m3, freed) =>
           freed = pages_taken (segments cached_read)
                               (dasd_page_cache cached_machine)
           /\ ccw_reqs m3 = pool_remove cqr (ccw_reqs m1)
       | None => False
       end.
Proof.
  set (r := build_cp_s390 S390.clock_in_sync 0 O S390.block_4k cached_read
              cached_machine).
  built r Hb.
  assert (Hgeo : block_geometry_ok S390.block_4k cached_read)
    by (apply block_4k_geometry; lia).
  eexists. eexists. split; [exact Hb|].
  split; [exact cached_read_segments|].
  split; [exact cached_read_pages|].
  pose proof (free_cp_returns_pages S390.sizeof_DE_eckd_data
                S390.sizeof_LO_eckd_data S390.sizeof_PFX_eckd_data
                S390.sizeof_long S390.idal_is_needed S390.idal_create_words
                S390.DASD_CQR_DONE S390.DASD_CQR_FILLED S390.HZ
                S390.dasd_smalloc_request S390.clock_in_sync 0 O
                S390.block_4k cached_read cached_machine _ (snd r) _
                (snd r) s390_first_word Hgeo Hb eq_refl eq_refl) as T.
  match type of T with
  | ?A -> ?B -> ?C -> _ =>
      assert (H1 : A) by (vm_compute; reflexivity);
      assert (H2 : B) by (vm_compute; reflexivity);
      assert (H3 : C) by (vm_compute; discriminate)
  end.
  specialize (T H1 H2 H3 cached_read_segments cached_read_pages).
  destruct (free_cp_s390 _ S390.block_4k cached_read _)
    as [[[rc m3] freed]|]; [|exact T].
  destruct T as (T1 & _ & T3 & _). split; assumption.
Defined.

(** Byte 5 of the caller's buffer receives byte 5 of the page. *)
Lemma free_cp_read_copies_back_witness :
  exists cqr m1,
    build_cp_s390 S390.clock_in_sync 0 O S390.block_4k cached_read
                  cached_machine = (PTR cqr, m1)
    /\ rq_data_dir cached_read = READ
    /\ 0 <= 5 < 4096
    /\ match free_cp_s390 cqr S390.block_4k cached_read m1 with
       | Some (_, m3, _) => mem m3 (0x200000 + 5) = mem m1 (0x100000 + 5)
       | None => False
       end.
Proof.
  set (r := build_cp_s390 S390.clock_in_sync 0 O S390.block_4k cached_read
              cached_machine).
  built r Hb.
  assert (Hgeo : block_geometry_ok S390.block_4k cached_read)
    by (apply block_4k_geometry; lia).
  eexists. eexists. split; [exact Hb|]. split; [reflexivity|].
  split; [lia|].
  pose proof (free_cp_read_copies_back S390.sizeof_DE_eckd_data
                S390.sizeof_LO_eckd_data S390.sizeof_PFX_eckd_data
                S390.sizeof_long S390.idal_is_needed S390.idal_create_words
                S390.DASD_CQR_DONE S390.DASD_CQR_FILLED S390.HZ
                S390.dasd_smalloc_request S390.clock_in_sync 0 O
                S390.block_4k cached_read cached_machine _ (snd r) _
                (snd r) []
                {| bv_page := 0x200000; bv_offset := 0; bv_len := 4096 |}
                [] 5 s390_first_word Hgeo Hb eq_refl eq_refl) as T.
  match type of T with
  | ?A -> ?B -> ?C -> _ =>
      assert (H1 : A) by (vm_compute; reflexivity);
      assert (H2 : B) by (vm_compute; reflexivity);
      assert (H3 : C) by (vm_compute; discriminate)
  end.
  specialize (T H1 H2 H3 eq_refl eq_refl).
  cbv zeta in T. cbn [bv_page bv_offset bv_len cache_after segment_buffer
                      dasd_page_cache S390.machine_of fst] in T.
  apply T; [lia | discriminate | apply Forall_nil | apply Forall_nil].
Defined.

(** A request built and released through the alias interface: the
    counter is back at 2 and the pool is empty again. *)
Lemma alias_cp_round_trip_witness :
  let m := S390.machine_of (S390.plain_volume false false 2) None in
  let req := S390.request_4k READ 100 2 0x10000 in
  exists cqr m1,
    build_alias_cp_s390 S390.clock_in_sync 0 O S390.block_4k req m
    = (PTR cqr, m1)
    /\ block_geometry_ok S390.block_4k req
    /\ priv_count (privs m1 O) = 3
    /\ match free_alias_cp_s390 (set_status S390.DASD_CQR_DONE cqr)
               S390.block_4k req
               (pool_fill (set_status S390.DASD_CQR_DONE cqr) m1) with
       | Some (rc, m3, _) =>
           priv_count (privs m3 O) = 2 /\ ccw_reqs m3 = [] /\ rc = 1
       | None => False
       end.
Proof.
  cbv zeta.
  set (m := S390.machine_of (S390.plain_volume false false 2) None).
  set (req := S390.request_4k READ 100 2 0x10000).
  set (r := build_alias_cp_s390 S390.clock_in_sync 0 O S390.block_4k req m).
  built r Hb.
  assert (Hgeo : block_geometry_ok S390.block_4k req)
    by (apply block_4k_geometry; lia).
  eexists. eexists. split; [exact Hb|]. split; [exact Hgeo|].
  split; [vm_compute; reflexivity|].
  pose proof (alias_cp_round_trip S390.sizeof_DE_eckd_data
                S390.sizeof_LO_eckd_data S390.sizeof_PFX_eckd_data
                S390.sizeof_long S390.idal_is_needed S390.idal_create_words
                S390.DASD_CQR_DONE S390.DASD_CQR_FILLED S390.HZ
                S390.dasd_smalloc_request S390.dasd_alias_get_start_dev
                S390.clock_in_sync 0 O S390.block_4k req m _ _
                S390.DASD_CQR_DONE s390_first_word Hgeo Hb) as T.
  cbv zeta in T.
  destruct (free_alias_cp_s390 _ S390.block_4k req _)
    as [[[rc m3] freed]|]; [|exact T].
  destruct T as (T1 & T2 & T3).
  split; [rewrite (T1 O); reflexivity|].
  split; [exact T2|]. apply T3. reflexivity.
Defined.

(** A request of block device 0 that was started on device 1. *)
Local Abbreviation alias_started :=
  {| cpaddr := []; data := data (S390.blank_request 0 0);
     cplength := 0; datasize := 0; startdev := 1%nat; memdev := 1%nat;
     cqr_block := Some O; expires := 0; lpm := 0; retries := 0;
     buildclk := 0; status := 7;
     DASD_CQR_FLAGS_FAILFAST := false; DASD_CQR_FLAGS_USE_ERP := true |}.

Lemma handle_terminated_request_base_witness :
  let cqr' := handle_terminated_s390 alias_started in
  cqr_block alias_started = Some O
  /\ startdev cqr' = O
  /\ memdev cqr' = 1%nat
  /\ status cqr' = S390.DASD_CQR_FILLED.
Proof.
  cbv zeta.
  destruct (handle_terminated_request_base S390.DASD_CQR_FILLED
              alias_started) as (T1 & _ & T3 & _ & T5 & _).
  split; [reflexivity|]. split; [exact (T5 O eq_refl)|].
  split; [exact T3 | exact T1].
Defined.

(** Device 0 is a base device with the prefix command; device 1 is a
    Hyper-PAV alias of it. *)
Local Abbreviation pav_base :=
  {| rdc_data := rdc_data (S390.plain_volume false false 0);
     attrib := attrib (S390.plain_volume false false 0);
     uses_cdl := false; priv_count := 0; init_cqr_status := -1;
     count_area := []; feature_8 := 1; ned_unit_addr := 0x20; ned_ID := 3;
     uid_type := UA_BASE_DEVICE; path_data_ppm := 0x80 |}.
Local Abbreviation pav_alias :=
  {| rdc_data := rdc_data (S390.plain_volume false false 0);
     attrib := attrib (S390.plain_volume false false 0);
     uses_cdl := false; priv_count := 0; init_cqr_status := -1;
     count_area := []; feature_8 := 1; ned_unit_addr := 0x21; ned_ID := 3;
     uid_type := UA_HYPER_PAV_ALIAS; path_data_ppm := 0x80 |}.
Local Abbreviation pav_machine :=
  {| privs := fun d => if Nat.eqb d 1 then pav_alias else pav_base;
     ccw_reqs := []; mem := fun _ => 0; dasd_page_cache := None |}.

Lemma terminated_alias_request_as_base_witness :
  let req := S390.request_4k READ 100 2 0x10000 in
  exists cqr_a ma cqr_b mb,
    build_cp_s390 S390.clock_in_sync 0 1%nat S390.block_4k req pav_machine
    = (PTR cqr_a, ma)
    /\ build_cp_s390 S390.clock_in_sync 0 O S390.block_4k req pav_machine
       = (PTR cqr_b, mb)
    /\ use_prefix (privs pav_machine O) = true
    /\ option_map validity_hyper_pav (d_PFX (data cqr_a)) = Some 1
    /\ data (handle_terminated_s390 cqr_a) = data cqr_b
    /\ startdev (handle_terminated_s390 cqr_a) = O.
Proof.
  cbv zeta.
  set (req := S390.request_4k READ 100 2 0x10000).
  set (ra := build_cp_s390 S390.clock_in_sync 0 1%nat S390.block_4k req
               pav_machine).
  set (rb := build_cp_s390 S390.clock_in_sync 0 O S390.block_4k req
               pav_machine).
  built ra Ha. built rb Hb.
  destruct (terminated_alias_request_as_base S390.sizeof_DE_eckd_data
              S390.sizeof_LO_eckd_data S390.sizeof_PFX_eckd_data
              S390.sizeof_long S390.idal_is_needed S390.idal_create_words
              S390.DASD_CQR_FILLED S390.HZ S390.dasd_smalloc_request
              S390.clock_in_sync 0 1%nat S390.block_4k req pav_machine
              _ _ _ _ eq_refl eq_refl Ha Hb) as (_ & T2 & T3 & _).
  eexists. eexists. eexists. eexists.
  split; [exact Ha|]. split; [exact Hb|]. split; [reflexivity|].
  split; [vm_compute; reflexivity|]. split; [exact T2|].
  rewrite T3. vm_compute. reflexivity.
Defined.

(** Configuration data with a node-element descriptor, a specific
    qualifier and a general qualifier whose byte 18 is 0x2b. *)
Local Abbreviation conf_example :=
  [ {| identifier := 3; sneq_format := 0; res1 := 1; byte_18 := 0 |};
    {| identifier := 1; sneq_format := 1; res1 := 0; byte_18 := 0 |};
    {| identifier := 2; sneq_format := 0; res1 := 0; byte_18 := 0x2b |} ].

Lemma identify_conf_parts_found_witness :
  let r := dasd_eckd_identify_conf_parts conf_example in
  fst r = 0
  /\ exists i j,
       ned (snd r) = Some i /\ last_of is_ned conf_example i
       /\ gneq (snd r) = Some j /\ last_of is_gneq conf_example j.
Proof.
  cbv zeta.
  destruct (identify_conf_parts_found conf_example) as (_ & T & _).
  split; [reflexivity|]. apply T. reflexivity.
Defined.

Lemma path_access_first_gneq_witness :
  first_of is_gneq conf_example 2
  /\ dasd_eckd_path_access conf_example = 0x2b mod 8
  /\ dasd_eckd_path_access conf_example = 3.
Proof.
  assert (F : first_of is_gneq conf_example 2).
  { split.
    - eexists. split; reflexivity.
    - intros k r Hk Hr.
      destruct k as [|[|k]]; [injection Hr as <-; reflexivity ..|lia]. }
  destruct (path_access_first_gneq conf_example) as (_ & _ & T).
  split; [exact F|]. split; [|reflexivity].
  exact (T 2%nat _ F eq_refl).
Defined.

(** The analysis request of a fresh volume. *)
Lemma analysis_ccw_reads_count_area_witness :
  let m := S390.machine_of (S390.plain_volume false false 0) None in
  exists cqr m',
    analysis_ccw_s390 S390.clock_in_sync 0 O m = (PTR cqr, m')
    /\ map cda (data_ccws (cpaddr cqr))
       = [pa_count_area 0; pa_count_area 1; pa_count_area 2;
          pa_count_area 3; pa_count_area 4]
    /\ length (cpaddr cqr) = 8%nat.
Proof.
  cbv zeta.
  set (m := S390.machine_of (S390.plain_volume false false 0) None).
  set (r := analysis_ccw_s390 S390.clock_in_sync 0 O m).
  built r Hb.
  destruct (analysis_ccw_reads_count_area S390.sizeof_DE_eckd_data
              S390.sizeof_LO_eckd_data S390.DASD_CQR_FILLED
              S390.dasd_smalloc_request S390.clock_in_sync 0 O m _ _ Hb)
    as (T1 & _ & T3 & _).
  eexists. eexists. split; [exact Hb|]. split; [exact T3|].
  rewrite <- (length_map clear_CC), T1. reflexivity.
Defined.

(** A volume without saved status: the analysis is started. *)
Lemma do_analysis_handshake_witness :
  let m := S390.machine_of (S390.plain_volume false false 0) None in
  let block := {| base := O; bp_block := 0; s2b_shift := 0; blocks := 0 |} in
  let r := do_analysis_s390 S390.clock_in_sync 0 block m in
  init_cqr_status (privs m (base block)) < 0
  /\ fst (fst r) = - EAGAIN
  /\ length (ccw_reqs (snd (fst r))) = 1%nat.
Proof.
  cbv zeta.
  assert (H : init_cqr_status
                (privs (S390.machine_of (S390.plain_volume false false 0)
                          None) O) < 0) by (cbn; lia).
  destruct (do_analysis_handshake S390.sizeof_DE_eckd_data
              S390.sizeof_LO_eckd_data S390.dasd_check_blocksize
              S390.DASD_CQR_DONE S390.DASD_CQR_FILLED S390.HZ
              S390.dasd_smalloc_request S390.clock_in_sync 0
              {| base := O; bp_block := 0; s2b_shift := 0; blocks := 0 |}
              (S390.machine_of (S390.plain_volume false false 0) None) H)
    as (T1 & _ & _ & init_cqr & T4 & _).
  - intros cpl ds. eexists. reflexivity.
  - split; [exact H|]. split; [exact T1|]. rewrite T4. reflexivity.
Defined.

(** Formatting track 0 in the compatible disk layout with 4096-byte
    blocks. *)
Local Abbreviation format_cdl t :=
  {| start_unit := t; stop_unit := t; blksize := 4096; intensity := 0x08 |}.

Lemma format_device_program_witness :
  let m := S390.machine_of (S390.plain_volume false false 0) None in
  exists fcp m',
    format_device_s390 S390.clock_in_sync 0 O S390.block_4k (format_cdl 0) m
    = (PTR fcp, m')
    /\ chained (cpaddr fcp)
    /\ length (d_ect (data fcp)) = 12%nat
    /\ map cda (data_ccws (cpaddr fcp)) = map pa_ect (seq 0 12).
Proof.
  cbv zeta.
  set (m := S390.machine_of (S390.plain_volume false false 0) None).
  set (r := format_device_s390 S390.clock_in_sync 0 O S390.block_4k
              (format_cdl 0) m).
  built r Hb.
  destruct (format_device_program S390.sizeof_DE_eckd_data
              S390.sizeof_LO_eckd_data S390.sizeof_eckd_count
              S390.dasd_check_blocksize S390.DASD_CQR_FILLED
              S390.dasd_smalloc_request S390.clock_in_sync 0 O S390.block_4k
              (format_cdl 0) m _ _ Hb) as (T1 & T2 & _).
  assert (L : length (d_ect (data match fst r with
                                  | PTR c => c
                                  | ERR_PTR _ => S390.blank_request 0 0
                                  end)) = 12%nat)
    by (vm_compute; reflexivity).
  eexists. eexists. split; [exact Hb|]. split; [exact T1|].
  split; [exact L|].
  etransitivity; [exact T2|].
  exact (f_equal (fun n => map pa_ect (seq 0 n)) L).
Defined.

(** Tracks 0 and 2 formatted in the compatible disk layout, then
    analysed. *)
Lemma format_then_analysis_witness :
  let m := S390.machine_of (S390.plain_volume false false 0) None in
  let block := {| base := O; bp_block := 0; s2b_shift := 0; blocks := 0 |} in
  exists f0 m0 f2 m2,
    format_device_s390 S390.clock_in_sync 0 O S390.block_4k (format_cdl 0) m
    = (PTR f0, m0)
    /\ format_device_s390 S390.clock_in_sync 0 O S390.block_4k
                          (format_cdl 2) m
       = (PTR f2, m2)
    /\ let private :=
         S390.volume 10 false false DASD_NORMAL_CACHE 0 0
           (firstn 4 (d_ect (data f0)) ++ firstn 1 (d_ect (data f2)))
           S390.DASD_CQR_DONE in
       let r := end_analysis_s390 private block in
       fst (fst r) = 0
       /\ bp_block (snd r) = 4096
       /\ uses_cdl (snd (fst r)) = true.
Proof.
  cbv zeta.
  set (m := S390.machine_of (S390.plain_volume false false 0) None).
  set (r0 := format_device_s390 S390.clock_in_sync 0 O S390.block_4k
               (format_cdl 0) m).
  set (r2 := format_device_s390 S390.clock_in_sync 0 O S390.block_4k
               (format_cdl 2) m).
  built r0 H0. built r2 H2.
  eexists. eexists. eexists. eexists.
  split; [exact H0|]. split; [exact H2|].
  refine (format_then_analysis S390.sizeof_DE_eckd_data
            S390.sizeof_LO_eckd_data S390.sizeof_eckd_count
            S390.dasd_check_blocksize S390.DASD_CQR_DONE
            S390.DASD_CQR_FILLED S390.dasd_smalloc_request
            S390.clock_in_sync 0 S390.clock_in_sync 0 O S390.block_4k
            S390.block_4k (format_cdl 0) (format_cdl 2) m m _ _ _ _
            (S390.volume 10 false false DASD_NORMAL_CACHE 0 0
               (firstn 4 (d_ect (data match fst r0 with
                                      | PTR c => c
                                      | ERR_PTR _ => S390.blank_request 0 0
                                      end))
                ++ firstn 1 (d_ect (data match fst r2 with
                                         | PTR c => c
                                         | ERR_PTR _ => S390.blank_request 0 0
                                         end)))
               S390.DASD_CQR_DONE)
            {| base := O; bp_block := 0; s2b_shift := 0; blocks := 0 |}
            (or_intror eq_refl) eq_refl eq_refl eq_refl eq_refl eq_refl
            H0 H2 _ _ eq_refl eq_refl eq_refl).
  - vm_compute. discriminate.
  - cbn. lia.
Defined.
